(** * Netplay core of RetroArch: a shallow embedding of
      [network/netplay/netplay.c]

    The session ([netplay_t]), its connections and its ring of delta frames
    are records; every C function becomes a function that takes the session
    and returns the new one.  Unsigned 32-bit fields are integers in
    [0, 2^32) with the wrap-around written out; arrays are lists read and
    written by index; the bit sets are integers handled with [Z.land],
    [Z.lor], [Z.lnot] and [Z.shiftl].

    What the file takes from outside (the header [netplay_private.h], the
    socket buffers, the handshake, the emulation core, the codec) is either
    a field of [netplay_private_h] / [netplay_env] or a definition marked
    as modelled from the specification. *)

From stdpp Require Import base list.
From Stdlib Require Import ZArith Lia Bool.

Open Scope Z_scope.

(** ** Integers and arrays of the C program *)

Definition UINT32_MOD : Z := 2 ^ 32.

(** [uint32_t] arithmetic wraps. *)
Definition u32 (x : Z) : Z := x mod UINT32_MOD.

(** [x++] on an [unsigned] of 32 bits: the successor, and 0 after
    [UINT32_MAX]. *)
Definition u32_succ (x : Z) : Z := if x + 1 <? UINT32_MOD then x + 1 else 0.

(** [a[i]]; reading out of range is undefined in C and gives [d] here. *)
Definition aget {A} (d : A) (l : list A) (i : Z) : A :=
  default d (l !! Z.to_nat i).

(** [a[i] = x]; writing out of range is undefined in C and does nothing
    here. *)
Definition aset {A} (l : list A) (i : Z) (x : A) : list A :=
  <[Z.to_nat i := x]> l.

(** [x & (1 << n)] as a truth value. *)
Definition has_bit (x n : Z) : bool := negb (Z.land x (Z.shiftl 1 n) =? 0).

(** [x &= ~(1 << n)] and [x |= 1 << n]. *)
Definition clear_bit (x n : Z) : Z := Z.land x (Z.lnot (Z.shiftl 1 n)).
Definition set_bit (x n : Z) : Z := Z.lor x (Z.shiftl 1 n).

(** ** The wire: big-endian 32-bit words *)

(** The four bytes [htonl] leaves in memory. *)
Definition htonl (x : Z) : list Z :=
  [ (x / 2 ^ 24) mod 256; (x / 2 ^ 16) mod 256; (x / 2 ^ 8) mod 256; x mod 256 ].

(** The word [ntohl] reads from bytes in network order. *)
Definition ntohl (bs : list Z) : Z :=
  fold_left (fun acc b => acc * 256 + b) bs 0.

(** A payload of several words ([htonl] on each element of an array). *)
Definition htonl_words (ws : list Z) : list Z := concat (map htonl ws).

(** [ntohl] on each element of an array of [n] words. *)
Fixpoint ntohl_words (n : nat) (bs : list Z) : list Z :=
  match n with
  | O => []
  | S n' => ntohl (take 4 bs) :: ntohl_words n' (drop 4 bs)
  end.

(** ** Constants *)

(** Modelled from the spec: netplay_private.h is not part of the sources.
    A player is a controller port index 0..15. *)
Definition MAX_USERS : Z := 16.

(** Modelled from the spec: W, the words per input, is 3 (buttons and two
    analog pairs); [send_input_frame] writes [state[0..2]]. *)
Definition WORDS_PER_INPUT : Z := 3.

(** Modelled from the spec: an INPUT payload is the frame, the player word
    and W input words; [send_input_frame] fills a buffer of
    [2 + WORDS_PER_FRAME] words with seven words, header included. *)
Definition WORDS_PER_FRAME : Z := WORDS_PER_INPUT + 2.

(** Modelled from the spec: the high bit of the second INPUT word. *)
Definition NETPLAY_CMD_INPUT_BIT_SERVER : Z := 2 ^ 31.

Definition MAX_RETRIES : Z := 16.
Definition RETRY_MS : Z := 500.

(** [sizeof(uint32_t)]. *)
Definition SZ32 : Z := 4.

(** The commands [netplay_get_cmd] switches on or the file sends. *)
Inductive netplay_cmd :=
| NETPLAY_CMD_ACK
| NETPLAY_CMD_NAK
| NETPLAY_CMD_DISCONNECT
| NETPLAY_CMD_INPUT
| NETPLAY_CMD_NOINPUT
| NETPLAY_CMD_FLIP_PLAYERS
| NETPLAY_CMD_SPECTATE
| NETPLAY_CMD_PLAY
| NETPLAY_CMD_MODE
| NETPLAY_CMD_CRC
| NETPLAY_CMD_REQUEST_SAVESTATE
| NETPLAY_CMD_LOAD_SAVESTATE
| NETPLAY_CMD_PAUSE
| NETPLAY_CMD_RESUME.

Definition all_cmds : list netplay_cmd :=
  [ NETPLAY_CMD_ACK; NETPLAY_CMD_NAK; NETPLAY_CMD_DISCONNECT;
    NETPLAY_CMD_INPUT; NETPLAY_CMD_NOINPUT; NETPLAY_CMD_FLIP_PLAYERS;
    NETPLAY_CMD_SPECTATE; NETPLAY_CMD_PLAY; NETPLAY_CMD_MODE;
    NETPLAY_CMD_CRC; NETPLAY_CMD_REQUEST_SAVESTATE;
    NETPLAY_CMD_LOAD_SAVESTATE; NETPLAY_CMD_PAUSE; NETPLAY_CMD_RESUME ].

(** The declarations of [netplay_private.h] and [libretro.h] the file uses
    and the sources do not give: the numeric value of each command, the two
    flag bits of a MODE word, the quirk bits and the joypad button ids.
    The laws say what any such header satisfies: a [switch] has distinct
    case labels, a command is a [uint32_t], and a button id is a shift
    count. *)
Class netplay_private_h := {
  cmd_code : netplay_cmd -> Z;
  cmd_code_inj : forall a b, cmd_code a = cmd_code b -> a = b;
  cmd_code_range : forall a, 0 <= cmd_code a < UINT32_MOD;
  NETPLAY_CMD_MODE_BIT_PLAYING : Z;
  NETPLAY_CMD_MODE_BIT_YOU : Z;
  NETPLAY_QUIRK_NO_SAVESTATES : Z;
  NETPLAY_QUIRK_NO_TRANSMISSION : Z;
  NETPLAY_QUIRK_INITIALIZATION : Z;
  RETRO_DEVICE_ID_JOYPAD_UP : Z;
  RETRO_DEVICE_ID_JOYPAD_DOWN : Z;
  RETRO_DEVICE_ID_JOYPAD_LEFT : Z;
  RETRO_DEVICE_ID_JOYPAD_RIGHT : Z;
  joypad_ids_nonneg :
    0 <= RETRO_DEVICE_ID_JOYPAD_UP /\ 0 <= RETRO_DEVICE_ID_JOYPAD_DOWN /\
    0 <= RETRO_DEVICE_ID_JOYPAD_LEFT /\ 0 <= RETRO_DEVICE_ID_JOYPAD_RIGHT
}.

(** ** Data model *)

(** Modelled from the spec: [enum rarch_netplay_connection_mode], in the
    order of the connection state machine; [NETPLAY_CONNECTION_CONNECTED]
    is the mark the code compares with (SPECTATING and PLAYING are the
    modes at or above it). *)
Inductive rarch_netplay_connection_mode :=
| NETPLAY_CONNECTION_NONE
| NETPLAY_CONNECTION_INIT
| NETPLAY_CONNECTION_PRE_NICK
| NETPLAY_CONNECTION_PRE_PASSWORD
| NETPLAY_CONNECTION_PRE_SYNC
| NETPLAY_CONNECTION_CONNECTED
| NETPLAY_CONNECTION_SPECTATING
| NETPLAY_CONNECTION_PLAYING.

Definition mode_rank (m : rarch_netplay_connection_mode) : Z :=
  match m with
  | NETPLAY_CONNECTION_NONE => 0
  | NETPLAY_CONNECTION_INIT => 1
  | NETPLAY_CONNECTION_PRE_NICK => 2
  | NETPLAY_CONNECTION_PRE_PASSWORD => 3
  | NETPLAY_CONNECTION_PRE_SYNC => 4
  | NETPLAY_CONNECTION_CONNECTED => 5
  | NETPLAY_CONNECTION_SPECTATING => 6
  | NETPLAY_CONNECTION_PLAYING => 7
  end.

(** [m >= NETPLAY_CONNECTION_CONNECTED]. *)
Definition mode_ge_connected (m : rarch_netplay_connection_mode) : bool :=
  mode_rank NETPLAY_CONNECTION_CONNECTED <=? mode_rank m.

(** [m == NETPLAY_CONNECTION_PLAYING]. *)
Definition is_playing (m : rarch_netplay_connection_mode) : bool :=
  match m with NETPLAY_CONNECTION_PLAYING => true | _ => false end.

(** [m == NETPLAY_CONNECTION_SPECTATING]. *)
Definition is_spectating (m : rarch_netplay_connection_mode) : bool :=
  match m with NETPLAY_CONNECTION_SPECTATING => true | _ => false end.

(** [struct delta_frame]: one slot of the ring. *)
Record delta_frame := mk_delta_frame {
  used : bool;
  frame : Z;
  crc : Z;
  state : list Z;
  real_input_state : list (list Z);
  simulated_input_state : list (list Z);
  self_state : list Z;
  have_local : bool;
  have_real : list bool
}.

(** [struct socket_buffer].  Of a send buffer, [data] is what has been
    handed to [netplay_send], oldest byte first; of a receive buffer, [data]
    is what [netplay_recv] can deliver from the start of the command being
    parsed and [read] is the cursor inside it.  [allocated] is false once
    the buffer is released. *)
Record socket_buffer := mk_socket_buffer {
  allocated : bool;
  data : list Z;
  read : Z
}.

(** [struct netplay_connection].  The last three fields are the socket
    behind [fd]: whether it is still open, and whether sending to it or
    receiving from it fails. *)
Record netplay_connection := mk_netplay_connection {
  active : bool;
  fd : Z;
  mode : rarch_netplay_connection_mode;
  player : Z;
  paused : bool;
  send_packet_buffer : socket_buffer;
  recv_packet_buffer : socket_buffer;
  fd_open : bool;
  send_fails : bool;
  recv_fails : bool
}.

(** [netplay_t]: the session.  [connections_size] and [buffer_size] are the
    lengths of [connections] and [buffer].  [core_runs] is not a field of
    the C structure: it counts the calls of [core_run], which is all the
    model keeps of the emulation core behind the callbacks [cbs]. *)
Record netplay_t := mk_netplay {
  is_server : bool;
  connections : list netplay_connection;
  buffer : list delta_frame;
  self_ptr : Z;
  self_frame_count : Z;
  other_ptr : Z;
  other_frame_count : Z;
  unread_ptr : Z;
  unread_frame_count : Z;
  server_ptr : Z;
  server_frame_count : Z;
  replay_ptr : Z;
  replay_frame_count : Z;
  read_ptr : list Z;
  read_frame_count : list Z;
  connected_players : Z;
  self_mode : rarch_netplay_connection_mode;
  self_player : Z;
  flip : bool;
  flip_frame : Z;
  timeout_cnt : Z;
  local_paused : bool;
  remote_paused : bool;
  is_replay : bool;
  force_rewind : bool;
  force_send_savestate : bool;
  savestate_request_outstanding : bool;
  quirks : Z;
  state_size : Z;
  zbuffer : list Z;
  zbuffer_size : Z;
  delay_frames : Z;
  packet_buffer_size : Z;
  core_runs : nat
}.

(** Field updates ([x->f = v]). *)
Definition set_data (v : list Z) (x : socket_buffer) : socket_buffer :=
  mk_socket_buffer (allocated x) v (read x).
Definition set_read (v : Z) (x : socket_buffer) : socket_buffer :=
  mk_socket_buffer (allocated x) (data x) v.
Definition set_used (v : bool) (x : delta_frame) : delta_frame :=
  mk_delta_frame v (frame x) (crc x) (state x) (real_input_state x) (simulated_input_state x) (self_state x) (have_local x) (have_real x).
Definition set_frame (v : Z) (x : delta_frame) : delta_frame :=
  mk_delta_frame (used x) v (crc x) (state x) (real_input_state x) (simulated_input_state x) (self_state x) (have_local x) (have_real x).
Definition set_crc (v : Z) (x : delta_frame) : delta_frame :=
  mk_delta_frame (used x) (frame x) v (state x) (real_input_state x) (simulated_input_state x) (self_state x) (have_local x) (have_real x).
Definition set_state (v : list Z) (x : delta_frame) : delta_frame :=
  mk_delta_frame (used x) (frame x) (crc x) v (real_input_state x) (simulated_input_state x) (self_state x) (have_local x) (have_real x).
Definition set_real_input_state (v : list (list Z)) (x : delta_frame) : delta_frame :=
  mk_delta_frame (used x) (frame x) (crc x) (state x) v (simulated_input_state x) (self_state x) (have_local x) (have_real x).
Definition set_simulated_input_state (v : list (list Z)) (x : delta_frame) : delta_frame :=
  mk_delta_frame (used x) (frame x) (crc x) (state x) (real_input_state x) v (self_state x) (have_local x) (have_real x).
Definition set_self_state (v : list Z) (x : delta_frame) : delta_frame :=
  mk_delta_frame (used x) (frame x) (crc x) (state x) (real_input_state x) (simulated_input_state x) v (have_local x) (have_real x).
Definition set_have_local (v : bool) (x : delta_frame) : delta_frame :=
  mk_delta_frame (used x) (frame x) (crc x) (state x) (real_input_state x) (simulated_input_state x) (self_state x) v (have_real x).
Definition set_have_real (v : list bool) (x : delta_frame) : delta_frame :=
  mk_delta_frame (used x) (frame x) (crc x) (state x) (real_input_state x) (simulated_input_state x) (self_state x) (have_local x) v.
Definition set_active (v : bool) (x : netplay_connection) : netplay_connection :=
  mk_netplay_connection v (fd x) (mode x) (player x) (paused x) (send_packet_buffer x) (recv_packet_buffer x) (fd_open x) (send_fails x) (recv_fails x).
Definition set_mode (v : rarch_netplay_connection_mode) (x : netplay_connection) : netplay_connection :=
  mk_netplay_connection (active x) (fd x) v (player x) (paused x) (send_packet_buffer x) (recv_packet_buffer x) (fd_open x) (send_fails x) (recv_fails x).
Definition set_player (v : Z) (x : netplay_connection) : netplay_connection :=
  mk_netplay_connection (active x) (fd x) (mode x) v (paused x) (send_packet_buffer x) (recv_packet_buffer x) (fd_open x) (send_fails x) (recv_fails x).
Definition set_paused (v : bool) (x : netplay_connection) : netplay_connection :=
  mk_netplay_connection (active x) (fd x) (mode x) (player x) v (send_packet_buffer x) (recv_packet_buffer x) (fd_open x) (send_fails x) (recv_fails x).
Definition set_send_packet_buffer (v : socket_buffer) (x : netplay_connection) : netplay_connection :=
  mk_netplay_connection (active x) (fd x) (mode x) (player x) (paused x) v (recv_packet_buffer x) (fd_open x) (send_fails x) (recv_fails x).
Definition set_recv_packet_buffer (v : socket_buffer) (x : netplay_connection) : netplay_connection :=
  mk_netplay_connection (active x) (fd x) (mode x) (player x) (paused x) (send_packet_buffer x) v (fd_open x) (send_fails x) (recv_fails x).
Definition set_fd_open (v : bool) (x : netplay_connection) : netplay_connection :=
  mk_netplay_connection (active x) (fd x) (mode x) (player x) (paused x) (send_packet_buffer x) (recv_packet_buffer x) v (send_fails x) (recv_fails x).
Definition set_connections (v : list netplay_connection) (x : netplay_t) : netplay_t :=
  mk_netplay (is_server x) v (buffer x) (self_ptr x) (self_frame_count x) (other_ptr x) (other_frame_count x) (unread_ptr x) (unread_frame_count x) (server_ptr x) (server_frame_count x) (replay_ptr x) (replay_frame_count x) (read_ptr x) (read_frame_count x) (connected_players x) (self_mode x) (self_player x) (flip x) (flip_frame x) (timeout_cnt x) (local_paused x) (remote_paused x) (is_replay x) (force_rewind x) (force_send_savestate x) (savestate_request_outstanding x) (quirks x) (state_size x) (zbuffer x) (zbuffer_size x) (delay_frames x) (packet_buffer_size x) (core_runs x).
Definition set_buffer (v : list delta_frame) (x : netplay_t) : netplay_t :=
  mk_netplay (is_server x) (connections x) v (self_ptr x) (self_frame_count x) (other_ptr x) (other_frame_count x) (unread_ptr x) (unread_frame_count x) (server_ptr x) (server_frame_count x) (replay_ptr x) (replay_frame_count x) (read_ptr x) (read_frame_count x) (connected_players x) (self_mode x) (self_player x) (flip x) (flip_frame x) (timeout_cnt x) (local_paused x) (remote_paused x) (is_replay x) (force_rewind x) (force_send_savestate x) (savestate_request_outstanding x) (quirks x) (state_size x) (zbuffer x) (zbuffer_size x) (delay_frames x) (packet_buffer_size x) (core_runs x).
Definition set_self_ptr (v : Z) (x : netplay_t) : netplay_t :=
  mk_netplay (is_server x) (connections x) (buffer x) v (self_frame_count x) (other_ptr x) (other_frame_count x) (unread_ptr x) (unread_frame_count x) (server_ptr x) (server_frame_count x) (replay_ptr x) (replay_frame_count x) (read_ptr x) (read_frame_count x) (connected_players x) (self_mode x) (self_player x) (flip x) (flip_frame x) (timeout_cnt x) (local_paused x) (remote_paused x) (is_replay x) (force_rewind x) (force_send_savestate x) (savestate_request_outstanding x) (quirks x) (state_size x) (zbuffer x) (zbuffer_size x) (delay_frames x) (packet_buffer_size x) (core_runs x).
Definition set_self_frame_count (v : Z) (x : netplay_t) : netplay_t :=
  mk_netplay (is_server x) (connections x) (buffer x) (self_ptr x) v (other_ptr x) (other_frame_count x) (unread_ptr x) (unread_frame_count x) (server_ptr x) (server_frame_count x) (replay_ptr x) (replay_frame_count x) (read_ptr x) (read_frame_count x) (connected_players x) (self_mode x) (self_player x) (flip x) (flip_frame x) (timeout_cnt x) (local_paused x) (remote_paused x) (is_replay x) (force_rewind x) (force_send_savestate x) (savestate_request_outstanding x) (quirks x) (state_size x) (zbuffer x) (zbuffer_size x) (delay_frames x) (packet_buffer_size x) (core_runs x).
Definition set_other_ptr (v : Z) (x : netplay_t) : netplay_t :=
  mk_netplay (is_server x) (connections x) (buffer x) (self_ptr x) (self_frame_count x) v (other_frame_count x) (unread_ptr x) (unread_frame_count x) (server_ptr x) (server_frame_count x) (replay_ptr x) (replay_frame_count x) (read_ptr x) (read_frame_count x) (connected_players x) (self_mode x) (self_player x) (flip x) (flip_frame x) (timeout_cnt x) (local_paused x) (remote_paused x) (is_replay x) (force_rewind x) (force_send_savestate x) (savestate_request_outstanding x) (quirks x) (state_size x) (zbuffer x) (zbuffer_size x) (delay_frames x) (packet_buffer_size x) (core_runs x).
Definition set_other_frame_count (v : Z) (x : netplay_t) : netplay_t :=
  mk_netplay (is_server x) (connections x) (buffer x) (self_ptr x) (self_frame_count x) (other_ptr x) v (unread_ptr x) (unread_frame_count x) (server_ptr x) (server_frame_count x) (replay_ptr x) (replay_frame_count x) (read_ptr x) (read_frame_count x) (connected_players x) (self_mode x) (self_player x) (flip x) (flip_frame x) (timeout_cnt x) (local_paused x) (remote_paused x) (is_replay x) (force_rewind x) (force_send_savestate x) (savestate_request_outstanding x) (quirks x) (state_size x) (zbuffer x) (zbuffer_size x) (delay_frames x) (packet_buffer_size x) (core_runs x).
Definition set_unread_ptr (v : Z) (x : netplay_t) : netplay_t :=
  mk_netplay (is_server x) (connections x) (buffer x) (self_ptr x) (self_frame_count x) (other_ptr x) (other_frame_count x) v (unread_frame_count x) (server_ptr x) (server_frame_count x) (replay_ptr x) (replay_frame_count x) (read_ptr x) (read_frame_count x) (connected_players x) (self_mode x) (self_player x) (flip x) (flip_frame x) (timeout_cnt x) (local_paused x) (remote_paused x) (is_replay x) (force_rewind x) (force_send_savestate x) (savestate_request_outstanding x) (quirks x) (state_size x) (zbuffer x) (zbuffer_size x) (delay_frames x) (packet_buffer_size x) (core_runs x).
Definition set_unread_frame_count (v : Z) (x : netplay_t) : netplay_t :=
  mk_netplay (is_server x) (connections x) (buffer x) (self_ptr x) (self_frame_count x) (other_ptr x) (other_frame_count x) (unread_ptr x) v (server_ptr x) (server_frame_count x) (replay_ptr x) (replay_frame_count x) (read_ptr x) (read_frame_count x) (connected_players x) (self_mode x) (self_player x) (flip x) (flip_frame x) (timeout_cnt x) (local_paused x) (remote_paused x) (is_replay x) (force_rewind x) (force_send_savestate x) (savestate_request_outstanding x) (quirks x) (state_size x) (zbuffer x) (zbuffer_size x) (delay_frames x) (packet_buffer_size x) (core_runs x).
Definition set_server_ptr (v : Z) (x : netplay_t) : netplay_t :=
  mk_netplay (is_server x) (connections x) (buffer x) (self_ptr x) (self_frame_count x) (other_ptr x) (other_frame_count x) (unread_ptr x) (unread_frame_count x) v (server_frame_count x) (replay_ptr x) (replay_frame_count x) (read_ptr x) (read_frame_count x) (connected_players x) (self_mode x) (self_player x) (flip x) (flip_frame x) (timeout_cnt x) (local_paused x) (remote_paused x) (is_replay x) (force_rewind x) (force_send_savestate x) (savestate_request_outstanding x) (quirks x) (state_size x) (zbuffer x) (zbuffer_size x) (delay_frames x) (packet_buffer_size x) (core_runs x).
Definition set_server_frame_count (v : Z) (x : netplay_t) : netplay_t :=
  mk_netplay (is_server x) (connections x) (buffer x) (self_ptr x) (self_frame_count x) (other_ptr x) (other_frame_count x) (unread_ptr x) (unread_frame_count x) (server_ptr x) v (replay_ptr x) (replay_frame_count x) (read_ptr x) (read_frame_count x) (connected_players x) (self_mode x) (self_player x) (flip x) (flip_frame x) (timeout_cnt x) (local_paused x) (remote_paused x) (is_replay x) (force_rewind x) (force_send_savestate x) (savestate_request_outstanding x) (quirks x) (state_size x) (zbuffer x) (zbuffer_size x) (delay_frames x) (packet_buffer_size x) (core_runs x).
Definition set_replay_ptr (v : Z) (x : netplay_t) : netplay_t :=
  mk_netplay (is_server x) (connections x) (buffer x) (self_ptr x) (self_frame_count x) (other_ptr x) (other_frame_count x) (unread_ptr x) (unread_frame_count x) (server_ptr x) (server_frame_count x) v (replay_frame_count x) (read_ptr x) (read_frame_count x) (connected_players x) (self_mode x) (self_player x) (flip x) (flip_frame x) (timeout_cnt x) (local_paused x) (remote_paused x) (is_replay x) (force_rewind x) (force_send_savestate x) (savestate_request_outstanding x) (quirks x) (state_size x) (zbuffer x) (zbuffer_size x) (delay_frames x) (packet_buffer_size x) (core_runs x).
Definition set_replay_frame_count (v : Z) (x : netplay_t) : netplay_t :=
  mk_netplay (is_server x) (connections x) (buffer x) (self_ptr x) (self_frame_count x) (other_ptr x) (other_frame_count x) (unread_ptr x) (unread_frame_count x) (server_ptr x) (server_frame_count x) (replay_ptr x) v (read_ptr x) (read_frame_count x) (connected_players x) (self_mode x) (self_player x) (flip x) (flip_frame x) (timeout_cnt x) (local_paused x) (remote_paused x) (is_replay x) (force_rewind x) (force_send_savestate x) (savestate_request_outstanding x) (quirks x) (state_size x) (zbuffer x) (zbuffer_size x) (delay_frames x) (packet_buffer_size x) (core_runs x).
Definition set_read_ptr (v : list Z) (x : netplay_t) : netplay_t :=
  mk_netplay (is_server x) (connections x) (buffer x) (self_ptr x) (self_frame_count x) (other_ptr x) (other_frame_count x) (unread_ptr x) (unread_frame_count x) (server_ptr x) (server_frame_count x) (replay_ptr x) (replay_frame_count x) v (read_frame_count x) (connected_players x) (self_mode x) (self_player x) (flip x) (flip_frame x) (timeout_cnt x) (local_paused x) (remote_paused x) (is_replay x) (force_rewind x) (force_send_savestate x) (savestate_request_outstanding x) (quirks x) (state_size x) (zbuffer x) (zbuffer_size x) (delay_frames x) (packet_buffer_size x) (core_runs x).
Definition set_read_frame_count (v : list Z) (x : netplay_t) : netplay_t :=
  mk_netplay (is_server x) (connections x) (buffer x) (self_ptr x) (self_frame_count x) (other_ptr x) (other_frame_count x) (unread_ptr x) (unread_frame_count x) (server_ptr x) (server_frame_count x) (replay_ptr x) (replay_frame_count x) (read_ptr x) v (connected_players x) (self_mode x) (self_player x) (flip x) (flip_frame x) (timeout_cnt x) (local_paused x) (remote_paused x) (is_replay x) (force_rewind x) (force_send_savestate x) (savestate_request_outstanding x) (quirks x) (state_size x) (zbuffer x) (zbuffer_size x) (delay_frames x) (packet_buffer_size x) (core_runs x).
Definition set_connected_players (v : Z) (x : netplay_t) : netplay_t :=
  mk_netplay (is_server x) (connections x) (buffer x) (self_ptr x) (self_frame_count x) (other_ptr x) (other_frame_count x) (unread_ptr x) (unread_frame_count x) (server_ptr x) (server_frame_count x) (replay_ptr x) (replay_frame_count x) (read_ptr x) (read_frame_count x) v (self_mode x) (self_player x) (flip x) (flip_frame x) (timeout_cnt x) (local_paused x) (remote_paused x) (is_replay x) (force_rewind x) (force_send_savestate x) (savestate_request_outstanding x) (quirks x) (state_size x) (zbuffer x) (zbuffer_size x) (delay_frames x) (packet_buffer_size x) (core_runs x).
Definition set_self_mode (v : rarch_netplay_connection_mode) (x : netplay_t) : netplay_t :=
  mk_netplay (is_server x) (connections x) (buffer x) (self_ptr x) (self_frame_count x) (other_ptr x) (other_frame_count x) (unread_ptr x) (unread_frame_count x) (server_ptr x) (server_frame_count x) (replay_ptr x) (replay_frame_count x) (read_ptr x) (read_frame_count x) (connected_players x) v (self_player x) (flip x) (flip_frame x) (timeout_cnt x) (local_paused x) (remote_paused x) (is_replay x) (force_rewind x) (force_send_savestate x) (savestate_request_outstanding x) (quirks x) (state_size x) (zbuffer x) (zbuffer_size x) (delay_frames x) (packet_buffer_size x) (core_runs x).
Definition set_self_player (v : Z) (x : netplay_t) : netplay_t :=
  mk_netplay (is_server x) (connections x) (buffer x) (self_ptr x) (self_frame_count x) (other_ptr x) (other_frame_count x) (unread_ptr x) (unread_frame_count x) (server_ptr x) (server_frame_count x) (replay_ptr x) (replay_frame_count x) (read_ptr x) (read_frame_count x) (connected_players x) (self_mode x) v (flip x) (flip_frame x) (timeout_cnt x) (local_paused x) (remote_paused x) (is_replay x) (force_rewind x) (force_send_savestate x) (savestate_request_outstanding x) (quirks x) (state_size x) (zbuffer x) (zbuffer_size x) (delay_frames x) (packet_buffer_size x) (core_runs x).
Definition set_flip (v : bool) (x : netplay_t) : netplay_t :=
  mk_netplay (is_server x) (connections x) (buffer x) (self_ptr x) (self_frame_count x) (other_ptr x) (other_frame_count x) (unread_ptr x) (unread_frame_count x) (server_ptr x) (server_frame_count x) (replay_ptr x) (replay_frame_count x) (read_ptr x) (read_frame_count x) (connected_players x) (self_mode x) (self_player x) v (flip_frame x) (timeout_cnt x) (local_paused x) (remote_paused x) (is_replay x) (force_rewind x) (force_send_savestate x) (savestate_request_outstanding x) (quirks x) (state_size x) (zbuffer x) (zbuffer_size x) (delay_frames x) (packet_buffer_size x) (core_runs x).
Definition set_flip_frame (v : Z) (x : netplay_t) : netplay_t :=
  mk_netplay (is_server x) (connections x) (buffer x) (self_ptr x) (self_frame_count x) (other_ptr x) (other_frame_count x) (unread_ptr x) (unread_frame_count x) (server_ptr x) (server_frame_count x) (replay_ptr x) (replay_frame_count x) (read_ptr x) (read_frame_count x) (connected_players x) (self_mode x) (self_player x) (flip x) v (timeout_cnt x) (local_paused x) (remote_paused x) (is_replay x) (force_rewind x) (force_send_savestate x) (savestate_request_outstanding x) (quirks x) (state_size x) (zbuffer x) (zbuffer_size x) (delay_frames x) (packet_buffer_size x) (core_runs x).
Definition set_timeout_cnt (v : Z) (x : netplay_t) : netplay_t :=
  mk_netplay (is_server x) (connections x) (buffer x) (self_ptr x) (self_frame_count x) (other_ptr x) (other_frame_count x) (unread_ptr x) (unread_frame_count x) (server_ptr x) (server_frame_count x) (replay_ptr x) (replay_frame_count x) (read_ptr x) (read_frame_count x) (connected_players x) (self_mode x) (self_player x) (flip x) (flip_frame x) v (local_paused x) (remote_paused x) (is_replay x) (force_rewind x) (force_send_savestate x) (savestate_request_outstanding x) (quirks x) (state_size x) (zbuffer x) (zbuffer_size x) (delay_frames x) (packet_buffer_size x) (core_runs x).
Definition set_remote_paused (v : bool) (x : netplay_t) : netplay_t :=
  mk_netplay (is_server x) (connections x) (buffer x) (self_ptr x) (self_frame_count x) (other_ptr x) (other_frame_count x) (unread_ptr x) (unread_frame_count x) (server_ptr x) (server_frame_count x) (replay_ptr x) (replay_frame_count x) (read_ptr x) (read_frame_count x) (connected_players x) (self_mode x) (self_player x) (flip x) (flip_frame x) (timeout_cnt x) (local_paused x) v (is_replay x) (force_rewind x) (force_send_savestate x) (savestate_request_outstanding x) (quirks x) (state_size x) (zbuffer x) (zbuffer_size x) (delay_frames x) (packet_buffer_size x) (core_runs x).
Definition set_is_replay (v : bool) (x : netplay_t) : netplay_t :=
  mk_netplay (is_server x) (connections x) (buffer x) (self_ptr x) (self_frame_count x) (other_ptr x) (other_frame_count x) (unread_ptr x) (unread_frame_count x) (server_ptr x) (server_frame_count x) (replay_ptr x) (replay_frame_count x) (read_ptr x) (read_frame_count x) (connected_players x) (self_mode x) (self_player x) (flip x) (flip_frame x) (timeout_cnt x) (local_paused x) (remote_paused x) v (force_rewind x) (force_send_savestate x) (savestate_request_outstanding x) (quirks x) (state_size x) (zbuffer x) (zbuffer_size x) (delay_frames x) (packet_buffer_size x) (core_runs x).
Definition set_force_rewind (v : bool) (x : netplay_t) : netplay_t :=
  mk_netplay (is_server x) (connections x) (buffer x) (self_ptr x) (self_frame_count x) (other_ptr x) (other_frame_count x) (unread_ptr x) (unread_frame_count x) (server_ptr x) (server_frame_count x) (replay_ptr x) (replay_frame_count x) (read_ptr x) (read_frame_count x) (connected_players x) (self_mode x) (self_player x) (flip x) (flip_frame x) (timeout_cnt x) (local_paused x) (remote_paused x) (is_replay x) v (force_send_savestate x) (savestate_request_outstanding x) (quirks x) (state_size x) (zbuffer x) (zbuffer_size x) (delay_frames x) (packet_buffer_size x) (core_runs x).
Definition set_force_send_savestate (v : bool) (x : netplay_t) : netplay_t :=
  mk_netplay (is_server x) (connections x) (buffer x) (self_ptr x) (self_frame_count x) (other_ptr x) (other_frame_count x) (unread_ptr x) (unread_frame_count x) (server_ptr x) (server_frame_count x) (replay_ptr x) (replay_frame_count x) (read_ptr x) (read_frame_count x) (connected_players x) (self_mode x) (self_player x) (flip x) (flip_frame x) (timeout_cnt x) (local_paused x) (remote_paused x) (is_replay x) (force_rewind x) v (savestate_request_outstanding x) (quirks x) (state_size x) (zbuffer x) (zbuffer_size x) (delay_frames x) (packet_buffer_size x) (core_runs x).
Definition set_savestate_request_outstanding (v : bool) (x : netplay_t) : netplay_t :=
  mk_netplay (is_server x) (connections x) (buffer x) (self_ptr x) (self_frame_count x) (other_ptr x) (other_frame_count x) (unread_ptr x) (unread_frame_count x) (server_ptr x) (server_frame_count x) (replay_ptr x) (replay_frame_count x) (read_ptr x) (read_frame_count x) (connected_players x) (self_mode x) (self_player x) (flip x) (flip_frame x) (timeout_cnt x) (local_paused x) (remote_paused x) (is_replay x) (force_rewind x) (force_send_savestate x) v (quirks x) (state_size x) (zbuffer x) (zbuffer_size x) (delay_frames x) (packet_buffer_size x) (core_runs x).
Definition set_quirks (v : Z) (x : netplay_t) : netplay_t :=
  mk_netplay (is_server x) (connections x) (buffer x) (self_ptr x) (self_frame_count x) (other_ptr x) (other_frame_count x) (unread_ptr x) (unread_frame_count x) (server_ptr x) (server_frame_count x) (replay_ptr x) (replay_frame_count x) (read_ptr x) (read_frame_count x) (connected_players x) (self_mode x) (self_player x) (flip x) (flip_frame x) (timeout_cnt x) (local_paused x) (remote_paused x) (is_replay x) (force_rewind x) (force_send_savestate x) (savestate_request_outstanding x) v (state_size x) (zbuffer x) (zbuffer_size x) (delay_frames x) (packet_buffer_size x) (core_runs x).
Definition set_state_size (v : Z) (x : netplay_t) : netplay_t :=
  mk_netplay (is_server x) (connections x) (buffer x) (self_ptr x) (self_frame_count x) (other_ptr x) (other_frame_count x) (unread_ptr x) (unread_frame_count x) (server_ptr x) (server_frame_count x) (replay_ptr x) (replay_frame_count x) (read_ptr x) (read_frame_count x) (connected_players x) (self_mode x) (self_player x) (flip x) (flip_frame x) (timeout_cnt x) (local_paused x) (remote_paused x) (is_replay x) (force_rewind x) (force_send_savestate x) (savestate_request_outstanding x) (quirks x) v (zbuffer x) (zbuffer_size x) (delay_frames x) (packet_buffer_size x) (core_runs x).
Definition set_zbuffer (v : list Z) (x : netplay_t) : netplay_t :=
  mk_netplay (is_server x) (connections x) (buffer x) (self_ptr x) (self_frame_count x) (other_ptr x) (other_frame_count x) (unread_ptr x) (unread_frame_count x) (server_ptr x) (server_frame_count x) (replay_ptr x) (replay_frame_count x) (read_ptr x) (read_frame_count x) (connected_players x) (self_mode x) (self_player x) (flip x) (flip_frame x) (timeout_cnt x) (local_paused x) (remote_paused x) (is_replay x) (force_rewind x) (force_send_savestate x) (savestate_request_outstanding x) (quirks x) (state_size x) v (zbuffer_size x) (delay_frames x) (packet_buffer_size x) (core_runs x).
Definition set_zbuffer_size (v : Z) (x : netplay_t) : netplay_t :=
  mk_netplay (is_server x) (connections x) (buffer x) (self_ptr x) (self_frame_count x) (other_ptr x) (other_frame_count x) (unread_ptr x) (unread_frame_count x) (server_ptr x) (server_frame_count x) (replay_ptr x) (replay_frame_count x) (read_ptr x) (read_frame_count x) (connected_players x) (self_mode x) (self_player x) (flip x) (flip_frame x) (timeout_cnt x) (local_paused x) (remote_paused x) (is_replay x) (force_rewind x) (force_send_savestate x) (savestate_request_outstanding x) (quirks x) (state_size x) (zbuffer x) v (delay_frames x) (packet_buffer_size x) (core_runs x).
Definition set_delay_frames (v : Z) (x : netplay_t) : netplay_t :=
  mk_netplay (is_server x) (connections x) (buffer x) (self_ptr x) (self_frame_count x) (other_ptr x) (other_frame_count x) (unread_ptr x) (unread_frame_count x) (server_ptr x) (server_frame_count x) (replay_ptr x) (replay_frame_count x) (read_ptr x) (read_frame_count x) (connected_players x) (self_mode x) (self_player x) (flip x) (flip_frame x) (timeout_cnt x) (local_paused x) (remote_paused x) (is_replay x) (force_rewind x) (force_send_savestate x) (savestate_request_outstanding x) (quirks x) (state_size x) (zbuffer x) (zbuffer_size x) v (packet_buffer_size x) (core_runs x).
Definition set_packet_buffer_size (v : Z) (x : netplay_t) : netplay_t :=
  mk_netplay (is_server x) (connections x) (buffer x) (self_ptr x) (self_frame_count x) (other_ptr x) (other_frame_count x) (unread_ptr x) (unread_frame_count x) (server_ptr x) (server_frame_count x) (replay_ptr x) (replay_frame_count x) (read_ptr x) (read_frame_count x) (connected_players x) (self_mode x) (self_player x) (flip x) (flip_frame x) (timeout_cnt x) (local_paused x) (remote_paused x) (is_replay x) (force_rewind x) (force_send_savestate x) (savestate_request_outstanding x) (quirks x) (state_size x) (zbuffer x) (zbuffer_size x) (delay_frames x) v (core_runs x).
Definition set_core_runs (v : nat) (x : netplay_t) : netplay_t :=
  mk_netplay (is_server x) (connections x) (buffer x) (self_ptr x) (self_frame_count x) (other_ptr x) (other_frame_count x) (unread_ptr x) (unread_frame_count x) (server_ptr x) (server_frame_count x) (replay_ptr x) (replay_frame_count x) (read_ptr x) (read_frame_count x) (connected_players x) (self_mode x) (self_player x) (flip x) (flip_frame x) (timeout_cnt x) (local_paused x) (remote_paused x) (is_replay x) (force_rewind x) (force_send_savestate x) (savestate_request_outstanding x) (quirks x) (state_size x) (zbuffer x) (zbuffer_size x) (delay_frames x) (packet_buffer_size x) v.

(** ** What the file calls and the sources do not contain *)

(** The handshake ([netplay_handshake_*], which take the session, the
    connection and [had_input] and give back the returned flag, the new
    [had_input] and the session), the CRC of a slot, the decompression
    stream ([set_in], [set_out], [trans]: input bytes and output size to
    output bytes), the emulation core as its callbacks show it after [n]
    calls of [core_run] ([core_serialize_size]; [core_serialize] into a
    buffer of the given size, [None] when it fails), the allocator
    ([calloc], [None] when it fails), the allocation of a socket buffer, and
    what [socket_select] returns on its [k]-th call together with the bytes
    that reached each connection while it waited. *)
Class netplay_env := {
  netplay_handshake_init : netplay_t -> nat -> bool -> bool * bool * netplay_t;
  netplay_handshake_pre_nick : netplay_t -> nat -> bool -> bool * bool * netplay_t;
  netplay_handshake_pre_password : netplay_t -> nat -> bool -> bool * bool * netplay_t;
  netplay_handshake_pre_sync : netplay_t -> nat -> bool -> bool * bool * netplay_t;
  netplay_delta_frame_crc : netplay_t -> delta_frame -> Z;
  decompress : list Z -> Z -> list Z;
  core_serialize_size : nat -> Z;
  core_serialize : nat -> Z -> option (list Z);
  calloc : Z -> option (list Z);
  netplay_init_socket_buffer : socket_buffer -> Z -> option socket_buffer;
  netplay_resize_socket_buffer : socket_buffer -> Z -> option socket_buffer;
  socket_select : nat -> Z;
  socket_arrivals : nat -> nat -> list Z
}.

(** ** Accessors *)

Definition empty_socket_buffer : socket_buffer := mk_socket_buffer false [] 0.

Definition no_connection : netplay_connection :=
  mk_netplay_connection false (-1) NETPLAY_CONNECTION_NONE 0 false
    empty_socket_buffer empty_socket_buffer false true true.

Definition no_frame : delta_frame :=
  mk_delta_frame false 0 0 [] [] [] [] false [].

(** [netplay->connections_size] and [netplay->buffer_size]. *)
Definition connections_size (np : netplay_t) : Z := Z.of_nat (length (connections np)).
Definition buffer_size (np : netplay_t) : Z := Z.of_nat (length (buffer np)).

(** [&netplay->connections[c]], as the index [c]. *)
Definition conn (np : netplay_t) (c : nat) : netplay_connection :=
  default no_connection (connections np !! c).

Definition set_conn (np : netplay_t) (c : nat) (x : netplay_connection) : netplay_t :=
  set_connections (<[c := x]> (connections np)) np.

(** [&netplay->buffer[ptr]]. *)
Definition dframe_at (np : netplay_t) (ptr : Z) : delta_frame :=
  aget no_frame (buffer np) ptr.

Definition set_dframe (np : netplay_t) (ptr : Z) (d : delta_frame) : netplay_t :=
  set_buffer (aset (buffer np) ptr d) np.

(** Modelled from the spec: [NEXT_PTR] and [PREV_PTR] of netplay_private.h,
    [next_ptr(p) = (p+1) mod B] and [prev_ptr(p) = (p+B-1) mod B]. *)
Definition NEXT_PTR (np : netplay_t) (x : Z) : Z := (x + 1) mod buffer_size np.
Definition PREV_PTR (np : netplay_t) (x : Z) : Z :=
  (x + buffer_size np - 1) mod buffer_size np.

(** An array of words of a slot, read and written by player. *)
Definition words_at (l : list (list Z)) (p : Z) : list Z := aget [] l p.
Definition word_at (l : list Z) (i : Z) : Z := aget 0 l i.

(** ** Socket buffers *)

(** Modelled from the spec: [netplay_send] enqueues the bytes on the send
    buffer of the connection; it returns false, and enqueues nothing, when
    the socket refuses them. *)
Definition netplay_send (cn : netplay_connection) (buf : list Z)
  : bool * netplay_connection :=
  if send_fails cn then (false, cn)
  else (true, set_send_packet_buffer
                (set_data (data (send_packet_buffer cn) ++ buf) (send_packet_buffer cn)) cn).

(** Modelled from the spec: [netplay_send_flush] pushes what the socket
    accepts; it fails only when the socket does. *)
Definition netplay_send_flush (cn : netplay_connection) : bool := negb (send_fails cn).

(** The outcomes of the macro [RECV]: the statement after it runs
    ([recvd < 0]), control goes to [shrt], or the bytes are there. *)
Inductive recv_result :=
| RECV_FAIL
| RECV_SHORT
| RECV_OK (bytes : list Z) (cn : netplay_connection).

(** Modelled from the spec: [netplay_recv] returns the [sz] bytes at the
    cursor when they are all there and moves the cursor past them, a short
    count when they are not, and -1 when the socket fails. *)
Definition netplay_recv (cn : netplay_connection) (sz : Z) : recv_result :=
  if recv_fails cn then RECV_FAIL
  else
    let rb := recv_packet_buffer cn in
    if read rb + sz <=? Z.of_nat (length (data rb)) then
      RECV_OK (take (Z.to_nat sz) (drop (Z.to_nat (read rb)) (data rb)))
              (set_recv_packet_buffer (set_read (read rb + sz) rb) cn)
    else RECV_SHORT.

(** Modelled from the spec: [netplay_recv_reset] puts the cursor back where
    the command began; [netplay_recv_flush] commits what was read. *)
Definition netplay_recv_reset (rb : socket_buffer) : socket_buffer := set_read 0 rb.
Definition netplay_recv_flush (rb : socket_buffer) : socket_buffer :=
  set_read 0 (set_data (drop (Z.to_nat (read rb)) (data rb)) rb).

(** Modelled from the spec: [netplay_deinit_socket_buffer] releases the
    ring buffer. *)
Definition netplay_deinit_socket_buffer (sb : socket_buffer) : socket_buffer :=
  empty_socket_buffer.

(** [size_t] arithmetic wraps at 64 bits. *)
Definition size_t (x : Z) : Z := x mod 2 ^ 64.

Section Netplay.
Context {hdr : netplay_private_h} {env : netplay_env}.

(** ** Sending commands *)

(** [netplay_send_raw_cmd]: the header [cmd | size], then the payload when
    it is not empty. *)
Definition netplay_send_raw_cmd (np : netplay_t) (c : nat) (cmd : netplay_cmd)
    (payload : list Z) : bool * netplay_t :=
  let size := Z.of_nat (length payload) in
  let cmdbuf := htonl (cmd_code cmd) ++ htonl (u32 size) in
  match netplay_send (conn np c) cmdbuf with
  | (false, _) => (false, np)
  | (true, cn1) =>
      if 0 <? size then
        match netplay_send cn1 payload with
        | (false, _) => (false, set_conn np c cn1)
        | (true, cn2) => (true, set_conn np c cn2)
        end
      else (true, set_conn np c cn1)
  end.

(** [connection == except], where [except] may be [NULL]. *)
Definition is_except (except : option nat) (i : nat) : bool :=
  match except with
  | Some e => Nat.eqb i e
  | None => false
  end.

(** The loop of [netplay_send_raw_cmd_all], over the hang-up it calls when
    a send fails. *)
Definition send_raw_cmd_all_with (hangup : netplay_t -> nat -> netplay_t)
    (np : netplay_t) (except : option nat) (cmd : netplay_cmd) (payload : list Z)
  : netplay_t :=
  fold_left
    (fun np i =>
       if is_except except i then np
       else if active (conn np i) && mode_ge_connected (mode (conn np i)) then
         match netplay_send_raw_cmd np i cmd payload with
         | (true, np1) => np1
         | (false, np1) => hangup np1 i
         end
       else np)
    (seq 0 (length (connections np))) np.

(** The payload of a MODE command: [frame] and [flags | player]. *)
Definition mode_payload (frm word : Z) : list Z := htonl frm ++ htonl word.

(** [netplay_hangup].  It calls [netplay_send_raw_cmd_all], which calls it
    back for every connection whose send fails; each nested call starts
    after one more connection became inactive, so the depth is at most the
    number of active connections, and [depth] bounds it.  The messages to
    the log and to the message queue of the host are left out. *)
Fixpoint netplay_hangup_depth (depth : nat) (np : netplay_t) (c : nat) : netplay_t :=
  match depth with
  | O => np
  | S depth' =>
      let cn := conn np c in
      if negb (active cn) then np
      else
        let cn1 :=
          set_recv_packet_buffer (netplay_deinit_socket_buffer (recv_packet_buffer cn))
            (set_send_packet_buffer (netplay_deinit_socket_buffer (send_packet_buffer cn))
               (set_active false (set_fd_open false cn))) in
        let np1 := set_conn np c cn1 in
        if negb (is_server np1) then
          set_connected_players 0 (set_self_mode NETPLAY_CONNECTION_NONE np1)
        else if is_playing (mode cn1) then
          let np2 := set_connected_players
                       (clear_bit (connected_players np1) (player cn1)) np1 in
          if is_server np2 then
            send_raw_cmd_all_with (netplay_hangup_depth depth') np2 (Some c)
              NETPLAY_CMD_MODE
              (mode_payload (aget 0 (read_frame_count np2) (player cn1)) (player cn1))
          else np2
        else np1
  end.

Definition netplay_hangup (np : netplay_t) (c : nat) : netplay_t :=
  netplay_hangup_depth (S (length (connections np))) np c.

(** [netplay_send_raw_cmd_all]. *)
Definition netplay_send_raw_cmd_all (np : netplay_t) (except : option nat)
    (cmd : netplay_cmd) (payload : list Z) : netplay_t :=
  send_raw_cmd_all_with netplay_hangup np except cmd payload.

(** [netplay_update_unread_ptr]. *)
Definition unread_step (np : netplay_t) (acc : Z * Z) (p : Z) : Z * Z :=
  if negb (has_bit (connected_players np) p) then acc
  else if aget 0 (read_frame_count np) p <? snd acc then
    (aget 0 (read_ptr np) p, aget 0 (read_frame_count np) p)
  else acc.

(** The players [0 .. MAX_USERS-1], in the order of the [for] loops. *)
Definition players : list Z := map Z.of_nat (seq 0 (Z.to_nat MAX_USERS)).

Definition netplay_update_unread_ptr (np : netplay_t) : netplay_t :=
  if is_server np && (connected_players np =? 0) then
    set_unread_frame_count (self_frame_count np) (set_unread_ptr (self_ptr np) np)
  else
    let acc0 := (0, UINT32_MOD - 1) in
    let acc1 := fold_left (unread_step np) players acc0 in
    let acc2 :=
      if negb (is_server np) && (server_frame_count np <? snd acc1) then
        (server_ptr np, server_frame_count np)
      else acc1 in
    set_unread_frame_count (snd acc2) (set_unread_ptr (fst acc2) np).

(** [send_input_frame]: the INPUT command for [frame], [player] and the
    three words of [state], to [only] or to every connection that is
    connected and does not play [player], [except] apart. *)
Definition input_frame_bytes (frm plr : Z) (st : list Z) : list Z :=
  htonl (cmd_code NETPLAY_CMD_INPUT) ++ htonl (u32 (WORDS_PER_FRAME * SZ32)) ++
  htonl frm ++ htonl plr ++
  htonl (word_at st 0) ++ htonl (word_at st 1) ++ htonl (word_at st 2).

Definition send_input_frame (np : netplay_t) (only except : option nat)
    (frm plr : Z) (st : list Z) : bool * netplay_t :=
  let buf := input_frame_bytes frm plr st in
  match only with
  | Some o =>
      match netplay_send (conn np o) buf with
      | (false, _) => (false, netplay_hangup np o)
      | (true, cn1) => (true, set_conn np o cn1)
      end
  | None =>
      (true,
       fold_left
         (fun np i =>
            if is_except except i then np
            else
              let cn := conn np i in
              if active cn && mode_ge_connected (mode cn) &&
                 (negb (is_playing (mode cn)) || negb (player cn =? plr)) then
                match netplay_send cn buf with
                | (false, _) => netplay_hangup np i
                | (true, cn1) => set_conn np i cn1
                end
              else np)
         (seq 0 (length (connections np))) np)
  end.

(** [netplay_send_cur_input]: the loop over the other players' input. *)
Fixpoint send_cur_input_others (ps : list Z) (np : netplay_t) (c : nat)
  : bool * netplay_t :=
  match ps with
  | [] => (true, np)
  | p :: ps' =>
      if is_playing (mode (conn np c)) && (player (conn np c) =? p) then
        send_cur_input_others ps' np c
      else if has_bit (connected_players np) p &&
              aget false (have_real (dframe_at np (self_ptr np))) p then
        match send_input_frame np (Some c) None (self_frame_count np) p
                (words_at (real_input_state (dframe_at np (self_ptr np))) p) with
        | (false, np1) => (false, np1)
        | (true, np1) => send_cur_input_others ps' np1 c
        end
      else send_cur_input_others ps' np c
  end.

Definition netplay_send_cur_input (np : netplay_t) (c : nat) : bool * netplay_t :=
  let step1 :=
    if is_server np then
      match send_cur_input_others players np c with
      | (false, np1) => (false, np1)
      | (true, np1) =>
          if negb (is_playing (self_mode np1)) then
            netplay_send_raw_cmd np1 c NETPLAY_CMD_NOINPUT (htonl (self_frame_count np1))
          else (true, np1)
      end
    else (true, np) in
  match step1 with
  | (false, np1) => (false, np1)
  | (true, np1) =>
      let step2 :=
        if is_playing (self_mode np1) then
          send_input_frame np1 (Some c) None (self_frame_count np1)
            (Z.lor (if is_server np1 then NETPLAY_CMD_INPUT_BIT_SERVER else 0)
                   (self_player np1))
            (self_state (dframe_at np1 (self_ptr np1)))
        else (true, np1) in
      match step2 with
      | (false, np2) => (false, np2)
      | (true, np2) =>
          if negb (netplay_send_flush (conn np2 c)) then (false, np2) else (true, np2)
      end
  end.

(** [netplay_cmd_nak]: sends NAK, whatever becomes of it, and returns
    false. *)
Definition netplay_cmd_nak (np : netplay_t) (c : nat) : bool * netplay_t :=
  (false, snd (netplay_send_raw_cmd np c NETPLAY_CMD_NAK [])).

(** [netplay_cmd_request_savestate]. *)
Definition netplay_cmd_request_savestate (np : netplay_t) : bool * netplay_t :=
  if (connections_size np =? 0) || negb (active (conn np 0)) ||
     negb (mode_ge_connected (mode (conn np 0))) then (false, np)
  else if savestate_request_outstanding np then (true, np)
  else
    netplay_send_raw_cmd (set_savestate_request_outstanding true np) 0
      NETPLAY_CMD_REQUEST_SAVESTATE [].

(** ** The ring of delta frames *)

(** Modelled from the spec: [netplay_delta_frame_ready] (not part of the
    sources) lazily (re)initialises the slot to [used=true],
    [frame=frame_no], [have_real[*]=false], [have_local=false] and saves
    the emulator state into it; it returns false only when the core cannot
    serialize at the moment.  A slot already in use for that frame is
    ready as it is. *)
Definition netplay_delta_frame_ready (np : netplay_t) (ptr frm : Z)
  : bool * netplay_t :=
  let d := dframe_at np ptr in
  if used d && (frame d =? frm) then (true, np)
  else
    match core_serialize (core_runs np) (state_size np) with
    | None => (false, np)
    | Some st =>
        (true,
         set_dframe np ptr
           (set_have_real (repeat false (Z.to_nat MAX_USERS))
              (set_have_local false
                 (set_state st (set_frame frm (set_used true d))))))
    end.

(** ** Serialization of quirky cores *)

(** The socket buffers of one connection in [netplay_init_socket_buffers]:
    resized when the send buffer has data, allocated otherwise. *)
Definition init_connection_buffers (cn : netplay_connection) (sz : Z)
  : bool * netplay_connection :=
  let f := if allocated (send_packet_buffer cn)
           then netplay_resize_socket_buffer else netplay_init_socket_buffer in
  match f (send_packet_buffer cn) sz with
  | None => (false, cn)
  | Some sb =>
      match f (recv_packet_buffer cn) sz with
      | None => (false, set_send_packet_buffer sb cn)
      | Some rb => (true, set_recv_packet_buffer rb (set_send_packet_buffer sb cn))
      end
  end.

Fixpoint init_socket_buffers_loop (cs : list netplay_connection) (sz : Z)
  : bool * list netplay_connection :=
  match cs with
  | [] => (true, [])
  | cn :: cs' =>
      if active cn then
        match init_connection_buffers cn sz with
        | (false, cn1) => (false, cn1 :: cs')
        | (true, cn1) =>
            let '(ok, cs1) := init_socket_buffers_loop cs' sz in (ok, cn1 :: cs1)
        end
      else
        let '(ok, cs1) := init_socket_buffers_loop cs' sz in (ok, cn :: cs1)
  end.

(** [netplay_init_socket_buffers].  [delay_frames] is an [unsigned]: the
    two products are computed in 32 bits and wrap there, before they are
    added to [zbuffer_size] in [size_t]. *)
Definition netplay_init_socket_buffers (np : netplay_t) : bool * netplay_t :=
  let sz := size_t (zbuffer_size np + u32 (delay_frames np * WORDS_PER_FRAME) +
                    u32 (u32 (delay_frames np + 1) * 3)) in
  let np1 := set_packet_buffer_size sz np in
  let '(ok, cs) := init_socket_buffers_loop (connections np1) sz in
  (ok, set_connections cs np1).

(** The loop of [netplay_init_serialization] that allocates the state of
    every slot; it stops at the first allocation that fails, leaving that
    state null. *)
Fixpoint alloc_states (bs : list delta_frame) (sz : Z) : bool * list delta_frame :=
  match bs with
  | [] => (true, [])
  | d :: bs' =>
      match calloc sz with
      | None => (false, set_state [] d :: bs')
      | Some st =>
          let '(ok, bs1) := alloc_states bs' sz in (ok, set_state st d :: bs1)
      end
  end.

Definition netplay_init_serialization (np : netplay_t) : bool * netplay_t :=
  if negb (state_size np =? 0) then (true, np)
  else
    let size := core_serialize_size (core_runs np) in
    if size =? 0 then (false, np)
    else
      let np1 := set_state_size size np in
      match alloc_states (buffer np1) (state_size np1) with
      | (false, bs) =>
          (false, set_quirks (Z.lor (quirks np1) NETPLAY_QUIRK_NO_SAVESTATES)
                    (set_buffer bs np1))
      | (true, bs) =>
          let np2 := set_zbuffer_size (size_t (state_size np1 * 2)) (set_buffer bs np1) in
          match calloc (zbuffer_size np2) with
          | None =>
              (false, set_zbuffer_size 0
                        (set_quirks (Z.lor (quirks np2) NETPLAY_QUIRK_NO_TRANSMISSION)
                           (set_zbuffer [] np2)))
          | Some zb => (true, set_zbuffer zb np2)
          end
      end.

Definition netplay_try_init_serialization (np : netplay_t) : bool * netplay_t :=
  if negb (state_size np =? 0) then (true, np)
  else
    match netplay_init_serialization np with
    | (false, np1) => (false, np1)
    | (true, np1) =>
        match core_serialize (core_runs np1) (state_size np1) with
        | None => (false, np1)
        | Some st =>
            let np2 := set_dframe np1 (self_ptr np1)
                         (set_state st (dframe_at np1 (self_ptr np1))) in
            netplay_init_socket_buffers
              (set_quirks (Z.land (quirks np2) (Z.lnot NETPLAY_QUIRK_INITIALIZATION)) np2)
        end
    end.

(** The loop of [netplay_wait_and_init_serialization]: at most [n] more
    frames of the core. *)
Fixpoint wait_and_init_loop (n : nat) (np : netplay_t) : bool * netplay_t :=
  match n with
  | O => (false, np)
  | S n' =>
      match netplay_try_init_serialization np with
      | (true, np1) => (true, np1)
      | (false, np1) => wait_and_init_loop n' (set_core_runs (S (core_runs np1)) np1)
      end
  end.

Definition netplay_wait_and_init_serialization (np : netplay_t) : bool * netplay_t :=
  if negb (state_size np =? 0) then (true, np)
  else wait_and_init_loop 60 np.

(** ** The command dispatcher *)

(** How control leaves the [switch] of [netplay_get_cmd]: by [return]
    (nothing is committed), by [break] (the command is committed), by
    [goto shrt] (the cursor is reset), or never, when a loop over the ring
    does not end. *)
Inductive outcome :=
| RETURN (ret : bool) (np : netplay_t)
| BREAK (np : netplay_t)
| SHRT (np : netplay_t)
| DIVERGES.

(** [return netplay_cmd_nak(netplay, connection)]. *)
Definition NAK (np : netplay_t) (c : nat) : outcome :=
  RETURN false (snd (netplay_cmd_nak np c)).

(** The macro [RECV(buf, sz)]: [on_fail] is the statement that follows
    it. *)
Definition RECV (np : netplay_t) (c : nat) (sz : Z)
    (on_fail : outcome) (k : list Z -> netplay_t -> outcome) : outcome :=
  match netplay_recv (conn np c) sz with
  | RECV_FAIL => on_fail
  | RECV_SHORT => SHRT np
  | RECV_OK bytes cn => k bytes (set_conn np c cn)
  end.

(** [switch (cmd)] compares with the values of the header. *)
Definition decode_cmd (code : Z) : option netplay_cmd :=
  find (fun k => cmd_code k =? code) all_cmds.

(** [case NETPLAY_CMD_INPUT], "the data's good": the words are stored in
    the slot [ptr] that was made ready, the read pointer of [plr] moves on,
    a server relays the input and a client follows the server. *)
Definition cmd_input_store (np1 : netplay_t) (c : nat) (buf : list Z) (plr ptr : Z)
  : netplay_t :=
  let d := dframe_at np1 ptr in
  let d1 :=
    set_have_real (aset (have_real d) plr true)
      (set_real_input_state
         (aset (real_input_state d) plr
            (take (Z.to_nat WORDS_PER_INPUT) (drop 2 buf))) d) in
  let np2 := set_dframe np1 ptr d1 in
  let np3 := set_read_ptr (aset (read_ptr np2) plr (NEXT_PTR np2 ptr)) np2 in
  let np4 :=
    set_read_frame_count
      (aset (read_frame_count np3) plr
         (u32 (aget 0 (read_frame_count np3) plr + 1))) np3 in
  let np5 :=
    if is_server np4 && (frame d1 <=? self_frame_count np4) then
      snd (send_input_frame np4 None (Some c) (word_at buf 0) plr
             (words_at (real_input_state d1) plr))
    else np4 in
  if negb (is_server np5) &&
     negb (Z.land (word_at buf 1) NETPLAY_CMD_INPUT_BIT_SERVER =? 0) then
    set_server_frame_count (aget 0 (read_frame_count np5) plr)
      (set_server_ptr (aget 0 (read_ptr np5) plr) np5)
  else np5.

(** [case NETPLAY_CMD_INPUT], once the payload is in [buffer]: [buf] is
    [buffer] after [ntohl] on each word. *)
Definition cmd_input_words (np : netplay_t) (c : nat) (buf : list Z) : outcome :=
  let resolved :=
    if is_server np then
      if negb (is_playing (mode (conn np c))) then None
      else Some (player (conn np c))
    else Some (Z.land (word_at buf 1) (Z.lnot NETPLAY_CMD_INPUT_BIT_SERVER)) in
  match resolved with
  | None => NAK np c
  | Some plr =>
      if (MAX_USERS <=? plr) || negb (has_bit (connected_players np) plr) then
        NAK np c
      else if word_at buf 0 <? aget 0 (read_frame_count np) plr then
        BREAK np
      else if aget 0 (read_frame_count np) plr <? word_at buf 0 then
        NAK np c
      else
        let ptr := aget 0 (read_ptr np) plr in
        match netplay_delta_frame_ready np ptr (aget 0 (read_frame_count np) plr) with
        | (false, np1) => NAK np1 c
        | (true, np1) => BREAK (cmd_input_store np1 c buf plr ptr)
        end
  end.

(** [case NETPLAY_CMD_INPUT]. *)
Definition cmd_input (np0 : netplay_t) (c : nat) (cmd_size : Z) : outcome :=
  if negb (cmd_size =? WORDS_PER_FRAME * SZ32) then NAK np0 c
  else
    RECV np0 c (WORDS_PER_FRAME * SZ32) (NAK np0 c) (fun bytes np =>
      cmd_input_words np c (ntohl_words (Z.to_nat WORDS_PER_FRAME) bytes)).

(** [case NETPLAY_CMD_NOINPUT]. *)
Definition cmd_noinput (np0 : netplay_t) (c : nat) : outcome :=
  if is_server np0 then NAK np0 c
  else
    RECV np0 c SZ32 (NAK np0 c) (fun bytes np =>
      let frm := ntohl bytes in
      if negb (frm =? server_frame_count np) then NAK np c
      else
        BREAK (set_server_frame_count (u32 (server_frame_count np + 1))
                 (set_server_ptr (NEXT_PTR np (server_ptr np)) np))).

(** [case NETPLAY_CMD_FLIP_PLAYERS]. *)
Definition cmd_flip_players (np0 : netplay_t) (c : nat) (cmd_size : Z) : outcome :=
  if negb (cmd_size =? SZ32) then NAK np0 c
  else
    RECV np0 c SZ32 (NAK np0 c) (fun bytes np =>
      if is_server np then NAK np c
      else
        let flip_frm := ntohl bytes in
        if flip_frm <? server_frame_count np then NAK np c
        else
          let np1 := set_flip_frame flip_frm (set_flip (xorb (flip np) true) np) in
          BREAK (if flip_frm <? self_frame_count np1
                 then set_force_rewind true np1 else np1)).

(** [case NETPLAY_CMD_SPECTATE]. *)
Definition cmd_spectate (np : netplay_t) (c : nat) : outcome :=
  if negb (is_server np) then NAK np c
  else
    let cn := conn np c in
    let '(payload0, np1) :=
      if is_playing (mode cn) then
        let payload0 := aget 0 (read_frame_count np) (player cn) in
        let np_a := set_conn np c (set_mode NETPLAY_CONNECTION_SPECTATING cn) in
        let np_b := set_connected_players
                      (clear_bit (connected_players np_a) (player cn)) np_a in
        (payload0,
         netplay_send_raw_cmd_all np_b (Some c) NETPLAY_CMD_MODE
           (mode_payload payload0 (player cn)))
      else (0, np) in
    BREAK (snd (netplay_send_raw_cmd np1 c NETPLAY_CMD_MODE
                  (mode_payload payload0
                     (Z.lor NETPLAY_CMD_MODE_BIT_YOU (player (conn np1 c)))))).

(** The search for a free player slot in [case NETPLAY_CMD_PLAY]: the
    value of [player] when the loop ends. *)
Fixpoint find_free_player (ps : list Z) (np : netplay_t) : Z :=
  match ps with
  | [] => MAX_USERS
  | p :: ps' =>
      if negb (is_playing (self_mode np) && (self_player np =? p)) &&
         negb (has_bit (connected_players np) p) then p
      else find_free_player ps' np
  end.

(** [case NETPLAY_CMD_PLAY]. *)
Definition cmd_play (np : netplay_t) (c : nat) : outcome :=
  let payload0 := u32 (self_frame_count np + 1) in
  if negb (is_server np) then NAK np c
  else
    let plr := find_free_player players np in
    if plr =? MAX_USERS then NAK np c
    else
      let np1 :=
        if negb (is_playing (mode (conn np c))) then
          let np_a := set_conn np c
                        (set_player plr (set_mode NETPLAY_CONNECTION_PLAYING (conn np c))) in
          let np_b := set_connected_players (set_bit (connected_players np_a) plr) np_a in
          netplay_send_raw_cmd_all np_b (Some c) NETPLAY_CMD_MODE
            (mode_payload payload0
               (Z.lor NETPLAY_CMD_MODE_BIT_PLAYING (player (conn np_b c))))
        else np in
      let np2 :=
        snd (netplay_send_raw_cmd np1 c NETPLAY_CMD_MODE
               (mode_payload payload0
                  (Z.lor (Z.lor NETPLAY_CMD_MODE_BIT_PLAYING NETPLAY_CMD_MODE_BIT_YOU)
                         (player (conn np1 c))))) in
      let np3 := set_read_ptr (aset (read_ptr np2) plr (NEXT_PTR np2 (self_ptr np2))) np2 in
      BREAK (set_read_frame_count
               (aset (read_frame_count np3) plr (u32 (self_frame_count np3 + 1))) np3).

(** The first loop of [case NETPLAY_CMD_MODE] (we play from a past frame):
    from [ptr] on, our own input becomes the real input of [plr] and is
    sent, up to the current frame.  The loop reads only [used], [frame] and
    [self_frame_count], which it does not write, so a walk that has not
    ended after one more step than the ring has slots never ends:
    [None]. *)
Fixpoint mode_walk_past (fuel : nat) (np : netplay_t) (c : nat) (plr ptr : Z)
  : option netplay_t :=
  match fuel with
  | O => None
  | S fuel' =>
      let d := dframe_at np ptr in
      if used d && (frame d <=? self_frame_count np) then
        let d1 := set_have_real (aset (have_real d) plr true)
                    (set_real_input_state
                       (aset (real_input_state d) plr (self_state d)) d) in
        let np1 := set_dframe np ptr d1 in
        let np2 := snd (send_input_frame np1 (Some c) None (frame d1) plr (self_state d1)) in
        if frame d1 =? self_frame_count np2 then Some np2
        else mode_walk_past fuel' np2 c plr (NEXT_PTR np2 ptr)
      else Some np
  end.

(** The second loop (we play from a future frame): the slots before
    [frm] get a zero input that counts as captured. *)
Fixpoint mode_walk_future (fuel : nat) (np : netplay_t) (plr frm ptr : Z)
  : option netplay_t :=
  match fuel with
  | O => None
  | S fuel' =>
      let d := dframe_at np ptr in
      if used d && (frame d <? frm) then
        let zeros := repeat 0 (Z.to_nat WORDS_PER_INPUT) in
        let d1 := set_have_local true
                    (set_real_input_state (aset (real_input_state d) plr zeros)
                       (set_self_state zeros d)) in
        mode_walk_future fuel' (set_dframe np ptr d1) plr frm (NEXT_PTR np ptr)
      else Some np
  end.

Definition break_or_diverge (o : option netplay_t) : outcome :=
  match o with
  | Some np => BREAK np
  | None => DIVERGES
  end.

(** [case NETPLAY_CMD_MODE]. *)
Definition cmd_mode (np0 : netplay_t) (c : nat) (cmd_size : Z) : outcome :=
  if negb (cmd_size =? 2 * SZ32) || is_server np0 then NAK np0 c
  else
    RECV np0 c (2 * SZ32) (NAK np0 c) (fun bytes np =>
      if is_server np then NAK np c
      else
        let frm := ntohl (take 4 bytes) in
        let np1 := if frm <? self_frame_count np then set_force_rewind true np else np in
        let md := ntohl (take 4 (drop 4 bytes)) in
        let plr := Z.land md 65535 in
        if MAX_USERS <=? plr then NAK np1 c
        else if negb (Z.land md NETPLAY_CMD_MODE_BIT_YOU =? 0) then
          if negb (Z.land md NETPLAY_CMD_MODE_BIT_PLAYING =? 0) then
            if negb (frm =? server_frame_count np1) then NAK np1 c
            else if is_playing (self_mode np1) then NAK np1 c
            else
              let np2 := set_self_player plr
                           (set_self_mode NETPLAY_CONNECTION_PLAYING np1) in
              if frm <=? self_frame_count np2 then
                break_or_diverge
                  (mode_walk_past (S (length (buffer np2))) np2 c plr (server_ptr np2))
              else
                break_or_diverge
                  (mode_walk_future (S (length (buffer np2))) np2 plr frm (self_ptr np2))
          else
            if negb (is_spectating (self_mode np1)) then NAK np1 c
            else BREAK np1
        else
          if negb (Z.land md NETPLAY_CMD_MODE_BIT_PLAYING =? 0) then
            if negb (frm =? server_frame_count np1) then NAK np1 c
            else
              let np2 := set_connected_players (set_bit (connected_players np1) plr) np1 in
              let np3 := set_read_ptr (aset (read_ptr np2) plr (server_ptr np2)) np2 in
              BREAK (set_read_frame_count
                       (aset (read_frame_count np3) plr (server_frame_count np3)) np3)
          else
            BREAK (set_connected_players (clear_bit (connected_players np1) plr) np1)).

(** The search of [case NETPLAY_CMD_CRC], backward from [self_ptr]:
    [Some (Some ptr)] when a used slot holds the frame, [Some None] when
    the walk is back at [self_ptr], [None] when it never is. *)
Fixpoint crc_find (fuel : nat) (np : netplay_t) (frm tmp_ptr : Z)
  : option (option Z) :=
  match fuel with
  | O => None
  | S fuel' =>
      let d := dframe_at np tmp_ptr in
      if used d && (frame d =? frm) then Some (Some tmp_ptr)
      else
        let t := PREV_PTR np tmp_ptr in
        if t =? self_ptr np then Some None else crc_find fuel' np frm t
  end.

(** [case NETPLAY_CMD_CRC]. *)
Definition cmd_crc (np0 : netplay_t) (c : nat) (cmd_size : Z) : outcome :=
  if negb (cmd_size =? 2 * SZ32) then NAK np0 c
  else
    RECV np0 c (2 * SZ32) (NAK np0 c) (fun bytes np =>
      let b0 := ntohl (take 4 bytes) in
      let b1 := ntohl (take 4 (drop 4 bytes)) in
      match crc_find (S (length (buffer np))) np b0 (self_ptr np) with
      | None => DIVERGES
      | Some None => BREAK np
      | Some (Some tmp_ptr) =>
          if b0 <=? other_frame_count np then
            let local_crc := netplay_delta_frame_crc np (dframe_at np tmp_ptr) in
            if negb (b1 =? local_crc) then BREAK (snd (netplay_cmd_request_savestate np))
            else BREAK np
          else BREAK (set_dframe np tmp_ptr (set_crc b1 (dframe_at np tmp_ptr)))
      end).

(** The loop of [case NETPLAY_CMD_LOAD_SAVESTATE] that stops expecting
    earlier data from the other players; [src] is [connection->player]. *)
Definition align_step (src frm : Z) (np : netplay_t) (p : Z) : netplay_t :=
  if negb (has_bit (connected_players np) p) then np
  else if aget 0 (read_frame_count np) p <? frm then
    let np1 := set_read_ptr (aset (read_ptr np) p (aget 0 (read_ptr np) src)) np in
    set_read_frame_count (aset (read_frame_count np1) p frm) np1
  else np.

(** The start of [case NETPLAY_CMD_LOAD_SAVESTATE]: a core with the
    initialization quirk is run until it can serialize. *)
Definition load_savestate_prepare (np : netplay_t) : netplay_t :=
  if negb (Z.land (quirks np) NETPLAY_QUIRK_INITIALIZATION =? 0) then
    if negb (is_replay np) then
      let np1 := set_replay_frame_count (self_frame_count np)
                   (set_replay_ptr (self_ptr np) (set_is_replay true np)) in
      set_is_replay false (snd (netplay_wait_and_init_serialization np1))
    else snd (netplay_wait_and_init_serialization np)
  else np.

(** [case NETPLAY_CMD_LOAD_SAVESTATE]. *)
Definition cmd_load_savestate (np00 : netplay_t) (c : nat) (cmd_size : Z) : outcome :=
  let np0 := load_savestate_prepare np00 in
  if negb (is_playing (mode (conn np0 c))) then NAK np0 c
  else if size_t (zbuffer_size np0 + 2 * SZ32) <? cmd_size then NAK np0 c
  else
    RECV np0 c SZ32 (NAK np0 c) (fun bytes1 np1 =>
      let frm := ntohl bytes1 in
      let src := player (conn np1 c) in
      if negb (frm =? aget 0 (read_frame_count np1) src) then NAK np1 c
      else
        RECV np1 c SZ32 (NAK np1 c) (fun bytes2 np2 =>
          let isize := ntohl bytes2 in
          if negb (isize =? state_size np2) then NAK np2 c
          else
            RECV np2 c (size_t (cmd_size - 2 * SZ32)) (NAK np2 c) (fun zbytes np3 =>
              let np4 := set_zbuffer (zbytes ++ drop (length zbytes) (zbuffer np3)) np3 in
              let ptr := aget 0 (read_ptr np4) src in
              let np5 :=
                set_dframe np4 ptr
                  (set_state (decompress zbytes (state_size np4))
                     (dframe_at np4 ptr)) in
              let np6 :=
                if self_frame_count np5 <? frm then
                  set_self_frame_count (u32 (frm - 1))
                    (set_self_ptr (PREV_PTR np5 (aget 0 (read_ptr np5) src)) np5)
                else np5 in
              let np7 := fold_left (align_step src frm) players np6 in
              BREAK (set_other_frame_count frm
                       (set_other_ptr (aget 0 (read_ptr np7) src)
                          (set_savestate_request_outstanding false
                             (set_force_rewind true np7))))))).

(** [case NETPLAY_CMD_PAUSE]. *)
Definition cmd_pause (np : netplay_t) (c : nat) : outcome :=
  let np1 := set_remote_paused true (set_conn np c (set_paused true (conn np c))) in
  BREAK (netplay_send_raw_cmd_all np1 (Some c) NETPLAY_CMD_PAUSE []).

(** [case NETPLAY_CMD_RESUME]. *)
Definition cmd_resume (np : netplay_t) (c : nat) : outcome :=
  let np1 := set_remote_paused false (set_conn np c (set_paused false (conn np c))) in
  let np2 := set_remote_paused
               (existsb (fun sc => active sc && paused sc) (connections np1)) np1 in
  BREAK (if negb (remote_paused np2) && negb (local_paused np2)
         then netplay_send_raw_cmd_all np2 (Some c) NETPLAY_CMD_RESUME []
         else np2).

(** A handshake step of [netplay_get_cmd]: once the connection is
    connected the current input is sent to it. *)
Definition after_handshake (r : bool * bool * netplay_t) (c : nat)
  : bool * bool * netplay_t :=
  let '(ret, had, np) := r in
  if mode_ge_connected (mode (conn np c)) then
    match netplay_send_cur_input np c with
    | (false, np1) => (false, had, np1)
    | (true, np1) => (ret, had, np1)
    end
  else (ret, had, np).

(** [switch (cmd)]. *)
Definition dispatch (np : netplay_t) (c : nat) (cmd cmd_size : Z) : outcome :=
  match decode_cmd cmd with
  | Some NETPLAY_CMD_ACK => BREAK np
  | Some NETPLAY_CMD_NAK => RETURN false np
  | Some NETPLAY_CMD_INPUT => cmd_input np c cmd_size
  | Some NETPLAY_CMD_NOINPUT => cmd_noinput np c
  | Some NETPLAY_CMD_FLIP_PLAYERS => cmd_flip_players np c cmd_size
  | Some NETPLAY_CMD_SPECTATE => cmd_spectate np c
  | Some NETPLAY_CMD_PLAY => cmd_play np c
  | Some NETPLAY_CMD_MODE => cmd_mode np c cmd_size
  | Some NETPLAY_CMD_DISCONNECT => RETURN true (netplay_hangup np c)
  | Some NETPLAY_CMD_CRC => cmd_crc np c cmd_size
  | Some NETPLAY_CMD_REQUEST_SAVESTATE => BREAK (set_force_send_savestate true np)
  | Some NETPLAY_CMD_LOAD_SAVESTATE => cmd_load_savestate np c cmd_size
  | Some NETPLAY_CMD_PAUSE => cmd_pause np c
  | Some NETPLAY_CMD_RESUME => cmd_resume np c
  | None => NAK np c
  end.

(** The end of [netplay_get_cmd]: after the [switch] the command is
    flushed, the stall counter cleared and [*had_input] set; at [shrt] the
    cursor is reset. *)
Definition finish (o : outcome) (c : nat) (had_input : bool)
  : option (bool * bool * netplay_t) :=
  match o with
  | RETURN ret np => Some (ret, had_input, np)
  | BREAK np =>
      let cn := conn np c in
      Some (true, true,
            set_timeout_cnt 0
              (set_conn np c
                 (set_recv_packet_buffer (netplay_recv_flush (recv_packet_buffer cn)) cn)))
  | SHRT np =>
      let cn := conn np c in
      Some (true, had_input,
            set_conn np c
              (set_recv_packet_buffer (netplay_recv_reset (recv_packet_buffer cn)) cn))
  | DIVERGES => None
  end.

(** [netplay_get_cmd]: the returned flag, [*had_input] and the session, or
    [None] when the call does not return. *)
Definition netplay_get_cmd (np : netplay_t) (c : nat) (had_input : bool)
  : option (bool * bool * netplay_t) :=
  match mode (conn np c) with
  | NETPLAY_CONNECTION_NONE => Some (false, had_input, np)
  | NETPLAY_CONNECTION_INIT => Some (netplay_handshake_init np c had_input)
  | NETPLAY_CONNECTION_PRE_NICK =>
      Some (after_handshake (netplay_handshake_pre_nick np c had_input) c)
  | NETPLAY_CONNECTION_PRE_PASSWORD =>
      Some (after_handshake (netplay_handshake_pre_password np c had_input) c)
  | NETPLAY_CONNECTION_PRE_SYNC =>
      Some (after_handshake (netplay_handshake_pre_sync np c had_input) c)
  | _ =>
      finish
        (RECV np c SZ32 (RETURN false np) (fun bytes1 np1 =>
           let cmd := ntohl bytes1 in
           RECV np1 c SZ32 (RETURN false np1) (fun bytes2 np2 =>
             let cmd_size := ntohl bytes2 in
             dispatch (set_timeout_cnt 0 np2) c cmd cmd_size)))
        c had_input
  end.

(** ** Polling *)

(** The first loop of [netplay_poll_net_input]: one more than the largest
    descriptor of an active connection, 0 when there is none. *)
Definition poll_max_fd (np : netplay_t) : Z :=
  fold_left (fun max_fd cn => if active cn && (max_fd <=? fd cn) then fd cn + 1 else max_fd)
    (connections np) 0.

(** "Read input from each connection": a connection whose command fails
    is hung up. *)
Fixpoint poll_read_connections (idxs : list nat) (np : netplay_t) (had_input : bool)
  : option (bool * netplay_t) :=
  match idxs with
  | [] => Some (had_input, np)
  | i :: idxs' =>
      if active (conn np i) then
        match netplay_get_cmd np i had_input with
        | None => None
        | Some (ret, had1, np1) =>
            poll_read_connections idxs'
              (if ret then np1 else netplay_hangup np1 i) had1
        end
      else poll_read_connections idxs' np had_input
  end.

(** What reaches the receive buffers while the [k]-th [socket_select]
    waits. *)
Definition deliver (k : nat) (np : netplay_t) : netplay_t :=
  set_connections
    (imap (fun i cn =>
             set_recv_packet_buffer
               (set_data (data (recv_packet_buffer cn) ++ socket_arrivals k i)
                  (recv_packet_buffer cn)) cn)
          (connections np)) np.

(** The [do ... while (had_input || block)] loop.  [fuel] bounds the
    number of iterations and [k] counts the calls of [socket_select];
    [None] when the loop has not returned within [fuel] iterations. *)
Fixpoint poll_loop (fuel : nat) (k : nat) (np : netplay_t) (block : bool)
  : option (Z * netplay_t) :=
  match fuel with
  | O => None
  | S fuel' =>
      let np1 := netplay_update_unread_ptr
                   (set_timeout_cnt (u32_succ (timeout_cnt np)) np) in
      match netplay_delta_frame_ready np1 (unread_ptr np1) (unread_frame_count np1) with
      | (false, np2) => Some (0, np2)
      | (true, np2) =>
          let ready_server :=
            if negb (is_server np2)
            then netplay_delta_frame_ready np2 (server_ptr np2) (server_frame_count np2)
            else (true, np2) in
          match ready_server with
          | (false, np3) => Some (0, np3)
          | (true, np3) =>
              match poll_read_connections (seq 0 (length (connections np3))) np3 false with
              | None => None
              | Some (had_input, np4) =>
                  if block then
                    let np5 := netplay_update_unread_ptr np4 in
                    if self_frame_count np5 <? unread_frame_count np5 then Some (0, np5)
                    else if negb had_input then
                      if socket_select k <? 0 then Some (-1, np5)
                      else
                        let np6 := deliver k np5 in
                        if (MAX_RETRIES <=? timeout_cnt np6) && negb (remote_paused np6)
                        then Some (-1, np6)
                        else poll_loop fuel' (S k) np6 block
                    else poll_loop fuel' k np5 block
                  else if had_input then poll_loop fuel' k np4 block
                  else Some (0, np4)
              end
          end
      end
  end.

(** [netplay_poll_net_input]. *)
Definition netplay_poll_net_input (fuel k : nat) (np : netplay_t) (block : bool)
  : option (Z * netplay_t) :=
  if poll_max_fd np =? 0 then Some (0, np)
  else poll_loop fuel k np block.

(** ** Simulated input and port flipping *)

(** [netplay_simulate_input]: one player of the loop. *)
Definition simulate_step (sim_ptr : Z) (resim : bool) (np : netplay_t) (p : Z)
  : netplay_t :=
  let simframe := dframe_at np sim_ptr in
  if negb (has_bit (connected_players np) p) then np
  else if aget false (have_real simframe) p then np
  else
    let prev := PREV_PTR np (aget 0 (read_ptr np) p) in
    let pframe := dframe_at np prev in
    if resim then
      let keep :=
        Z.lor (Z.lor (Z.lor (Z.shiftl 1 RETRO_DEVICE_ID_JOYPAD_UP)
                            (Z.shiftl 1 RETRO_DEVICE_ID_JOYPAD_DOWN))
                     (Z.shiftl 1 RETRO_DEVICE_ID_JOYPAD_LEFT))
              (Z.shiftl 1 RETRO_DEVICE_ID_JOYPAD_RIGHT) in
      let sim_state :=
        Z.land (word_at (words_at (simulated_input_state simframe) p) 0) keep in
      let sim_state :=
        Z.lor sim_state
          (Z.land (word_at (words_at (real_input_state pframe) p) 0) (Z.lnot keep)) in
      set_dframe np sim_ptr
        (set_simulated_input_state
           (aset (simulated_input_state simframe) p
              (aset (words_at (simulated_input_state simframe) p) 0 sim_state))
           simframe)
    else
      set_dframe np sim_ptr
        (set_simulated_input_state
           (aset (simulated_input_state simframe) p
              (take (Z.to_nat WORDS_PER_INPUT) (words_at (real_input_state pframe) p) ++
               drop (Z.to_nat WORDS_PER_INPUT) (words_at (simulated_input_state simframe) p)))
           simframe).

Definition netplay_simulate_input (np : netplay_t) (sim_ptr : Z) (resim : bool)
  : netplay_t :=
  fold_left (simulate_step sim_ptr resim) players np.

(** [netplay_flip_port]. *)
Definition netplay_flip_port (np : netplay_t) : bool :=
  let frm := self_frame_count np in
  if flip_frame np =? 0 then false
  else
    let frm := if is_replay np then replay_frame_count np else frm in
    xorb (flip np) (frm <? flip_frame np).

End Netplay.

(** ** A header, an environment and sessions to run the model on *)

(** One choice of the values the header leaves open. *)
Definition sample_cmd_code (k : netplay_cmd) : Z :=
  match k with
  | NETPLAY_CMD_ACK => 0
  | NETPLAY_CMD_NAK => 1
  | NETPLAY_CMD_DISCONNECT => 2
  | NETPLAY_CMD_INPUT => 3
  | NETPLAY_CMD_NOINPUT => 4
  | NETPLAY_CMD_SPECTATE => 35
  | NETPLAY_CMD_PLAY => 36
  | NETPLAY_CMD_MODE => 37
  | NETPLAY_CMD_CRC => 64
  | NETPLAY_CMD_REQUEST_SAVESTATE => 65
  | NETPLAY_CMD_LOAD_SAVESTATE => 66
  | NETPLAY_CMD_PAUSE => 67
  | NETPLAY_CMD_RESUME => 68
  | NETPLAY_CMD_FLIP_PLAYERS => 96
  end.

Lemma sample_cmd_code_inj a b : sample_cmd_code a = sample_cmd_code b -> a = b.
Proof. destruct a, b; simpl; intros E; first [ reflexivity | discriminate E ]. Qed.

Lemma sample_cmd_code_range a : 0 <= sample_cmd_code a < UINT32_MOD.
Proof. destruct a; vm_compute; split; congruence. Qed.

Lemma sample_joypad_nonneg : 0 <= 4 /\ 0 <= 5 /\ 0 <= 6 /\ 0 <= 7.
Proof. lia. Qed.

Definition sample_header : netplay_private_h :=
  {| cmd_code := sample_cmd_code;
     cmd_code_inj := sample_cmd_code_inj;
     cmd_code_range := sample_cmd_code_range;
     NETPLAY_CMD_MODE_BIT_PLAYING := 2 ^ 17;
     NETPLAY_CMD_MODE_BIT_YOU := 2 ^ 16;
     NETPLAY_QUIRK_NO_SAVESTATES := 1;
     NETPLAY_QUIRK_NO_TRANSMISSION := 2;
     NETPLAY_QUIRK_INITIALIZATION := 4;
     RETRO_DEVICE_ID_JOYPAD_UP := 4;
     RETRO_DEVICE_ID_JOYPAD_DOWN := 5;
     RETRO_DEVICE_ID_JOYPAD_LEFT := 6;
     RETRO_DEVICE_ID_JOYPAD_RIGHT := 7;
     joypad_ids_nonneg := sample_joypad_nonneg |}.

(** An environment whose handshake does nothing, whose codec copies, whose
    core serializes [core_ok] and whose [socket_select] returns
    [select_ret] with nothing arriving. *)
Definition sample_env (core_ok : bool) (select_ret : Z) : netplay_env :=
  {| netplay_handshake_init := fun np _ had => (true, had, np);
     netplay_handshake_pre_nick := fun np _ had => (true, had, np);
     netplay_handshake_pre_password := fun np _ had => (true, had, np);
     netplay_handshake_pre_sync := fun np _ had => (true, had, np);
     netplay_delta_frame_crc := fun _ d => crc d;
     decompress := fun zb n => take (Z.to_nat n) (zb ++ repeat 0 (Z.to_nat n));
     core_serialize_size := fun _ => 4;
     core_serialize := fun _ n => if core_ok then Some (repeat 0 (Z.to_nat n)) else None;
     calloc := fun n => Some (repeat 0 (Z.to_nat n));
     netplay_init_socket_buffer := fun sb _ => Some (mk_socket_buffer true [] 0);
     netplay_resize_socket_buffer := fun sb _ => Some sb;
     socket_select := fun _ => select_ret;
     socket_arrivals := fun _ _ => [] |}.

(** A slot of the ring with room for [MAX_USERS] players. *)
Definition sample_frame (is_used : bool) (frm : Z) : delta_frame :=
  mk_delta_frame is_used frm 0 [0; 0; 0; 0]
    (repeat [0; 0; 0] 16) (repeat [0; 0; 0] 16) [0; 0; 0] false (repeat false 16).

(** A connection on a healthy socket with [pending] in its receive
    buffer. *)
Definition sample_connection (descr : Z) (m : rarch_netplay_connection_mode)
    (plr : Z) (pending : list Z) : netplay_connection :=
  mk_netplay_connection true descr m plr false
    (mk_socket_buffer true [] 0) (mk_socket_buffer true pending 0) true false false.

(** A session at frame 5 of a ring of three slots (frames 3, 4 and 5 in
    slots 0, 1 and 2), every read pointer at frame 5. *)
Definition sample_session (server : bool) (cs : list netplay_connection)
    (players_mask : Z) : netplay_t :=
  mk_netplay server cs
    [sample_frame true 3; sample_frame true 4; sample_frame true 5]
    2 5 2 5 2 5 2 5 0 0
    (repeat 2 16) (repeat 5 16)
    players_mask
    (if server then NETPLAY_CONNECTION_PLAYING else NETPLAY_CONNECTION_SPECTATING) 0
    false 0 0 false false false false false false 0 4 (repeat 0 8) 8 1 64 0.

(** * Properties *)

(** ** Port flipping *)

Section FlipPort.

(** C9. [netplay_flip_port] is false whenever [flip_frame] is 0, whatever
    [flip] is; otherwise it is [flip] xor [f < flip_frame], where [f] is
    [replay_frame_count] during a replay and [self_frame_count] otherwise;
    so during a replay the answer does not depend on [self_frame_count]
    (nor, outside one, on [replay_frame_count]). *)
Theorem netplay_flip_port_frames (np : netplay_t) :
  (flip_frame np = 0 -> netplay_flip_port np = false) /\
  (flip_frame np <> 0 -> is_replay np = true ->
     netplay_flip_port np = xorb (flip np) (replay_frame_count np <? flip_frame np) /\
     forall v, netplay_flip_port (set_self_frame_count v np) = netplay_flip_port np) /\
  (flip_frame np <> 0 -> is_replay np = false ->
     netplay_flip_port np = xorb (flip np) (self_frame_count np <? flip_frame np) /\
     forall v, netplay_flip_port (set_replay_frame_count v np) = netplay_flip_port np).
Proof.
  unfold netplay_flip_port.
  split; [| split].
  - intros ->. reflexivity.
  - intros Hne Hrep.
    apply Z.eqb_neq in Hne.
    split.
    + rewrite Hne, Hrep. reflexivity.
    + intros v. cbn [flip_frame is_replay replay_frame_count flip set_self_frame_count].
      rewrite Hne, Hrep. reflexivity.
  - intros Hne Hrep.
    apply Z.eqb_neq in Hne.
    split.
    + rewrite Hne, Hrep. reflexivity.
    + intros v.
      cbn [flip_frame is_replay self_frame_count flip set_replay_frame_count].
      rewrite Hne, Hrep. reflexivity.
Qed.

End FlipPort.

(** A replay at frame 3 of a session that is at frame 9, with the flip at
    frame 5: the port is flipped by the replay counter ([3 < 5]), not by
    the session's ([9 < 5] is false). *)
Definition replaying_session : netplay_t :=
  set_is_replay true
    (set_replay_frame_count 3
       (set_self_frame_count 9 (set_flip_frame 5 (sample_session false [] 0)))).

Lemma netplay_flip_port_frames_witness :
  netplay_flip_port replaying_session = true /\
  netplay_flip_port (set_is_replay false replaying_session) = false /\
  netplay_flip_port (set_flip true (set_flip_frame 0 replaying_session)) = false.
Proof.
  pose proof (netplay_flip_port_frames replaying_session) as (_ & Hr & _).
  destruct (Hr ltac:(discriminate) eq_refl) as [-> _].
  pose proof (netplay_flip_port_frames (set_is_replay false replaying_session))
    as (_ & _ & Hs).
  destruct (Hs ltac:(discriminate) eq_refl) as [-> _].
  pose proof (netplay_flip_port_frames (set_flip true (set_flip_frame 0 replaying_session)))
    as (Hz & _).
  rewrite (Hz eq_refl).
  repeat split.
Defined.

(** ** The earliest unread frame *)

Lemma in_players (p : Z) : In p players <-> 0 <= p < MAX_USERS.
Proof.
  change players with [0; 1; 2; 3; 4; 5; 6; 7; 8; 9; 10; 11; 12; 13; 14; 15].
  change MAX_USERS with 16.
  split.
  - simpl. intuition lia.
  - intros Hp.
    assert (p = 0 \/ p = 1 \/ p = 2 \/ p = 3 \/ p = 4 \/ p = 5 \/ p = 6 \/ p = 7 \/
            p = 8 \/ p = 9 \/ p = 10 \/ p = 11 \/ p = 12 \/ p = 13 \/ p = 14 \/ p = 15)
      as Hcases by lia.
    simpl. intuition auto.
Qed.

(** What the loop over the players keeps true of its accumulator
    [(new_unread_ptr, new_unread_frame_count)]. *)
Lemma unread_fold_inv (np : netplay_t) (ps : list Z) (acc : Z * Z) :
  let r := fold_left (unread_step np) ps acc in
  snd r <= snd acc /\
  (forall p, In p ps -> has_bit (connected_players np) p = true ->
             snd r <= aget 0 (read_frame_count np) p) /\
  (r = acc \/
   exists p, In p ps /\ has_bit (connected_players np) p = true /\
             r = (aget 0 (read_ptr np) p, aget 0 (read_frame_count np) p)).
Proof.
  revert acc.
  induction ps as [| q ps IH]; intros acc; cbn zeta.
  - simpl. split; [lia |]. split; [intros p [] | now left].
  - simpl fold_left.
    specialize (IH (unread_step np acc q)).
    cbn zeta in IH.
    destruct IH as (Hle & Hlow & Hatt).
    assert (Hstep : snd (unread_step np acc q) <= snd acc /\
                    (has_bit (connected_players np) q = true ->
                     snd (unread_step np acc q) <= aget 0 (read_frame_count np) q) /\
                    (unread_step np acc q = acc \/
                     (has_bit (connected_players np) q = true /\
                      unread_step np acc q =
                        (aget 0 (read_ptr np) q, aget 0 (read_frame_count np) q)))).
    { unfold unread_step.
      destruct (has_bit (connected_players np) q); simpl.
      - destruct (Z.ltb_spec (aget 0 (read_frame_count np) q) (snd acc)); simpl.
        + split; [lia |]. split; [lia |]. right. split; reflexivity.
        + split; [lia |]. split; [lia |]. now left.
      - split; [lia |]. split; [discriminate |]. now left. }
    destruct Hstep as (Hs1 & Hs2 & Hs3).
    split; [lia |].
    split.
    + intros p [-> | Hin] Hbit.
      * specialize (Hs2 Hbit). lia.
      * now apply Hlow.
    + destruct Hatt as [Heq | (p & Hin & Hbit & Heq)].
      * rewrite Heq.
        destruct Hs3 as [-> | (Hbit & ->)]; [now left |].
        right. exists q. split; [now left |]. now split.
      * right. exists p. split; [now right |]. now split.
Qed.

Section UnreadPtr.

(** C5 (as amended).  After [netplay_update_unread_ptr]: on a server with
    no connected player the unread pointer and frame are [self_ptr] and
    [self_frame_count]; otherwise [unread_frame_count] is the least of the
    [read_frame_count] of the connected players and, on every client
    (whether or not players are connected), of [server_frame_count], and
    [unread_ptr] is the pointer that goes with it; when none of them is
    below [UINT32_MAX] the frame is [UINT32_MAX] and the pointer 0. *)
Theorem netplay_update_unread_ptr_min (np : netplay_t) :
  let np' := netplay_update_unread_ptr np in
  (is_server np = true -> connected_players np = 0 ->
   unread_ptr np' = self_ptr np /\ unread_frame_count np' = self_frame_count np) /\
  (is_server np && (connected_players np =? 0) = false ->
   (forall p, 0 <= p < MAX_USERS -> has_bit (connected_players np) p = true ->
              unread_frame_count np' <= aget 0 (read_frame_count np) p) /\
   (is_server np = false -> unread_frame_count np' <= server_frame_count np) /\
   unread_frame_count np' <= UINT32_MOD - 1 /\
   ((exists p, 0 <= p < MAX_USERS /\ has_bit (connected_players np) p = true /\
               unread_frame_count np' = aget 0 (read_frame_count np) p /\
               unread_ptr np' = aget 0 (read_ptr np) p) \/
    (is_server np = false /\ unread_frame_count np' = server_frame_count np /\
     unread_ptr np' = server_ptr np) \/
    (unread_frame_count np' = UINT32_MOD - 1 /\ unread_ptr np' = 0))).
Proof.
  cbn zeta. unfold netplay_update_unread_ptr.
  split.
  - intros -> ->. simpl. split; reflexivity.
  - intros ->.
    pose proof (unread_fold_inv np players (0, UINT32_MOD - 1)) as Hinv.
    cbn zeta in Hinv.
    destruct Hinv as (Hle & Hlow & Hatt).
    set (acc1 := fold_left (unread_step np) players (0, UINT32_MOD - 1)) in *.
    cbn [snd] in Hle.
    destruct (is_server np) eqn:Hsrv; cbn [negb andb].
    + cbn [unread_frame_count unread_ptr set_unread_frame_count set_unread_ptr].
      split; [| split; [discriminate | split; [exact Hle |]]].
      * intros p Hp Hbit. apply Hlow; [now apply in_players | exact Hbit].
      * destruct Hatt as [Heq | (p & Hin & Hbit & Heq)].
        -- right. right. rewrite Heq. split; reflexivity.
        -- left. exists p. apply in_players in Hin. rewrite Heq. now repeat split.
    + destruct (Z.ltb_spec (server_frame_count np) (snd acc1)) as [Hlt | Hge];
        cbn [unread_frame_count unread_ptr set_unread_frame_count set_unread_ptr fst snd].
      * split; [| split; [lia | split; [lia |]]].
        -- intros p Hp Hbit.
           specialize (Hlow p (proj2 (in_players p) Hp) Hbit). lia.
        -- right. left. now repeat split.
      * split; [| split; [intros _; exact Hge | split; [exact Hle |]]].
        -- intros p Hp Hbit. apply Hlow; [now apply in_players | exact Hbit].
        -- destruct Hatt as [Heq | (p & Hin & Hbit & Heq)].
           ++ right. right. rewrite Heq. split; reflexivity.
           ++ left. exists p. apply in_players in Hin. rewrite Heq. now repeat split.
Qed.

End UnreadPtr.

(** The claim as written: on a client with connected players the unread
    frame would be the least read frame of the connected players alone. *)
Definition unread_frame_count_as_claimed (np : netplay_t) : Z :=
  fold_left Z.min
    (map (fun p => aget 0 (read_frame_count np) p)
         (filter (fun p => has_bit (connected_players np) p = true) players))
    (UINT32_MOD - 1).

(** A client on which player 0 has been read up to frame 6 while the
    server has been read up to frame 5. *)
Definition client_ahead_of_server : netplay_t :=
  set_read_ptr (0 :: repeat 2 15)
    (set_read_frame_count (6 :: repeat 5 15) (sample_session false [] 1)).

(** C5, the counterexample: the connected players alone give frame 6 and
    the read pointer 0 of player 0, the code gives frame 5 and the server
    pointer 2. *)
Lemma netplay_update_unread_ptr_counterexample :
  is_server client_ahead_of_server = false /\
  connected_players client_ahead_of_server <> 0 /\
  unread_frame_count_as_claimed client_ahead_of_server = 6 /\
  unread_frame_count (netplay_update_unread_ptr client_ahead_of_server) = 5 /\
  unread_frame_count (netplay_update_unread_ptr client_ahead_of_server)
    <> unread_frame_count_as_claimed client_ahead_of_server /\
  unread_ptr (netplay_update_unread_ptr client_ahead_of_server) = 2 /\
  server_ptr client_ahead_of_server = 2 /\
  aget 0 (read_ptr client_ahead_of_server) 0 = 0.
Proof. vm_compute. repeat split; congruence. Qed.

(** The theorem at that session. *)
Lemma netplay_update_unread_ptr_min_witness :
  unread_frame_count (netplay_update_unread_ptr client_ahead_of_server)
    <= server_frame_count client_ahead_of_server.
Proof.
  pose proof (netplay_update_unread_ptr_min client_ahead_of_server) as [_ H].
  destruct (H eq_refl) as (_ & Hs & _).
  exact (Hs eq_refl).
Defined.

(** ** Arrays *)

Lemma aget_aset_eq {A} (d : A) (l : list A) (i : Z) (x : A) :
  0 <= i < Z.of_nat (length l) -> aget d (aset l i x) i = x.
Proof.
  intros Hi. unfold aget, aset.
  rewrite list_lookup_insert_eq by lia. reflexivity.
Qed.

Lemma aget_aset_ne {A} (d : A) (l : list A) (i j : Z) (x : A) :
  0 <= i -> 0 <= j -> i <> j -> aget d (aset l i x) j = aget d l j.
Proof.
  intros Hi Hj Hne. unfold aget, aset.
  rewrite list_lookup_insert_ne by lia. reflexivity.
Qed.

Lemma length_aset {A} (l : list A) (i : Z) (x : A) : length (aset l i x) = length l.
Proof. unfold aset. apply length_insert. Qed.

Lemma aset_aset {A} (l : list A) (i : Z) (x y : A) :
  aset (aset l i x) i y = aset l i y.
Proof. unfold aset. apply list_insert_insert_eq. Qed.

Lemma aget_in_range {A} (d : A) (l : list A) (i : Z) :
  0 <= i < Z.of_nat (length l) -> l !! Z.to_nat i = Some (aget d l i).
Proof.
  intros Hi. unfold aget.
  destruct (lookup_lt_is_Some_2 l (Z.to_nat i)) as [x Hx]; [lia |].
  rewrite Hx. reflexivity.
Qed.

(** The session is the record of its fields. *)
Lemma set_connections_same (np : netplay_t) : set_connections (connections np) np = np.
Proof. destruct np; reflexivity. Qed.

Lemma set_buffer_same (np : netplay_t) : set_buffer (buffer np) np = np.
Proof. destruct np; reflexivity. Qed.

Lemma set_dframe_set_dframe (np : netplay_t) (ptr : Z) (d1 d2 : delta_frame) :
  set_dframe (set_dframe np ptr d1) ptr d2 = set_dframe np ptr d2.
Proof.
  unfold set_dframe, set_buffer. cbn. rewrite aset_aset. reflexivity.
Qed.

Lemma dframe_at_set_dframe_eq (np : netplay_t) (ptr : Z) (d : delta_frame) :
  0 <= ptr < buffer_size np -> dframe_at (set_dframe np ptr d) ptr = d.
Proof.
  intros Hp. unfold dframe_at, set_dframe. cbn.
  apply aget_aset_eq. exact Hp.
Qed.

Lemma dframe_at_set_dframe_ne (np : netplay_t) (ptr q : Z) (d : delta_frame) :
  0 <= ptr -> 0 <= q -> ptr <> q -> dframe_at (set_dframe np ptr d) q = dframe_at np q.
Proof.
  intros Hp Hq Hne. unfold dframe_at, set_dframe. cbn.
  now apply aget_aset_ne.
Qed.

Lemma buffer_size_set_dframe (np : netplay_t) (ptr : Z) (d : delta_frame) :
  buffer_size (set_dframe np ptr d) = buffer_size np.
Proof. unfold buffer_size, set_dframe. cbn. now rewrite length_aset. Qed.

(** ** Simulated input *)

Section SimulateInput.
Context {hdr : netplay_private_h}.

(** The bits of the first input word the resimulation keeps. *)
Definition direction_mask : Z :=
  Z.lor (Z.lor (Z.lor (Z.shiftl 1 RETRO_DEVICE_ID_JOYPAD_UP)
                      (Z.shiftl 1 RETRO_DEVICE_ID_JOYPAD_DOWN))
               (Z.shiftl 1 RETRO_DEVICE_ID_JOYPAD_LEFT))
        (Z.shiftl 1 RETRO_DEVICE_ID_JOYPAD_RIGHT).

(** [n] is the id of UP, DOWN, LEFT or RIGHT. *)
Definition is_direction (n : Z) : bool :=
  (n =? RETRO_DEVICE_ID_JOYPAD_UP) || (n =? RETRO_DEVICE_ID_JOYPAD_DOWN) ||
  (n =? RETRO_DEVICE_ID_JOYPAD_LEFT) || (n =? RETRO_DEVICE_ID_JOYPAD_RIGHT).

(** The player is connected and the slot has no real input of theirs. *)
Definition sim_eligible (np : netplay_t) (sim_ptr p : Z) : bool :=
  has_bit (connected_players np) p &&
  negb (aget false (have_real (dframe_at np sim_ptr)) p).

(** The real input of [p] in the slot before their read pointer: the last
    one received. *)
Definition last_real (np : netplay_t) (p : Z) : list Z :=
  words_at (real_input_state (dframe_at np (PREV_PTR np (aget 0 (read_ptr np) p)))) p.

(** The simulated input of [p] in the slot, before the call. *)
Definition old_sim (np : netplay_t) (sim_ptr p : Z) : list Z :=
  words_at (simulated_input_state (dframe_at np sim_ptr)) p.

(** What the call leaves as simulated input of [p]. *)
Definition sim_target (np : netplay_t) (sim_ptr : Z) (resim : bool) (p : Z) : list Z :=
  if sim_eligible np sim_ptr p then
    if resim then
      aset (old_sim np sim_ptr p) 0
        (Z.lor (Z.land (word_at (old_sim np sim_ptr p) 0) direction_mask)
               (Z.land (word_at (last_real np p) 0) (Z.lnot direction_mask)))
    else
      take (Z.to_nat WORDS_PER_INPUT) (last_real np p) ++
      drop (Z.to_nat WORDS_PER_INPUT) (old_sim np sim_ptr p)
  else old_sim np sim_ptr p.

Lemma real_input_state_set_sims (np : netplay_t) (sim_ptr q : Z) (sims : list (list Z)) :
  0 <= sim_ptr < buffer_size np -> 0 <= q ->
  real_input_state
    (dframe_at (set_dframe np sim_ptr
                  (set_simulated_input_state sims (dframe_at np sim_ptr))) q)
  = real_input_state (dframe_at np q).
Proof.
  intros Hp Hq.
  destruct (Z.eq_dec sim_ptr q) as [<- | Hne].
  - rewrite dframe_at_set_dframe_eq by exact Hp. reflexivity.
  - rewrite dframe_at_set_dframe_ne by lia. reflexivity.
Qed.

Lemma PREV_PTR_nonneg (np : netplay_t) (x : Z) : 0 < buffer_size np -> 0 <= PREV_PTR np x.
Proof. intros Hb. unfold PREV_PTR. apply Z.mod_pos_bound. exact Hb. Qed.

Lemma simulate_step_on (np : netplay_t) (sim_ptr : Z) (resim : bool)
    (sims : list (list Z)) (q : Z) :
  0 <= sim_ptr < buffer_size np -> 0 <= q ->
  words_at sims q = old_sim np sim_ptr q ->
  simulate_step sim_ptr resim
    (set_dframe np sim_ptr (set_simulated_input_state sims (dframe_at np sim_ptr))) q
  = set_dframe np sim_ptr
      (set_simulated_input_state
         (if sim_eligible np sim_ptr q
          then aset sims q (sim_target np sim_ptr resim q) else sims)
         (dframe_at np sim_ptr)).
Proof.
  intros Hp Hq Hold.
  unfold simulate_step, sim_target, sim_eligible.
  rewrite dframe_at_set_dframe_eq by exact Hp.
  change (connected_players (set_dframe np sim_ptr ?d)) with (connected_players np).
  change (read_ptr (set_dframe np sim_ptr ?d)) with (read_ptr np).
  change (have_real (set_simulated_input_state sims ?d)) with (have_real d).
  change (simulated_input_state (set_simulated_input_state sims ?d)) with sims.
  destruct (has_bit (connected_players np) q); cbn [negb andb]; [| reflexivity].
  destruct (aget false (have_real (dframe_at np sim_ptr)) q); cbn [negb]; [reflexivity |].
  assert (Hprev : PREV_PTR (set_dframe np sim_ptr
                     (set_simulated_input_state sims (dframe_at np sim_ptr)))
                    (aget 0 (read_ptr np) q)
                  = PREV_PTR np (aget 0 (read_ptr np) q)).
  { unfold PREV_PTR. now rewrite buffer_size_set_dframe. }
  rewrite Hprev.
  rewrite real_input_state_set_sims
    by (try exact Hp; apply PREV_PTR_nonneg; lia).
  rewrite Hold. unfold last_real.
  destruct resim; rewrite set_dframe_set_dframe; reflexivity.
Qed.

(** The loop over the players, from a session that differs from [np] in
    the simulated input of the slot only. *)
Lemma simulate_fold (np : netplay_t) (sim_ptr : Z) (resim : bool) :
  0 <= sim_ptr < buffer_size np ->
  forall (ps : list Z) (sims : list (list Z)),
    NoDup ps ->
    (forall p, In p ps -> 0 <= p < Z.of_nat (length sims)) ->
    (forall p, In p ps -> words_at sims p = old_sim np sim_ptr p) ->
    exists sims',
      fold_left (simulate_step sim_ptr resim) ps
        (set_dframe np sim_ptr (set_simulated_input_state sims (dframe_at np sim_ptr)))
      = set_dframe np sim_ptr (set_simulated_input_state sims' (dframe_at np sim_ptr)) /\
      length sims' = length sims /\
      (forall p, In p ps -> words_at sims' p = sim_target np sim_ptr resim p) /\
      (forall p, 0 <= p -> ~ In p ps -> words_at sims' p = words_at sims p).
Proof.
  intros Hp ps.
  induction ps as [| q ps IH]; intros sims Hnd Hrange Hold.
  - exists sims. simpl.
    split; [reflexivity |]. split; [reflexivity |].
    split; [intros p [] | reflexivity].
  - apply NoDup_cons in Hnd as [Hq Hnd].
    assert (Hq0 : 0 <= q < Z.of_nat (length sims)) by (apply Hrange; now left).
    simpl fold_left.
    rewrite simulate_step_on; [| exact Hp | lia | apply Hold; now left].
    set (sims1 := if sim_eligible np sim_ptr q
                  then aset sims q (sim_target np sim_ptr resim q) else sims).
    assert (Hlen1 : length sims1 = length sims).
    { unfold sims1. destruct (sim_eligible np sim_ptr q); [apply length_aset | reflexivity]. }
    assert (Hother : forall p, 0 <= p -> p <> q -> words_at sims1 p = words_at sims p).
    { intros p Hp0 Hne. unfold sims1, words_at.
      destruct (sim_eligible np sim_ptr q); [| reflexivity].
      apply aget_aset_ne; lia. }
    assert (Hq1 : words_at sims1 q = sim_target np sim_ptr resim q).
    { unfold sims1. unfold sim_target at 2.
      destruct (sim_eligible np sim_ptr q) eqn:He.
      - unfold words_at at 1. rewrite aget_aset_eq by exact Hq0.
        unfold sim_target. rewrite He. reflexivity.
      - apply Hold. now left. }
    destruct (IH sims1 Hnd) as (sims' & Hfold & Hlen & Hin & Hout).
    + intros p Hin. rewrite Hlen1. apply Hrange. now right.
    + intros p Hin.
      rewrite Hother.
      * apply Hold. now right.
      * apply Hrange. now right.
      * intros ->. apply Hq. apply list_elem_of_In. exact Hin.
    + exists sims'. split; [exact Hfold |]. split; [congruence |]. split.
      * intros p [<- | Hinp]; [| now apply Hin].
        rewrite Hout; [exact Hq1 | lia |].
        intros Hinq. apply Hq. apply list_elem_of_In. exact Hinq.
      * intros p Hp0 Hnin.
        rewrite Hout; [| exact Hp0 | intros H; apply Hnin; now right].
        apply Hother; [exact Hp0 |].
        intros ->. apply Hnin. now left.
Qed.

(** The arrays of a slot have [MAX_USERS] players of [WORDS_PER_INPUT]
    words. *)
Definition words_ok (l : list (list Z)) : bool :=
  (length l =? Z.to_nat MAX_USERS)%nat &&
  forallb (fun w => (length w =? Z.to_nat WORDS_PER_INPUT)%nat) l.

Definition frame_ok (d : delta_frame) : bool :=
  words_ok (real_input_state d) && words_ok (simulated_input_state d) &&
  (length (have_real d) =? Z.to_nat MAX_USERS)%nat &&
  (length (self_state d) =? Z.to_nat WORDS_PER_INPUT)%nat.

Lemma words_ok_length (l : list (list Z)) :
  words_ok l = true -> length l = Z.to_nat MAX_USERS.
Proof.
  unfold words_ok. intros H. apply andb_prop in H as [H _].
  now apply Nat.eqb_eq in H.
Qed.

Lemma words_ok_words (l : list (list Z)) (p : Z) :
  words_ok l = true -> 0 <= p < MAX_USERS ->
  length (words_at l p) = Z.to_nat WORDS_PER_INPUT.
Proof.
  unfold words_ok. intros H Hp. apply andb_prop in H as [Hl Hall].
  apply Nat.eqb_eq in Hl.
  rewrite forallb_forall in Hall.
  unfold words_at.
  pose proof (aget_in_range [] l p) as Hget.
  rewrite Hl in Hget. specialize (Hget ltac:(lia)).
  apply Nat.eqb_eq, Hall.
  apply list_elem_of_In, list_elem_of_lookup. eauto.
Qed.

Lemma frame_ok_at (np : netplay_t) (ptr : Z) :
  forallb frame_ok (buffer np) = true -> 0 <= ptr < buffer_size np ->
  frame_ok (dframe_at np ptr) = true.
Proof.
  intros Hall Hp. rewrite forallb_forall in Hall. apply Hall.
  unfold dframe_at.
  pose proof (aget_in_range no_frame (buffer np) ptr Hp) as Hget.
  apply list_elem_of_In, list_elem_of_lookup. eauto.
Qed.

Lemma testbit_one (m : Z) : Z.testbit 1 m = (m =? 0).
Proof. destruct m as [| m | m]; try reflexivity; destruct m; reflexivity. Qed.

Lemma testbit_button (k n : Z) : 0 <= k -> 0 <= n -> Z.testbit (Z.shiftl 1 k) n = (n =? k).
Proof.
  intros Hk Hn. rewrite Z.shiftl_spec by exact Hn. rewrite testbit_one.
  destruct (Z.eqb_spec (n - k) 0), (Z.eqb_spec n k); lia || reflexivity.
Qed.

Lemma testbit_direction_mask (n : Z) :
  0 <= n -> Z.testbit direction_mask n = is_direction n.
Proof.
  intros Hn. destruct joypad_ids_nonneg as (Hu & Hd & Hl & Hr).
  unfold direction_mask, is_direction.
  rewrite !Z.lor_spec, !testbit_button by assumption.
  reflexivity.
Qed.

(** Bit by bit, the word a resimulation leaves: the direction bits of the
    simulated word, every other bit of the real word. *)
Lemma resim_word_bits (sim real n : Z) :
  0 <= n ->
  Z.testbit (Z.lor (Z.land sim direction_mask) (Z.land real (Z.lnot direction_mask))) n
  = if is_direction n then Z.testbit sim n else Z.testbit real n.
Proof.
  intros Hn.
  rewrite Z.lor_spec, !Z.land_spec, Z.lnot_spec by exact Hn.
  rewrite testbit_direction_mask by exact Hn.
  destruct (is_direction n), (Z.testbit sim n), (Z.testbit real n); reflexivity.
Qed.

(** C4 (as amended).  [netplay_simulate_input] changes the simulated input
    of the slot and nothing else.  A player that is not connected, or whose
    real input the slot has, keeps their simulated input.  For the others,
    a first simulation copies the W words of the last real input received
    from the player (the slot before their read pointer); a resimulation
    rewrites word 0 only, keeping its direction bits UP, DOWN, LEFT and
    RIGHT as they were simulated and taking every other bit (the buttons)
    from that real input. *)
Theorem netplay_simulate_input_players (np : netplay_t) (sim_ptr : Z) (resim : bool) :
  0 <= sim_ptr < buffer_size np ->
  forallb frame_ok (buffer np) = true ->
  let np' := netplay_simulate_input np sim_ptr resim in
  np' = set_dframe np sim_ptr
          (set_simulated_input_state (simulated_input_state (dframe_at np' sim_ptr))
             (dframe_at np sim_ptr)) /\
  forall p, 0 <= p < MAX_USERS ->
    let new := words_at (simulated_input_state (dframe_at np' sim_ptr)) p in
    (sim_eligible np sim_ptr p = false -> new = old_sim np sim_ptr p) /\
    (sim_eligible np sim_ptr p = true -> resim = false -> new = last_real np p) /\
    (sim_eligible np sim_ptr p = true -> resim = true ->
       (forall n, 0 <= n ->
          Z.testbit (word_at new 0) n =
          if is_direction n then Z.testbit (word_at (old_sim np sim_ptr p) 0) n
          else Z.testbit (word_at (last_real np p) 0) n) /\
       (forall i, 0 < i -> word_at new i = word_at (old_sim np sim_ptr p) i) /\
       length new = length (old_sim np sim_ptr p)).
Proof.
  intros Hp Hok. cbn zeta.
  pose proof (frame_ok_at np sim_ptr Hok Hp) as Hd.
  unfold frame_ok in Hd.
  apply andb_prop in Hd as [Hd _]. apply andb_prop in Hd as [Hd _].
  apply andb_prop in Hd as [_ Hsims].
  pose proof (words_ok_length _ Hsims) as Hlen.
  destruct (simulate_fold np sim_ptr resim Hp players
              (simulated_input_state (dframe_at np sim_ptr)))
    as (sims' & Hfold & Hlen' & Hin & _).
  { change players with (map Z.of_nat (seq 0 (Z.to_nat MAX_USERS))).
    apply NoDup_fmap_2; [intros a b; lia | apply NoDup_seq]. }
  { intros p Hinp. apply in_players in Hinp. rewrite Hlen. change MAX_USERS with 16 in *. lia. }
  { reflexivity. }
  assert (Hself : set_dframe np sim_ptr
                    (set_simulated_input_state
                       (simulated_input_state (dframe_at np sim_ptr)) (dframe_at np sim_ptr))
                  = np).
  { unfold set_dframe, aset, dframe_at.
    replace (set_simulated_input_state _ _)
      with (aget no_frame (buffer np) sim_ptr)
      by (destruct (aget no_frame (buffer np) sim_ptr); reflexivity).
    rewrite list_insert_id; [apply set_buffer_same |].
    apply aget_in_range. exact Hp. }
  unfold netplay_simulate_input.
  rewrite Hself in Hfold. rewrite Hfold.
  rewrite dframe_at_set_dframe_eq by exact Hp.
  cbn [simulated_input_state set_simulated_input_state].
  split; [reflexivity |].
  intros p Hrange.
  rewrite (Hin p (proj2 (in_players p) Hrange)).
  unfold sim_target.
  split; [| split].
  - intros ->. reflexivity.
  - intros -> ->.
    assert (Hprev : 0 <= PREV_PTR np (aget 0 (read_ptr np) p) < buffer_size np)
      by (apply Z.mod_pos_bound; lia).
    pose proof (frame_ok_at np _ Hok Hprev) as Hpf.
    unfold frame_ok in Hpf.
    apply andb_prop in Hpf as [Hpf _]. apply andb_prop in Hpf as [Hpf _].
    apply andb_prop in Hpf as [Hreal _].
    pose proof (words_ok_words _ p Hreal Hrange) as Hl1.
    pose proof (words_ok_words _ p Hsims Hrange) as Hl2.
    fold (last_real np p) in Hl1. fold (old_sim np sim_ptr p) in Hl2.
    rewrite take_ge by lia. rewrite drop_ge by lia. apply app_nil_r.
  - intros -> ->.
    pose proof (words_ok_words _ p Hsims Hrange) as Hl2.
    fold (old_sim np sim_ptr p) in Hl2.
    change (Z.to_nat WORDS_PER_INPUT) with 3%nat in Hl2.
    split; [| split].
    + intros n Hn. unfold word_at at 1.
      rewrite aget_aset_eq by lia.
      apply resim_word_bits. exact Hn.
    + intros i Hi. unfold word_at. apply aget_aset_ne; lia.
    + apply length_aset.
Qed.

End SimulateInput.

(** The claim as written: a resimulation would copy the direction bits of
    the real word and keep the other bits of the simulated word. *)
Definition resim_word_as_claimed {hdr : netplay_private_h} (sim real : Z) : Z :=
  Z.lor (Z.land real direction_mask) (Z.land sim (Z.lnot direction_mask)).

(** Player 0 is connected and has been read up to slot 2; the last real
    input, in slot 1, is UP (bit 4); slot 2 has no real input and a
    simulated input with button A (bit 8). *)
Definition resim_session : netplay_t :=
  set_buffer
    [ sample_frame true 3;
      set_real_input_state ([16; 0; 0] :: repeat [0; 0; 0] 15) (sample_frame true 4);
      set_simulated_input_state ([256; 0; 0] :: repeat [0; 0; 0] 15) (sample_frame true 5) ]
    (sample_session false [] 1).

(** C4, the counterexample: the claim would leave UP and A (272) in the
    resimulated word; the code leaves neither, since the simulated word has
    no direction bit and the real word has no button. *)
Lemma netplay_simulate_input_counterexample :
  let np' := netplay_simulate_input (hdr := sample_header) resim_session 2 true in
  sim_eligible resim_session 2 0 = true /\
  word_at (old_sim resim_session 2 0) 0 = 256 /\
  word_at (last_real resim_session 0) 0 = 16 /\
  resim_word_as_claimed (hdr := sample_header) 256 16 = 272 /\
  word_at (words_at (simulated_input_state (dframe_at np' 2)) 0) 0 = 0 /\
  word_at (words_at (simulated_input_state (dframe_at np' 2)) 0) 0
    <> resim_word_as_claimed (hdr := sample_header) 256 16.
Proof. vm_compute. repeat split; congruence. Qed.

(** The theorem at that session: button A (bit 8) of the resimulated word
    is the one of the real input, and the UP bit (4) the simulated one. *)
Lemma netplay_simulate_input_players_witness :
  let new := words_at (simulated_input_state
                         (dframe_at (netplay_simulate_input (hdr := sample_header)
                                       resim_session 2 true) 2)) 0 in
  Z.testbit (word_at new 0) 8 = Z.testbit (word_at (last_real resim_session 0) 0) 8 /\
  Z.testbit (word_at new 0) 4 = Z.testbit (word_at (old_sim resim_session 2 0) 0) 4.
Proof.
  cbn zeta.
  destruct (netplay_simulate_input_players (hdr := sample_header) resim_session 2 true)
    as [_ H]; [vm_compute; split; congruence | reflexivity |].
  destruct (H 0 ltac:(vm_compute; split; congruence)) as (_ & _ & Hre).
  destruct (Hre eq_refl eq_refl) as (Hbits & _ & _).
  split.
  - exact (Hbits 8 ltac:(lia)).
  - exact (Hbits 4 ltac:(lia)).
Defined.

(** ** The connection table *)

Lemma conn_set_conn_eq (np : netplay_t) (c : nat) (x : netplay_connection) :
  (c < length (connections np))%nat -> conn (set_conn np c x) c = x.
Proof.
  intros Hc. unfold conn, set_conn. cbn.
  rewrite list_lookup_insert_eq by exact Hc. reflexivity.
Qed.

Lemma conn_set_conn_ne (np : netplay_t) (c j : nat) (x : netplay_connection) :
  c <> j -> conn (set_conn np c x) j = conn np j.
Proof.
  intros Hne. unfold conn, set_conn. cbn.
  rewrite list_lookup_insert_ne by exact Hne. reflexivity.
Qed.

Lemma conn_lookup (np : netplay_t) (c : nat) (cn : netplay_connection) :
  connections np !! c = Some cn -> conn np c = cn.
Proof. intros H. unfold conn. rewrite H. reflexivity. Qed.

Lemma lookup_conn (np : netplay_t) (c : nat) :
  (c < length (connections np))%nat -> connections np !! c = Some (conn np c).
Proof.
  intros Hc. unfold conn.
  destruct (lookup_lt_is_Some_2 (connections np) c Hc) as [x ->]. reflexivity.
Qed.

Lemma set_conn_same (np : netplay_t) (c : nat) : set_conn np c (conn np c) = np.
Proof.
  unfold set_conn, conn.
  destruct (connections np !! c) as [cn |] eqn:E; simpl.
  - rewrite list_insert_id by exact E. apply set_connections_same.
  - rewrite list_insert_ge by (now apply lookup_ge_None). apply set_connections_same.
Qed.

Lemma set_conn_set_conn (np : netplay_t) (c : nat) (x y : netplay_connection) :
  set_conn (set_conn np c x) c y = set_conn np c y.
Proof.
  unfold set_conn, set_connections. cbn. rewrite list_insert_insert_eq. reflexivity.
Qed.

Lemma connections_set_conn_length (np : netplay_t) (c : nat) (x : netplay_connection) :
  length (connections (set_conn np c x)) = length (connections np).
Proof. unfold set_conn. cbn. apply length_insert. Qed.

(** A loop over the connection table that rewrites each connection in
    place, from what it was before the loop. *)
Lemma fold_connections (step : netplay_t -> nat -> netplay_t)
    (g : nat -> netplay_connection -> netplay_connection) (np : netplay_t) :
  (forall np' i cn,
      connections np !! i = Some cn -> connections np' !! i = Some cn ->
      step np' i = set_conn np' i (g i cn)) ->
  fold_left step (seq 0 (length (connections np))) np
  = set_connections (imap g (connections np)) np.
Proof.
  intros Hstep.
  set (cs := connections np).
  assert (Hgen : forall n, (n <= length cs)%nat ->
            fold_left step (seq 0 n) np
            = set_connections (imap g (take n cs) ++ drop n cs) np).
  { induction n as [| n IH]; intros Hn.
    - simpl. rewrite drop_0. symmetry. apply set_connections_same.
    - rewrite seq_S, fold_left_app, IH by lia. simpl.
      destruct (lookup_lt_is_Some_2 cs n ltac:(lia)) as [cn Hcn].
      assert (Hlen : length (imap g (take n cs)) = n)
        by (rewrite length_imap, length_take; lia).
      rewrite (Hstep _ n cn Hcn).
      + assert (Hins : <[n := g n cn]> (imap g (take n cs) ++ drop n cs)
                       = imap g (take (S n) cs) ++ drop (S n) cs).
        { rewrite insert_app_r_alt by lia.
          rewrite Hlen, Nat.sub_diag.
          rewrite (drop_S cs cn n Hcn). simpl.
          rewrite (take_S_r cs n cn Hcn).
          rewrite imap_app, length_take, Nat.min_l by lia.
          simpl. rewrite Nat.add_0_r, <- app_assoc. reflexivity. }
        unfold set_conn, set_connections. cbn. rewrite Hins. reflexivity.
      + cbn. rewrite lookup_app_r by lia.
        rewrite Hlen, Nat.sub_diag.
        rewrite (drop_S cs cn n Hcn). reflexivity. }
  rewrite (Hgen (length cs)) by lia.
  rewrite firstn_all, drop_all, app_nil_r. reflexivity.
Qed.

(** ** Sending on healthy sockets *)

(** The connection with [bytes] added to its send buffer. *)
Definition enqueue (cn : netplay_connection) (bytes : list Z) : netplay_connection :=
  set_send_packet_buffer
    (set_data (data (send_packet_buffer cn) ++ bytes) (send_packet_buffer cn)) cn.

(** [i] is not [except] and the connection is active and connected: the
    connections a broadcast reaches. *)
Definition hears (except : option nat) (i : nat) (cn : netplay_connection) : bool :=
  negb (is_except except i) && active cn && mode_ge_connected (mode cn).

(** A connection after [netplay_hangup]. *)
Definition hung_up (cn : netplay_connection) : netplay_connection :=
  set_recv_packet_buffer (netplay_deinit_socket_buffer (recv_packet_buffer cn))
    (set_send_packet_buffer (netplay_deinit_socket_buffer (send_packet_buffer cn))
       (set_active false (set_fd_open false cn))).

Section Sending.
Context {hdr : netplay_private_h} {env : netplay_env}.

(** A command on the wire: [cmd | size | payload]. *)
Definition cmd_bytes (cmd : netplay_cmd) (payload : list Z) : list Z :=
  htonl (cmd_code cmd) ++ htonl (u32 (Z.of_nat (length payload))) ++ payload.

Lemma netplay_send_ok (cn : netplay_connection) (buf : list Z) :
  send_fails cn = false -> netplay_send cn buf = (true, enqueue cn buf).
Proof. intros H. unfold netplay_send. rewrite H. reflexivity. Qed.

Lemma enqueue_enqueue (cn : netplay_connection) (a b : list Z) :
  enqueue (enqueue cn a) b = enqueue cn (a ++ b).
Proof. unfold enqueue. cbn. rewrite app_assoc. reflexivity. Qed.

Lemma netplay_send_raw_cmd_ok (np : netplay_t) (c : nat) (cmd : netplay_cmd)
    (payload : list Z) :
  send_fails (conn np c) = false ->
  netplay_send_raw_cmd np c cmd payload
  = (true, set_conn np c (enqueue (conn np c) (cmd_bytes cmd payload))).
Proof.
  intros H. unfold netplay_send_raw_cmd, cmd_bytes.
  rewrite netplay_send_ok by exact H.
  destruct payload as [| b payload].
  - cbn [length Z.of_nat Z.ltb Z.compare]. rewrite !app_nil_r. reflexivity.
  - replace (0 <? Z.of_nat (length (b :: payload))) with true
      by (symmetry; apply Z.ltb_lt; cbn [length]; lia).
    rewrite netplay_send_ok by exact H.
    rewrite enqueue_enqueue, <- app_assoc. reflexivity.
Qed.

Lemma netplay_send_raw_cmd_failed (np : netplay_t) (c : nat) (cmd : netplay_cmd)
    (payload : list Z) :
  send_fails (conn np c) = true -> netplay_send_raw_cmd np c cmd payload = (false, np).
Proof.
  intros H. unfold netplay_send_raw_cmd, netplay_send. rewrite H. reflexivity.
Qed.

(** A broadcast when no send fails: every connection that hears it gets
    the command, and nothing else changes. *)
Lemma send_raw_cmd_all_ok (hangup : netplay_t -> nat -> netplay_t) (np : netplay_t)
    (except : option nat) (cmd : netplay_cmd) (payload : list Z) :
  (forall i cn, connections np !! i = Some cn -> hears except i cn = true ->
                send_fails cn = false) ->
  send_raw_cmd_all_with hangup np except cmd payload
  = set_connections
      (imap (fun i cn => if hears except i cn
                         then enqueue cn (cmd_bytes cmd payload) else cn)
            (connections np)) np.
Proof.
  intros Hok. unfold send_raw_cmd_all_with.
  apply fold_connections.
  intros np' i cn Hcn Hcn'.
  rewrite (conn_lookup np' i cn Hcn').
  unfold hears in *. specialize (Hok i cn Hcn).
  destruct (is_except except i); cbn [negb andb] in *.
  - rewrite <- (conn_lookup np' i cn Hcn'). symmetry. apply set_conn_same.
  - destruct (active cn && mode_ge_connected (mode cn)) eqn:E.
    + rewrite netplay_send_raw_cmd_ok; rewrite (conn_lookup np' i cn Hcn'); auto.
    + rewrite <- (conn_lookup np' i cn Hcn'). symmetry. apply set_conn_same.
Qed.

End Sending.

(** ** Hanging up *)

(** [np'] has the connections of [np] that were inactive, as they were. *)
Definition spares_inactive (np np' : netplay_t) : Prop :=
  forall j, active (conn np j) = false -> conn np' j = conn np j.

Lemma spares_inactive_refl (np : netplay_t) : spares_inactive np np.
Proof. intros j _. reflexivity. Qed.

Lemma spares_inactive_trans (a b c : netplay_t) :
  spares_inactive a b -> spares_inactive b c -> spares_inactive a c.
Proof.
  intros Hab Hbc j Hj.
  rewrite Hbc; [now apply Hab |]. rewrite Hab; assumption.
Qed.

Lemma spares_inactive_set_conn (np : netplay_t) (i : nat) (x : netplay_connection) :
  active (conn np i) = true -> spares_inactive np (set_conn np i x).
Proof.
  intros Hi j Hj. apply conn_set_conn_ne. intros ->. congruence.
Qed.

Section HangUp.
Context {hdr : netplay_private_h} {env : netplay_env}.

Lemma spares_inactive_send_raw_cmd (np : netplay_t) (i : nat) (cmd : netplay_cmd)
    (payload : list Z) :
  active (conn np i) = true ->
  spares_inactive np (snd (netplay_send_raw_cmd np i cmd payload)).
Proof.
  intros Hi. unfold netplay_send_raw_cmd, netplay_send.
  destruct (send_fails (conn np i)); cbn [snd]; [apply spares_inactive_refl |].
  cbn [send_fails set_send_packet_buffer].
  destruct (send_fails (conn np i)), (0 <? Z.of_nat (length payload)); cbn [snd];
    now apply spares_inactive_set_conn.
Qed.

Lemma spares_inactive_fold (step : netplay_t -> nat -> netplay_t) (l : list nat)
    (np : netplay_t) :
  (forall np' i, spares_inactive np' (step np' i)) ->
  spares_inactive np (fold_left step l np).
Proof.
  intros Hstep. revert np.
  induction l as [| i l IH]; intros np; simpl.
  - apply spares_inactive_refl.
  - eapply spares_inactive_trans; [apply Hstep | apply IH].
Qed.

Lemma spares_inactive_send_raw_cmd_all (hangup : netplay_t -> nat -> netplay_t)
    (np : netplay_t) (except : option nat) (cmd : netplay_cmd) (payload : list Z) :
  (forall np' i, spares_inactive np' (hangup np' i)) ->
  spares_inactive np (send_raw_cmd_all_with hangup np except cmd payload).
Proof.
  intros Hh. unfold send_raw_cmd_all_with.
  apply spares_inactive_fold.
  intros np' i.
  destruct (is_except except i); [apply spares_inactive_refl |].
  destruct (active (conn np' i)) eqn:Ha; cbn [andb]; [| apply spares_inactive_refl].
  destruct (mode_ge_connected (mode (conn np' i))); [| apply spares_inactive_refl].
  pose proof (spares_inactive_send_raw_cmd np' i cmd payload Ha) as Hs.
  destruct (netplay_send_raw_cmd np' i cmd payload) as [[|] np1]; cbn [snd] in Hs.
  - exact Hs.
  - eapply spares_inactive_trans; [exact Hs | apply Hh].
Qed.

(** One level of [netplay_hangup_depth], by cases. *)
Lemma netplay_hangup_depth_S (depth : nat) (np : netplay_t) (c : nat) :
  netplay_hangup_depth (S depth) np c
  = if active (conn np c) then
      if is_server np then
        if is_playing (mode (conn np c)) then
          send_raw_cmd_all_with (netplay_hangup_depth depth)
            (set_connected_players
               (clear_bit (connected_players np) (player (conn np c)))
               (set_conn np c (hung_up (conn np c))))
            (Some c) NETPLAY_CMD_MODE
            (mode_payload (aget 0 (read_frame_count np) (player (conn np c)))
               (player (conn np c)))
        else set_conn np c (hung_up (conn np c))
      else
        set_connected_players 0
          (set_self_mode NETPLAY_CONNECTION_NONE (set_conn np c (hung_up (conn np c))))
    else np.
Proof.
  cbn [netplay_hangup_depth].
  destruct (active (conn np c)); [| reflexivity].
  cbv zeta. cbn [negb].
  change (is_server (set_conn np c ?x)) with (is_server np).
  change (is_server (set_connected_players ?v (set_conn np c ?x))) with (is_server np).
  destruct (is_server np); [| reflexivity].
  cbn [negb].
  change (mode (set_recv_packet_buffer ?a (set_send_packet_buffer ?b
            (set_active false (set_fd_open false (conn np c))))))
    with (mode (conn np c)).
  destruct (is_playing (mode (conn np c))); reflexivity.
Qed.

(** A hang-up, nested ones included, leaves the inactive connections
    alone. *)
Lemma spares_inactive_hangup_depth (depth : nat) (np : netplay_t) (c : nat) :
  spares_inactive np (netplay_hangup_depth depth np c).
Proof.
  revert np c.
  induction depth as [| depth IH]; intros np c.
  - apply spares_inactive_refl.
  - rewrite netplay_hangup_depth_S.
    destruct (active (conn np c)) eqn:Ha; [| apply spares_inactive_refl].
    pose proof (spares_inactive_set_conn np c (hung_up (conn np c)) Ha) as H1.
    destruct (is_server np).
    + destruct (is_playing (mode (conn np c))).
      * eapply spares_inactive_trans; [exact H1 |].
        eapply spares_inactive_trans;
          [| apply spares_inactive_send_raw_cmd_all; intros; apply IH].
        intros j Hj. reflexivity.
      * exact H1.
    + eapply spares_inactive_trans; [exact H1 |]. intros j Hj. reflexivity.
Qed.

Lemma active_hung_up_implies_range (np : netplay_t) (c : nat) :
  active (conn np c) = true -> (c < length (connections np))%nat.
Proof.
  intros Ha. unfold conn in Ha.
  destruct (connections np !! c) as [cn |] eqn:E; [| discriminate Ha].
  apply lookup_lt_Some in E. exact E.
Qed.

(** The connection that is hung up ends closed, inactive and without
    buffers, whatever the nested hang-ups do. *)
Lemma conn_netplay_hangup (np : netplay_t) (c : nat) :
  active (conn np c) = true ->
  conn (netplay_hangup np c) c = hung_up (conn np c).
Proof.
  intros Ha. unfold netplay_hangup. rewrite netplay_hangup_depth_S, Ha.
  pose proof (active_hung_up_implies_range np c Ha) as Hr.
  destruct (is_server np).
  - destruct (is_playing (mode (conn np c))).
    + rewrite spares_inactive_send_raw_cmd_all.
      * change (conn (set_connected_players ?v ?x) c) with (conn x c).
        now apply conn_set_conn_eq.
      * intros. apply spares_inactive_hangup_depth.
      * change (conn (set_connected_players ?v ?x) c) with (conn x c).
        rewrite conn_set_conn_eq by exact Hr. reflexivity.
    + now apply conn_set_conn_eq.
  - change (conn (set_connected_players ?v (set_self_mode ?m ?x)) c) with (conn x c).
    now apply conn_set_conn_eq.
Qed.

(** After [netplay_hangup] the connection is inactive, whether it was
    active or not. *)
Lemma active_netplay_hangup (np : netplay_t) (c : nat) :
  active (conn (netplay_hangup np c) c) = false.
Proof.
  destruct (active (conn np c)) eqn:Ha.
  - rewrite conn_netplay_hangup by exact Ha. reflexivity.
  - unfold netplay_hangup. rewrite netplay_hangup_depth_S, Ha. exact Ha.
Qed.

(** The MODE command that tells the others that the player of [cn] has
    left: the frame their input ends at and their number, no flag. *)
Definition left_bytes (np : netplay_t) (cn : netplay_connection) : list Z :=
  cmd_bytes NETPLAY_CMD_MODE
    (mode_payload (aget 0 (read_frame_count np) (player cn)) (player cn)).

(** C8 (as amended).  [netplay_hangup] on an inactive connection changes
    nothing.  On an active one it closes the socket, marks the connection
    inactive and releases its two packet buffers; on a client it also sets
    [self_mode] to NONE and empties [connected_players]; on a server whose
    peer was PLAYING it clears the peer's bit in [connected_players] and,
    the sockets of the others accepting it, queues
    MODE(read_frame_count[player], player) on every other connection that
    is active and connected, and on no other: a connection that is
    inactive or still in the handshake is told nothing; nothing else
    changes. *)
Theorem netplay_hangup_effects (np : netplay_t) (c : nat) :
  let cn := conn np c in
  let np' := netplay_hangup np c in
  (active cn = false -> np' = np) /\
  (active cn = true ->
   (conn np' c = hung_up cn /\
    fd_open (conn np' c) = false /\ active (conn np' c) = false /\
    allocated (send_packet_buffer (conn np' c)) = false /\
    allocated (recv_packet_buffer (conn np' c)) = false) /\
   (is_server np = false ->
    np' = set_connected_players 0
            (set_self_mode NETPLAY_CONNECTION_NONE (set_conn np c (hung_up cn)))) /\
   (is_server np = true -> is_playing (mode cn) = false ->
    np' = set_conn np c (hung_up cn)) /\
   (is_server np = true -> is_playing (mode cn) = true ->
    (forall j, j <> c -> hears None j (conn np j) = true ->
               send_fails (conn np j) = false) ->
    connected_players np' = clear_bit (connected_players np) (player cn) /\
    (forall j, j <> c ->
       conn np' j = if hears None j (conn np j)
                    then enqueue (conn np j) (left_bytes np cn) else conn np j) /\
    np' = set_connections (connections np')
            (set_connected_players (connected_players np') np))).
Proof.
  cbn zeta.
  split.
  - intros Ha. unfold netplay_hangup. rewrite netplay_hangup_depth_S, Ha. reflexivity.
  - intros Ha.
    pose proof (conn_netplay_hangup np c Ha) as Hc.
    split; [| split; [| split]].
    + rewrite Hc. repeat split.
    + intros Hs. unfold netplay_hangup. rewrite netplay_hangup_depth_S, Ha, Hs.
      reflexivity.
    + intros Hs Hp. unfold netplay_hangup. rewrite netplay_hangup_depth_S, Ha, Hs, Hp.
      reflexivity.
    + intros Hs Hp Hok. unfold netplay_hangup.
      rewrite netplay_hangup_depth_S, Ha, Hs, Hp.
      rewrite send_raw_cmd_all_ok.
      * cbn [connected_players set_connections set_connected_players set_conn connections].
        split; [reflexivity |]. split; [| reflexivity].
        intros j Hj. unfold conn at 1.
        cbn [connections set_connections].
        rewrite list_lookup_imap, list_lookup_insert_ne by congruence.
        unfold left_bytes, hears, conn.
        destruct (connections np !! j) as [x |]; cbn [fmap option_fmap option_map default].
        -- unfold is_except. destruct (Nat.eqb_spec j c); [congruence | reflexivity].
        -- reflexivity.
      * intros i cn' Hi Hh.
        cbn [connections set_connected_players set_conn set_connections] in Hi.
        destruct (Nat.eq_dec i c) as [-> | Hne].
        -- unfold hears, is_except in Hh. rewrite Nat.eqb_refl in Hh. discriminate Hh.
        -- rewrite list_lookup_insert_ne in Hi by congruence.
           rewrite <- (conn_lookup np i cn' Hi).
           apply Hok; [exact Hne |].
           rewrite (conn_lookup np i cn' Hi).
           unfold hears, is_except in *.
           destruct (Nat.eqb_spec i c); [congruence | exact Hh].
Qed.

End HangUp.

(** A server with three peers: connection 0 plays as player 1, connection 1
    watches, connection 2 is still in the handshake. *)
Definition three_peer_server : netplay_t :=
  sample_session true
    [ sample_connection 7 NETPLAY_CONNECTION_PLAYING 1 [];
      sample_connection 8 NETPLAY_CONNECTION_SPECTATING 0 [];
      sample_connection 9 NETPLAY_CONNECTION_PRE_SYNC 0 [] ] 2.

(** The theorem at that server, when connection 0 is hung up: player 1 is
    no longer connected, the spectator is told MODE(5, 1), the peer in the
    handshake is told nothing. *)
Lemma netplay_hangup_effects_witness :
  let np' := netplay_hangup (hdr := sample_header) three_peer_server 0 in
  connected_players np' = 0 /\
  active (conn np' 0) = false /\
  data (send_packet_buffer (conn np' 1))
    = [0; 0; 0; 37; 0; 0; 0; 8; 0; 0; 0; 5; 0; 0; 0; 1] /\
  conn np' 2 = conn three_peer_server 2.
Proof.
  cbn zeta.
  pose proof (netplay_hangup_effects (hdr := sample_header) three_peer_server 0)
    as [_ H].
  destruct (H eq_refl) as ((_ & _ & Hact & _) & _ & _ & Hplay).
  destruct (Hplay eq_refl eq_refl) as (Hcp & Hothers & _).
  { intros [| [| [| j]]] Hne Hh; try reflexivity; try congruence.
    vm_compute in Hh. discriminate Hh. }
  rewrite Hcp, Hact, (Hothers 1%nat), (Hothers 2%nat) by discriminate.
  vm_compute. repeat split.
Defined.

(** C8, the counterexample: connection 2 of that server remains, active
    and on a sound socket, when the playing connection 0 is hung up, and
    it is not sent the MODE command that connection 1 is sent: it is
    still in the handshake. *)
Lemma netplay_hangup_counterexample :
  let np' := netplay_hangup (hdr := sample_header) three_peer_server 0 in
  is_server three_peer_server = true /\
  is_playing (mode (conn three_peer_server 0)) = true /\
  active (conn np' 2) = true /\ send_fails (conn np' 2) = false /\
  data (send_packet_buffer (conn np' 2)) = [] /\
  data (send_packet_buffer (conn np' 1))
  = [0; 0; 0; 37; 0; 0; 0; 8; 0; 0; 0; 5; 0; 0; 0; 1].
Proof. vm_compute. repeat split. Qed.

(** ** The wire *)

Lemma ntohl_htonl (x : Z) : 0 <= x < UINT32_MOD -> ntohl (htonl x) = x.
Proof.
  unfold UINT32_MOD, ntohl, htonl. intros Hx. cbn [fold_left].
  change (2 ^ 32) with 4294967296 in Hx.
  change (2 ^ 24) with 16777216. change (2 ^ 16) with 65536. change (2 ^ 8) with 256.
  Z.div_mod_to_equations. lia.
Qed.

Lemma length_htonl (x : Z) : length (htonl x) = 4%nat.
Proof. reflexivity. Qed.

Lemma length_htonl_words (ws : list Z) : length (htonl_words ws) = (4 * length ws)%nat.
Proof.
  unfold htonl_words. induction ws as [| w ws IH]; [reflexivity |].
  cbn [map concat length]. rewrite length_app, IH, length_htonl. lia.
Qed.

Lemma ntohl_words_htonl_words (ws : list Z) (rest : list Z) :
  Forall (fun w => 0 <= w < UINT32_MOD) ws ->
  ntohl_words (length ws) (htonl_words ws ++ rest) = ws.
Proof.
  induction 1 as [| w ws Hw Hws IH]; [reflexivity |].
  unfold htonl_words. cbn [map concat length ntohl_words].
  rewrite <- app_assoc.
  rewrite (take_app_length' (htonl w)) by reflexivity.
  rewrite (drop_app_length' (htonl w)) by reflexivity.
  rewrite ntohl_htonl by exact Hw.
  f_equal. exact IH.
Qed.

(** ** Receiving *)

(** What [netplay_recv] would deliver next. *)
Definition at_cursor (cn : netplay_connection) : list Z :=
  drop (Z.to_nat (read (recv_packet_buffer cn))) (data (recv_packet_buffer cn)).

(** The receive side is sound, [bytes] are next in it and [rest] follows
    them. *)
Definition arrived (cn : netplay_connection) (bytes rest : list Z) : Prop :=
  recv_fails cn = false /\
  0 <= read (recv_packet_buffer cn) <= Z.of_nat (length (data (recv_packet_buffer cn))) /\
  at_cursor cn = bytes ++ rest.

(** The cursor moved [sz] bytes on. *)
Definition advance (cn : netplay_connection) (sz : Z) : netplay_connection :=
  set_recv_packet_buffer
    (set_read (read (recv_packet_buffer cn) + sz) (recv_packet_buffer cn)) cn.

Lemma advance_advance (cn : netplay_connection) (a b : Z) :
  advance (advance cn a) b = advance cn (a + b).
Proof. unfold advance. cbn. rewrite Z.add_assoc. reflexivity. Qed.

Lemma netplay_recv_ok (cn : netplay_connection) (bytes tail rest : list Z) :
  arrived cn (bytes ++ tail) rest ->
  netplay_recv cn (Z.of_nat (length bytes))
    = RECV_OK bytes (advance cn (Z.of_nat (length bytes))) /\
  arrived (advance cn (Z.of_nat (length bytes))) tail rest.
Proof.
  intros (Hf & Hr & Hcur).
  unfold netplay_recv. rewrite Hf.
  unfold at_cursor in Hcur.
  assert (Hlen : (Z.to_nat (read (recv_packet_buffer cn)) + length bytes
                  <= length (data (recv_packet_buffer cn)))%nat).
  { assert (Hl : length (drop (Z.to_nat (read (recv_packet_buffer cn)))
                           (data (recv_packet_buffer cn)))
                 = length ((bytes ++ tail) ++ rest)) by now rewrite Hcur.
    rewrite length_drop, !length_app in Hl. lia. }
  replace (read (recv_packet_buffer cn) + Z.of_nat (length bytes)
           <=? Z.of_nat (length (data (recv_packet_buffer cn)))) with true
    by (symmetry; apply Z.leb_le; lia).
  rewrite Nat2Z.id, Hcur, <- !app_assoc, take_app_length.
  split; [reflexivity |].
  split; [exact Hf |]. split; [cbn; lia |].
  unfold at_cursor, advance. cbn.
  rewrite Z2Nat.inj_add, Nat2Z.id by lia.
  rewrite <- drop_drop, Hcur, <- !app_assoc, drop_app_length. reflexivity.
Qed.

Lemma arrived_in_range (np : netplay_t) (c : nat) (bytes rest : list Z) :
  arrived (conn np c) bytes rest -> (c < length (connections np))%nat.
Proof.
  intros (Hf & _). unfold conn in Hf.
  destruct (connections np !! c) as [cn |] eqn:E; [| discriminate Hf].
  apply lookup_lt_Some in E. exact E.
Qed.

#[local] Instance netplay_cmd_eq_dec : EqDecision netplay_cmd.
Proof. solve_decision. Defined.

(** The session once the eight bytes of a command header are read: the
    cursor is past them and the stall counter is cleared. *)
Definition after_header (np : netplay_t) (c : nat) : netplay_t :=
  set_timeout_cnt 0 (set_conn np c (advance (conn np c) 8)).

Section Dispatch.
Context {hdr : netplay_private_h} {env : netplay_env}.

Lemma cmd_code_eqb (a b : netplay_cmd) :
  (cmd_code a =? cmd_code b) = bool_decide (a = b).
Proof.
  destruct (Z.eqb_spec (cmd_code a) (cmd_code b)) as [E | E].
  - apply cmd_code_inj in E. symmetry. now apply bool_decide_eq_true.
  - symmetry. apply bool_decide_eq_false. congruence.
Qed.

Lemma decode_cmd_code (k : netplay_cmd) : decode_cmd (cmd_code k) = Some k.
Proof.
  unfold decode_cmd, all_cmds. cbn [find].
  rewrite !cmd_code_eqb.
  destruct k; reflexivity.
Qed.

Lemma RECV_arrived (np : netplay_t) (c : nat) (bytes tail rest : list Z)
    (on_fail : outcome) (k : list Z -> netplay_t -> outcome) :
  arrived (conn np c) (bytes ++ tail) rest ->
  RECV np c (Z.of_nat (length bytes)) on_fail k
    = k bytes (set_conn np c (advance (conn np c) (Z.of_nat (length bytes)))) /\
  arrived (conn (set_conn np c (advance (conn np c) (Z.of_nat (length bytes)))) c)
    tail rest.
Proof.
  intros Hp.
  pose proof (arrived_in_range np c _ _ Hp) as Hr.
  destruct (netplay_recv_ok (conn np c) bytes tail rest Hp) as [Hrecv Hp'].
  unfold RECV. rewrite Hrecv.
  split; [reflexivity |].
  rewrite conn_set_conn_eq by exact Hr. exact Hp'.
Qed.

(** [netplay_get_cmd] on a connected peer whose command header has
    arrived: the dispatch on the command, then the end of the function. *)
Lemma netplay_get_cmd_header (np : netplay_t) (c : nat) (had : bool)
    (code size : Z) (tail rest : list Z) :
  mode_ge_connected (mode (conn np c)) = true ->
  arrived (conn np c) (htonl code ++ htonl size ++ tail) rest ->
  0 <= code < UINT32_MOD -> 0 <= size < UINT32_MOD ->
  netplay_get_cmd np c had = finish (dispatch (after_header np c) c code size) c had /\
  arrived (conn (after_header np c) c) tail rest.
Proof.
  intros Hm Hp Hcode Hsize.
  pose proof (arrived_in_range np c _ _ Hp) as Hr.
  destruct (RECV_arrived np c (htonl code) (htonl size ++ tail) rest
              (RETURN false np)
              (fun bytes1 np1 =>
                 RECV np1 c SZ32 (RETURN false np1) (fun bytes2 np2 =>
                   dispatch (set_timeout_cnt 0 np2) c (ntohl bytes1) (ntohl bytes2))) Hp)
    as [H1 Hp1].
  cbn beta in H1.
  set (np1 := set_conn np c (advance (conn np c) (Z.of_nat (length (htonl code))))) in *.
  destruct (RECV_arrived np1 c (htonl size) tail rest
              (RETURN false np1)
              (fun bytes2 np2 =>
                 dispatch (set_timeout_cnt 0 np2) c (ntohl (htonl code)) (ntohl bytes2)) Hp1)
    as [H2 Hp2].
  cbn beta in H2.
  assert (Hnp2 : set_conn np1 c (advance (conn np1 c) (Z.of_nat (length (htonl size))))
                 = set_conn np c (advance (conn np c) 8)).
  { unfold np1. rewrite conn_set_conn_eq by exact Hr.
    rewrite set_conn_set_conn, advance_advance. reflexivity. }
  rewrite Hnp2 in H2, Hp2.
  change (Z.of_nat (length (htonl code))) with SZ32 in H1.
  change (Z.of_nat (length (htonl size))) with SZ32 in H2.
  split.
  - unfold netplay_get_cmd, after_header.
    destruct (mode (conn np c)); try discriminate Hm;
      rewrite H1, H2, !ntohl_htonl by assumption; reflexivity.
  - exact Hp2.
Qed.

End Dispatch.

(** ** INPUT commands *)

(** The session once the command at the cursor of connection [c] is
    committed: [rest] is what is left in the receive buffer, and the stall
    counter is cleared. *)
Definition consumed (np : netplay_t) (c : nat) (rest : list Z) : netplay_t :=
  set_timeout_cnt 0
    (set_conn np c
       (set_recv_packet_buffer
          (mk_socket_buffer (allocated (recv_packet_buffer (conn np c))) rest 0)
          (conn np c))).

(** The player an INPUT command with second word [w] is for: on a server
    the player of the sending connection, which must be PLAYING; on a
    client the word without the server bit. *)
Definition input_player (np : netplay_t) (c : nat) (w : Z) : option Z :=
  if is_server np then
    if is_playing (mode (conn np c)) then Some (player (conn np c)) else None
  else Some (Z.land w (Z.lnot NETPLAY_CMD_INPUT_BIT_SERVER)).

(** The session once [n] bytes of a command, header included, are read:
    the cursor is past them and the stall counter is cleared. *)
Definition after_read (np : netplay_t) (c : nat) (n : Z) : netplay_t :=
  set_timeout_cnt 0 (set_conn np c (advance (conn np c) n)).

Section Input.
Context {hdr : netplay_private_h} {env : netplay_env}.

Lemma input_frame_bytes_header (f w s0 s1 s2 : Z) :
  input_frame_bytes f w [s0; s1; s2]
  = htonl (cmd_code NETPLAY_CMD_INPUT) ++ htonl (WORDS_PER_FRAME * SZ32) ++
    htonl_words [f; w; s0; s1; s2].
Proof.
  unfold input_frame_bytes, htonl_words. cbn [map concat].
  rewrite app_nil_r. reflexivity.
Qed.

(** The session right after the header and the [n] bytes of the payload
    are read. *)
Lemma conn_after_header (np : netplay_t) (c : nat) :
  (c < length (connections np))%nat ->
  conn (after_header np c) c = advance (conn np c) 8.
Proof.
  intros Hc. unfold after_header.
  change (conn (set_timeout_cnt 0 ?x) c) with (conn x c).
  now apply conn_set_conn_eq.
Qed.

Lemma set_conn_after_header (np : netplay_t) (c : nat) (x : netplay_connection) :
  set_conn (after_header np c) c x = set_timeout_cnt 0 (set_conn np c x).
Proof.
  unfold after_header, set_conn, set_timeout_cnt, set_connections. cbn.
  rewrite list_insert_insert_eq. reflexivity.
Qed.

Lemma finish_break (np : netplay_t) (c : nat) (had : bool) (x : netplay_connection)
    (rest : list Z) :
  (c < length (connections np))%nat ->
  at_cursor x = rest ->
  finish (BREAK (set_timeout_cnt 0 (set_conn np c x))) c had
  = Some (true, true,
          set_timeout_cnt 0
            (set_conn np c
               (set_recv_packet_buffer
                  (mk_socket_buffer (allocated (recv_packet_buffer x)) rest 0) x))).
Proof.
  intros Hc Hcur. unfold finish.
  change (conn (set_timeout_cnt 0 ?y) c) with (conn y c).
  rewrite conn_set_conn_eq by exact Hc.
  unfold netplay_recv_flush. fold (at_cursor x). rewrite Hcur.
  unfold set_conn, set_timeout_cnt, set_connections. cbn.
  rewrite list_insert_insert_eq. reflexivity.
Qed.

(** [netplay_get_cmd] on a connected peer whose whole INPUT command has
    arrived. *)
Lemma netplay_get_cmd_input_words (np : netplay_t) (c : nat) (had : bool)
    (f w s0 s1 s2 : Z) (rest : list Z) :
  mode_ge_connected (mode (conn np c)) = true ->
  arrived (conn np c) (input_frame_bytes f w [s0; s1; s2]) rest ->
  Forall (fun x => 0 <= x < UINT32_MOD) [f; w; s0; s1; s2] ->
  netplay_get_cmd np c had
    = finish (cmd_input_words (after_read np c 28) c [f; w; s0; s1; s2]) c had /\
  at_cursor (advance (conn np c) 28) = rest.
Proof.
  intros Hm Harr Hws.
  pose proof (arrived_in_range np c _ _ Harr) as Hc.
  rewrite input_frame_bytes_header in Harr.
  destruct (netplay_get_cmd_header np c had (cmd_code NETPLAY_CMD_INPUT)
              (WORDS_PER_FRAME * SZ32) (htonl_words [f; w; s0; s1; s2]) rest Hm Harr)
    as [Hget Harr1]; [apply cmd_code_range | vm_compute; split; congruence |].
  rewrite Hget. unfold dispatch. rewrite decode_cmd_code.
  unfold cmd_input. rewrite Z.eqb_refl. cbn [negb].
  rewrite <- (app_nil_r (htonl_words [f; w; s0; s1; s2])) in Harr1.
  destruct (RECV_arrived (after_header np c) c (htonl_words [f; w; s0; s1; s2]) [] rest
              (NAK (after_header np c) c)
              (fun bytes np0 =>
                 cmd_input_words np0 c (ntohl_words (Z.to_nat WORDS_PER_FRAME) bytes))
              Harr1) as [Hrecv Harr2].
  change (Z.of_nat (length (htonl_words [f; w; s0; s1; s2]))) with (WORDS_PER_FRAME * SZ32)
    in Hrecv, Harr2.
  rewrite Hrecv.
  rewrite conn_after_header in * by exact Hc.
  rewrite set_conn_after_header in *.
  rewrite advance_advance in *.
  change (8 + WORDS_PER_FRAME * SZ32) with 28 in *.
  fold (after_read np c 28) in *.
  rewrite <- (app_nil_r (htonl_words [f; w; s0; s1; s2])).
  change (Z.to_nat WORDS_PER_FRAME) with (length [f; w; s0; s1; s2]).
  rewrite ntohl_words_htonl_words by exact Hws.
  split; [reflexivity |].
  destruct Harr2 as (_ & _ & Hcur).
  unfold after_read in Hcur.
  change (conn (set_timeout_cnt 0 ?y) c) with (conn y c) in Hcur.
  rewrite conn_set_conn_eq in Hcur by exact Hc.
  exact Hcur.
Qed.

Lemma conn_after_read (np : netplay_t) (c : nat) (n : Z) :
  (c < length (connections np))%nat ->
  conn (after_read np c n) c = advance (conn np c) n.
Proof.
  intros Hc. unfold after_read.
  change (conn (set_timeout_cnt 0 ?x) c) with (conn x c).
  now apply conn_set_conn_eq.
Qed.

(** The INPUT command resolves to the same player once it is read. *)
Lemma input_player_after_read (np : netplay_t) (c : nat) (n w : Z) :
  (c < length (connections np))%nat ->
  input_player (after_read np c n) c w = input_player np c w.
Proof.
  intros Hc. unfold input_player.
  rewrite conn_after_read by exact Hc. reflexivity.
Qed.

Lemma cmd_input_words_resolved (np : netplay_t) (c : nat) (buf : list Z) (p : Z) :
  input_player np c (word_at buf 1) = Some p ->
  0 <= p < MAX_USERS -> has_bit (connected_players np) p = true ->
  cmd_input_words np c buf
  = if word_at buf 0 <? aget 0 (read_frame_count np) p then BREAK np
    else if aget 0 (read_frame_count np) p <? word_at buf 0 then NAK np c
    else
      match netplay_delta_frame_ready np (aget 0 (read_ptr np) p)
              (aget 0 (read_frame_count np) p) with
      | (false, np1) => NAK np1 c
      | (true, np1) => BREAK (cmd_input_store np1 c buf p (aget 0 (read_ptr np) p))
      end.
Proof.
  intros Hpl Hp Hbit.
  unfold cmd_input_words, input_player in *.
  destruct (is_server np).
  - destruct (is_playing (mode (conn np c))); [| discriminate Hpl].
    cbn [negb]. injection Hpl as ->.
    replace (MAX_USERS <=? p) with false by (symmetry; apply Z.leb_gt; lia).
    rewrite Hbit. reflexivity.
  - injection Hpl as Hpl. rewrite Hpl.
    replace (MAX_USERS <=? p) with false by (symmetry; apply Z.leb_gt; lia).
    rewrite Hbit. reflexivity.
Qed.

(** C7 (as amended).  A duplicate INPUT command (its frame is below
    [read_frame_count[p]] of the connected player [p] it resolves to) is
    committed and dropped: the command leaves the receive buffer of the
    connection and the stall counter [timeout_cnt] is cleared, and nothing
    else in the session changes: [read_ptr], [read_frame_count], the ring
    with [have_real] and [real_input_state], [server_ptr] and
    [server_frame_count] keep their values, every connection keeps its
    mode and stays active, and no send buffer receives anything. *)
Theorem netplay_get_cmd_duplicate_input (np : netplay_t) (c : nat) (had : bool)
    (f w s0 s1 s2 : Z) (rest : list Z) (p : Z) :
  mode_ge_connected (mode (conn np c)) = true ->
  arrived (conn np c) (input_frame_bytes f w [s0; s1; s2]) rest ->
  Forall (fun x => 0 <= x < UINT32_MOD) [f; w; s0; s1; s2] ->
  input_player np c w = Some p ->
  0 <= p < MAX_USERS -> has_bit (connected_players np) p = true ->
  f < aget 0 (read_frame_count np) p ->
  netplay_get_cmd np c had = Some (true, true, consumed np c rest) /\
  set_timeout_cnt (timeout_cnt np)
    (set_conn (consumed np c rest) c
       (set_recv_packet_buffer (recv_packet_buffer (conn np c))
          (conn (consumed np c rest) c))) = np /\
  read_ptr (consumed np c rest) = read_ptr np /\
  read_frame_count (consumed np c rest) = read_frame_count np /\
  buffer (consumed np c rest) = buffer np /\
  server_ptr (consumed np c rest) = server_ptr np /\
  server_frame_count (consumed np c rest) = server_frame_count np /\
  (forall j, active (conn (consumed np c rest) j) = active (conn np j) /\
             mode (conn (consumed np c rest) j) = mode (conn np j) /\
             send_packet_buffer (conn (consumed np c rest) j)
               = send_packet_buffer (conn np j)).
Proof.
  intros Hm Harr Hws Hpl Hp Hbit Hlt.
  pose proof (arrived_in_range np c _ _ Harr) as Hc.
  destruct (netplay_get_cmd_input_words np c had f w s0 s1 s2 rest Hm Harr Hws)
    as [Hget Hcur].
  split.
  - rewrite Hget.
    rewrite (cmd_input_words_resolved _ c _ p);
      [| rewrite input_player_after_read by exact Hc; exact Hpl | exact Hp | exact Hbit].
    change (word_at [f; w; s0; s1; s2] 0) with f.
    change (read_frame_count (after_read np c 28)) with (read_frame_count np).
    replace (f <? aget 0 (read_frame_count np) p) with true
      by (symmetry; apply Z.ltb_lt; exact Hlt).
    unfold after_read.
    rewrite (finish_break np c had _ rest Hc Hcur). reflexivity.
  - split; [| repeat split].
    + unfold consumed.
      change (conn (set_timeout_cnt 0 ?y) c) with (conn y c).
      rewrite conn_set_conn_eq by exact Hc.
      unfold set_conn, set_timeout_cnt, set_connections. cbn.
      rewrite list_insert_insert_eq.
      replace (set_recv_packet_buffer _ _) with (conn np c)
        by (destruct (conn np c); reflexivity).
      rewrite list_insert_id by (now apply lookup_conn).
      destruct np; reflexivity.
    + unfold consumed. change (conn (set_timeout_cnt 0 ?y) j) with (conn y j).
      destruct (Nat.eq_dec c j) as [<- | Hne].
      * rewrite conn_set_conn_eq by exact Hc. reflexivity.
      * rewrite conn_set_conn_ne by exact Hne. reflexivity.
    + unfold consumed. change (conn (set_timeout_cnt 0 ?y) j) with (conn y j).
      destruct (Nat.eq_dec c j) as [<- | Hne].
      * rewrite conn_set_conn_eq by exact Hc. reflexivity.
      * rewrite conn_set_conn_ne by exact Hne. reflexivity.
    + unfold consumed. change (conn (set_timeout_cnt 0 ?y) j) with (conn y j).
      destruct (Nat.eq_dec c j) as [<- | Hne].
      * rewrite conn_set_conn_eq by exact Hc. reflexivity.
      * rewrite conn_set_conn_ne by exact Hne. reflexivity.
Qed.

End Input.

(** Closes [Forall] of the 32-bit range on a list of literals. *)
Ltac words_in_range :=
  repeat (apply Forall_cons_2; [vm_compute; split; congruence |]); apply Forall_nil_2.

(** Closes [arrived] on a concrete connection. *)
Ltac has_arrived := vm_compute; repeat split; congruence.

(** A client that has read player 0 up to frame 5, has counted three
    polls without input, and now finds an INPUT for frame 3 of player 0 in
    the buffer of its connection. *)
Definition duplicate_input_client : netplay_t :=
  set_timeout_cnt 3
    (sample_session false
       [ sample_connection 7 NETPLAY_CONNECTION_SPECTATING 0
           (input_frame_bytes (hdr := sample_header) 3 0 [1; 0; 0]) ] 1).

(** C7, the counterexample: the duplicate is dropped, and the session is
    not what it was: the stall counter went from 3 to 0 (and the poll that
    called is told that input arrived). *)
Lemma netplay_get_cmd_duplicate_input_counterexample :
  exists np',
    netplay_get_cmd (hdr := sample_header) (env := sample_env true 0)
      duplicate_input_client 0 false = Some (true, true, np') /\
    timeout_cnt duplicate_input_client = 3 /\
    timeout_cnt np' = 0 /\
    np' <> duplicate_input_client.
Proof.
  eexists. split; [vm_compute; reflexivity |].
  split; [reflexivity |]. split; [reflexivity |].
  intros H. apply (f_equal timeout_cnt) in H. vm_compute in H. discriminate H.
Qed.

(** The theorem at that client. *)
Lemma netplay_get_cmd_duplicate_input_witness :
  netplay_get_cmd (hdr := sample_header) (env := sample_env true 0)
    duplicate_input_client 0 false
  = Some (true, true, consumed duplicate_input_client 0 []) /\
  read_frame_count (consumed duplicate_input_client 0 [])
  = read_frame_count duplicate_input_client.
Proof.
  destruct (netplay_get_cmd_duplicate_input (hdr := sample_header)
              (env := sample_env true 0) duplicate_input_client 0 false
              3 0 1 0 0 [] 0) as (Hget & _ & _ & Hrfc & _).
  - reflexivity.
  - has_arrived.
  - words_in_range.
  - reflexivity.
  - vm_compute. split; congruence.
  - reflexivity.
  - vm_compute. reflexivity.
  - split; [exact Hget | exact Hrfc].
Defined.

(** ** What sending and hanging up can change *)

(** [np'] is [np] but for the connection table, [connected_players] and
    [self_mode]. *)
Definition net_only (np np' : netplay_t) : Prop :=
  np' = set_self_mode (self_mode np')
          (set_connected_players (connected_players np')
             (set_connections (connections np') np)).

Lemma net_only_refl (np : netplay_t) : net_only np np.
Proof. destruct np; reflexivity. Qed.

Lemma net_only_trans (a b c : netplay_t) : net_only a b -> net_only b c -> net_only a c.
Proof.
  unfold net_only. intros Hab Hbc. rewrite Hbc. rewrite Hab. reflexivity.
Qed.

Lemma net_only_set_conn (np : netplay_t) (c : nat) (x : netplay_connection) :
  net_only np (set_conn np c x).
Proof. destruct np; reflexivity. Qed.

Lemma net_only_fold (step : netplay_t -> nat -> netplay_t) (l : list nat)
    (np : netplay_t) :
  (forall np' i, net_only np' (step np' i)) -> net_only np (fold_left step l np).
Proof.
  intros Hstep. revert np.
  induction l as [| i l IH]; intros np; simpl.
  - apply net_only_refl.
  - eapply net_only_trans; [apply Hstep | apply IH].
Qed.

(** The fields [net_only] keeps. *)
Lemma net_only_fields (np np' : netplay_t) :
  net_only np np' ->
  is_server np' = is_server np /\ buffer np' = buffer np /\
  read_ptr np' = read_ptr np /\ read_frame_count np' = read_frame_count np /\
  self_ptr np' = self_ptr np /\ self_frame_count np' = self_frame_count np /\
  server_ptr np' = server_ptr np /\ server_frame_count np' = server_frame_count np /\
  other_ptr np' = other_ptr np /\ other_frame_count np' = other_frame_count np /\
  force_rewind np' = force_rewind np /\
  savestate_request_outstanding np' = savestate_request_outstanding np /\
  timeout_cnt np' = timeout_cnt np /\ remote_paused np' = remote_paused np.
Proof. intros H. rewrite H. repeat split. Qed.

Section NetOnly.
Context {hdr : netplay_private_h} {env : netplay_env}.

Lemma net_only_send_raw_cmd (np : netplay_t) (c : nat) (cmd : netplay_cmd)
    (payload : list Z) :
  net_only np (snd (netplay_send_raw_cmd np c cmd payload)).
Proof.
  unfold netplay_send_raw_cmd.
  destruct (netplay_send (conn np c) _) as [[|] cn1]; cbn [snd];
    [| apply net_only_refl].
  destruct (0 <? Z.of_nat (length payload)); cbn [snd];
    [| apply net_only_set_conn].
  destruct (netplay_send cn1 payload) as [[|] cn2]; cbn [snd]; apply net_only_set_conn.
Qed.

Lemma net_only_send_raw_cmd_all (hangup : netplay_t -> nat -> netplay_t)
    (np : netplay_t) (except : option nat) (cmd : netplay_cmd) (payload : list Z) :
  (forall np' i, net_only np' (hangup np' i)) ->
  net_only np (send_raw_cmd_all_with hangup np except cmd payload).
Proof.
  intros Hh. unfold send_raw_cmd_all_with.
  apply net_only_fold. intros np' i.
  destruct (is_except except i); [apply net_only_refl |].
  destruct (active (conn np' i) && mode_ge_connected (mode (conn np' i)));
    [| apply net_only_refl].
  pose proof (net_only_send_raw_cmd np' i cmd payload) as Hs.
  destruct (netplay_send_raw_cmd np' i cmd payload) as [[|] np1]; cbn [snd] in Hs.
  - exact Hs.
  - eapply net_only_trans; [exact Hs | apply Hh].
Qed.

Lemma net_only_hangup_depth (depth : nat) (np : netplay_t) (c : nat) :
  net_only np (netplay_hangup_depth depth np c).
Proof.
  revert np c.
  induction depth as [| depth IH]; intros np c.
  - apply net_only_refl.
  - rewrite netplay_hangup_depth_S.
    destruct (active (conn np c)); [| apply net_only_refl].
    destruct (is_server np).
    + destruct (is_playing (mode (conn np c))).
      * eapply net_only_trans;
          [| apply net_only_send_raw_cmd_all; intros; apply IH].
        destruct np; reflexivity.
      * apply net_only_set_conn.
    + destruct np; reflexivity.
Qed.

Lemma net_only_hangup (np : netplay_t) (c : nat) : net_only np (netplay_hangup np c).
Proof. apply net_only_hangup_depth. Qed.

Lemma net_only_send_input_frame (np : netplay_t) (only except : option nat)
    (frm plr : Z) (st : list Z) :
  net_only np (snd (send_input_frame np only except frm plr st)).
Proof.
  unfold send_input_frame.
  destruct only as [o |].
  - destruct (netplay_send (conn np o) _) as [[|] cn1]; cbn [snd].
    + apply net_only_set_conn.
    + apply net_only_hangup.
  - cbn [snd]. apply net_only_fold. intros np' i.
    destruct (is_except except i); [apply net_only_refl |].
    destruct (active (conn np' i) && mode_ge_connected (mode (conn np' i)) &&
              (negb (is_playing (mode (conn np' i))) || negb (player (conn np' i) =? plr)));
      [| apply net_only_refl].
    destruct (netplay_send (conn np' i) _) as [[|] cn1].
    + apply net_only_set_conn.
    + apply net_only_hangup.
Qed.

Lemma net_only_cmd_nak (np : netplay_t) (c : nat) :
  net_only np (snd (netplay_cmd_nak np c)).
Proof. unfold netplay_cmd_nak. cbn [snd]. apply net_only_send_raw_cmd. Qed.

End NetOnly.

(** ** A well-formed session *)

(** Every slot has its arrays, every player a read pointer inside the ring
    and a read frame. *)
Definition session_ok (np : netplay_t) : bool :=
  forallb frame_ok (buffer np) &&
  (length (read_ptr np) =? Z.to_nat MAX_USERS)%nat &&
  (length (read_frame_count np) =? Z.to_nat MAX_USERS)%nat &&
  forallb (fun x => (0 <=? x) && (x <? buffer_size np)) (read_ptr np).

Lemma session_ok_parts (np : netplay_t) :
  session_ok np = true ->
  forallb frame_ok (buffer np) = true /\
  length (read_ptr np) = Z.to_nat MAX_USERS /\
  length (read_frame_count np) = Z.to_nat MAX_USERS /\
  (forall p, 0 <= p < MAX_USERS -> 0 <= aget 0 (read_ptr np) p < buffer_size np).
Proof.
  unfold session_ok. intros H.
  apply andb_prop in H as [H H4]. apply andb_prop in H as [H H3].
  apply andb_prop in H as [H1 H2].
  apply Nat.eqb_eq in H2. apply Nat.eqb_eq in H3.
  repeat split; try assumption.
  - rewrite forallb_forall in H4.
    pose proof (aget_in_range 0 (read_ptr np) p) as Hget.
    rewrite H2 in Hget. specialize (Hget ltac:(lia)).
    specialize (H4 (aget 0 (read_ptr np) p)).
    rewrite <- list_elem_of_In, list_elem_of_lookup in H4.
    specialize (H4 ltac:(eauto)). apply andb_prop in H4 as [Hl _].
    now apply Z.leb_le in Hl.
  - rewrite forallb_forall in H4.
    pose proof (aget_in_range 0 (read_ptr np) p) as Hget.
    rewrite H2 in Hget. specialize (Hget ltac:(lia)).
    specialize (H4 (aget 0 (read_ptr np) p)).
    rewrite <- list_elem_of_In, list_elem_of_lookup in H4.
    specialize (H4 ltac:(eauto)). apply andb_prop in H4 as [_ Hu].
    now apply Z.ltb_lt in Hu.
Qed.

Section Ready.
Context {hdr : netplay_private_h} {env : netplay_env}.

(** [netplay_delta_frame_ready] looks at the ring and the core only. *)
Lemma ready_after_read (np : netplay_t) (c : nat) (n ptr frm : Z) :
  netplay_delta_frame_ready (after_read np c n) ptr frm
  = (fst (netplay_delta_frame_ready np ptr frm),
     after_read (snd (netplay_delta_frame_ready np ptr frm)) c n).
Proof.
  unfold netplay_delta_frame_ready.
  change (dframe_at (after_read np c n) ptr) with (dframe_at np ptr).
  change (core_runs (after_read np c n)) with (core_runs np).
  change (state_size (after_read np c n)) with (state_size np).
  destruct (used (dframe_at np ptr) && (frame (dframe_at np ptr) =? frm));
    [reflexivity |].
  destruct (core_serialize (core_runs np) (state_size np)); reflexivity.
Qed.

(** A slot that was made ready. *)
Lemma ready_slot (np : netplay_t) (ptr frm : Z) :
  0 <= ptr < buffer_size np ->
  frame_ok (dframe_at np ptr) = true ->
  fst (netplay_delta_frame_ready np ptr frm) = true ->
  let np1 := snd (netplay_delta_frame_ready np ptr frm) in
  np1 = set_dframe np ptr (dframe_at np1 ptr) /\
  used (dframe_at np1 ptr) = true /\ frame (dframe_at np1 ptr) = frm /\
  real_input_state (dframe_at np1 ptr) = real_input_state (dframe_at np ptr) /\
  length (have_real (dframe_at np1 ptr)) = Z.to_nat MAX_USERS.
Proof.
  intros Hp Hok. unfold netplay_delta_frame_ready.
  assert (Hhr : length (have_real (dframe_at np ptr)) = Z.to_nat MAX_USERS).
  { unfold frame_ok in Hok.
    apply andb_prop in Hok as [Hok _]. apply andb_prop in Hok as [_ Hok].
    now apply Nat.eqb_eq in Hok. }
  destruct (used (dframe_at np ptr) && (frame (dframe_at np ptr) =? frm)) eqn:E.
  - intros _. cbn [snd].
    apply andb_prop in E as [Hu Hf]. apply Z.eqb_eq in Hf.
    repeat split; try assumption.
    unfold set_dframe, dframe_at, aset.
    rewrite list_insert_id by (apply aget_in_range; exact Hp).
    symmetry. apply set_buffer_same.
  - destruct (core_serialize (core_runs np) (state_size np)) as [st |];
      [| discriminate].
    intros _. cbn [snd].
    rewrite dframe_at_set_dframe_eq by exact Hp.
    repeat split.
Qed.

End Ready.

Section InputCases.
Context {hdr : netplay_private_h} {env : netplay_env}.

(** What storing an INPUT leaves in the ring and in the read pointers
    (the relay and the server pointer touch neither). *)
Lemma cmd_input_store_fields (np1 : netplay_t) (c : nat) (buf : list Z) (p ptr : Z) :
  let np' := cmd_input_store np1 c buf p ptr in
  let d := dframe_at np1 ptr in
  buffer np'
  = aset (buffer np1) ptr
      (set_have_real (aset (have_real d) p true)
         (set_real_input_state
            (aset (real_input_state d) p (take (Z.to_nat WORDS_PER_INPUT) (drop 2 buf)))
            d)) /\
  read_ptr np' = aset (read_ptr np1) p (NEXT_PTR np1 ptr) /\
  read_frame_count np'
  = aset (read_frame_count np1) p (u32 (aget 0 (read_frame_count np1) p + 1)).
Proof.
  cbn zeta. unfold cmd_input_store.
  set (d1 := set_have_real _ _).
  set (np4 := set_read_frame_count _ _).
  set (np5 := if is_server np4 && (frame d1 <=? self_frame_count np4)
              then _ else np4).
  assert (H5 : net_only np4 np5).
  { unfold np5. destruct (is_server np4 && (frame d1 <=? self_frame_count np4));
      [apply net_only_send_input_frame | apply net_only_refl]. }
  apply net_only_fields in H5 as (_ & Hb & Hrp & Hrf & _).
  assert (Hnext : NEXT_PTR (set_dframe np1 ptr d1) ptr = NEXT_PTR np1 ptr)
    by (unfold NEXT_PTR; now rewrite buffer_size_set_dframe).
  destruct (negb (is_server np5) && negb (_ =? 0));
    cbn [buffer read_ptr read_frame_count set_server_frame_count set_server_ptr];
    rewrite Hb, Hrp, Hrf; unfold np4; cbn; rewrite Hnext; auto.
Qed.

(** Committing a command leaves the ring and the read pointers alone. *)
Lemma finish_break_fields (x : netplay_t) (c : nat) (had : bool) :
  exists np',
    finish (BREAK x) c had = Some (true, true, np') /\
    buffer np' = buffer x /\ read_ptr np' = read_ptr x /\
    read_frame_count np' = read_frame_count x.
Proof. eexists. split; [reflexivity |]. repeat split. Qed.

Lemma after_read_fields (np : netplay_t) (c : nat) (n : Z) :
  buffer (after_read np c n) = buffer np /\
  read_ptr (after_read np c n) = read_ptr np /\
  read_frame_count (after_read np c n) = read_frame_count np /\
  buffer_size (after_read np c n) = buffer_size np.
Proof. repeat split. Qed.

(** C1 (as amended).  A connected peer's INPUT command whose payload is
    [(W+2)*4] bytes (the frame, the player word and W input words) and
    which resolves to a connected player [p] below [MAX_USERS] has one of
    these outcomes.  If its frame [f] is below [read_frame_count[p]] it is
    dropped.  If [f] is above, or if [f] is [read_frame_count[p]] and the
    slot at [read_ptr[p]] cannot be made ready, a NAK is sent, no read
    pointer, read frame or slot changes, and the poll that called hangs the
    connection up.  If [f] is [read_frame_count[p]] and the slot is ready,
    the input words are stored in [real_input_state[p]] of that slot,
    [have_real[p]] is set, and [read_ptr[p]] and [read_frame_count[p]] move
    on by one (around the ring, modulo 2^32), those of the other players
    staying. *)
Theorem netplay_get_cmd_input (np : netplay_t) (c : nat) (had : bool)
    (f w s0 s1 s2 : Z) (rest : list Z) (p : Z) :
  mode_ge_connected (mode (conn np c)) = true ->
  arrived (conn np c) (input_frame_bytes f w [s0; s1; s2]) rest ->
  Forall (fun x => 0 <= x < UINT32_MOD) [f; w; s0; s1; s2] ->
  input_player np c w = Some p ->
  0 <= p < MAX_USERS -> has_bit (connected_players np) p = true ->
  let rfc := aget 0 (read_frame_count np) p in
  let ptr := aget 0 (read_ptr np) p in
  (f < rfc -> netplay_get_cmd np c had = Some (true, true, consumed np c rest)) /\
  (rfc < f \/ (f = rfc /\ fst (netplay_delta_frame_ready np ptr rfc) = false) ->
   let np' := snd (netplay_cmd_nak (after_read np c 28) c) in
   netplay_get_cmd np c had = Some (false, had, np') /\
   (send_fails (conn np c) = false ->
    data (send_packet_buffer (conn np' c))
    = data (send_packet_buffer (conn np c)) ++ cmd_bytes NETPLAY_CMD_NAK []) /\
   read_ptr np' = read_ptr np /\ read_frame_count np' = read_frame_count np /\
   buffer np' = buffer np /\
   (active (conn np c) = true ->
    poll_read_connections [c] np had = Some (had, netplay_hangup np' c)) /\
   active (conn (netplay_hangup np' c) c) = false) /\
  (f = rfc -> fst (netplay_delta_frame_ready np ptr rfc) = true ->
   session_ok np = true ->
   exists np',
     netplay_get_cmd np c had = Some (true, true, np') /\
     used (dframe_at np' ptr) = true /\ frame (dframe_at np' ptr) = f /\
     words_at (real_input_state (dframe_at np' ptr)) p = [s0; s1; s2] /\
     aget false (have_real (dframe_at np' ptr)) p = true /\
     aget 0 (read_ptr np') p = NEXT_PTR np ptr /\
     aget 0 (read_frame_count np') p = u32 (rfc + 1) /\
     (forall q, 0 <= q -> q <> p ->
        aget 0 (read_ptr np') q = aget 0 (read_ptr np) q /\
        aget 0 (read_frame_count np') q = aget 0 (read_frame_count np) q)).
Proof.
  intros Hm Harr Hws Hpl Hp Hbit. cbn zeta.
  pose proof (arrived_in_range np c _ _ Harr) as Hc.
  destruct (netplay_get_cmd_input_words np c had f w s0 s1 s2 rest Hm Harr Hws)
    as [Hget Hcur].
  pose proof (cmd_input_words_resolved (after_read np c 28) c [f; w; s0; s1; s2] p)
    as Hwords.
  rewrite input_player_after_read in Hwords by exact Hc.
  specialize (Hwords Hpl Hp Hbit).
  cbn zeta in Hwords.
  change (word_at [f; w; s0; s1; s2] 0) with f in Hwords.
  change (read_frame_count (after_read np c 28)) with (read_frame_count np) in Hwords.
  change (read_ptr (after_read np c 28)) with (read_ptr np) in Hwords.
  rewrite ready_after_read in Hwords.
  assert (Hnak : let np' := snd (netplay_cmd_nak (after_read np c 28) c) in
            (send_fails (conn np c) = false ->
             data (send_packet_buffer (conn np' c))
             = data (send_packet_buffer (conn np c)) ++ cmd_bytes NETPLAY_CMD_NAK []) /\
            read_ptr np' = read_ptr np /\ read_frame_count np' = read_frame_count np /\
            buffer np' = buffer np /\
            (active (conn np c) = true ->
             netplay_get_cmd np c had = Some (false, had, np') ->
             poll_read_connections [c] np had = Some (had, netplay_hangup np' c)) /\
            active (conn (netplay_hangup np' c) c) = false).
  { cbn zeta.
    pose proof (net_only_cmd_nak (after_read np c 28) c) as Hn.
    apply net_only_fields in Hn as (_ & Hb & Hrp & Hrf & _).
    split; [| split; [exact Hrp | split; [exact Hrf | split; [exact Hb | split]]]].
    - intros Hs. unfold netplay_cmd_nak. cbn [snd].
      rewrite netplay_send_raw_cmd_ok
        by (rewrite conn_after_read by exact Hc; exact Hs).
      rewrite conn_after_read by exact Hc. cbn [snd].
      rewrite conn_set_conn_eq
        by (unfold after_read; cbn; rewrite length_insert; exact Hc).
      reflexivity.
    - intros Ha Hg. cbn [poll_read_connections]. rewrite Ha, Hg. reflexivity.
    - apply active_netplay_hangup. }
  cbn zeta in Hnak. destruct Hnak as (Hn1 & Hn2 & Hn3 & Hn4 & Hn5 & Hn6).
  split; [| split].
  - intros Hlt. rewrite Hget, Hwords.
    replace (f <? aget 0 (read_frame_count np) p) with true
      by (symmetry; apply Z.ltb_lt; exact Hlt).
    unfold after_read.
    rewrite (finish_break np c had _ rest Hc Hcur). reflexivity.
  - intros Hcase.
    assert (Hret : netplay_get_cmd np c had
                   = Some (false, had, snd (netplay_cmd_nak (after_read np c 28) c))).
    { rewrite Hget, Hwords.
      destruct Hcase as [Hgt | [Heq Hready]].
      - replace (f <? aget 0 (read_frame_count np) p) with false
          by (symmetry; apply Z.ltb_ge; lia).
        replace (aget 0 (read_frame_count np) p <? f) with true
          by (symmetry; apply Z.ltb_lt; lia).
        reflexivity.
      - rewrite Heq, Z.ltb_irrefl, Hready.
        unfold netplay_delta_frame_ready in *.
        destruct (used _ && _); [discriminate Hready |].
        destruct (core_serialize _ _); [discriminate Hready |].
        reflexivity. }
    split; [exact Hret |].
    split; [exact Hn1 |]. split; [exact Hn2 |]. split; [exact Hn3 |].
    split; [exact Hn4 |]. split; [| exact Hn6].
    intros Ha. now apply Hn5.
  - intros Heq Hready Hok.
    destruct (session_ok_parts np Hok) as (Hframes & Hlrp & Hlrf & Hptrs).
    specialize (Hptrs p Hp).
    remember (aget 0 (read_ptr np) p) as ptr eqn:Eptr in *.
    remember (aget 0 (read_frame_count np) p) as rfc eqn:Erfc in *.
    destruct (ready_slot np ptr rfc Hptrs (frame_ok_at np ptr Hframes Hptrs) Hready)
      as (Hnp1 & Hused & Hframe & Hreal & Hlenhr).
    remember (snd (netplay_delta_frame_ready np ptr rfc)) as np1 eqn:Enp1 in *.
    assert (Hbs : buffer_size np1 = buffer_size np)
      by (rewrite Hnp1; apply buffer_size_set_dframe).
    assert (Hrp1 : read_ptr np1 = read_ptr np) by (rewrite Hnp1; reflexivity).
    assert (Hrf1 : read_frame_count np1 = read_frame_count np)
      by (rewrite Hnp1; reflexivity).
    destruct (cmd_input_store_fields (after_read np1 c 28) c [f; w; s0; s1; s2] p ptr)
      as (Hb & Hrp & Hrf).
    destruct (after_read_fields np1 c 28) as (Ea & Eb & Ec & Ed).
    unfold NEXT_PTR, dframe_at in Hb, Hrp. rewrite Ed in Hrp.
    rewrite Ea in Hb. rewrite Eb in Hrp. rewrite Ec in Hrf.
    clear Ea Eb Ec Ed.
    remember (cmd_input_store (after_read np1 c 28) c [f; w; s0; s1; s2] p ptr)
      as stored eqn:Estored in *.
    destruct (finish_break_fields stored c had) as (np' & Hfin & Fb & Frp & Frf).
    assert (Hgetcmd : netplay_get_cmd np c had = Some (true, true, np')).
    { rewrite Hget, Hwords.
      replace (f <? rfc) with false by (symmetry; apply Z.ltb_ge; lia).
      replace (rfc <? f) with false by (symmetry; apply Z.ltb_ge; lia).
      rewrite Hready. exact Hfin. }
    exists np'. split; [exact Hgetcmd |].
    clear Hgetcmd Hfin Hget Hwords Estored.
    unfold dframe_at. rewrite Fb, Frp, Frf, Hb, Hrp, Hrf, Hrp1, Hrf1.
    assert (Hinb : 0 <= ptr < Z.of_nat (length (buffer np1)))
      by (fold (buffer_size np1); rewrite Hbs; exact Hptrs).
    assert (Hlenreal : length (real_input_state (aget no_frame (buffer np1) ptr))
                       = Z.to_nat MAX_USERS).
    { fold (dframe_at np1 ptr). rewrite Hreal.
      pose proof (frame_ok_at np ptr Hframes Hptrs) as Hfo. unfold frame_ok in Hfo.
      apply andb_prop in Hfo as [Hfo _]. apply andb_prop in Hfo as [Hfo _].
      apply andb_prop in Hfo as [Hfo _]. now apply words_ok_length. }
    fold (dframe_at np1 ptr) in *.
    change (Z.to_nat MAX_USERS) with 16%nat in *. change MAX_USERS with 16 in Hp.
    rewrite aget_aset_eq by exact Hinb.
    cbn [used frame real_input_state have_real set_have_real set_real_input_state].
    split; [exact Hused |]. split; [congruence |].
    split; [unfold words_at; rewrite aget_aset_eq by lia; reflexivity |].
    split; [rewrite aget_aset_eq by lia; reflexivity |].
    split; [rewrite aget_aset_eq by lia; unfold NEXT_PTR; now rewrite Hbs |].
    split; [rewrite aget_aset_eq by lia; congruence |].
    intros q Hq Hne. rewrite !aget_aset_ne by lia. split; reflexivity.
Qed.

End InputCases.

(** A client whose server connection holds an INPUT command for player 0
    with the given size word and payload words. *)
Definition input_client (size : Z) (payload : list Z) : netplay_t :=
  sample_session false
    [ sample_connection 7 NETPLAY_CONNECTION_SPECTATING 0
        (htonl (cmd_code (netplay_private_h := sample_header) NETPLAY_CMD_INPUT) ++
         htonl size ++ htonl_words payload) ] 1.

(** The same client expecting frame 6 of player 0 in slot 0, which still
    holds frame 3. *)
Definition input_client_slot_busy : netplay_t :=
  set_read_ptr (0 :: repeat 2 15)
    (set_read_frame_count (6 :: repeat 5 15) (input_client 20 [6; 0; 1; 0; 0])).

(** C1, the counterexample.  An INPUT command whose payload size is W*4 = 12
    and whose frame 3 is below [read_frame_count[0] = 5] is not dropped: it
    is NAKed (the code wants (W+2)*4 = 20 bytes).  And a well-sized INPUT
    for the expected frame 6 is NAKed too, with nothing stored, when the
    slot cannot be made ready (here the core cannot serialize). *)
Lemma netplay_get_cmd_input_counterexample :
  (WORDS_PER_INPUT * 4 = 12 /\
   aget 0 (read_frame_count (input_client 12 [3; 0; 1])) 0 = 5 /\
   exists np',
     netplay_get_cmd (hdr := sample_header) (env := sample_env true 0)
       (input_client 12 [3; 0; 1]) 0 false = Some (false, false, np') /\
     data (send_packet_buffer (conn np' 0)) = [0; 0; 0; 1; 0; 0; 0; 0]) /\
  (aget 0 (read_frame_count input_client_slot_busy) 0 = 6 /\
   exists np',
     netplay_get_cmd (hdr := sample_header) (env := sample_env false 0)
       input_client_slot_busy 0 false = Some (false, false, np') /\
     data (send_packet_buffer (conn np' 0)) = [0; 0; 0; 1; 0; 0; 0; 0] /\
     read_frame_count np' = read_frame_count input_client_slot_busy /\
     buffer np' = buffer input_client_slot_busy).
Proof.
  split.
  - split; [reflexivity |]. split; [reflexivity |].
    eexists. split; [vm_compute; reflexivity | reflexivity].
  - split; [reflexivity |].
    eexists. split; [vm_compute; reflexivity |]. repeat split.
Qed.

(** The theorem at a client that receives the expected frame 5 of player
    0: the read frame of player 0 becomes 6 and the words are in slot 2. *)
Lemma netplay_get_cmd_input_witness :
  exists np',
    netplay_get_cmd (hdr := sample_header) (env := sample_env true 0)
      (input_client 20 [5; 0; 1; 0; 0]) 0 false = Some (true, true, np') /\
    words_at (real_input_state (dframe_at np' 2)) 0 = [1; 0; 0] /\
    aget 0 (read_frame_count np') 0 = 6.
Proof.
  destruct (netplay_get_cmd_input (hdr := sample_header) (env := sample_env true 0)
              (input_client 20 [5; 0; 1; 0; 0]) 0 false 5 0 1 0 0 [] 0)
    as (_ & _ & Hstore).
  - reflexivity.
  - has_arrived.
  - words_in_range.
  - reflexivity.
  - vm_compute. split; congruence.
  - reflexivity.
  - destruct (Hstore eq_refl eq_refl eq_refl)
      as (np' & Hget & _ & _ & Hwords & _ & _ & Hrfc & _).
    exists np'. split; [exact Hget |]. split; [exact Hwords | exact Hrfc].
Defined.

(** ** SPECTATE *)

Lemma conn_imap (np np0 : netplay_t)
    (g : nat -> netplay_connection -> netplay_connection) (j : nat) :
  (j < length (connections np))%nat ->
  conn (set_connections (imap g (connections np)) np0) j = g j (conn np j).
Proof.
  intros Hj. unfold conn at 1. cbn [connections set_connections].
  rewrite list_lookup_imap, (lookup_conn np j Hj). reflexivity.
Qed.

Lemma conn_out_of_range (np : netplay_t) (j : nat) :
  (length (connections np) <= j)%nat -> conn np j = no_connection.
Proof.
  intros Hj. unfold conn. rewrite lookup_ge_None_2 by exact Hj. reflexivity.
Qed.

Section Spectate.
Context {hdr : netplay_private_h} {env : netplay_env}.

(** A broadcast when no send fails, connection by connection. *)
Lemma conn_send_raw_cmd_all_ok (np : netplay_t) (c : nat) (cmd : netplay_cmd)
    (payload : list Z) :
  (forall j, j <> c -> hears None j (conn np j) = true ->
             send_fails (conn np j) = false) ->
  let np' := netplay_send_raw_cmd_all np (Some c) cmd payload in
  net_only np np' /\
  connected_players np' = connected_players np /\
  self_mode np' = self_mode np /\
  length (connections np') = length (connections np) /\
  conn np' c = conn np c /\
  (forall j, j <> c ->
     conn np' j = if hears None j (conn np j)
                  then enqueue (conn np j) (cmd_bytes cmd payload) else conn np j).
Proof.
  intros Hok. cbn zeta. unfold netplay_send_raw_cmd_all.
  assert (Hhears : forall j cn, j <> c -> hears (Some c) j cn = hears None j cn).
  { intros j cn Hj. unfold hears, is_except.
    destruct (Nat.eqb_spec j c); [congruence | reflexivity]. }
  rewrite send_raw_cmd_all_ok.
  - split; [destruct np; reflexivity |].
    split; [reflexivity |]. split; [reflexivity |].
    split; [cbn [connections set_connections]; apply length_imap |].
    split.
    + destruct (le_lt_dec (length (connections np)) c) as [Hge | Hlt].
      * rewrite !conn_out_of_range;
          [reflexivity | exact Hge
          | cbn [connections set_connections]; rewrite length_imap; exact Hge].
      * rewrite conn_imap by exact Hlt.
        unfold hears, is_except. rewrite Nat.eqb_refl. reflexivity.
    + intros j Hj.
      destruct (le_lt_dec (length (connections np)) j) as [Hge | Hlt].
      * rewrite !conn_out_of_range;
          [reflexivity | exact Hge
          | cbn [connections set_connections]; rewrite length_imap; exact Hge].
      * rewrite conn_imap by exact Hlt. rewrite Hhears by exact Hj. reflexivity.
  - intros i cn Hi Hh.
    destruct (Nat.eq_dec i c) as [-> | Hne].
    + unfold hears, is_except in Hh. rewrite Nat.eqb_refl in Hh. discriminate Hh.
    + rewrite <- (conn_lookup np i cn Hi). apply Hok; [exact Hne |].
      rewrite (conn_lookup np i cn Hi), <- Hhears by exact Hne. exact Hh.
Qed.

(** Committing a command touches the receive buffer of its connection and
    the stall counter only. *)
Lemma finish_break_conn (x : netplay_t) (c : nat) (had : bool) :
  (c < length (connections x))%nat ->
  exists np',
    finish (BREAK x) c had = Some (true, true, np') /\
    connected_players np' = connected_players x /\
    conn np' c = set_recv_packet_buffer
                   (netplay_recv_flush (recv_packet_buffer (conn x c))) (conn x c) /\
    (forall j, j <> c -> conn np' j = conn x j).
Proof.
  intros Hc. eexists. split; [reflexivity |].
  split; [reflexivity |].
  change (conn (set_timeout_cnt 0 ?y)) with (conn y).
  split.
  - now apply conn_set_conn_eq.
  - intros j Hj. apply conn_set_conn_ne. congruence.
Qed.

(** The frame word of the MODE reply to a SPECTATE command: the frame the
    input of the sender ends at when the sender was playing, 0 when not. *)
Definition spectate_reply_frame (np : netplay_t) (cn : netplay_connection) : Z :=
  if is_playing (mode cn) then aget 0 (read_frame_count np) (player cn) else 0.

(** The reply itself: MODE(frame, YOU | player). *)
Definition spectate_reply (np : netplay_t) (cn : netplay_connection) : list Z :=
  cmd_bytes NETPLAY_CMD_MODE
    (mode_payload (spectate_reply_frame np cn)
       (Z.lor NETPLAY_CMD_MODE_BIT_YOU (player cn))).

Lemma cmd_spectate_ok (np : netplay_t) (c : nat) :
  is_server np = true ->
  (c < length (connections np))%nat ->
  send_fails (conn np c) = false ->
  (forall j, j <> c -> hears None j (conn np j) = true ->
             send_fails (conn np j) = false) ->
  exists x,
    cmd_spectate np c = BREAK x /\
    length (connections x) = length (connections np) /\
    connected_players x
    = (if is_playing (mode (conn np c))
       then clear_bit (connected_players np) (player (conn np c))
       else connected_players np) /\
    conn x c
    = enqueue (if is_playing (mode (conn np c))
               then set_mode NETPLAY_CONNECTION_SPECTATING (conn np c) else conn np c)
        (spectate_reply np (conn np c)) /\
    (forall j, j <> c ->
       conn x j = if is_playing (mode (conn np c)) && hears None j (conn np j)
                  then enqueue (conn np j) (left_bytes np (conn np c)) else conn np j).
Proof.
  intros Hs Hc Hsend Hok.
  unfold cmd_spectate, spectate_reply, spectate_reply_frame. rewrite Hs. cbn [negb].
  destruct (is_playing (mode (conn np c))) eqn:Hpl.
  - remember (set_connected_players
                (clear_bit (connected_players (set_conn np c
                   (set_mode NETPLAY_CONNECTION_SPECTATING (conn np c))))
                   (player (conn np c)))
                (set_conn np c (set_mode NETPLAY_CONNECTION_SPECTATING (conn np c))))
      as npb eqn:Enpb.
    assert (Hcb : conn npb c = set_mode NETPLAY_CONNECTION_SPECTATING (conn np c)).
    { rewrite Enpb. change (conn (set_connected_players ?v ?y) c) with (conn y c).
      now apply conn_set_conn_eq. }
    assert (Hjb : forall j, j <> c -> conn npb j = conn np j).
    { intros j Hj. rewrite Enpb.
      change (conn (set_connected_players ?v ?y) j) with (conn y j).
      apply conn_set_conn_ne. congruence. }
    assert (Hlb : length (connections npb) = length (connections np)).
    { rewrite Enpb. cbn [connections set_connected_players].
      apply connections_set_conn_length. }
    assert (Hcpb : connected_players npb
                   = clear_bit (connected_players np) (player (conn np c)))
      by (rewrite Enpb; reflexivity).
    assert (Hrfb : read_frame_count npb = read_frame_count np)
      by (rewrite Enpb; reflexivity).
    destruct (conn_send_raw_cmd_all_ok npb c NETPLAY_CMD_MODE
                (mode_payload (aget 0 (read_frame_count np) (player (conn np c)))
                   (player (conn np c))))
      as (_ & Hcp1 & _ & Hl1 & Hc1 & Hj1).
    { intros j Hj Hh. rewrite Hjb in * by exact Hj. now apply Hok. }
    remember (netplay_send_raw_cmd_all npb (Some c) NETPLAY_CMD_MODE
                (mode_payload (aget 0 (read_frame_count np) (player (conn np c)))
                   (player (conn np c)))) as np1 eqn:Enp1.
    assert (Hpc : player (conn np1 c) = player (conn np c))
      by (rewrite Hc1, Hcb; reflexivity).
    rewrite netplay_send_raw_cmd_ok by (rewrite Hc1, Hcb; exact Hsend).
    cbn [snd]. eexists. split; [reflexivity |].
    split; [rewrite connections_set_conn_length; congruence |].
    split; [cbn [connected_players set_conn set_connections]; congruence |].
    split.
    + rewrite conn_set_conn_eq by (rewrite Hl1, Hlb; exact Hc).
      rewrite Hpc, Hc1, Hcb. reflexivity.
    + intros j Hj. rewrite conn_set_conn_ne by congruence.
      rewrite Hj1 by exact Hj. rewrite Hjb by exact Hj. reflexivity.
  - rewrite netplay_send_raw_cmd_ok by exact Hsend.
    cbn [snd]. eexists. split; [reflexivity |].
    split; [apply connections_set_conn_length |].
    split; [reflexivity |].
    split.
    + now apply conn_set_conn_eq.
    + intros j Hj. apply conn_set_conn_ne. congruence.
Qed.

Lemma conn_after_read_ne (np : netplay_t) (c j : nat) (n : Z) :
  j <> c -> conn (after_read np c n) j = conn np j.
Proof.
  intros Hj. unfold after_read.
  change (conn (set_timeout_cnt 0 ?x) j) with (conn x j).
  apply conn_set_conn_ne. congruence.
Qed.

Lemma length_connections_after_read (np : netplay_t) (c : nat) (n : Z) :
  length (connections (after_read np c n)) = length (connections np).
Proof.
  unfold after_read. cbn [connections set_timeout_cnt].
  apply connections_set_conn_length.
Qed.

(** C6 (as amended).  When a server processes a SPECTATE command of a
    connected peer (on sockets that accept what is sent), it always sends
    MODE(f, MODE_BIT_YOU|p) to the sender, where the frame word [f] is
    [read_frame_count[p]] when the sender was PLAYING and 0 when it was
    not; if the sender was PLAYING its mode becomes SPECTATING, its bit
    leaves [connected_players], and MODE(read_frame_count[p], p) is queued
    on every other connection that is active and connected; no other
    connection is touched. *)
Theorem netplay_get_cmd_spectate (np : netplay_t) (c : nat) (had : bool)
    (rest : list Z) :
  is_server np = true ->
  mode_ge_connected (mode (conn np c)) = true ->
  arrived (conn np c) (cmd_bytes NETPLAY_CMD_SPECTATE []) rest ->
  send_fails (conn np c) = false ->
  (forall j, j <> c -> hears None j (conn np j) = true ->
             send_fails (conn np j) = false) ->
  let cn := conn np c in
  let p := player cn in
  let f := if is_playing (mode cn) then aget 0 (read_frame_count np) p else 0 in
  exists np',
    netplay_get_cmd np c had = Some (true, true, np') /\
    data (send_packet_buffer (conn np' c))
    = data (send_packet_buffer cn) ++
      cmd_bytes NETPLAY_CMD_MODE (mode_payload f (Z.lor NETPLAY_CMD_MODE_BIT_YOU p)) /\
    mode (conn np' c)
    = (if is_playing (mode cn) then NETPLAY_CONNECTION_SPECTATING else mode cn) /\
    connected_players np'
    = (if is_playing (mode cn) then clear_bit (connected_players np) p
       else connected_players np) /\
    (forall j, j <> c ->
       conn np' j
       = if is_playing (mode cn) && hears None j (conn np j)
         then enqueue (conn np j)
                (cmd_bytes NETPLAY_CMD_MODE
                   (mode_payload (aget 0 (read_frame_count np) p) p))
         else conn np j).
Proof.
  intros Hs Hm Harr Hsend Hok. cbn zeta.
  pose proof (arrived_in_range np c _ _ Harr) as Hc.
  destruct (netplay_get_cmd_header np c had (cmd_code NETPLAY_CMD_SPECTATE) 0 [] rest
              Hm Harr) as [Hget _];
    [apply cmd_code_range | vm_compute; split; congruence |].
  unfold dispatch in Hget. rewrite decode_cmd_code in Hget.
  change (after_header np c) with (after_read np c 8) in Hget.
  destruct (cmd_spectate_ok (after_read np c 8) c) as (x & Hx & Hlx & Hcpx & Hcx & Hjx).
  { exact Hs. }
  { rewrite length_connections_after_read. exact Hc. }
  { rewrite conn_after_read by exact Hc. exact Hsend. }
  { intros j Hj Hh. rewrite conn_after_read_ne in * by exact Hj. now apply Hok. }
  rewrite conn_after_read in Hcpx, Hcx, Hjx by exact Hc.
  destruct (finish_break_conn x c had) as (np' & Hfin & Hcp & Hcc & Hjj).
  { rewrite Hlx, length_connections_after_read. exact Hc. }
  exists np'. rewrite Hget, Hx. split; [exact Hfin |].
  unfold spectate_reply, spectate_reply_frame, left_bytes in *.
  change (mode (advance (conn np c) 8)) with (mode (conn np c)) in *.
  change (player (advance (conn np c) 8)) with (player (conn np c)) in *.
  change (read_frame_count (after_read np c 8)) with (read_frame_count np) in *.
  change (connected_players (after_read np c 8)) with (connected_players np) in *.
  rewrite Hcc, Hcx, Hcp, Hcpx.
  split; [| split; [| split]].
  - destruct (is_playing (mode (conn np c))); reflexivity.
  - destruct (is_playing (mode (conn np c))); reflexivity.
  - reflexivity.
  - intros j Hj. rewrite Hjj, Hjx by exact Hj.
    rewrite conn_after_read_ne by exact Hj. reflexivity.
Qed.

End Spectate.

(** A server with three peers, the first of which, playing as player 1
    and read up to frame 5, asks to spectate. *)
Definition spectate_server : netplay_t :=
  sample_session true
    [ sample_connection 7 NETPLAY_CONNECTION_PLAYING 1
        (cmd_bytes (hdr := sample_header) NETPLAY_CMD_SPECTATE []);
      sample_connection 8 NETPLAY_CONNECTION_SPECTATING 0 [];
      sample_connection 9 NETPLAY_CONNECTION_PRE_SYNC 0 [] ] 2.

(** C6, the counterexample: the sender was PLAYING, and the frame word of
    the MODE reply it gets is 5, its [read_frame_count], not 0. *)
Lemma netplay_get_cmd_spectate_counterexample :
  exists np',
    netplay_get_cmd (hdr := sample_header) (env := sample_env true 0)
      spectate_server 0 false = Some (true, true, np') /\
    data (send_packet_buffer (conn np' 0))
    = cmd_bytes (hdr := sample_header) NETPLAY_CMD_MODE (mode_payload 5 (Z.lor (2 ^ 16) 1)) /\
    data (send_packet_buffer (conn np' 0))
    <> cmd_bytes (hdr := sample_header) NETPLAY_CMD_MODE (mode_payload 0 (Z.lor (2 ^ 16) 1)).
Proof.
  eexists. split; [vm_compute; reflexivity |].
  split; [vm_compute; reflexivity |].
  vm_compute. discriminate.
Qed.

(** The theorem at that server. *)
Lemma netplay_get_cmd_spectate_witness :
  exists np',
    netplay_get_cmd (hdr := sample_header) (env := sample_env true 0)
      spectate_server 0 false = Some (true, true, np') /\
    mode (conn np' 0) = NETPLAY_CONNECTION_SPECTATING /\
    connected_players np' = 0 /\
    data (send_packet_buffer (conn np' 1))
    = [0; 0; 0; 37; 0; 0; 0; 8; 0; 0; 0; 5; 0; 0; 0; 1] /\
    conn np' 2 = conn spectate_server 2.
Proof.
  destruct (netplay_get_cmd_spectate (hdr := sample_header) (env := sample_env true 0)
              spectate_server 0 false [])
    as (np' & Hget & _ & Hmode & Hcp & Hothers).
  - reflexivity.
  - reflexivity.
  - has_arrived.
  - reflexivity.
  - intros [| [| [| j]]] Hne Hh; try reflexivity; try congruence.
    vm_compute in Hh. discriminate Hh.
  - exists np'. split; [exact Hget |].
    rewrite Hmode, Hcp, (Hothers 1%nat), (Hothers 2%nat) by discriminate.
    vm_compute. repeat split.
Defined.

(** ** Savestate requests *)

(** The flag [savestate_request_outstanding] is not cleared. *)
Definition request_kept (np np' : netplay_t) : Prop :=
  savestate_request_outstanding np = true -> savestate_request_outstanding np' = true.

Definition outcome_request_kept (np : netplay_t) (o : outcome) : Prop :=
  match o with
  | RETURN _ x | BREAK x | SHRT x => request_kept np x
  | DIVERGES => True
  end.

Lemma request_kept_refl (np : netplay_t) : request_kept np np.
Proof. intros H. exact H. Qed.

Lemma request_kept_trans (a b c : netplay_t) :
  request_kept a b -> request_kept b c -> request_kept a c.
Proof. unfold request_kept. auto. Qed.

Lemma request_kept_same (np np' : netplay_t) :
  savestate_request_outstanding np' = savestate_request_outstanding np ->
  request_kept np np'.
Proof. unfold request_kept. congruence. Qed.

Lemma request_kept_net_only (np np' : netplay_t) : net_only np np' -> request_kept np np'.
Proof.
  intros H. apply request_kept_same.
  apply net_only_fields in H. tauto.
Qed.

Section Requests.
Context {hdr : netplay_private_h} {env : netplay_env}.

(** Connection 0 can be asked: it exists, is active and is connected. *)
Definition can_request (np : netplay_t) : bool :=
  negb (connections_size np =? 0) && active (conn np 0) &&
  mode_ge_connected (mode (conn np 0)).

Lemma netplay_cmd_request_savestate_cases (np : netplay_t) :
  netplay_cmd_request_savestate np
  = if can_request np then
      if savestate_request_outstanding np then (true, np)
      else netplay_send_raw_cmd (set_savestate_request_outstanding true np) 0
             NETPLAY_CMD_REQUEST_SAVESTATE []
    else (false, np).
Proof.
  unfold netplay_cmd_request_savestate, can_request.
  destruct (connections_size np =? 0); [reflexivity |].
  destruct (active (conn np 0)); [| reflexivity].
  destruct (mode_ge_connected (mode (conn np 0))); reflexivity.
Qed.

Lemma request_kept_request_savestate (np : netplay_t) :
  request_kept np (snd (netplay_cmd_request_savestate np)).
Proof.
  rewrite netplay_cmd_request_savestate_cases.
  destruct (can_request np); [| apply request_kept_refl].
  destruct (savestate_request_outstanding np) eqn:E; [apply request_kept_refl |].
  intros H. congruence.
Qed.

(** Case analysis on every [match] and [if] of the goal. *)
Ltac split_matches :=
  repeat match goal with
         | |- context [match ?x with _ => _ end] => destruct x
         end.

Lemma request_init_socket_buffers (np : netplay_t) :
  savestate_request_outstanding (snd (netplay_init_socket_buffers np))
  = savestate_request_outstanding np.
Proof.
  unfold netplay_init_socket_buffers.
  destruct (init_socket_buffers_loop _ _) as [ok cs]. reflexivity.
Qed.

Lemma request_init_serialization (np : netplay_t) :
  savestate_request_outstanding (snd (netplay_init_serialization np))
  = savestate_request_outstanding np.
Proof. unfold netplay_init_serialization. split_matches; reflexivity. Qed.

Lemma request_try_init_serialization (np : netplay_t) :
  savestate_request_outstanding (snd (netplay_try_init_serialization np))
  = savestate_request_outstanding np.
Proof.
  unfold netplay_try_init_serialization.
  destruct (negb (state_size np =? 0)); [reflexivity |].
  pose proof (request_init_serialization np) as H.
  destruct (netplay_init_serialization np) as [[|] np1]; cbn [snd] in *; [| exact H].
  destruct (core_serialize _ _); [| exact H].
  rewrite request_init_socket_buffers. exact H.
Qed.

Lemma request_wait_and_init_loop (n : nat) (np : netplay_t) :
  savestate_request_outstanding (snd (wait_and_init_loop n np))
  = savestate_request_outstanding np.
Proof.
  revert np. induction n as [| n IH]; intros np; [reflexivity |].
  cbn [wait_and_init_loop].
  pose proof (request_try_init_serialization np) as H.
  destruct (netplay_try_init_serialization np) as [[|] np1]; cbn [snd] in *;
    [exact H |].
  rewrite IH. exact H.
Qed.

Lemma request_wait_and_init_serialization (np : netplay_t) :
  savestate_request_outstanding (snd (netplay_wait_and_init_serialization np))
  = savestate_request_outstanding np.
Proof.
  unfold netplay_wait_and_init_serialization.
  destruct (negb (state_size np =? 0)); [reflexivity |].
  apply request_wait_and_init_loop.
Qed.

Lemma request_load_savestate_prepare (np : netplay_t) :
  savestate_request_outstanding (load_savestate_prepare np)
  = savestate_request_outstanding np.
Proof.
  unfold load_savestate_prepare.
  destruct (negb (_ =? 0)); [| reflexivity].
  destruct (negb (is_replay np)).
  - cbn [savestate_request_outstanding set_is_replay].
    rewrite request_wait_and_init_serialization. reflexivity.
  - apply request_wait_and_init_serialization.
Qed.

Lemma request_delta_frame_ready (np : netplay_t) (ptr frm : Z) :
  savestate_request_outstanding (snd (netplay_delta_frame_ready np ptr frm))
  = savestate_request_outstanding np.
Proof. unfold netplay_delta_frame_ready. split_matches; reflexivity. Qed.

Lemma request_kept_NAK (np x : netplay_t) (c : nat) :
  request_kept np x -> outcome_request_kept np (NAK x c).
Proof.
  intros H. unfold NAK. cbn [outcome_request_kept].
  eapply request_kept_trans; [exact H |].
  apply request_kept_net_only, net_only_cmd_nak.
Qed.

(** A property of every way out of [RECV]. *)
Lemma RECV_cases (P : outcome -> Prop) (np : netplay_t) (c : nat) (sz : Z)
    (on_fail : outcome) (k : list Z -> netplay_t -> outcome) :
  P on_fail -> P (SHRT np) ->
  (forall bytes cn, P (k bytes (set_conn np c cn))) ->
  P (RECV np c sz on_fail k).
Proof.
  intros Hf Hs Hk. unfold RECV.
  destruct (netplay_recv (conn np c) sz); auto.
Qed.

Lemma request_kept_set_conn (np x : netplay_t) (c : nat) (cn : netplay_connection) :
  request_kept np x -> request_kept np (set_conn x c cn).
Proof. intros H. exact H. Qed.

Lemma request_send_raw_cmd (np : netplay_t) (c : nat) (cmd : netplay_cmd)
    (payload : list Z) :
  savestate_request_outstanding (snd (netplay_send_raw_cmd np c cmd payload))
  = savestate_request_outstanding np.
Proof.
  pose proof (net_only_fields _ _ (net_only_send_raw_cmd np c cmd payload)). tauto.
Qed.

Lemma net_only_netplay_send_raw_cmd_all (np : netplay_t) (except : option nat)
    (cmd : netplay_cmd) (payload : list Z) :
  net_only np (netplay_send_raw_cmd_all np except cmd payload).
Proof. apply net_only_send_raw_cmd_all. intros. apply net_only_hangup. Qed.

Lemma request_send_raw_cmd_all (np : netplay_t) (except : option nat)
    (cmd : netplay_cmd) (payload : list Z) :
  savestate_request_outstanding (netplay_send_raw_cmd_all np except cmd payload)
  = savestate_request_outstanding np.
Proof.
  pose proof (net_only_fields _ _
                (net_only_netplay_send_raw_cmd_all np except cmd payload)). tauto.
Qed.

Lemma request_hangup (np : netplay_t) (c : nat) :
  savestate_request_outstanding (netplay_hangup np c) = savestate_request_outstanding np.
Proof. pose proof (net_only_fields _ _ (net_only_hangup np c)). tauto. Qed.

Lemma request_send_input_frame (np : netplay_t) (only except : option nat)
    (frm plr : Z) (st : list Z) :
  savestate_request_outstanding (snd (send_input_frame np only except frm plr st))
  = savestate_request_outstanding np.
Proof.
  pose proof (net_only_fields _ _
                (net_only_send_input_frame np only except frm plr st)). tauto.
Qed.

(** Reads the flag through the field updates and through what sends. *)
Ltac same_request :=
  repeat first
    [ reflexivity
    | assumption
    | rewrite request_send_raw_cmd
    | rewrite request_send_raw_cmd_all
    | rewrite request_send_input_frame
    | rewrite request_hangup
    | rewrite request_delta_frame_ready
    | rewrite request_load_savestate_prepare
    | progress cbn [savestate_request_outstanding set_conn set_dframe
                    set_connections set_buffer set_self_ptr set_self_frame_count set_other_ptr set_other_frame_count set_unread_ptr set_unread_frame_count set_server_ptr set_server_frame_count set_replay_ptr set_replay_frame_count set_read_ptr set_read_frame_count set_connected_players set_self_mode set_self_player set_flip set_flip_frame set_timeout_cnt set_remote_paused set_is_replay set_force_rewind set_force_send_savestate set_savestate_request_outstanding set_quirks set_state_size set_zbuffer set_zbuffer_size set_packet_buffer_size set_core_runs] ].

(** Proves [request_kept np0 x] for an [x] built from a session whose flag
    is kept. *)
Ltac kept :=
  let H0 := fresh "H0" in
  unfold request_kept; intros H0;
  repeat match goal with
         | Hk : request_kept _ _ |- _ => specialize (Hk H0)
         end;
  same_request.

Lemma request_cmd_input_store (np1 : netplay_t) (c : nat) (buf : list Z) (p ptr : Z) :
  savestate_request_outstanding (cmd_input_store np1 c buf p ptr)
  = savestate_request_outstanding np1.
Proof. unfold cmd_input_store. split_matches; same_request. Qed.

Lemma request_kept_cmd_input_words (np0 np : netplay_t) (c : nat) (buf : list Z) :
  request_kept np0 np -> outcome_request_kept np0 (cmd_input_words np c buf).
Proof.
  intros Hk. unfold cmd_input_words.
  destruct (if is_server np then _ else _) as [plr |];
    [| now apply request_kept_NAK].
  destruct (_ || _); [now apply request_kept_NAK |].
  destruct (_ <? _); [exact Hk |].
  destruct (_ <? _); [now apply request_kept_NAK |].
  pose proof (request_delta_frame_ready np (aget 0 (read_ptr np) plr)
                (aget 0 (read_frame_count np) plr)) as Hr.
  destruct (netplay_delta_frame_ready _ _ _) as [[|] np1]; cbn [snd] in Hr.
  - cbn [outcome_request_kept]. intros H0.
    rewrite request_cmd_input_store, Hr. now apply Hk.
  - apply request_kept_NAK. intros H0. rewrite Hr. now apply Hk.
Qed.

Lemma request_kept_cmd_input (np0 np : netplay_t) (c : nat) (cmd_size : Z) :
  request_kept np0 np -> outcome_request_kept np0 (cmd_input np c cmd_size).
Proof.
  intros Hk. unfold cmd_input.
  destruct (negb _); [now apply request_kept_NAK |].
  apply RECV_cases; [now apply request_kept_NAK | exact Hk |].
  intros bytes cn. apply request_kept_cmd_input_words. exact Hk.
Qed.

Lemma request_kept_cmd_noinput (np0 np : netplay_t) (c : nat) :
  request_kept np0 np -> outcome_request_kept np0 (cmd_noinput np c).
Proof.
  intros Hk. unfold cmd_noinput.
  destruct (is_server np); [now apply request_kept_NAK |].
  apply RECV_cases; [now apply request_kept_NAK | exact Hk |].
  intros bytes cn.
  destruct (negb _); [now apply request_kept_NAK | exact Hk].
Qed.

Lemma request_kept_cmd_flip_players (np0 np : netplay_t) (c : nat) (cmd_size : Z) :
  request_kept np0 np -> outcome_request_kept np0 (cmd_flip_players np c cmd_size).
Proof.
  intros Hk. unfold cmd_flip_players.
  destruct (negb _); [now apply request_kept_NAK |].
  apply RECV_cases; [now apply request_kept_NAK | exact Hk |].
  intros bytes cn.
  change (is_server (set_conn np c cn)) with (is_server np).
  destruct (is_server np); [now apply request_kept_NAK |].
  destruct (_ <? _); [now apply request_kept_NAK |].
  cbn [outcome_request_kept]. destruct (_ <? _); exact Hk.
Qed.

Lemma request_kept_cmd_spectate (np0 np : netplay_t) (c : nat) :
  request_kept np0 np -> outcome_request_kept np0 (cmd_spectate np c).
Proof.
  intros Hk. unfold cmd_spectate.
  destruct (negb _); [now apply request_kept_NAK |].
  destruct (is_playing _); cbn [outcome_request_kept]; kept.
Qed.

Lemma request_kept_cmd_play (np0 np : netplay_t) (c : nat) :
  request_kept np0 np -> outcome_request_kept np0 (cmd_play np c).
Proof.
  intros Hk. unfold cmd_play.
  destruct (negb (is_server np)); [now apply request_kept_NAK |].
  destruct (_ =? _); [now apply request_kept_NAK |].
  cbn [outcome_request_kept].
  destruct (negb (is_playing _)); kept.
Qed.

(** One step of the walk over the past frames: the slot gets our own
    input as the real input of [plr], and the input is sent. *)
Definition walk_past_step (np : netplay_t) (c : nat) (plr ptr : Z) : netplay_t :=
  let d := dframe_at np ptr in
  snd (send_input_frame
         (set_dframe np ptr
            (set_have_real (aset (have_real d) plr true)
               (set_real_input_state (aset (real_input_state d) plr (self_state d)) d)))
         (Some c) None (frame d) plr (self_state d)).

Lemma mode_walk_past_S (fuel : nat) (np : netplay_t) (c : nat) (plr ptr : Z) :
  mode_walk_past (S fuel) np c plr ptr
  = if used (dframe_at np ptr) && (frame (dframe_at np ptr) <=? self_frame_count np)
    then
      if frame (dframe_at np ptr) =? self_frame_count (walk_past_step np c plr ptr)
      then Some (walk_past_step np c plr ptr)
      else mode_walk_past fuel (walk_past_step np c plr ptr) c plr
             (NEXT_PTR (walk_past_step np c plr ptr) ptr)
    else Some np.
Proof. reflexivity. Qed.

Lemma request_walk_past_step (np : netplay_t) (c : nat) (plr ptr : Z) :
  savestate_request_outstanding (walk_past_step np c plr ptr)
  = savestate_request_outstanding np.
Proof. unfold walk_past_step. cbv zeta. same_request. Qed.

Lemma request_mode_walk_past (fuel : nat) (np : netplay_t) (c : nat) (plr ptr : Z)
    (np' : netplay_t) :
  mode_walk_past fuel np c plr ptr = Some np' ->
  savestate_request_outstanding np' = savestate_request_outstanding np.
Proof.
  revert np ptr np'.
  induction fuel as [| fuel IH]; intros np ptr np'; [discriminate |].
  rewrite mode_walk_past_S.
  destruct (_ && _); [| intros H; injection H as <-; reflexivity].
  destruct (_ =? _).
  - intros H. injection H as <-. apply request_walk_past_step.
  - intros H. rewrite (IH _ _ _ H). apply request_walk_past_step.
Qed.

Lemma request_mode_walk_future (fuel : nat) (np : netplay_t) (plr frm ptr : Z)
    (np' : netplay_t) :
  mode_walk_future fuel np plr frm ptr = Some np' ->
  savestate_request_outstanding np' = savestate_request_outstanding np.
Proof.
  revert np ptr np'.
  induction fuel as [| fuel IH]; intros np ptr np'; [discriminate |].
  cbn [mode_walk_future].
  destruct (_ && _); [| intros H; injection H as <-; reflexivity].
  intros H. rewrite (IH _ _ _ H). reflexivity.
Qed.

Lemma request_kept_cmd_mode (np0 np : netplay_t) (c : nat) (cmd_size : Z) :
  request_kept np0 np -> outcome_request_kept np0 (cmd_mode np c cmd_size).
Proof.
  intros Hk. unfold cmd_mode.
  destruct (_ || _); [now apply request_kept_NAK |].
  apply RECV_cases; [now apply request_kept_NAK | exact Hk |].
  intros bytes cn.
  change (is_server (set_conn np c cn)) with (is_server np).
  destruct (is_server np); [now apply request_kept_NAK |].
  set (np1 := if _ <? _ then set_force_rewind true (set_conn np c cn) else set_conn np c cn).
  assert (Hk1 : request_kept np0 np1)
    by (unfold np1; destruct (_ <? _); exact Hk).
  clearbody np1.
  destruct (_ <=? _); [now apply request_kept_NAK |].
  destruct (negb (_ =? 0)).
  - destruct (negb (_ =? 0)).
    + destruct (negb (_ =? _)); [now apply request_kept_NAK |].
      destruct (is_playing _); [now apply request_kept_NAK |].
      destruct (_ <=? _).
      * destruct (mode_walk_past _ _ _ _ _) as [np' |] eqn:E; [| exact I].
        cbn [break_or_diverge outcome_request_kept].
        apply request_mode_walk_past in E. intros H0. rewrite E. now apply Hk1.
      * destruct (mode_walk_future _ _ _ _ _) as [np' |] eqn:E; [| exact I].
        cbn [break_or_diverge outcome_request_kept].
        apply request_mode_walk_future in E. intros H0. rewrite E. now apply Hk1.
    + destruct (negb _); [now apply request_kept_NAK | exact Hk1].
  - destruct (negb (_ =? 0)).
    + destruct (negb (_ =? _)); [now apply request_kept_NAK | exact Hk1].
    + exact Hk1.
Qed.

Lemma request_kept_cmd_crc (np0 np : netplay_t) (c : nat) (cmd_size : Z) :
  request_kept np0 np -> outcome_request_kept np0 (cmd_crc np c cmd_size).
Proof.
  intros Hk. unfold cmd_crc.
  destruct (negb _); [now apply request_kept_NAK |].
  apply RECV_cases; [now apply request_kept_NAK | exact Hk |].
  intros bytes cn.
  destruct (crc_find _ _ _ _) as [[tmp_ptr |] |]; [| exact Hk | exact I].
  destruct (_ <=? _); [| exact Hk].
  destruct (negb _); [| exact Hk].
  cbn [outcome_request_kept].
  eapply request_kept_trans; [| apply request_kept_request_savestate].
  exact Hk.
Qed.

Lemma request_kept_cmd_pause (np0 np : netplay_t) (c : nat) :
  request_kept np0 np -> outcome_request_kept np0 (cmd_pause np c).
Proof. intros Hk. unfold cmd_pause. cbn [outcome_request_kept]. kept. Qed.

Lemma request_kept_cmd_resume (np0 np : netplay_t) (c : nat) :
  request_kept np0 np -> outcome_request_kept np0 (cmd_resume np c).
Proof.
  intros Hk. unfold cmd_resume. cbn [outcome_request_kept].
  destruct (_ && _); kept.
Qed.

(** The ways out of a LOAD_SAVESTATE command: the flag is kept unless the
    command is accepted, and then a rewind is forced. *)
Definition outcome_kept_or_loaded (np : netplay_t) (o : outcome) : Prop :=
  match o with
  | RETURN _ x | SHRT x => request_kept np x
  | BREAK x => force_rewind x = true
  | DIVERGES => True
  end.

Lemma loaded_NAK (np x : netplay_t) (c : nat) :
  request_kept np x -> outcome_kept_or_loaded np (NAK x c).
Proof. intros H. apply (request_kept_NAK np x c H). Qed.

Lemma cmd_load_savestate_kept_or_loaded (np0 np : netplay_t) (c : nat) (cmd_size : Z) :
  request_kept np0 np -> outcome_kept_or_loaded np0 (cmd_load_savestate np c cmd_size).
Proof.
  intros Hk. unfold cmd_load_savestate.
  assert (Hp : request_kept np0 (load_savestate_prepare np))
    by (intros H0; rewrite request_load_savestate_prepare; now apply Hk).
  generalize dependent (load_savestate_prepare np). intros np1 Hp.
  destruct (negb _); [now apply loaded_NAK |].
  destruct (_ <? _); [now apply loaded_NAK |].
  apply RECV_cases; [now apply loaded_NAK | exact Hp |].
  intros bytes1 cn1.
  destruct (negb _); [now apply loaded_NAK |].
  apply RECV_cases; [now apply loaded_NAK | exact Hp |].
  intros bytes2 cn2.
  destruct (negb _); [now apply loaded_NAK |].
  apply RECV_cases; [now apply loaded_NAK | exact Hp |].
  intros zbytes cn3. reflexivity.
Qed.

(** [RECV], with the bytes it delivers. *)
Lemma RECV_cases_bytes (P : outcome -> Prop) (np : netplay_t) (c : nat) (sz : Z)
    (on_fail : outcome) (k : list Z -> netplay_t -> outcome) :
  P on_fail -> P (SHRT np) ->
  (forall cn, P (k (take (Z.to_nat sz) (at_cursor (conn np c))) (set_conn np c cn))) ->
  P (RECV np c sz on_fail k).
Proof.
  intros Hf Hs Hk. unfold RECV, netplay_recv.
  destruct (recv_fails (conn np c)); [exact Hf |].
  destruct (_ <=? _); [apply Hk | exact Hs].
Qed.

Lemma netplay_get_cmd_connected (np : netplay_t) (c : nat) (had : bool) :
  mode_ge_connected (mode (conn np c)) = true ->
  netplay_get_cmd np c had
  = finish
      (RECV np c SZ32 (RETURN false np) (fun bytes1 np1 =>
         RECV np1 c SZ32 (RETURN false np1) (fun bytes2 np2 =>
           dispatch (set_timeout_cnt 0 np2) c (ntohl bytes1) (ntohl bytes2))))
      c had.
Proof.
  intros Hm. unfold netplay_get_cmd.
  destruct (mode (conn np c)); try discriminate Hm; reflexivity.
Qed.

Lemma finish_request_kept (np : netplay_t) (o : outcome) (c : nat) (had : bool)
    (r had' : bool) (np' : netplay_t) :
  outcome_request_kept np o ->
  finish o c had = Some (r, had', np') ->
  savestate_request_outstanding np = true ->
  savestate_request_outstanding np' = true.
Proof.
  intros Hk Hfin H0.
  destruct o as [ret x | x | x |]; cbn [finish outcome_request_kept] in *;
    try discriminate Hfin; injection Hfin as <- <- <-; now apply Hk.
Qed.

Lemma finish_kept_or_loaded (np : netplay_t) (o : outcome) (c : nat) (had : bool)
    (r had' : bool) (np' : netplay_t) :
  outcome_kept_or_loaded np o ->
  finish o c had = Some (r, had', np') ->
  savestate_request_outstanding np = true ->
  savestate_request_outstanding np' = false ->
  r = true /\ had' = true /\ force_rewind np' = true.
Proof.
  intros Hk Hfin H0 H1.
  destruct o as [ret x | x | x |]; cbn [finish outcome_kept_or_loaded] in *;
    try discriminate Hfin; injection Hfin as <- <- <-.
  - specialize (Hk H0). congruence.
  - repeat split. exact Hk.
  - specialize (Hk H0). cbn in H1. congruence.
Qed.

(** X2. Reading a command from a peer that is at least CONNECTED clears
    [savestate_request_outstanding] only when the command is a
    LOAD_SAVESTATE that is accepted: the call then returns true, reports
    input and forces a rewind.  Every other command, every NAK and every
    short read leaves a set flag set. *)
Theorem netplay_get_cmd_request_cleared (np : netplay_t) (c : nat) (had r had' : bool)
    (np' : netplay_t) :
  mode_ge_connected (mode (conn np c)) = true ->
  netplay_get_cmd np c had = Some (r, had', np') ->
  savestate_request_outstanding np = true ->
  savestate_request_outstanding np' = false ->
  decode_cmd (ntohl (take 4 (at_cursor (conn np c)))) = Some NETPLAY_CMD_LOAD_SAVESTATE /\
  r = true /\ had' = true /\ force_rewind np' = true.
Proof.
  intros Hm Hget H1 H0. rewrite netplay_get_cmd_connected in Hget by exact Hm.
  assert (Hkept : forall o, outcome_request_kept np o ->
                            finish o c had = Some (r, had', np') -> False).
  { intros o Hk Hfin.
    pose proof (finish_request_kept _ _ _ _ _ _ _ Hk Hfin H1). congruence. }
  revert Hget.
  apply (RECV_cases_bytes (fun o => finish o c had = Some (r, had', np') -> _)).
  { intros Hfin. exfalso. apply (Hkept (RETURN false np) (request_kept_refl np) Hfin). }
  { intros Hfin. exfalso. apply (Hkept (SHRT np) (request_kept_refl np) Hfin). }
  intros cn1.
  apply (RECV_cases_bytes (fun o => finish o c had = Some (r, had', np') -> _)).
  { intros Hfin. exfalso.
    apply (Hkept (RETURN false (set_conn np c cn1)) (request_kept_set_conn np np c cn1 (request_kept_refl np)) Hfin). }
  { intros Hfin. exfalso.
    apply (Hkept (SHRT (set_conn np c cn1)) (request_kept_set_conn np np c cn1 (request_kept_refl np)) Hfin). }
  intros cn2.
  set (x := set_timeout_cnt 0 (set_conn (set_conn np c cn1) c cn2)).
  assert (Hx : request_kept np x) by (intros H; exact H).
  generalize (ntohl (take (Z.to_nat SZ32) (at_cursor (conn (set_conn np c cn1) c)))).
  intros cmd_size. change (Z.to_nat SZ32) with 4%nat.
  unfold dispatch.
  destruct (decode_cmd _) as [[] |] eqn:Hcmd; intros Hfin;
    try (exfalso; revert Hfin; apply Hkept;
         first [ now apply request_kept_cmd_input
               | now apply request_kept_cmd_noinput
               | now apply request_kept_cmd_flip_players
               | now apply request_kept_cmd_spectate
               | now apply request_kept_cmd_play
               | now apply request_kept_cmd_mode
               | now apply request_kept_cmd_crc
               | now apply request_kept_cmd_pause
               | now apply request_kept_cmd_resume
               | now apply request_kept_NAK
               | exact Hx
               | cbn [outcome_request_kept]; intros H; rewrite request_hangup; exact H ]).
  split; [reflexivity |].
  apply (finish_kept_or_loaded np _ c had r had' np'
           (cmd_load_savestate_kept_or_loaded np x c cmd_size Hx) Hfin H1 H0).
Qed.

Lemma can_request_enqueue (np : netplay_t) (bytes : list Z) :
  can_request np = true ->
  can_request
    (set_conn (set_savestate_request_outstanding true np) 0 (enqueue (conn np 0) bytes))
  = true.
Proof.
  intros H. unfold can_request in *.
  apply andb_prop in H as [H Hm]. apply andb_prop in H as [Hn Ha].
  assert (Hlen : (0 < length (connections np))%nat).
  { unfold connections_size in Hn. destruct (connections np); [discriminate Hn | cbn; lia]. }
  rewrite conn_set_conn_eq by exact Hlen.
  unfold connections_size. rewrite connections_set_conn_length.
  unfold connections_size in Hn. cbn [connections set_savestate_request_outstanding].
  rewrite Hn. cbn [enqueue active mode set_send_packet_buffer].
  change (conn (set_savestate_request_outstanding true np) 0) with (conn np 0).
  rewrite Ha, Hm. reflexivity.
Qed.

(** X1. [netplay_cmd_request_savestate] returns false and changes nothing
    when connection 0 is missing, inactive or not yet CONNECTED, whether or
    not a request is outstanding; with a usable connection 0 and a request
    outstanding it returns true and sends nothing; otherwise it sets the
    flag and sends REQUEST_SAVESTATE, with an empty payload, to connection 0
    alone; the flag stays set when that send fails.  So asking twice in a
    row puts one request on the wire. *)
Theorem netplay_cmd_request_savestate_once (np : netplay_t) :
  (can_request np = false -> netplay_cmd_request_savestate np = (false, np)) /\
  (can_request np = true -> savestate_request_outstanding np = true ->
     netplay_cmd_request_savestate np = (true, np)) /\
  (can_request np = true -> savestate_request_outstanding np = false ->
     send_fails (conn np 0) = true ->
     netplay_cmd_request_savestate np = (false, set_savestate_request_outstanding true np)) /\
  (can_request np = true -> savestate_request_outstanding np = false ->
     send_fails (conn np 0) = false ->
     let np1 := set_conn (set_savestate_request_outstanding true np) 0
                  (enqueue (conn np 0) (cmd_bytes NETPLAY_CMD_REQUEST_SAVESTATE [])) in
     netplay_cmd_request_savestate np = (true, np1) /\
     netplay_cmd_request_savestate np1 = (true, np1)).
Proof.
  split; [intros H; rewrite netplay_cmd_request_savestate_cases, H; reflexivity |].
  split; [intros H1 H2; rewrite netplay_cmd_request_savestate_cases, H1, H2; reflexivity |].
  split.
  - intros H1 H2 Hs. rewrite netplay_cmd_request_savestate_cases, H1, H2.
    now rewrite netplay_send_raw_cmd_failed by exact Hs.
  - intros H1 H2 Hs np1. split.
    + rewrite netplay_cmd_request_savestate_cases, H1, H2.
      now rewrite netplay_send_raw_cmd_ok by exact Hs.
    + rewrite netplay_cmd_request_savestate_cases.
      unfold np1. rewrite can_request_enqueue by exact H1. reflexivity.
Qed.

End Requests.

(** A client whose only connection, to the server, is up; no request is
    outstanding. *)
Definition idle_client : netplay_t :=
  sample_session false [sample_connection 7 NETPLAY_CONNECTION_PLAYING 0 []] 1.

(** The theorem at that client: the first call sends the eight bytes of a
    REQUEST_SAVESTATE header, the second sends nothing. *)
Lemma netplay_cmd_request_savestate_once_witness :
  exists np1,
    netplay_cmd_request_savestate (hdr := sample_header) idle_client = (true, np1) /\
    netplay_cmd_request_savestate (hdr := sample_header) np1 = (true, np1) /\
    data (send_packet_buffer (conn np1 0)) = [0; 0; 0; 65; 0; 0; 0; 0].
Proof.
  destruct (netplay_cmd_request_savestate_once (hdr := sample_header) idle_client)
    as (_ & _ & _ & H).
  specialize (H eq_refl eq_refl eq_refl). cbv zeta in H. destruct H as [H1 H2].
  eexists. split; [exact H1 |]. split; [exact H2 |].
  vm_compute. reflexivity.
Defined.

(** A client that asked for a savestate and now holds the server's answer:
    LOAD_SAVESTATE for frame 5, four bytes of state, sent as they are. *)
Definition loading_client : netplay_t :=
  set_savestate_request_outstanding true
    (sample_session false
       [sample_connection 7 NETPLAY_CONNECTION_PLAYING 0
          (cmd_bytes (hdr := sample_header) NETPLAY_CMD_LOAD_SAVESTATE
             (htonl 5 ++ htonl 4 ++ [1; 2; 3; 4]))] 1).

(** The theorem at that client. *)
Lemma netplay_get_cmd_request_cleared_witness :
  exists np',
    netplay_get_cmd (hdr := sample_header) (env := sample_env true 0)
      loading_client 0 false = Some (true, true, np') /\
    savestate_request_outstanding np' = false /\
    force_rewind np' = true.
Proof.
  assert (E : exists np',
             netplay_get_cmd (hdr := sample_header) (env := sample_env true 0)
               loading_client 0 false = Some (true, true, np') /\
             savestate_request_outstanding np' = false)
    by (eexists; split; vm_compute; reflexivity).
  destruct E as (np' & E & H0). exists np'.
  split; [exact E |]. split; [exact H0 |].
  apply (netplay_get_cmd_request_cleared (hdr := sample_header) (env := sample_env true 0)
           loading_client 0 false true true np' eq_refl E eq_refl H0).
Defined.

(** ** LOAD_SAVESTATE commands *)

(** The loop that realigns the players, on the two arrays it writes. *)
Definition align_lists (cp src frm : Z) (acc : list Z * list Z) (p : Z)
  : list Z * list Z :=
  if negb (has_bit cp p) then acc
  else if aget 0 (snd acc) p <? frm then
    (aset (fst acc) p (aget 0 (fst acc) src), aset (snd acc) p frm)
  else acc.

Lemma align_fold_lists (src frm : Z) (ps : list Z) (np : netplay_t) :
  let r := fold_left (align_lists (connected_players np) src frm) ps
             (read_ptr np, read_frame_count np) in
  fold_left (align_step src frm) ps np
  = set_read_frame_count (snd r) (set_read_ptr (fst r) np).
Proof.
  revert np. induction ps as [| p ps IH]; intros np; cbn [fold_left].
  - destruct np; reflexivity.
  - cbv zeta in IH. rewrite IH. clear IH.
    unfold align_step, align_lists. cbn [fst snd].
    destruct (negb (has_bit (connected_players np) p)); [reflexivity |].
    destruct (aget 0 (read_frame_count np) p <? frm); reflexivity.
Qed.

(** The players the loop realigns are the connected ones that had read
    less than [frm]; the sender, who has read exactly [frm], keeps its
    pointer. *)
Lemma align_lists_spec (cp src frm : Z) (ps : list Z) (rp rf : list Z) :
  NoDup ps -> (forall p, In p ps -> 0 <= p < Z.of_nat (length rp)) ->
  length rf = length rp -> 0 <= src -> aget 0 rf src = frm ->
  let r := fold_left (align_lists cp src frm) ps (rp, rf) in
  length (fst r) = length rp /\ length (snd r) = length rp /\
  forall p, 0 <= p ->
    (In p ps -> has_bit cp p = true -> aget 0 rf p < frm ->
       aget 0 (fst r) p = aget 0 rp src /\ aget 0 (snd r) p = frm) /\
    (~ (In p ps /\ has_bit cp p = true /\ aget 0 rf p < frm) ->
       aget 0 (fst r) p = aget 0 rp p /\ aget 0 (snd r) p = aget 0 rf p).
Proof.
  intros Hnd. revert rp rf.
  induction Hnd as [| a ps Ha Hnd IH]; intros rp rf Hin Hlen Hsrc Hfrm;
    cbv zeta in *; cbn [fold_left].
  - cbn [fst snd]. split; [reflexivity |]. split; [exact Hlen |].
    intros p Hp. split; [intros [] | intros _; split; reflexivity].
  - rewrite list_elem_of_In in Ha.
    assert (Hra : 0 <= a < Z.of_nat (length rp)) by (apply Hin; now left).
    assert (Hin' : forall p, In p ps -> 0 <= p < Z.of_nat (length rp))
      by (intros p Hp; apply Hin; now right).
    assert (Hstep : align_lists cp src frm (rp, rf) a
                    = if has_bit cp a && (aget 0 rf a <? frm)
                      then (aset rp a (aget 0 rp src), aset rf a frm) else (rp, rf)).
    { unfold align_lists. cbn [fst snd].
      destruct (has_bit cp a); [| reflexivity].
      destruct (_ <? _); reflexivity. }
    rewrite Hstep. clear Hstep.
    destruct (has_bit cp a) eqn:Hbit; cbn [andb].
    2:{ destruct (IH rp rf Hin' Hlen Hsrc Hfrm) as (L1 & L2 & Hall).
        split; [exact L1 |]. split; [exact L2 |].
        intros p Hp. destruct (Hall p Hp) as [H1 H2]. split.
        - intros [<- | Hi] Hb Hlt; [congruence | now apply H1].
        - intros Hno. apply H2. intros (Hi & Hb & Hlt). apply Hno.
          split; [now right | tauto]. }
    destruct (aget 0 rf a <? frm) eqn:Hlt.
    2:{ apply Z.ltb_ge in Hlt.
        destruct (IH rp rf Hin' Hlen Hsrc Hfrm) as (L1 & L2 & Hall).
        split; [exact L1 |]. split; [exact L2 |].
        intros p Hp. destruct (Hall p Hp) as [H1 H2]. split.
        - intros [<- | Hi] Hb Hl; [lia | now apply H1].
        - intros Hno. apply H2. intros (Hi & Hb & Hl). apply Hno.
          split; [now right | tauto]. }
    apply Z.ltb_lt in Hlt.
    assert (Hne : a <> src) by (intros ->; lia).
    destruct (IH (aset rp a (aget 0 rp src)) (aset rf a frm)) as (L1 & L2 & Hall).
    { intros p Hp. rewrite length_aset. apply Hin. now right. }
    { now rewrite !length_aset. }
    { exact Hsrc. }
    { rewrite aget_aset_ne by lia. exact Hfrm. }
    rewrite length_aset in L1, L2.
    split; [exact L1 |]. split; [exact L2 |].
    intros p Hp. destruct (Hall p Hp) as [H1 H2].
    rewrite (aget_aset_ne 0 rp a src) in H1 by lia.
    destruct (Z.eq_dec p a) as [-> | Hpa].
    + rewrite (aget_aset_eq 0 rp) in H2 by lia.
      rewrite !(aget_aset_eq 0 rf) in H2 by lia.
      split.
      * intros _ _ _. apply H2. intros (Hi & _). contradiction.
      * intros Hno. exfalso. apply Hno. split; [now left | tauto].
    + rewrite !(aget_aset_ne 0 rf) in H1 by lia.
      rewrite !(aget_aset_ne 0 rf) in H2 by lia.
      rewrite !(aget_aset_ne 0 rp) in H2 by lia.
      split.
      * intros [<- | Hi] Hb Hl; [congruence | now apply H1].
      * intros Hno. apply H2. intros (Hi & Hb & Hl). apply Hno.
        split; [now right | tauto].
Qed.

(** Reads a field of the session through the updates of other fields. *)
Ltac session_fields :=
  cbn [is_server connections buffer self_ptr self_frame_count other_ptr
       other_frame_count unread_ptr unread_frame_count server_ptr server_frame_count
       replay_ptr replay_frame_count read_ptr read_frame_count connected_players
       self_mode self_player flip flip_frame timeout_cnt local_paused remote_paused
       is_replay force_rewind force_send_savestate savestate_request_outstanding
       quirks state_size zbuffer zbuffer_size delay_frames packet_buffer_size core_runs
       set_conn set_dframe set_connections set_buffer set_self_ptr set_self_frame_count
       set_other_ptr set_other_frame_count set_unread_ptr set_unread_frame_count
       set_server_ptr set_server_frame_count set_replay_ptr set_replay_frame_count
       set_read_ptr set_read_frame_count set_connected_players set_self_mode
       set_self_player set_flip set_flip_frame set_timeout_cnt set_remote_paused
       set_is_replay set_force_rewind set_force_send_savestate
       set_savestate_request_outstanding set_quirks set_state_size set_zbuffer
       set_zbuffer_size set_packet_buffer_size set_core_runs] in *.

Section LoadSavestate.
Context {hdr : netplay_private_h} {env : netplay_env}.

(** The session an accepted LOAD_SAVESTATE leaves, from the one in which
    its payload is read: [src] is [connection->player], [frm] the frame of
    the state and [zbytes] the compressed state. *)
Definition loaded (np3 : netplay_t) (src frm : Z) (zbytes : list Z) : netplay_t :=
  let np4 := set_zbuffer (zbytes ++ drop (length zbytes) (zbuffer np3)) np3 in
  let ptr := aget 0 (read_ptr np4) src in
  let np5 :=
    set_dframe np4 ptr
      (set_state (decompress zbytes (state_size np4)) (dframe_at np4 ptr)) in
  let np6 :=
    if self_frame_count np5 <? frm then
      set_self_frame_count (u32 (frm - 1))
        (set_self_ptr (PREV_PTR np5 (aget 0 (read_ptr np5) src)) np5)
    else np5 in
  let np7 := fold_left (align_step src frm) players np6 in
  set_other_frame_count frm
    (set_other_ptr (aget 0 (read_ptr np7) src)
       (set_savestate_request_outstanding false (set_force_rewind true np7))).

(** The session with the cursor of connection [c] moved [n] bytes on. *)
Definition read_on (np : netplay_t) (c : nat) (n : Z) : netplay_t :=
  set_conn np c (advance (conn np c) n).

Lemma RECV_read_on (np : netplay_t) (c : nat) (n : Z) (bytes tail rest : list Z)
    (on_fail : outcome) (k : list Z -> netplay_t -> outcome) :
  (c < length (connections np))%nat ->
  arrived (advance (conn np c) n) (bytes ++ tail) rest ->
  RECV (read_on np c n) c (Z.of_nat (length bytes)) on_fail k
    = k bytes (read_on np c (n + Z.of_nat (length bytes))) /\
  arrived (advance (conn np c) (n + Z.of_nat (length bytes))) tail rest.
Proof.
  intros Hc Harr. unfold read_on.
  destruct (RECV_arrived (set_conn np c (advance (conn np c) n)) c bytes tail rest
              on_fail k) as [H1 H2].
  { rewrite conn_set_conn_eq by exact Hc. exact Harr. }
  rewrite !conn_set_conn_eq in H1
    by (rewrite ?connections_set_conn_length; exact Hc).
  rewrite !conn_set_conn_eq in H2
    by (rewrite ?connections_set_conn_length; exact Hc).
  rewrite set_conn_set_conn, advance_advance in H1.
  rewrite advance_advance in H2.
  split; [exact H1 | exact H2].
Qed.

Lemma load_savestate_prepare_ready (np : netplay_t) :
  Z.land (quirks np) NETPLAY_QUIRK_INITIALIZATION = 0 -> load_savestate_prepare np = np.
Proof. intros H. unfold load_savestate_prepare. rewrite H. reflexivity. Qed.

(** [case NETPLAY_CMD_LOAD_SAVESTATE] when the whole payload (the frame,
    the inflated size and the compressed state) has arrived and the core
    needs no initialization. *)
Lemma cmd_load_savestate_arrived (np : netplay_t) (c : nat)
    (frm isize : Z) (zbytes rest : list Z) :
  Z.land (quirks np) NETPLAY_QUIRK_INITIALIZATION = 0 ->
  arrived (conn np c) (htonl frm ++ htonl isize ++ zbytes) rest ->
  0 <= frm < UINT32_MOD -> 0 <= isize < UINT32_MOD ->
  Z.of_nat (length zbytes) < 2 ^ 64 ->
  0 <= zbuffer_size np -> zbuffer_size np + 8 < 2 ^ 64 ->
  let src := player (conn np c) in
  let len := Z.of_nat (length zbytes) in
  cmd_load_savestate np c (8 + len)
  = if negb (is_playing (mode (conn np c))) || (zbuffer_size np <? len) then NAK np c
    else if negb (frm =? aget 0 (read_frame_count np) src) then NAK (read_on np c 4) c
    else if negb (isize =? state_size np) then NAK (read_on np c 8) c
    else BREAK (loaded (read_on np c (8 + len)) src frm zbytes).
Proof.
  intros Hq Harr Hfrm Hisize Hlen Hz0 Hz1. cbv zeta.
  pose proof (arrived_in_range np c _ _ Harr) as Hc.
  unfold cmd_load_savestate. rewrite load_savestate_prepare_ready by exact Hq.
  destruct (is_playing (mode (conn np c))) eqn:Hplay; cbn [negb orb]; [| reflexivity].
  replace (size_t (zbuffer_size np + 2 * SZ32)) with (zbuffer_size np + 8)
    by (unfold size_t; change (2 * SZ32) with 8; rewrite Z.mod_small; lia).
  replace (zbuffer_size np + 8 <? 8 + Z.of_nat (length zbytes))
    with (zbuffer_size np <? Z.of_nat (length zbytes))
    by (destruct (Z.ltb_spec (zbuffer_size np) (Z.of_nat (length zbytes)));
        symmetry; [apply Z.ltb_lt | apply Z.ltb_ge]; lia).
  destruct (zbuffer_size np <? Z.of_nat (length zbytes)); [reflexivity |].
  match goal with
  | |- RECV np c SZ32 ?f ?k = _ =>
      destruct (RECV_arrived np c (htonl frm) (htonl isize ++ zbytes) rest f k Harr)
        as [H1 Harr1]
  end.
  change (Z.of_nat (length (htonl frm))) with SZ32 in H1, Harr1.
  rewrite H1. clear H1. cbn beta zeta.
  rewrite ntohl_htonl by exact Hfrm.
  fold (read_on np c SZ32).
  rewrite conn_set_conn_eq in Harr1 by exact Hc.
  change (player (conn (read_on np c SZ32) c)) with (player (conn (read_on np c 4) c)).
  assert (Hpl : forall n, player (conn (read_on np c n) c) = player (conn np c)).
  { intros n. unfold read_on. rewrite conn_set_conn_eq by exact Hc. reflexivity. }
  rewrite Hpl.
  change (read_frame_count (read_on np c SZ32)) with (read_frame_count np).
  change SZ32 with 4 in *.
  destruct (frm =? aget 0 (read_frame_count np) (player (conn np c))); cbn [negb];
    [| reflexivity].
  match goal with
  | |- RECV _ c 4 ?f ?k = _ =>
      destruct (RECV_read_on np c 4 (htonl isize) zbytes rest f k Hc Harr1)
        as [H2 Harr2]
  end.
  change (Z.of_nat (length (htonl isize))) with 4 in H2, Harr2.
  rewrite H2. clear H2. cbn beta zeta.
  rewrite ntohl_htonl by exact Hisize.
  change (4 + 4) with 8 in *.
  change (state_size (read_on np c 8)) with (state_size np).
  destruct (isize =? state_size np); cbn [negb]; [| reflexivity].
  replace (size_t (8 + Z.of_nat (length zbytes) - 2 * 4))
    with (Z.of_nat (length zbytes))
    by (unfold size_t; rewrite Z.mod_small; lia).
  rewrite <- (app_nil_r zbytes) in Harr2.
  match goal with
  | |- RECV _ c _ ?f ?k = _ =>
      destruct (RECV_read_on np c 8 zbytes [] rest f k Hc Harr2) as [H3 _]
  end.
  rewrite H3. clear H3. cbn beta.
  reflexivity.
Qed.

(** What an accepted LOAD_SAVESTATE leaves in the session. *)
Lemma loaded_fields (x : netplay_t) (src frm : Z) (zbytes : list Z) :
  length (read_ptr x) = Z.to_nat MAX_USERS ->
  length (read_frame_count x) = Z.to_nat MAX_USERS ->
  0 <= src < MAX_USERS -> aget 0 (read_frame_count x) src = frm ->
  0 <= self_frame_count x -> frm < UINT32_MOD ->
  let y := loaded x src frm zbytes in
  let ptr := aget 0 (read_ptr x) src in
  connections y = connections x /\
  zbuffer y = zbytes ++ drop (length zbytes) (zbuffer x) /\
  buffer y = aset (buffer x) ptr
               (set_state (decompress zbytes (state_size x)) (dframe_at x ptr)) /\
  self_ptr y = (if self_frame_count x <? frm then PREV_PTR x ptr else self_ptr x) /\
  self_frame_count y = (if self_frame_count x <? frm then frm - 1
                        else self_frame_count x) /\
  (forall p, 0 <= p < MAX_USERS ->
     aget 0 (read_ptr y) p
     = (if has_bit (connected_players x) p && (aget 0 (read_frame_count x) p <? frm)
        then ptr else aget 0 (read_ptr x) p) /\
     aget 0 (read_frame_count y) p
     = (if has_bit (connected_players x) p && (aget 0 (read_frame_count x) p <? frm)
        then frm else aget 0 (read_frame_count x) p)) /\
  other_ptr y = ptr /\ other_frame_count y = frm /\
  force_rewind y = true /\ savestate_request_outstanding y = false /\
  connected_players y = connected_players x /\ timeout_cnt y = timeout_cnt x.
Proof.
  intros Hlp Hlf Hsrc Hfrm Hself Hmax. cbv zeta.
  unfold loaded. cbv zeta. rewrite align_fold_lists. cbv zeta.
  set (np5 := set_dframe _ _ _).
  assert (Hbs : PREV_PTR np5 (aget 0 (read_ptr np5) src)
                = PREV_PTR x (aget 0 (read_ptr x) src)).
  { unfold PREV_PTR, np5. rewrite buffer_size_set_dframe. reflexivity. }
  set (np6 := if self_frame_count np5 <? frm then _ else np5).
  assert (H6 : read_ptr np6 = read_ptr x /\ read_frame_count np6 = read_frame_count x /\
               connected_players np6 = connected_players x /\
               connections np6 = connections x /\ zbuffer np6 = zbuffer np5 /\
               buffer np6 = buffer np5 /\ timeout_cnt np6 = timeout_cnt x /\
               self_ptr np6 = (if self_frame_count x <? frm
                               then PREV_PTR x (aget 0 (read_ptr x) src) else self_ptr x) /\
               self_frame_count np6 = (if self_frame_count x <? frm then frm - 1
                                       else self_frame_count x)).
  { unfold np6. change (self_frame_count np5) with (self_frame_count x).
    destruct (Z.ltb_spec (self_frame_count x) frm).
    - session_fields. rewrite Hbs. unfold u32. rewrite Z.mod_small by lia.
      repeat split.
    - repeat split. }
  destruct H6 as (E1 & E2 & E3 & E4 & E5 & E6 & E7 & E8 & E9).
  rewrite E1, E2, E3.
  destruct (align_lists_spec (connected_players x) src frm players
              (read_ptr x) (read_frame_count x)) as (L1 & L2 & Hall).
  { apply (bool_decide_unpack _). vm_compute. exact I. }
  { intros p Hp. apply in_players in Hp. rewrite Hlp. lia. }
  { congruence. }
  { lia. }
  { exact Hfrm. }
  set (r := fold_left _ players _) in *.
  assert (Hsrcptr : aget 0 (fst r) src = aget 0 (read_ptr x) src).
  { destruct (Hall src ltac:(lia)) as [_ H2]. apply H2. intros (_ & _ & Hlt). lia. }
  session_fields. rewrite Hsrcptr.
  split; [exact E4 |]. split; [rewrite E5; reflexivity |].
  split; [rewrite E6; reflexivity |].
  split; [exact E8 |]. split; [exact E9 |].
  split.
  { intros p Hp. destruct (Hall p ltac:(lia)) as [H1 H2].
    destruct (has_bit (connected_players x) p) eqn:Hbit; cbn [andb].
    - destruct (Z.ltb_spec (aget 0 (read_frame_count x) p) frm) as [Hlt | Hge].
      + apply H1; [apply in_players; exact Hp | reflexivity | exact Hlt].
      + apply H2. intros (_ & _ & Hlt). lia.
    - apply H2. intros (_ & Hb & _). discriminate Hb. }
  repeat split; assumption.
Qed.

Lemma at_cursor_advance (cn : netplay_connection) (bytes rest : list Z) :
  arrived cn bytes rest -> at_cursor (advance cn (Z.of_nat (length bytes))) = rest.
Proof.
  intros H. rewrite <- (app_nil_r bytes) in H.
  destruct (netplay_recv_ok cn bytes [] rest H) as (_ & _ & _ & Hcur). exact Hcur.
Qed.

(** [netplay_get_cmd] on a connected peer whose whole LOAD_SAVESTATE
    command has arrived, when the core needs no initialization. *)
Lemma netplay_get_cmd_load_savestate_arrived (np : netplay_t) (c : nat) (had : bool)
    (frm isize : Z) (zbytes rest : list Z) :
  mode_ge_connected (mode (conn np c)) = true ->
  Z.land (quirks np) NETPLAY_QUIRK_INITIALIZATION = 0 ->
  arrived (conn np c)
    (cmd_bytes NETPLAY_CMD_LOAD_SAVESTATE (htonl frm ++ htonl isize ++ zbytes)) rest ->
  0 <= frm < UINT32_MOD -> 0 <= isize < UINT32_MOD ->
  8 + Z.of_nat (length zbytes) < UINT32_MOD ->
  0 <= zbuffer_size np -> zbuffer_size np + 8 < 2 ^ 64 ->
  let src := player (conn np c) in
  let len := Z.of_nat (length zbytes) in
  netplay_get_cmd np c had
  = finish
      (if negb (is_playing (mode (conn np c))) || (zbuffer_size np <? len)
       then NAK (after_read np c 8) c
       else if negb (frm =? aget 0 (read_frame_count np) src)
       then NAK (after_read np c 12) c
       else if negb (isize =? state_size np) then NAK (after_read np c 16) c
       else BREAK (loaded (after_read np c (16 + len)) src frm zbytes)) c had /\
  at_cursor (advance (conn np c) (16 + len)) = rest.
Proof.
  intros Hm Hq Harr Hfrm Hisize Hlen Hz0 Hz1. cbv zeta.
  pose proof (arrived_in_range np c _ _ Harr) as Hc.
  pose proof (at_cursor_advance _ _ _ Harr) as Hcur.
  assert (Hsz : Z.of_nat (length (htonl frm ++ htonl isize ++ zbytes))
                = 8 + Z.of_nat (length zbytes))
    by (rewrite !length_app, !length_htonl; lia).
  replace (Z.of_nat (length (cmd_bytes NETPLAY_CMD_LOAD_SAVESTATE
                               (htonl frm ++ htonl isize ++ zbytes))))
    with (16 + Z.of_nat (length zbytes)) in Hcur
    by (unfold cmd_bytes; rewrite !length_app, !length_htonl; lia).
  split; [| exact Hcur].
  unfold cmd_bytes in Harr. rewrite Hsz in Harr.
  replace (u32 (8 + Z.of_nat (length zbytes))) with (8 + Z.of_nat (length zbytes)) in Harr
    by (unfold u32; rewrite Z.mod_small; [reflexivity | unfold UINT32_MOD in *; lia]).
  destruct (netplay_get_cmd_header np c had (cmd_code NETPLAY_CMD_LOAD_SAVESTATE)
              (8 + Z.of_nat (length zbytes)) (htonl frm ++ htonl isize ++ zbytes) rest
              Hm Harr) as [Hget Harr1];
    [apply cmd_code_range | lia |].
  rewrite Hget. unfold dispatch. rewrite decode_cmd_code.
  rewrite (cmd_load_savestate_arrived (after_header np c) c frm isize zbytes rest);
    try assumption; [| unfold UINT32_MOD in *; lia].
  rewrite conn_after_header by exact Hc.
  change (mode (advance (conn np c) 8)) with (mode (conn np c)).
  change (player (advance (conn np c) 8)) with (player (conn np c)).
  change (zbuffer_size (after_header np c)) with (zbuffer_size np).
  change (read_frame_count (after_header np c)) with (read_frame_count np).
  change (state_size (after_header np c)) with (state_size np).
  assert (Hro : forall n, read_on (after_header np c) c n = after_read np c (8 + n)).
  { intros n. unfold read_on. rewrite conn_after_header by exact Hc.
    rewrite set_conn_after_header, advance_advance. reflexivity. }
  rewrite !Hro.
  change (8 + 4) with 12. change (8 + 8) with 16.
  replace (8 + (8 + Z.of_nat (length zbytes))) with (16 + Z.of_nat (length zbytes)) by lia.
  reflexivity.
Qed.

(** A NAK once [n] bytes of a command are read: only the connection table
    and the stall counter differ from the session before the command, the
    other connections are as they were, and the sender, whose socket still
    takes it, gets the NAK. *)
Lemma nak_after_read (np : netplay_t) (c : nat) (n : Z) :
  (c < length (connections np))%nat ->
  let np' := snd (netplay_cmd_nak (after_read np c n) c) in
  np' = set_timeout_cnt 0 (set_connections (connections np') np) /\
  (forall j, j <> c -> conn np' j = conn np j) /\
  (send_fails (conn np c) = false ->
   data (send_packet_buffer (conn np' c))
   = data (send_packet_buffer (conn np c)) ++ cmd_bytes NETPLAY_CMD_NAK []).
Proof.
  intros Hc. cbv zeta. unfold netplay_cmd_nak. cbn [snd].
  assert (Hc' : (c < length (connections (after_read np c n)))%nat)
    by (unfold after_read; session_fields; rewrite length_insert; exact Hc).
  destruct (send_fails (conn np c)) eqn:Hs.
  - rewrite netplay_send_raw_cmd_failed
      by (rewrite conn_after_read by exact Hc; exact Hs).
    cbn [snd]. split; [reflexivity |]. split; [| discriminate].
    intros j Hj. unfold after_read.
    change (conn (set_timeout_cnt 0 ?y) j) with (conn y j).
    apply conn_set_conn_ne. congruence.
  - rewrite netplay_send_raw_cmd_ok
      by (rewrite conn_after_read by exact Hc; exact Hs).
    cbn [snd]. split; [reflexivity |]. split.
    + intros j Hj. rewrite conn_set_conn_ne by congruence.
      unfold after_read.
      change (conn (set_timeout_cnt 0 ?y) j) with (conn y j).
      apply conn_set_conn_ne. congruence.
    + intros _. rewrite conn_set_conn_eq by exact Hc'.
      rewrite conn_after_read by exact Hc. reflexivity.
Qed.

(** X4. A LOAD_SAVESTATE command from a connected peer is refused when the
    sender is not PLAYING, when its compressed state is longer than
    [zbuffer_size], when its frame is not [read_frame_count] of the sender,
    or when its inflated size is not [state_size]: [netplay_get_cmd]
    returns false, so that the poll hangs the sender up, a NAK is sent to
    the sender, and nothing but the connection table and the stall
    counter, which is cleared, changes. *)
Theorem netplay_get_cmd_load_savestate_nak (np : netplay_t) (c : nat) (had : bool)
    (frm isize : Z) (zbytes rest : list Z) :
  mode_ge_connected (mode (conn np c)) = true ->
  Z.land (quirks np) NETPLAY_QUIRK_INITIALIZATION = 0 ->
  arrived (conn np c)
    (cmd_bytes NETPLAY_CMD_LOAD_SAVESTATE (htonl frm ++ htonl isize ++ zbytes)) rest ->
  0 <= frm < UINT32_MOD -> 0 <= isize < UINT32_MOD ->
  8 + Z.of_nat (length zbytes) < UINT32_MOD ->
  0 <= zbuffer_size np -> zbuffer_size np + 8 < 2 ^ 64 ->
  is_playing (mode (conn np c)) = false \/
  zbuffer_size np < Z.of_nat (length zbytes) \/
  frm <> aget 0 (read_frame_count np) (player (conn np c)) \/
  isize <> state_size np ->
  exists np',
    netplay_get_cmd np c had = Some (false, had, np') /\
    np' = set_timeout_cnt 0 (set_connections (connections np') np) /\
    (forall j, j <> c -> conn np' j = conn np j) /\
    (send_fails (conn np c) = false ->
     data (send_packet_buffer (conn np' c))
     = data (send_packet_buffer (conn np c)) ++ cmd_bytes NETPLAY_CMD_NAK []) /\
    (active (conn np c) = true ->
     poll_read_connections [c] np had = Some (had, netplay_hangup np' c)) /\
    active (conn (netplay_hangup np' c) c) = false.
Proof.
  intros Hm Hq Harr Hfrm Hisize Hlen Hz0 Hz1 Hbad.
  pose proof (arrived_in_range np c _ _ Harr) as Hc.
  destruct (netplay_get_cmd_load_savestate_arrived np c had frm isize zbytes rest
              Hm Hq Harr Hfrm Hisize Hlen Hz0 Hz1) as [Hget _].
  cbv zeta in Hget.
  assert (Hn : exists n, netplay_get_cmd np c had
                         = Some (false, had, snd (netplay_cmd_nak (after_read np c n) c))).
  { rewrite Hget.
    destruct (is_playing (mode (conn np c))); cbn [negb orb]; [| now exists 8].
    destruct (Z.ltb_spec (zbuffer_size np) (Z.of_nat (length zbytes)));
      [now exists 8 |].
    destruct (Z.eqb_spec frm (aget 0 (read_frame_count np) (player (conn np c))));
      cbn [negb]; [| now exists 12].
    destruct (Z.eqb_spec isize (state_size np)); cbn [negb]; [| now exists 16].
    exfalso. destruct Hbad as [Hb | [Hb | [Hb | Hb]]]; [discriminate Hb | lia | auto | auto]. }
  destruct Hn as [n Hn].
  destruct (nak_after_read np c n Hc) as (H1 & H2 & H3).
  eexists. split; [exact Hn |].
  split; [exact H1 |]. split; [exact H2 |]. split; [exact H3 |].
  split; [| apply active_netplay_hangup].
  intros Ha. cbn [poll_read_connections]. rewrite Ha, Hn. reflexivity.
Qed.

(** Committing a command whose handler left the session [y], with the
    connection table of the session in which its [n] bytes were read: the
    bytes are dropped from the buffer of the sender, the stall counter is
    cleared and every other field is as in [y]. *)
Lemma finish_break_consumed (np y : netplay_t) (c : nat) (had : bool) (n : Z)
    (rest : list Z) :
  (c < length (connections np))%nat ->
  connections y = connections (after_read np c n) ->
  at_cursor (advance (conn np c) n) = rest ->
  exists np',
    finish (BREAK y) c had = Some (true, true, np') /\
    connections np' = connections (consumed np c rest) /\ timeout_cnt np' = 0 /\
    zbuffer np' = zbuffer y /\ buffer np' = buffer y /\
    self_ptr np' = self_ptr y /\ self_frame_count np' = self_frame_count y /\
    read_ptr np' = read_ptr y /\ read_frame_count np' = read_frame_count y /\
    other_ptr np' = other_ptr y /\ other_frame_count np' = other_frame_count y /\
    force_rewind np' = force_rewind y /\
    savestate_request_outstanding np' = savestate_request_outstanding y /\
    connected_players np' = connected_players y.
Proof.
  intros Hc Hy Hcur.
  assert (Hcy : conn y c = advance (conn np c) n).
  { unfold conn at 1. rewrite Hy. apply (conn_after_read np c _ Hc). }
  eexists. split; [reflexivity |].
  split; [| repeat split].
  change (connections (set_timeout_cnt 0 (set_conn y c ?k)))
    with (<[c := k]> (connections y)).
  rewrite Hcy, Hy.
  change (connections (after_read np c n))
    with (<[c := advance (conn np c) n]> (connections np)).
  rewrite list_insert_insert_eq.
  unfold netplay_recv_flush.
  unfold at_cursor in Hcur. rewrite Hcur. reflexivity.
Qed.

(** X3. A LOAD_SAVESTATE command from a PLAYING peer whose frame is
    [read_frame_count] of the sender, whose inflated size is [state_size]
    and whose compressed state fits [zbuffer] is accepted: the state is
    decompressed into the slot at the sender's read pointer; when the frame
    is ahead of [self_frame_count], [self_ptr] and [self_frame_count]
    become the slot before that pointer and the frame before it; every
    connected player that had read less than the frame is moved to the
    sender's read pointer and to the frame; [other_ptr] and
    [other_frame_count] become that pointer and that frame, a rewind is
    forced and no savestate request is outstanding any more. *)
Theorem netplay_get_cmd_load_savestate (np : netplay_t) (c : nat) (had : bool)
    (frm isize : Z) (zbytes rest : list Z) :
  mode (conn np c) = NETPLAY_CONNECTION_PLAYING ->
  Z.land (quirks np) NETPLAY_QUIRK_INITIALIZATION = 0 ->
  arrived (conn np c)
    (cmd_bytes NETPLAY_CMD_LOAD_SAVESTATE (htonl frm ++ htonl isize ++ zbytes)) rest ->
  0 <= frm < UINT32_MOD -> 0 <= isize < UINT32_MOD ->
  8 + Z.of_nat (length zbytes) < UINT32_MOD ->
  0 <= zbuffer_size np -> zbuffer_size np + 8 < 2 ^ 64 ->
  length (read_ptr np) = Z.to_nat MAX_USERS ->
  length (read_frame_count np) = Z.to_nat MAX_USERS ->
  0 <= player (conn np c) < MAX_USERS -> 0 <= self_frame_count np ->
  Z.of_nat (length zbytes) <= zbuffer_size np ->
  frm = aget 0 (read_frame_count np) (player (conn np c)) ->
  isize = state_size np ->
  let ptr := aget 0 (read_ptr np) (player (conn np c)) in
  exists np',
    netplay_get_cmd np c had = Some (true, true, np') /\
    connections np' = connections (consumed np c rest) /\ timeout_cnt np' = 0 /\
    zbuffer np' = zbytes ++ drop (length zbytes) (zbuffer np) /\
    buffer np' = aset (buffer np) ptr
                   (set_state (decompress zbytes (state_size np)) (dframe_at np ptr)) /\
    self_ptr np' = (if self_frame_count np <? frm then PREV_PTR np ptr else self_ptr np) /\
    self_frame_count np' = (if self_frame_count np <? frm then frm - 1
                            else self_frame_count np) /\
    (forall p, 0 <= p < MAX_USERS ->
       aget 0 (read_ptr np') p
       = (if has_bit (connected_players np) p && (aget 0 (read_frame_count np) p <? frm)
          then ptr else aget 0 (read_ptr np) p) /\
       aget 0 (read_frame_count np') p
       = (if has_bit (connected_players np) p && (aget 0 (read_frame_count np) p <? frm)
          then frm else aget 0 (read_frame_count np) p)) /\
    other_ptr np' = ptr /\ other_frame_count np' = frm /\
    force_rewind np' = true /\ savestate_request_outstanding np' = false /\
    connected_players np' = connected_players np.
Proof.
  intros Hmode Hq Harr Hfrm Hisize Hlen Hz0 Hz1 Hlp Hlf Hsrc Hself Hfit Hf Hi. cbv zeta.
  pose proof (arrived_in_range np c _ _ Harr) as Hc.
  assert (Hm : mode_ge_connected (mode (conn np c)) = true) by (rewrite Hmode; reflexivity).
  destruct (netplay_get_cmd_load_savestate_arrived np c had frm isize zbytes rest
              Hm Hq Harr Hfrm Hisize Hlen Hz0 Hz1) as [Hget Hcur].
  cbv zeta in Hget.
  rewrite Hmode in Hget. cbn [is_playing negb orb] in Hget.
  replace (zbuffer_size np <? Z.of_nat (length zbytes)) with false in Hget
    by (symmetry; apply Z.ltb_ge; exact Hfit).
  rewrite <- Hf, <- Hi, !Z.eqb_refl in Hget. cbn [negb] in Hget.
  destruct (loaded_fields (after_read np c (16 + Z.of_nat (length zbytes)))
              (player (conn np c)) frm zbytes Hlp Hlf Hsrc (eq_sym Hf) Hself ltac:(lia))
    as (F1 & F2 & F3 & F4 & F5 & F6 & F7 & F8 & F9 & F10 & F11 & _).
  destruct (finish_break_consumed np _ c had _ rest Hc F1 Hcur)
    as (np' & Hfin & G1 & G2 & Gz & Gb & Gsp & Gsf & Grp & Grf & Gop & Gof & Gfr & Gsr & Gcp).
  exists np'. split; [rewrite Hget; exact Hfin |].
  split; [exact G1 |]. split; [exact G2 |].
  rewrite Gz, Gb, Gsp, Gsf, Grp, Grf, Gop, Gof, Gfr, Gsr, Gcp.
  split; [exact F2 |]. split; [exact F3 |]. split; [exact F4 |]. split; [exact F5 |].
  split; [exact F6 |].
  split; [exact F7 |]. split; [exact F8 |]. split; [exact F9 |].
  split; [exact F10 | exact F11].
Qed.

End LoadSavestate.

(** The theorem at the client that holds the server's answer to its
    request: the state is loaded into slot 2, the frame of the state is not
    ahead, and nobody is realigned. *)
Lemma netplay_get_cmd_load_savestate_witness :
  exists np',
    netplay_get_cmd (hdr := sample_header) (env := sample_env true 0)
      loading_client 0 false = Some (true, true, np') /\
    state (dframe_at np' 2) = [1; 2; 3; 4] /\
    other_ptr np' = 2 /\ other_frame_count np' = 5 /\ force_rewind np' = true.
Proof.
  destruct (netplay_get_cmd_load_savestate (hdr := sample_header)
              (env := sample_env true 0) loading_client 0 false 5 4 [1; 2; 3; 4] [])
    as (np' & Hget & _ & _ & _ & Hbuf & _ & _ & _ & Hop & Hof & Hfr & _);
    try reflexivity; try (vm_compute; repeat split; congruence).
  exists np'. split; [exact Hget |].
  unfold dframe_at. rewrite Hbuf.
  split; [vm_compute; reflexivity |].
  split; [exact Hop |]. split; [exact Hof | exact Hfr].
Defined.

(** A client that holds a LOAD_SAVESTATE for frame 7 while it has read the
    server's input up to frame 5. *)
Definition early_load_client : netplay_t :=
  sample_session false
    [sample_connection 7 NETPLAY_CONNECTION_PLAYING 0
       (cmd_bytes (hdr := sample_header) NETPLAY_CMD_LOAD_SAVESTATE
          (htonl 7 ++ htonl 4 ++ [1; 2; 3; 4]))] 1.

(** The theorem at that client. *)
Lemma netplay_get_cmd_load_savestate_nak_witness :
  exists np',
    netplay_get_cmd (hdr := sample_header) (env := sample_env true 0)
      early_load_client 0 false = Some (false, false, np') /\
    data (send_packet_buffer (conn np' 0)) = [0; 0; 0; 1; 0; 0; 0; 0] /\
    buffer np' = buffer early_load_client.
Proof.
  destruct (netplay_get_cmd_load_savestate_nak (hdr := sample_header)
              (env := sample_env true 0) early_load_client 0 false 7 4 [1; 2; 3; 4] [])
    as (np' & Hget & Hnp & _ & Hsend & _);
    try reflexivity; try (vm_compute; repeat split; congruence).
  { right. right. left. vm_compute. discriminate. }
  exists np'. split; [exact Hget |].
  split; [rewrite Hsend by reflexivity; reflexivity |].
  rewrite Hnp. reflexivity.
Defined.

(** ** Polling and the stall counter *)

(** [netplay_update_unread_ptr] writes the unread pointer and frame and
    nothing else. *)
Lemma netplay_update_unread_ptr_writes (np : netplay_t) :
  netplay_update_unread_ptr np
  = set_unread_frame_count (unread_frame_count (netplay_update_unread_ptr np))
      (set_unread_ptr (unread_ptr (netplay_update_unread_ptr np)) np).
Proof.
  unfold netplay_update_unread_ptr.
  destruct (is_server np && (connected_players np =? 0)); reflexivity.
Qed.

(** Two sessions with the same read pointers and frames, the same own and
    server pointers and frames and the same players. *)
Definition same_reads (np np' : netplay_t) : Prop :=
  is_server np' = is_server np /\ connected_players np' = connected_players np /\
  self_ptr np' = self_ptr np /\ self_frame_count np' = self_frame_count np /\
  read_ptr np' = read_ptr np /\ read_frame_count np' = read_frame_count np /\
  server_ptr np' = server_ptr np /\ server_frame_count np' = server_frame_count np.

Lemma same_reads_unread (np np' : netplay_t) :
  same_reads np np' ->
  unread_ptr (netplay_update_unread_ptr np') = unread_ptr (netplay_update_unread_ptr np) /\
  unread_frame_count (netplay_update_unread_ptr np')
  = unread_frame_count (netplay_update_unread_ptr np).
Proof.
  intros (H1 & H2 & H3 & H4 & H5 & H6 & H7 & H8).
  assert (Hfold : forall ps acc,
            fold_left (unread_step np') ps acc = fold_left (unread_step np) ps acc).
  { induction ps as [| p ps IH]; intros acc; [reflexivity |].
    cbn [fold_left]. rewrite IH. f_equal.
    unfold unread_step. rewrite H2, H5, H6. reflexivity. }
  unfold netplay_update_unread_ptr.
  rewrite H1, H2, H3, H4, H7, H8, Hfold.
  destruct (is_server np && (connected_players np =? 0));
    cbn [unread_ptr unread_frame_count set_unread_frame_count set_unread_ptr];
    split; reflexivity.
Qed.

Lemma same_reads_update (np : netplay_t) : same_reads np (netplay_update_unread_ptr np).
Proof. rewrite netplay_update_unread_ptr_writes. repeat split. Qed.

Lemma same_reads_timeout (np : netplay_t) (t : Z) : same_reads np (set_timeout_cnt t np).
Proof. repeat split. Qed.

Lemma same_reads_trans (a b c : netplay_t) :
  same_reads a b -> same_reads b c -> same_reads a c.
Proof. unfold same_reads. intuition congruence. Qed.

(** An active connection is past the handshake, its socket is sound and
    less than a command header is waiting in its receive buffer. *)
Definition link_idle (cn : netplay_connection) : Prop :=
  active cn = true ->
  mode_ge_connected (mode cn) = true /\ recv_fails cn = false /\
  read (recv_packet_buffer cn) = 0 /\
  Z.of_nat (length (data (recv_packet_buffer cn))) < 8.

(** The loop of [netplay_poll_net_input] has nothing to do: no command is
    waiting, the slots it makes ready are ready, and the frame of the
    earliest unread input is not past our own. *)
Definition stalled (np : netplay_t) : Prop :=
  Forall link_idle (connections np) /\
  used (dframe_at np (unread_ptr (netplay_update_unread_ptr np))) = true /\
  frame (dframe_at np (unread_ptr (netplay_update_unread_ptr np)))
  = unread_frame_count (netplay_update_unread_ptr np) /\
  (is_server np = false ->
   used (dframe_at np (server_ptr np)) = true /\
   frame (dframe_at np (server_ptr np)) = server_frame_count np) /\
  unread_frame_count (netplay_update_unread_ptr np) <= self_frame_count np.

(** Below [UINT32_MAX] the counter goes up by one; in the range of an
    [unsigned] it is the successor modulo 2^32. *)
Lemma u32_succ_below (x : Z) : x + 1 < UINT32_MOD -> u32_succ x = x + 1.
Proof.
  intros H. unfold u32_succ.
  replace (x + 1 <? UINT32_MOD) with true by (symmetry; now apply Z.ltb_lt).
  reflexivity.
Qed.

Lemma u32_succ_wraps (x : Z) : 0 <= x < UINT32_MOD -> u32_succ x = u32 (x + 1).
Proof.
  intros H. unfold u32_succ, u32.
  destruct (Z.ltb_spec (x + 1) UINT32_MOD) as [Hlt | Hge].
  - rewrite Z.mod_small by lia. reflexivity.
  - replace (x + 1) with UINT32_MOD by lia. rewrite Z.mod_same; [reflexivity |].
    unfold UINT32_MOD. lia.
Qed.

Lemma recv_reset_at_rest (cn : netplay_connection) (v : Z) :
  read (recv_packet_buffer cn) = 0 ->
  set_recv_packet_buffer
    (netplay_recv_reset (set_read v (recv_packet_buffer cn))) cn = cn.
Proof.
  destruct cn as [a f m p pa sb [al d r] fo sf rf]. cbn. intros ->. reflexivity.
Qed.

Section Stall.
Context {hdr : netplay_private_h} {env : netplay_env}.

(** A connection with less than a header waiting: [netplay_get_cmd] goes
    to [shrt] and leaves everything as it was. *)
Lemma netplay_get_cmd_idle (np : netplay_t) (c : nat) (had : bool) :
  active (conn np c) = true -> link_idle (conn np c) ->
  netplay_get_cmd np c had = Some (true, had, np).
Proof.
  intros Ha Hidle. destruct (Hidle Ha) as (Hm & Hf & Hr & Hlen).
  assert (Hc : (c < length (connections np))%nat).
  { unfold conn in Ha. destruct (connections np !! c) as [cn |] eqn:E;
      [apply lookup_lt_Some in E; exact E | discriminate Ha]. }
  rewrite netplay_get_cmd_connected by exact Hm.
  unfold RECV at 1. unfold netplay_recv. rewrite Hf, Hr.
  destruct (0 + SZ32 <=? Z.of_nat (length (data (recv_packet_buffer (conn np c))))).
  - unfold RECV, netplay_recv. rewrite conn_set_conn_eq by exact Hc.
    cbn [recv_fails recv_packet_buffer set_recv_packet_buffer read set_read data].
    rewrite Hf.
    replace (0 + SZ32 + SZ32 <=? Z.of_nat (length (data (recv_packet_buffer (conn np c)))))
      with false by (symmetry; apply Z.leb_gt; change SZ32 with 4; lia).
    cbn [finish]. rewrite conn_set_conn_eq by exact Hc.
    rewrite set_conn_set_conn.
    cbn [recv_packet_buffer set_recv_packet_buffer].
    change (set_recv_packet_buffer ?b (set_recv_packet_buffer ?b' ?cn))
      with (set_recv_packet_buffer b cn).
    rewrite recv_reset_at_rest by exact Hr.
    rewrite set_conn_same. reflexivity.
  - cbn [finish].
    assert (E : set_recv_packet_buffer
                  (netplay_recv_reset (recv_packet_buffer (conn np c))) (conn np c)
                = conn np c).
    { destruct (conn np c) as [a f m p pa sb [al d r] fo sf rf].
      cbn in *. now rewrite Hr. }
    rewrite E, set_conn_same. reflexivity.
Qed.

Lemma poll_read_connections_idle (idxs : list nat) (np : netplay_t) (had : bool) :
  Forall link_idle (connections np) ->
  poll_read_connections idxs np had = Some (had, np).
Proof.
  intros Hall. induction idxs as [| i idxs IH]; [reflexivity |].
  cbn [poll_read_connections].
  destruct (active (conn np i)) eqn:Ha; [| exact IH].
  rewrite netplay_get_cmd_idle; [exact IH | exact Ha |].
  unfold conn in *. destruct (connections np !! i) as [cn |] eqn:E; [| discriminate Ha].
  rewrite Forall_forall in Hall. apply Hall.
  apply list_elem_of_lookup. exists i. exact E.
Qed.

(** The session after one more retry: the stall counter is one up and
    the unread pointer is brought up to date. *)
Definition retried (np : netplay_t) : netplay_t :=
  netplay_update_unread_ptr (set_timeout_cnt (u32_succ (timeout_cnt np)) np).

Lemma netplay_update_unread_ptr_keeps (np : netplay_t) :
  connections (netplay_update_unread_ptr np) = connections np /\
  buffer (netplay_update_unread_ptr np) = buffer np /\
  timeout_cnt (netplay_update_unread_ptr np) = timeout_cnt np /\
  remote_paused (netplay_update_unread_ptr np) = remote_paused np /\
  is_server (netplay_update_unread_ptr np) = is_server np /\
  server_ptr (netplay_update_unread_ptr np) = server_ptr np /\
  server_frame_count (netplay_update_unread_ptr np) = server_frame_count np /\
  self_frame_count (netplay_update_unread_ptr np) = self_frame_count np.
Proof.
  unfold netplay_update_unread_ptr.
  destruct (is_server np && (connected_players np =? 0)); repeat split.
Qed.

Lemma set_unread_again (a b : Z) (np : netplay_t) :
  set_unread_frame_count a (set_unread_ptr b (set_unread_frame_count a (set_unread_ptr b np)))
  = set_unread_frame_count a (set_unread_ptr b np).
Proof. reflexivity. Qed.

Lemma netplay_update_unread_ptr_again (np : netplay_t) :
  netplay_update_unread_ptr (netplay_update_unread_ptr np) = netplay_update_unread_ptr np.
Proof.
  destruct (same_reads_unread np (netplay_update_unread_ptr np) (same_reads_update np))
    as [H1 H2].
  rewrite (netplay_update_unread_ptr_writes (netplay_update_unread_ptr np)), H1, H2.
  set (a := unread_frame_count (netplay_update_unread_ptr np)).
  set (b := unread_ptr (netplay_update_unread_ptr np)).
  pose proof (netplay_update_unread_ptr_writes np) as E. fold a b in E.
  rewrite E. apply set_unread_again.
Qed.

Lemma retried_fields (np : netplay_t) :
  connections (retried np) = connections np /\ buffer (retried np) = buffer np /\
  timeout_cnt (retried np) = u32_succ (timeout_cnt np) /\
  remote_paused (retried np) = remote_paused np /\
  is_server (retried np) = is_server np /\ server_ptr (retried np) = server_ptr np /\
  server_frame_count (retried np) = server_frame_count np /\
  self_frame_count (retried np) = self_frame_count np /\
  unread_ptr (retried np) = unread_ptr (netplay_update_unread_ptr np) /\
  unread_frame_count (retried np) = unread_frame_count (netplay_update_unread_ptr np) /\
  netplay_update_unread_ptr (retried np) = retried np.
Proof.
  unfold retried.
  destruct (netplay_update_unread_ptr_keeps
              (set_timeout_cnt (u32_succ (timeout_cnt np)) np))
    as (K1 & K2 & K3 & K4 & K5 & K6 & K7 & K8).
  destruct (same_reads_unread np _ (same_reads_timeout np (u32_succ (timeout_cnt np))))
    as [U1 U2].
  rewrite K1, K2, K3, K4, K5, K6, K7, K8, U1, U2, netplay_update_unread_ptr_again.
  repeat split.
Qed.

Lemma stalled_retried (np : netplay_t) : stalled np -> stalled (retried np).
Proof.
  intros (H1 & H2 & H3 & H4 & H5).
  destruct (retried_fields np) as (F1 & F2 & _ & _ & F5 & F6 & F7 & F8 & F9 & F10 & F11).
  unfold stalled, dframe_at. rewrite F11, F1, F2, F5, F6, F7, F8, F9, F10.
  repeat split; try assumption; now apply H4.
Qed.

Lemma deliver_nothing (k : nat) (np : netplay_t) :
  (forall i, socket_arrivals k i = []) -> deliver k np = np.
Proof.
  intros Hq. unfold deliver.
  assert (E : imap (fun i cn =>
                      set_recv_packet_buffer
                        (set_data (data (recv_packet_buffer cn) ++ socket_arrivals k i)
                           (recv_packet_buffer cn)) cn) (connections np)
              = connections np).
  { apply list_eq. intros i. rewrite list_lookup_imap.
    destruct (connections np !! i) as [cn |]; [| reflexivity].
    cbn. rewrite Hq, app_nil_r.
    destruct cn as [a f m p pa sb [al d r] fo sf rf]. reflexivity. }
  rewrite E. apply set_connections_same.
Qed.

(** One iteration of the blocking loop in a stalled session with a quiet
    network: the counter goes up, [socket_select] waits once, and the loop
    ends with the fatal error when the counter is at [MAX_RETRIES] and no
    peer is paused. *)
Lemma poll_loop_stalled (fuel k : nat) (np : netplay_t) :
  stalled np -> (forall i, socket_arrivals k i = []) -> 0 <= socket_select k ->
  poll_loop (S fuel) k np true
  = if (MAX_RETRIES <=? u32_succ (timeout_cnt np)) && negb (remote_paused np)
    then Some (-1, retried np)
    else poll_loop fuel (S k) (retried np) true.
Proof.
  intros Hst Hq Hsel.
  pose proof (stalled_retried np Hst) as (H1 & H2 & H3 & H4 & H5).
  destruct (retried_fields np) as (F1 & F2 & F3 & F4 & F5 & F6 & F7 & F8 & F9 & F10 & F11).
  rewrite F11 in H2, H3, H5.
  cbn [poll_loop]. fold (retried np).
  assert (R1 : netplay_delta_frame_ready (retried np) (unread_ptr (retried np))
                 (unread_frame_count (retried np)) = (true, retried np)).
  { unfold netplay_delta_frame_ready. rewrite H2, H3, Z.eqb_refl. reflexivity. }
  rewrite R1.
  assert (R2 : (if negb (is_server (retried np))
                then netplay_delta_frame_ready (retried np) (server_ptr (retried np))
                       (server_frame_count (retried np))
                else (true, retried np)) = (true, retried np)).
  { destruct (is_server (retried np)) eqn:Hs; [reflexivity |]. cbn [negb].
    destruct (H4 eq_refl) as [G1 G2].
    unfold netplay_delta_frame_ready. rewrite G1, G2, Z.eqb_refl. reflexivity. }
  rewrite R2.
  rewrite poll_read_connections_idle by exact H1.
  rewrite F11.
  replace (self_frame_count (retried np) <? unread_frame_count (retried np)) with false
    by (symmetry; apply Z.ltb_ge; exact H5).
  cbn [negb].
  replace (socket_select k <? 0) with false by (symmetry; apply Z.ltb_ge; exact Hsel).
  rewrite deliver_nothing by exact Hq.
  rewrite F3, F4. reflexivity.
Qed.

Lemma set_timeout_unread_again (a b u p u' p' : Z) (np : netplay_t) :
  set_unread_frame_count u
    (set_unread_ptr p
       (set_timeout_cnt a
          (set_unread_frame_count u' (set_unread_ptr p' (set_timeout_cnt b np)))))
  = set_unread_frame_count u (set_unread_ptr p (set_timeout_cnt a np)).
Proof. reflexivity. Qed.

Lemma retried_at (np : netplay_t) (a : Z) :
  netplay_update_unread_ptr (set_timeout_cnt a (retried np))
  = netplay_update_unread_ptr (set_timeout_cnt a np).
Proof.
  assert (Hs : same_reads (set_timeout_cnt a np) (set_timeout_cnt a (retried np))).
  { unfold retried.
    pose proof (same_reads_update (set_timeout_cnt (u32_succ (timeout_cnt np)) np)) as H.
    unfold same_reads in *. cbn [is_server connected_players self_ptr self_frame_count
      read_ptr read_frame_count server_ptr server_frame_count set_timeout_cnt] in *.
    exact H. }
  destruct (same_reads_unread _ _ Hs) as [U1 U2].
  rewrite (netplay_update_unread_ptr_writes (set_timeout_cnt a (retried np))), U1, U2.
  rewrite (netplay_update_unread_ptr_writes (set_timeout_cnt a np)) at 3.
  unfold retried.
  rewrite (netplay_update_unread_ptr_writes
             (set_timeout_cnt (u32_succ (timeout_cnt np)) np)).
  apply set_timeout_unread_again.
Qed.

(** The blocking loop in a stalled session with a quiet network and no
    peer paused returns the fatal error at the iteration that brings the
    counter to [MAX_RETRIES], not before. *)
Lemma poll_loop_stall_count (n fuel k : nat) (np : netplay_t) :
  (forall k i, socket_arrivals k i = []) -> (forall k, 0 <= socket_select k) ->
  stalled np -> remote_paused np = false ->
  timeout_cnt np + Z.of_nat (S n) = MAX_RETRIES ->
  ((fuel <= n)%nat -> poll_loop fuel k np true = None) /\
  ((S n <= fuel)%nat ->
   poll_loop fuel k np true
   = Some (-1, netplay_update_unread_ptr (set_timeout_cnt MAX_RETRIES np))).
Proof.
  intros Hq Hsel. revert fuel k np.
  induction n as [| n IH]; intros fuel k np Hst Hp Ht.
  - assert (Hsucc : u32_succ (timeout_cnt np) = timeout_cnt np + 1)
      by (apply u32_succ_below; unfold MAX_RETRIES in Ht; unfold UINT32_MOD; lia).
    split.
    + intros Hf. replace fuel with 0%nat by lia. reflexivity.
    + intros Hf. destruct fuel as [| fuel]; [lia |].
      rewrite poll_loop_stalled by auto. rewrite Hsucc.
      replace (MAX_RETRIES <=? timeout_cnt np + 1) with true
        by (symmetry; apply Z.leb_le; lia).
      rewrite Hp. cbn [negb andb]. unfold retried. rewrite Hsucc.
      replace (timeout_cnt np + 1) with MAX_RETRIES by lia. reflexivity.
  - assert (Hsucc : u32_succ (timeout_cnt np) = timeout_cnt np + 1)
      by (apply u32_succ_below; unfold MAX_RETRIES in Ht; unfold UINT32_MOD; lia).
    destruct (retried_fields np) as (_ & _ & F3 & F4 & _).
    rewrite Hsucc in F3.
    destruct (IH (pred fuel) (S k) (retried np) (stalled_retried np Hst)) as [I1 I2];
      [congruence | lia |].
    split.
    + intros Hf. destruct fuel as [| fuel]; [reflexivity |].
      rewrite poll_loop_stalled by auto. rewrite Hsucc.
      replace (MAX_RETRIES <=? timeout_cnt np + 1) with false
        by (symmetry; apply Z.leb_gt; lia).
      cbn [andb]. apply I1. cbn [pred]. lia.
    + intros Hf. destruct fuel as [| fuel]; [lia |].
      rewrite poll_loop_stalled by auto. rewrite Hsucc.
      replace (MAX_RETRIES <=? timeout_cnt np + 1) with false
        by (symmetry; apply Z.leb_gt; lia).
      cbn [andb]. cbn [pred] in I2. rewrite I2 by lia.
      rewrite retried_at. reflexivity.
Qed.

Lemma poll_max_fd_none (cs : list netplay_connection) (acc : Z) :
  Forall (fun cn => active cn = false) cs ->
  fold_left (fun max_fd cn => if active cn && (max_fd <=? fd cn) then fd cn + 1 else max_fd)
    cs acc = acc.
Proof.
  intros H. revert acc. induction H as [| cn cs Hcn _ IH]; intros acc; [reflexivity |].
  cbn [fold_left]. rewrite Hcn. cbn [andb]. apply IH.
Qed.

(** X5. A blocking poll that finds the session stalled (no command
    waiting, the earliest unread frame not past our own) on a network
    where nothing arrives and [socket_select] does not fail, with no peer
    paused, retries until [timeout_cnt] is [MAX_RETRIES] and then returns
    the fatal error -1: from a counter [t] below [MAX_RETRIES] that takes
    [MAX_RETRIES - t] iterations, one [socket_select] each, no fewer. *)
Theorem netplay_poll_net_input_stall_timeout (np : netplay_t) (k fuel : nat) :
  (forall k i, socket_arrivals k i = []) -> (forall k, 0 <= socket_select k) ->
  stalled np -> poll_max_fd np <> 0 -> remote_paused np = false ->
  timeout_cnt np < MAX_RETRIES ->
  let n := Z.to_nat (MAX_RETRIES - timeout_cnt np) in
  ((fuel < n)%nat -> netplay_poll_net_input fuel k np true = None) /\
  ((n <= fuel)%nat ->
   netplay_poll_net_input fuel k np true
   = Some (-1, netplay_update_unread_ptr (set_timeout_cnt MAX_RETRIES np))).
Proof.
  intros Hq Hsel Hst Hfd Hp Ht. cbv zeta.
  unfold netplay_poll_net_input.
  replace (poll_max_fd np =? 0) with false by (symmetry; now apply Z.eqb_neq).
  destruct (poll_loop_stall_count (pred (Z.to_nat (MAX_RETRIES - timeout_cnt np)))
              fuel k np Hq Hsel Hst Hp) as [H1 H2]; [lia |].
  split; intros Hf; [apply H1 | apply H2]; lia.
Qed.

(** X6. The same blocking poll while a peer is paused ([remote_paused])
    never returns: whatever the stall counter, no number of iterations
    ends the loop. *)
Theorem netplay_poll_net_input_paused (np : netplay_t) (k fuel : nat) :
  (forall k i, socket_arrivals k i = []) -> (forall k, 0 <= socket_select k) ->
  stalled np -> poll_max_fd np <> 0 -> remote_paused np = true ->
  netplay_poll_net_input fuel k np true = None.
Proof.
  intros Hq Hsel Hst Hfd Hp.
  unfold netplay_poll_net_input.
  replace (poll_max_fd np =? 0) with false by (symmetry; now apply Z.eqb_neq).
  clear Hfd. revert k np Hst Hp.
  induction fuel as [| fuel IH]; intros k np Hst Hp; [reflexivity |].
  rewrite poll_loop_stalled by auto.
  rewrite Hp. cbn [negb]. rewrite andb_false_r.
  apply IH; [now apply stalled_retried |].
  destruct (retried_fields np) as (_ & _ & _ & F4 & _). congruence.
Qed.

(** X7. With no active connection [netplay_poll_net_input] returns 0 at
    once, blocking or not: nothing is read, nothing is waited for and the
    stall counter does not move. *)
Theorem netplay_poll_net_input_no_connection (np : netplay_t) (k fuel : nat)
    (block : bool) :
  Forall (fun cn => active cn = false) (connections np) ->
  netplay_poll_net_input fuel k np block = Some (0, np).
Proof.
  intros H. unfold netplay_poll_net_input, poll_max_fd.
  rewrite poll_max_fd_none by exact H. reflexivity.
Qed.

(** X8. A poll that does not block never returns the fatal error: when it
    returns, it returns 0. *)
Theorem netplay_poll_net_input_nonblocking (fuel k : nat) (np : netplay_t)
    (r : Z) (np' : netplay_t) :
  netplay_poll_net_input fuel k np false = Some (r, np') -> r = 0.
Proof.
  unfold netplay_poll_net_input.
  destruct (poll_max_fd np =? 0); [intros H; now inversion H |].
  revert k np. induction fuel as [| fuel IH]; intros k np; [discriminate |].
  cbn [poll_loop].
  destruct (netplay_delta_frame_ready _ _ _) as [[] np2]; [| intros H; now inversion H].
  destruct (if negb (is_server np2) then _ else _) as [[] np3];
    [| intros H; now inversion H].
  destruct (poll_read_connections _ _ _) as [[[] np4] |]; [apply IH | | discriminate].
  intros H; now inversion H.
Qed.

End Stall.

(** A client whose server has sent nothing since frame 5, the frame the
    client is at. *)
Definition stalled_client : netplay_t :=
  sample_session false [sample_connection 7 NETPLAY_CONNECTION_CONNECTED 0 []] 1.

Lemma stalled_client_stalled : stalled stalled_client.
Proof.
  split.
  - repeat constructor; vm_compute; congruence.
  - repeat split; vm_compute; congruence.
Defined.

(** The theorem at that client: the sixteenth retry is fatal, the
    fifteenth is not. *)
Lemma netplay_poll_net_input_stall_timeout_witness :
  netplay_poll_net_input (hdr := sample_header) (env := sample_env true 0)
    15 0 stalled_client true = None /\
  exists np',
    netplay_poll_net_input (hdr := sample_header) (env := sample_env true 0)
      16 0 stalled_client true = Some (-1, np') /\
    timeout_cnt np' = 16.
Proof.
  split.
  - apply (netplay_poll_net_input_stall_timeout (hdr := sample_header)
             (env := sample_env true 0) stalled_client 0 15);
      try reflexivity; try (intros; vm_compute; congruence);
      first [exact stalled_client_stalled | vm_compute; lia].
  - eexists. split.
    + apply (netplay_poll_net_input_stall_timeout (hdr := sample_header)
               (env := sample_env true 0) stalled_client 0 16);
        try reflexivity; try (intros; vm_compute; congruence);
        first [exact stalled_client_stalled | vm_compute; lia].
    + reflexivity.
Defined.

(** The theorem at the same client while the server is paused. *)
Lemma netplay_poll_net_input_paused_witness :
  netplay_poll_net_input (hdr := sample_header) (env := sample_env true 0)
    100 0 (set_remote_paused true stalled_client) true = None.
Proof.
  apply (netplay_poll_net_input_paused (hdr := sample_header) (env := sample_env true 0));
    try reflexivity; try (intros; vm_compute; congruence).
  split.
  - repeat constructor; vm_compute; congruence.
  - repeat split; vm_compute; congruence.
Defined.

(** The theorem at a server nobody has joined. *)
Lemma netplay_poll_net_input_no_connection_witness :
  netplay_poll_net_input (hdr := sample_header) (env := sample_env true 0)
    0 0 (sample_session true [] 0) true = Some (0, sample_session true [] 0).
Proof.
  apply (netplay_poll_net_input_no_connection (hdr := sample_header)
           (env := sample_env true 0)).
  constructor.
Defined.

(** The theorem at the stalled client, polled without blocking. *)
Lemma netplay_poll_net_input_nonblocking_witness :
  exists r np',
    netplay_poll_net_input (hdr := sample_header) (env := sample_env true 0)
      1 0 stalled_client false = Some (r, np') /\ r = 0.
Proof.
  assert (E : exists r np',
             netplay_poll_net_input (hdr := sample_header) (env := sample_env true 0)
               1 0 stalled_client false = Some (r, np'))
    by (eexists; eexists; vm_compute; reflexivity).
  destruct E as (r & np' & E). exists r, np'. split; [exact E |].
  exact (netplay_poll_net_input_nonblocking (hdr := sample_header)
           (env := sample_env true 0) 1 0 stalled_client r np' E).
Defined.

(** ** From the sender to the receiver *)

Section Wire.
Context {hdr : netplay_private_h} {env : netplay_env}.

(** X9. What [netplay_send_raw_cmd] puts on a sound socket is read back by
    [netplay_get_cmd] at a connected peer as the same command with the
    same payload size, the payload being next in the receive buffer: the
    eight bytes of the header are the command code and the size in network
    order, and the [switch] takes the case of that command. *)
Theorem netplay_send_raw_cmd_received (s : netplay_t) (c : nat) (k : netplay_cmd)
    (payload : list Z) (r : netplay_t) (d : nat) (had : bool) (rest : list Z) :
  (c < length (connections s))%nat -> send_fails (conn s c) = false ->
  Z.of_nat (length payload) < UINT32_MOD ->
  exists s' sent,
    netplay_send_raw_cmd s c k payload = (true, s') /\
    data (send_packet_buffer (conn s' c)) = data (send_packet_buffer (conn s c)) ++ sent /\
    length sent = (8 + length payload)%nat /\
    (mode_ge_connected (mode (conn r d)) = true -> arrived (conn r d) sent rest ->
     decode_cmd (cmd_code k) = Some k /\
     netplay_get_cmd r d had
     = finish (dispatch (after_header r d) d (cmd_code k) (Z.of_nat (length payload))) d had /\
     arrived (conn (after_header r d) d) payload rest).
Proof.
  intros Hc Hs Hlen.
  exists (set_conn s c (enqueue (conn s c) (cmd_bytes k payload))), (cmd_bytes k payload).
  split; [apply netplay_send_raw_cmd_ok; exact Hs |].
  split; [rewrite conn_set_conn_eq by exact Hc; reflexivity |].
  split; [unfold cmd_bytes; rewrite !length_app, !length_htonl; lia |].
  intros Hm Harr.
  split; [apply decode_cmd_code |].
  unfold cmd_bytes in Harr.
  replace (u32 (Z.of_nat (length payload))) with (Z.of_nat (length payload)) in Harr
    by (unfold u32; rewrite Z.mod_small; [reflexivity | lia]).
  apply (netplay_get_cmd_header r d had (cmd_code k) (Z.of_nat (length payload))
           payload rest Hm Harr); [apply cmd_code_range | lia].
Qed.

(** X10. The INPUT command [send_input_frame] sends to one connection for
    frame [f], player word [w] and state [s0 s1 s2] is 28 bytes, and
    [netplay_get_cmd] at a connected peer reads it back as those five
    words: its size passes the check of the INPUT case and the handler
    runs on [f], [w], [s0], [s1], [s2]. *)
Theorem send_input_frame_received (s : netplay_t) (c : nat) (f w s0 s1 s2 : Z)
    (r : netplay_t) (d : nat) (had : bool) (rest : list Z) :
  (c < length (connections s))%nat -> send_fails (conn s c) = false ->
  Forall (fun x => 0 <= x < UINT32_MOD) [f; w; s0; s1; s2] ->
  exists s' sent,
    send_input_frame s (Some c) None f w [s0; s1; s2] = (true, s') /\
    data (send_packet_buffer (conn s' c)) = data (send_packet_buffer (conn s c)) ++ sent /\
    length sent = 28%nat /\
    (forall j, j <> c -> conn s' j = conn s j) /\
    (mode_ge_connected (mode (conn r d)) = true -> arrived (conn r d) sent rest ->
     netplay_get_cmd r d had
     = finish (cmd_input_words (after_read r d 28) d [f; w; s0; s1; s2]) d had).
Proof.
  intros Hc Hs Hws.
  exists (set_conn s c (enqueue (conn s c) (input_frame_bytes f w [s0; s1; s2]))),
         (input_frame_bytes f w [s0; s1; s2]).
  split.
  { unfold send_input_frame. rewrite netplay_send_ok by exact Hs. reflexivity. }
  split; [rewrite conn_set_conn_eq by exact Hc; reflexivity |].
  split; [reflexivity |].
  split; [intros j Hj; apply conn_set_conn_ne; congruence |].
  intros Hm Harr.
  apply (netplay_get_cmd_input_words r d had f w s0 s1 s2 rest Hm Harr Hws).
Qed.

End Wire.

(** A client that holds a NOINPUT command for frame 5. *)
Definition noinput_client : netplay_t :=
  sample_session false
    [sample_connection 7 NETPLAY_CONNECTION_PLAYING 0
       [0; 0; 0; 4; 0; 0; 0; 4; 0; 0; 0; 5]] 1.

(** The theorem at the server of three peers telling its first peer
    NOINPUT for frame 5, and at the client that holds those twelve
    bytes. *)
Lemma netplay_send_raw_cmd_received_witness :
  exists s' np',
    netplay_send_raw_cmd (hdr := sample_header) three_peer_server 0
      NETPLAY_CMD_NOINPUT (htonl 5) = (true, s') /\
    data (send_packet_buffer (conn s' 0)) = [0; 0; 0; 4; 0; 0; 0; 4; 0; 0; 0; 5] /\
    netplay_get_cmd (hdr := sample_header) (env := sample_env true 0)
      noinput_client 0 false = Some (true, true, np') /\
    server_frame_count np' = 6.
Proof.
  destruct (netplay_send_raw_cmd_received (hdr := sample_header) (env := sample_env true 0)
              three_peer_server 0 NETPLAY_CMD_NOINPUT (htonl 5) noinput_client 0 false [])
    as (s' & sent & Hsend & Hdata & Hlen & Hrecv);
    [vm_compute; lia | reflexivity | reflexivity |].
  assert (Hsent : sent = [0; 0; 0; 4; 0; 0; 0; 4; 0; 0; 0; 5]).
  { injection Hsend as <-. vm_compute in Hdata. congruence. }
  subst sent.
  destruct (Hrecv eq_refl) as (_ & Hget & _); [has_arrived |].
  exists s'. eexists.
  split; [exact Hsend |]. split; [rewrite Hdata; reflexivity |].
  split; [rewrite Hget; vm_compute; reflexivity | reflexivity].
Defined.

(** The theorem at the same server relaying to its spectator the input of
    frame 5 of player 0, and at the client that holds those bytes. *)
Lemma send_input_frame_received_witness :
  exists s' np',
    send_input_frame (hdr := sample_header) three_peer_server (Some 1%nat) None
      5 0 [1; 0; 0] = (true, s') /\
    data (send_packet_buffer (conn s' 1))
    = data (recv_packet_buffer (conn (input_client 20 [5; 0; 1; 0; 0]) 0)) /\
    netplay_get_cmd (hdr := sample_header) (env := sample_env true 0)
      (input_client 20 [5; 0; 1; 0; 0]) 0 false = Some (true, true, np') /\
    words_at (real_input_state (dframe_at np' 2)) 0 = [1; 0; 0].
Proof.
  destruct (send_input_frame_received (hdr := sample_header) (env := sample_env true 0)
              three_peer_server 1 5 0 1 0 0 (input_client 20 [5; 0; 1; 0; 0]) 0 false [])
    as (s' & sent & Hsend & Hdata & Hlen & _ & Hrecv);
    [vm_compute; lia | reflexivity | words_in_range |].
  assert (Hsent : sent = data (recv_packet_buffer (conn (input_client 20 [5; 0; 1; 0; 0]) 0))).
  { injection Hsend as <-. vm_compute in Hdata. vm_compute. congruence. }
  subst sent.
  specialize (Hrecv eq_refl ltac:(has_arrived)).
  exists s'. eexists.
  split; [exact Hsend |]. split; [rewrite Hdata; reflexivity |].
  split; [rewrite Hrecv; vm_compute; reflexivity | reflexivity].
Defined.

(** ** The other commands *)

Section Commands.
Context {hdr : netplay_private_h} {env : netplay_env}.

(** Committing a command whose handler left the session [y], with the
    connection table of the session in which its [n] bytes were read. *)
Lemma finish_break_state (np y : netplay_t) (c : nat) (had : bool) (n : Z)
    (rest : list Z) :
  (c < length (connections np))%nat ->
  connections y = connections (after_read np c n) ->
  at_cursor (advance (conn np c) n) = rest ->
  finish (BREAK y) c had
  = Some (true, true,
          set_timeout_cnt 0 (set_connections (connections (consumed np c rest)) y)).
Proof.
  intros Hc Hy Hcur.
  assert (Hcy : conn y c = advance (conn np c) n).
  { unfold conn at 1. rewrite Hy. apply (conn_after_read np c _ Hc). }
  unfold finish, set_conn. rewrite Hcy, Hy.
  change (connections (after_read np c n))
    with (<[c := advance (conn np c) n]> (connections np)).
  rewrite list_insert_insert_eq.
  unfold netplay_recv_flush.
  unfold at_cursor in Hcur. rewrite Hcur. reflexivity.
Qed.

(** A refused command: false is returned, [*had_input] is left alone, the
    sender gets a NAK when its socket takes it, and nothing but the
    connection table and the stall counter, which is cleared, changes. *)
Definition refused (np : netplay_t) (c : nat) (had : bool)
    (result : option (bool * bool * netplay_t)) : Prop :=
  exists np',
    result = Some (false, had, np') /\
    np' = set_timeout_cnt 0 (set_connections (connections np') np) /\
    (forall j, j <> c -> conn np' j = conn np j) /\
    (send_fails (conn np c) = false ->
     data (send_packet_buffer (conn np' c))
     = data (send_packet_buffer (conn np c)) ++ cmd_bytes NETPLAY_CMD_NAK []).

Lemma refused_nak (np : netplay_t) (c : nat) (had : bool) (n : Z) :
  (c < length (connections np))%nat ->
  refused np c had (finish (NAK (after_read np c n) c) c had).
Proof.
  intros Hc. destruct (nak_after_read np c n Hc) as (H1 & H2 & H3).
  eexists. split; [reflexivity |]. split; [exact H1 |]. split; [exact H2 | exact H3].
Qed.

(** X11. A NOINPUT command is refused by a server; a client accepts it
    when its frame is [server_frame_count], and then the server pointer
    and frame move on by one and nothing else changes; any other frame is
    refused.  The size word of the header is not looked at. *)
Theorem netplay_get_cmd_noinput (np : netplay_t) (c : nat) (had : bool)
    (size frm : Z) (rest : list Z) :
  mode_ge_connected (mode (conn np c)) = true ->
  arrived (conn np c)
    (htonl (cmd_code NETPLAY_CMD_NOINPUT) ++ htonl size ++ htonl frm) rest ->
  0 <= size < UINT32_MOD -> 0 <= frm < UINT32_MOD ->
  (is_server np = false -> frm = server_frame_count np ->
   netplay_get_cmd np c had
   = Some (true, true,
           set_server_frame_count (u32 (frm + 1))
             (set_server_ptr (NEXT_PTR np (server_ptr np)) (consumed np c rest)))) /\
  (is_server np = true \/ frm <> server_frame_count np ->
   refused np c had (netplay_get_cmd np c had)).
Proof.
  intros Hm Harr Hsize Hfrm.
  pose proof (arrived_in_range np c _ _ Harr) as Hc.
  pose proof (at_cursor_advance _ _ _ Harr) as Hcur.
  replace (Z.of_nat (length (htonl (cmd_code NETPLAY_CMD_NOINPUT) ++
                             htonl size ++ htonl frm))) with 12 in Hcur
    by (rewrite !length_app, !length_htonl; reflexivity).
  destruct (netplay_get_cmd_header np c had (cmd_code NETPLAY_CMD_NOINPUT) size
              (htonl frm) rest Hm Harr) as [Hget Harr1];
    [apply cmd_code_range | exact Hsize |].
  rewrite Hget. unfold dispatch. rewrite decode_cmd_code.
  unfold cmd_noinput.
  change (is_server (after_header np c)) with (is_server np).
  change (after_header np c) with (after_read np c 8).
  destruct (is_server np) eqn:Hs.
  { split; [discriminate |]. intros _. now apply refused_nak. }
  rewrite <- (app_nil_r (htonl frm)) in Harr1.
  match goal with
  | |- context [RECV ?x c SZ32 ?f ?k] =>
      destruct (RECV_arrived x c (htonl frm) [] rest f k Harr1) as [H1 _]
  end.
  change (Z.of_nat (length (htonl frm))) with SZ32 in H1.
  rewrite H1. clear H1. cbn beta zeta.
  rewrite ntohl_htonl by exact Hfrm.
  change (after_read np c 8) with (after_header np c).
  rewrite conn_after_header by exact Hc.
  rewrite set_conn_after_header, advance_advance.
  change (8 + SZ32) with 12. fold (after_read np c 12).
  change (server_frame_count (after_read np c 12)) with (server_frame_count np).
  change (server_ptr (after_read np c 12)) with (server_ptr np).
  change (NEXT_PTR (after_read np c 12)) with (NEXT_PTR np).
  destruct (Z.eqb_spec frm (server_frame_count np)) as [Heq | Hne]; cbn [negb].
  - split; [| intros [H | H]; [discriminate H | contradiction]].
    intros _ _. rewrite <- Heq.
    match goal with
    | |- finish (BREAK ?y) c had = _ =>
        rewrite (finish_break_state np y c had 12 rest Hc eq_refl Hcur)
    end.
    reflexivity.
  - split; [intros _ H; contradiction |]. intros _. now apply refused_nak.
Qed.

(** X12. A FLIP_PLAYERS command is refused by a server, and by a client
    when its frame is before [server_frame_count]; otherwise the client
    inverts [flip], takes the frame as [flip_frame] and forces a rewind
    when that frame is before its own.  From then on, outside a replay,
    [netplay_flip_port] answers the old [flip] before the flip frame and
    its negation from the flip frame on. *)
Theorem netplay_get_cmd_flip_players (np : netplay_t) (c : nat) (had : bool)
    (ff : Z) (rest : list Z) :
  mode_ge_connected (mode (conn np c)) = true ->
  arrived (conn np c) (cmd_bytes NETPLAY_CMD_FLIP_PLAYERS (htonl ff)) rest ->
  0 <= ff < UINT32_MOD ->
  (is_server np = false -> server_frame_count np <= ff ->
   let x := set_flip_frame ff (set_flip (negb (flip np)) (consumed np c rest)) in
   let np' := if ff <? self_frame_count np then set_force_rewind true x else x in
   netplay_get_cmd np c had = Some (true, true, np') /\
   (ff <> 0 -> is_replay np = false ->
    forall f, netplay_flip_port (set_self_frame_count f np')
              = if f <? ff then flip np else negb (flip np))) /\
  (is_server np = true \/ ff < server_frame_count np ->
   refused np c had (netplay_get_cmd np c had)).
Proof.
  intros Hm Harr Hff.
  pose proof (arrived_in_range np c _ _ Harr) as Hc.
  pose proof (at_cursor_advance _ _ _ Harr) as Hcur.
  replace (Z.of_nat (length (cmd_bytes NETPLAY_CMD_FLIP_PLAYERS (htonl ff)))) with 12
    in Hcur by (unfold cmd_bytes; rewrite !length_app, !length_htonl; reflexivity).
  unfold cmd_bytes in Harr.
  change (u32 (Z.of_nat (length (htonl ff)))) with SZ32 in Harr.
  destruct (netplay_get_cmd_header np c had (cmd_code NETPLAY_CMD_FLIP_PLAYERS) SZ32
              (htonl ff) rest Hm Harr) as [Hget Harr1];
    [apply cmd_code_range | vm_compute; split; congruence |].
  rewrite Hget. unfold dispatch. rewrite decode_cmd_code.
  unfold cmd_flip_players. rewrite Z.eqb_refl. cbn [negb].
  rewrite <- (app_nil_r (htonl ff)) in Harr1.
  match goal with
  | |- context [RECV ?x c SZ32 ?f ?k] =>
      destruct (RECV_arrived x c (htonl ff) [] rest f k Harr1) as [H1 _]
  end.
  change (Z.of_nat (length (htonl ff))) with SZ32 in H1.
  rewrite H1. clear H1. cbn beta zeta.
  rewrite ntohl_htonl by exact Hff.
  rewrite conn_after_header by exact Hc.
  rewrite set_conn_after_header, advance_advance.
  change (8 + SZ32) with 12. fold (after_read np c 12).
  change (is_server (after_read np c 12)) with (is_server np).
  change (server_frame_count (after_read np c 12)) with (server_frame_count np).
  destruct (is_server np) eqn:Hs.
  { split; [discriminate |]. intros _. now apply refused_nak. }
  destruct (Z.ltb_spec ff (server_frame_count np)) as [Hlt | Hge].
  { split; [lia |]. intros _. now apply refused_nak. }
  split; [| intros [H | H]; [discriminate H | lia]].
  intros _ _. cbv zeta.
  split.
  - change (self_frame_count (set_flip_frame ff ?y)) with (self_frame_count np).
    change (xorb (flip (after_read np c 12)) true) with (xorb (flip np) true).
    rewrite xorb_true_r.
    destruct (ff <? self_frame_count np);
      match goal with
      | |- finish (BREAK ?y) c had = _ =>
          rewrite (finish_break_state np y c had 12 rest Hc eq_refl Hcur)
      end; reflexivity.
  - intros Hnz Hr f.
    assert (E : forall y, flip_frame y = ff -> is_replay y = false ->
                          flip y = negb (flip np) -> self_frame_count y = f ->
                          netplay_flip_port y = if f <? ff then flip np else negb (flip np)).
    { intros y E1 E2 E3 E4. unfold netplay_flip_port. rewrite E1, E2, E3, E4.
      replace (ff =? 0) with false by (symmetry; now apply Z.eqb_neq).
      destruct (f <? ff), (flip np); reflexivity. }
    destruct (ff <? self_frame_count np); apply E; try reflexivity; exact Hr.
Qed.

(** X13. The commands without a handler of their own: an ACK is committed
    and changes nothing but the receive buffer and the stall counter; a
    NAK makes [netplay_get_cmd] return false, with no reply; a command
    code that is none of the known ones is refused with a NAK. *)
Theorem netplay_get_cmd_header_only (np : netplay_t) (c : nat) (had : bool)
    (code size : Z) (rest : list Z) :
  mode_ge_connected (mode (conn np c)) = true ->
  arrived (conn np c) (htonl code ++ htonl size) rest ->
  0 <= code < UINT32_MOD -> 0 <= size < UINT32_MOD ->
  (code = cmd_code NETPLAY_CMD_ACK ->
   netplay_get_cmd np c had = Some (true, true, consumed np c rest)) /\
  (code = cmd_code NETPLAY_CMD_NAK ->
   netplay_get_cmd np c had = Some (false, had, after_read np c 8)) /\
  (decode_cmd code = None -> refused np c had (netplay_get_cmd np c had)).
Proof.
  intros Hm Harr Hcode Hsize.
  pose proof (arrived_in_range np c _ _ Harr) as Hc.
  pose proof (at_cursor_advance _ _ _ Harr) as Hcur.
  replace (Z.of_nat (length (htonl code ++ htonl size))) with 8 in Hcur
    by (rewrite !length_app, !length_htonl; reflexivity).
  rewrite <- (app_nil_r (htonl size)) in Harr.
  destruct (netplay_get_cmd_header np c had code size [] rest Hm Harr Hcode Hsize)
    as [Hget _].
  rewrite Hget. unfold dispatch.
  split; [| split].
  - intros ->. rewrite decode_cmd_code.
    apply (finish_break_state np (after_header np c) c had 8 rest Hc eq_refl Hcur).
  - intros ->. rewrite decode_cmd_code. reflexivity.
  - intros ->. change (after_header np c) with (after_read np c 8).
    now apply refused_nak.
Qed.

(** The commands PAUSE and RESUME carry no payload. *)
Lemma netplay_get_cmd_no_payload (np : netplay_t) (c : nat) (had : bool)
    (k : netplay_cmd) (rest : list Z) :
  mode_ge_connected (mode (conn np c)) = true ->
  arrived (conn np c) (cmd_bytes k []) rest ->
  netplay_get_cmd np c had
    = finish (dispatch (after_read np c 8) c (cmd_code k) 0) c had /\
  at_cursor (advance (conn np c) 8) = rest.
Proof.
  intros Hm Harr.
  pose proof (at_cursor_advance _ _ _ Harr) as Hcur.
  replace (Z.of_nat (length (cmd_bytes k []))) with 8 in Hcur
    by (unfold cmd_bytes; rewrite !length_app, !length_htonl; reflexivity).
  split; [| exact Hcur].
  apply (netplay_get_cmd_header np c had (cmd_code k) 0 [] rest Hm Harr);
    [apply cmd_code_range | vm_compute; split; congruence].
Qed.

(** X14. A PAUSE command of a connected peer, on sockets that accept what
    is sent: the connection is marked paused, [remote_paused] is set, and
    PAUSE is queued on every other connection that is active and
    connected, and on no other. *)
Theorem netplay_get_cmd_pause (np : netplay_t) (c : nat) (had : bool) (rest : list Z) :
  mode_ge_connected (mode (conn np c)) = true ->
  arrived (conn np c) (cmd_bytes NETPLAY_CMD_PAUSE []) rest ->
  (forall j, j <> c -> hears None j (conn np j) = true ->
             send_fails (conn np j) = false) ->
  exists np',
    netplay_get_cmd np c had = Some (true, true, np') /\
    remote_paused np' = true /\ paused (conn np' c) = true /\
    at_cursor (conn np' c) = rest /\
    (forall j, j <> c ->
       conn np' j = if hears None j (conn np j)
                    then enqueue (conn np j) (cmd_bytes NETPLAY_CMD_PAUSE [])
                    else conn np j).
Proof.
  intros Hm Harr Hok.
  pose proof (arrived_in_range np c _ _ Harr) as Hc.
  destruct (netplay_get_cmd_no_payload np c had _ rest Hm Harr) as [Hget Hcur].
  rewrite Hget. unfold dispatch. rewrite decode_cmd_code. unfold cmd_pause.
  set (x := set_remote_paused true
              (set_conn (after_read np c 8) c
                 (set_paused true (conn (after_read np c 8) c)))).
  assert (Hlen : length (connections x) = length (connections np)).
  { unfold x. cbn [connections set_remote_paused].
    rewrite connections_set_conn_length. apply length_connections_after_read. }
  assert (Hxc : conn x c = set_paused true (advance (conn np c) 8)).
  { unfold x. change (conn (set_remote_paused true ?y) c) with (conn y c).
    rewrite conn_set_conn_eq by (rewrite length_connections_after_read; exact Hc).
    rewrite conn_after_read by exact Hc. reflexivity. }
  assert (Hxj : forall j, j <> c -> conn x j = conn np j).
  { intros j Hj. unfold x. change (conn (set_remote_paused true ?y) j) with (conn y j).
    rewrite conn_set_conn_ne by congruence. apply conn_after_read_ne. exact Hj. }
  destruct (conn_send_raw_cmd_all_ok x c NETPLAY_CMD_PAUSE [])
    as (Hnet & _ & _ & Hl & Hcc & Hjj).
  { intros j Hj Hh. rewrite Hxj in * by exact Hj. now apply Hok. }
  apply net_only_fields in Hnet as (_ & _ & _ & _ & _ & _ & _ & _ & _ & _ & _ & _ & _ & Hrp).
  destruct (finish_break_conn (netplay_send_raw_cmd_all x (Some c) NETPLAY_CMD_PAUSE [])
              c had) as (np' & Hfin & _ & Hc' & Hj').
  { rewrite Hl, Hlen. exact Hc. }
  exists np'. split; [exact Hfin |].
  split.
  { assert (E : remote_paused np'
                = remote_paused (netplay_send_raw_cmd_all x (Some c) NETPLAY_CMD_PAUSE [])).
    { injection Hfin as <-. reflexivity. }
    rewrite E, Hrp. reflexivity. }
  rewrite Hc', Hcc, Hxc.
  split; [reflexivity |].
  split.
  { unfold at_cursor in *. cbn in *. rewrite Hcur. apply drop_0. }
  intros j Hj. rewrite Hj', Hjj, Hxj by exact Hj. reflexivity.
Qed.

(** Some connection other than [c] is active and paused. *)
Definition still_paused (np : netplay_t) (c : nat) : Prop :=
  exists j, j <> c /\ active (conn np j) = true /\ paused (conn np j) = true.

Lemma existsb_still_paused (np x : netplay_t) (c : nat) :
  (c < length (connections np))%nat ->
  paused (conn x c) = false ->
  (forall j, j <> c -> conn x j = conn np j) ->
  length (connections x) = length (connections np) ->
  existsb (fun sc => active sc && paused sc) (connections x) = true <-> still_paused np c.
Proof.
  intros Hc Hp Hj Hl. rewrite existsb_exists. split.
  - intros (cn & Hin & Hf).
    apply list_elem_of_In, list_elem_of_lookup in Hin as [j Hjl].
    apply conn_lookup in Hjl as Hcj.
    apply andb_prop in Hf as [Ha Hpa].
    destruct (Nat.eq_dec j c) as [-> | Hne]; [congruence |].
    exists j. rewrite <- (Hj j Hne), Hcj. auto.
  - intros (j & Hne & Ha & Hpa).
    exists (conn x j). split.
    + apply list_elem_of_In, list_elem_of_lookup. exists j.
      apply lookup_conn. rewrite Hl.
      destruct (le_lt_dec (length (connections np)) j) as [Hge | Hlt]; [| exact Hlt].
      rewrite (conn_out_of_range np j Hge) in Ha. discriminate Ha.
    + rewrite (Hj j Hne), Ha, Hpa. reflexivity.
Qed.

(** X15. A RESUME command of a connected peer, on sockets that accept
    what is sent: the connection is no longer paused; [remote_paused]
    stays set exactly when another active connection is still paused; and
    RESUME is passed on, to every other connection that is active and
    connected, only when no peer is paused any more and we are not paused
    ourselves. *)
Theorem netplay_get_cmd_resume (np : netplay_t) (c : nat) (had : bool) (rest : list Z) :
  mode_ge_connected (mode (conn np c)) = true ->
  arrived (conn np c) (cmd_bytes NETPLAY_CMD_RESUME []) rest ->
  (forall j, j <> c -> hears None j (conn np j) = true ->
             send_fails (conn np j) = false) ->
  exists np',
    netplay_get_cmd np c had = Some (true, true, np') /\
    paused (conn np' c) = false /\
    (remote_paused np' = true <-> still_paused np c) /\
    (forall j, j <> c ->
       conn np' j = if negb (remote_paused np') && negb (local_paused np) &&
                       hears None j (conn np j)
                    then enqueue (conn np j) (cmd_bytes NETPLAY_CMD_RESUME [])
                    else conn np j).
Proof.
  intros Hm Harr Hok.
  pose proof (arrived_in_range np c _ _ Harr) as Hc.
  destruct (netplay_get_cmd_no_payload np c had _ rest Hm Harr) as [Hget _].
  rewrite Hget. unfold dispatch. rewrite decode_cmd_code. unfold cmd_resume.
  set (x1 := set_remote_paused false
               (set_conn (after_read np c 8) c
                  (set_paused false (conn (after_read np c 8) c)))).
  assert (Hlen : length (connections x1) = length (connections np)).
  { unfold x1. cbn [connections set_remote_paused].
    rewrite connections_set_conn_length. apply length_connections_after_read. }
  assert (Hxc : conn x1 c = set_paused false (advance (conn np c) 8)).
  { unfold x1. change (conn (set_remote_paused false ?y) c) with (conn y c).
    rewrite conn_set_conn_eq by (rewrite length_connections_after_read; exact Hc).
    rewrite conn_after_read by exact Hc. reflexivity. }
  assert (Hxj : forall j, j <> c -> conn x1 j = conn np j).
  { intros j Hj. unfold x1. change (conn (set_remote_paused false ?y) j) with (conn y j).
    rewrite conn_set_conn_ne by congruence. apply conn_after_read_ne. exact Hj. }
  pose proof (existsb_still_paused np x1 c Hc ltac:(rewrite Hxc; reflexivity) Hxj Hlen)
    as Hex.
  set (b := existsb (fun sc => active sc && paused sc) (connections x1)) in *.
  set (x2 := set_remote_paused b x1).
  change (remote_paused x2) with b. change (local_paused x2) with (local_paused np).
  assert (Hx2c : conn x2 c = set_paused false (advance (conn np c) 8)) by exact Hxc.
  assert (Hx2j : forall j, j <> c -> conn x2 j = conn np j) by exact Hxj.
  assert (Hlen2 : length (connections x2) = length (connections np)) by exact Hlen.
  destruct (negb b && negb (local_paused np)) eqn:Hrelay.
  - destruct (conn_send_raw_cmd_all_ok x2 c NETPLAY_CMD_RESUME [])
      as (Hnet & _ & _ & Hl & Hcc & Hjj).
    { intros j Hj Hh. rewrite Hx2j in * by exact Hj. now apply Hok. }
    apply net_only_fields in Hnet
      as (_ & _ & _ & _ & _ & _ & _ & _ & _ & _ & _ & _ & _ & Hrp).
    destruct (finish_break_conn (netplay_send_raw_cmd_all x2 (Some c) NETPLAY_CMD_RESUME [])
                c had) as (np' & Hfin & _ & Hc' & Hj').
    { rewrite Hl, Hlen2. exact Hc. }
    assert (E : remote_paused np' = b).
    { injection Hfin as <-. cbn [remote_paused set_timeout_cnt set_conn set_connections].
      rewrite Hrp. reflexivity. }
    exists np'. split; [exact Hfin |].
    rewrite E, Hc', Hcc, Hx2c. split; [reflexivity |]. split; [exact Hex |].
    intros j Hj. rewrite Hj', Hjj, Hx2j, Hrelay by exact Hj. reflexivity.
  - destruct (finish_break_conn x2 c had) as (np' & Hfin & _ & Hc' & Hj').
    { rewrite Hlen2. exact Hc. }
    assert (E : remote_paused np' = b) by (injection Hfin as <-; reflexivity).
    exists np'. split; [exact Hfin |].
    rewrite E, Hc', Hx2c. split; [reflexivity |]. split; [exact Hex |].
    intros j Hj. rewrite Hj', Hx2j, Hrelay by exact Hj. reflexivity.
Qed.

End Commands.

(** The theorem at the client that holds NOINPUT for frame 5, the frame it
    expects of the server. *)
Lemma netplay_get_cmd_noinput_witness :
  exists np',
    netplay_get_cmd (hdr := sample_header) (env := sample_env true 0)
      noinput_client 0 false = Some (true, true, np') /\
    server_frame_count np' = 6 /\ server_ptr np' = 0.
Proof.
  destruct (netplay_get_cmd_noinput (hdr := sample_header) (env := sample_env true 0)
              noinput_client 0 false 4 5 []) as [Hok _];
    [reflexivity | has_arrived | vm_compute; split; congruence
    | vm_compute; split; congruence |].
  eexists. split; [exact (Hok eq_refl eq_refl) |]. split; reflexivity.
Defined.

(** A client that is told to flip the ports at frame 9. *)
Definition flip_client : netplay_t :=
  sample_session false
    [sample_connection 7 NETPLAY_CONNECTION_PLAYING 0
       (cmd_bytes (hdr := sample_header) NETPLAY_CMD_FLIP_PLAYERS (htonl 9))] 1.

(** The theorem at that client: the ports are flipped from frame 9 on. *)
Lemma netplay_get_cmd_flip_players_witness :
  exists np',
    netplay_get_cmd (hdr := sample_header) (env := sample_env true 0)
      flip_client 0 false = Some (true, true, np') /\
    netplay_flip_port (set_self_frame_count 8 np') = false /\
    netplay_flip_port (set_self_frame_count 9 np') = true.
Proof.
  destruct (netplay_get_cmd_flip_players (hdr := sample_header) (env := sample_env true 0)
              flip_client 0 false 9 []) as [Hok _];
    [reflexivity | has_arrived | vm_compute; split; congruence |].
  destruct (Hok eq_refl ltac:(vm_compute; congruence)) as [Hget Hport].
  eexists. split; [exact Hget |].
  split; rewrite Hport by (vm_compute; congruence); reflexivity.
Defined.

(** A client that holds a command with the unknown code 99. *)
Definition confused_client : netplay_t :=
  sample_session false
    [sample_connection 7 NETPLAY_CONNECTION_PLAYING 0 [0; 0; 0; 99; 0; 0; 0; 0]] 1.

(** The theorem at that client: the command is answered with a NAK. *)
Lemma netplay_get_cmd_header_only_witness :
  exists np',
    netplay_get_cmd (hdr := sample_header) (env := sample_env true 0)
      confused_client 0 false = Some (false, false, np') /\
    data (send_packet_buffer (conn np' 0)) = [0; 0; 0; 1; 0; 0; 0; 0].
Proof.
  destruct (netplay_get_cmd_header_only (hdr := sample_header) (env := sample_env true 0)
              confused_client 0 false 99 0 []) as (_ & _ & Hbad);
    [reflexivity | has_arrived | vm_compute; split; congruence
    | vm_compute; split; congruence |].
  destruct (Hbad eq_refl) as (np' & Hget & _ & _ & Hnak).
  exists np'. split; [exact Hget |]. rewrite Hnak by reflexivity. reflexivity.
Defined.

(** A server whose first peer, a player, pauses; the second watches and
    the third is still in the handshake. *)
Definition pause_server : netplay_t :=
  sample_session true
    [ sample_connection 7 NETPLAY_CONNECTION_PLAYING 1
        (cmd_bytes (hdr := sample_header) NETPLAY_CMD_PAUSE []);
      sample_connection 8 NETPLAY_CONNECTION_SPECTATING 0 [];
      sample_connection 9 NETPLAY_CONNECTION_PRE_SYNC 0 [] ] 2.

(** The theorem at that server: the spectator is told, the peer in the
    handshake is not. *)
Lemma netplay_get_cmd_pause_witness :
  exists np',
    netplay_get_cmd (hdr := sample_header) (env := sample_env true 0)
      pause_server 0 false = Some (true, true, np') /\
    remote_paused np' = true /\
    data (send_packet_buffer (conn np' 1)) = [0; 0; 0; 67; 0; 0; 0; 0] /\
    conn np' 2 = conn pause_server 2.
Proof.
  destruct (netplay_get_cmd_pause (hdr := sample_header) (env := sample_env true 0)
              pause_server 0 false []) as (np' & Hget & Hrp & _ & _ & Hothers);
    [reflexivity | has_arrived | |].
  { intros [| [| [| j]]] Hne Hh; try reflexivity; try congruence.
    vm_compute in Hh. discriminate Hh. }
  exists np'. split; [exact Hget |]. split; [exact Hrp |].
  rewrite (Hothers 1%nat), (Hothers 2%nat) by discriminate.
  split; reflexivity.
Defined.

(** A server whose first peer resumes while its second peer is still
    paused. *)
Definition resume_server : netplay_t :=
  set_remote_paused true
    (sample_session true
       [ set_paused true
           (sample_connection 7 NETPLAY_CONNECTION_PLAYING 1
              (cmd_bytes (hdr := sample_header) NETPLAY_CMD_RESUME []));
         set_paused true (sample_connection 8 NETPLAY_CONNECTION_PLAYING 2 []) ] 6).

(** The theorem at that server: the session stays paused and nothing is
    passed on. *)
Lemma netplay_get_cmd_resume_witness :
  exists np',
    netplay_get_cmd (hdr := sample_header) (env := sample_env true 0)
      resume_server 0 false = Some (true, true, np') /\
    paused (conn np' 0) = false /\ remote_paused np' = true /\
    conn np' 1 = conn resume_server 1.
Proof.
  destruct (netplay_get_cmd_resume (hdr := sample_header) (env := sample_env true 0)
              resume_server 0 false []) as (np' & Hget & Hp & Hrp & Hothers);
    [reflexivity | has_arrived | |].
  { intros [| [| j]] Hne Hh; try reflexivity; try congruence.
    vm_compute in Hh. discriminate Hh. }
  assert (Hstill : remote_paused np' = true).
  { apply Hrp. exists 1%nat. repeat split. discriminate. }
  exists np'. split; [exact Hget |]. split; [exact Hp |]. split; [exact Hstill |].
  rewrite (Hothers 1%nat) by discriminate. rewrite Hstill. reflexivity.
Defined.

(** ** PLAY *)

Section Play.
Context {hdr : netplay_private_h} {env : netplay_env}.

(** Player [p] is free: we do not play as [p] and no peer does. *)
Definition player_free (np : netplay_t) (p : Z) : bool :=
  negb (is_playing (self_mode np) && (self_player np =? p)) &&
  negb (has_bit (connected_players np) p).

Lemma find_free_player_from (np : netplay_t) (n a : nat) :
  (a + n = Z.to_nat MAX_USERS)%nat ->
  let r := find_free_player (map Z.of_nat (seq a n)) np in
  Z.of_nat a <= r <= MAX_USERS /\
  (forall p, Z.of_nat a <= p < r -> player_free np p = false) /\
  (r < MAX_USERS -> player_free np r = true).
Proof.
  revert a. induction n as [| n IH]; intros a Ha; cbv zeta.
  - cbn [seq map find_free_player]. change (Z.to_nat MAX_USERS) with 16%nat in Ha.
    change MAX_USERS with 16. split; [lia |]. split; [intros p Hp; lia | lia].
  - cbn [seq map find_free_player]. fold (player_free np (Z.of_nat a)).
    destruct (player_free np (Z.of_nat a)) eqn:Hfree.
    + change (Z.to_nat MAX_USERS) with 16%nat in Ha. change MAX_USERS with 16.
      split; [lia |]. split; [intros p Hp; lia | intros _; exact Hfree].
    + destruct (IH (S a) ltac:(lia)) as (H1 & H2 & H3).
      split; [lia |]. split; [| exact H3].
      intros p Hp. destruct (Z.eq_dec p (Z.of_nat a)) as [-> | Hne]; [exact Hfree |].
      apply H2. lia.
Qed.

(** The loop of the PLAY case finds the least free player, [MAX_USERS]
    when there is none. *)
Lemma find_free_player_least (np : netplay_t) :
  let r := find_free_player players np in
  0 <= r <= MAX_USERS /\
  (forall p, 0 <= p < r -> player_free np p = false) /\
  (r < MAX_USERS -> player_free np r = true).
Proof. apply (find_free_player_from np (Z.to_nat MAX_USERS) 0). reflexivity. Qed.

(** The MODE commands of the PLAY case: to the other peers and to the new
    player. *)
Definition joined_bytes (np : netplay_t) (r : Z) : list Z :=
  cmd_bytes NETPLAY_CMD_MODE
    (mode_payload (u32 (self_frame_count np + 1)) (Z.lor NETPLAY_CMD_MODE_BIT_PLAYING r)).

Definition play_reply (np : netplay_t) (r : Z) : list Z :=
  cmd_bytes NETPLAY_CMD_MODE
    (mode_payload (u32 (self_frame_count np + 1))
       (Z.lor (Z.lor NETPLAY_CMD_MODE_BIT_PLAYING NETPLAY_CMD_MODE_BIT_YOU) r)).

(** [case NETPLAY_CMD_PLAY] on a server with a free player, for a sender
    that is not playing yet, when no send fails. *)
Lemma cmd_play_ok (np : netplay_t) (c : nat) :
  is_server np = true ->
  (c < length (connections np))%nat ->
  find_free_player players np < MAX_USERS ->
  is_playing (mode (conn np c)) = false ->
  send_fails (conn np c) = false ->
  (forall j, j <> c -> hears None j (conn np j) = true ->
             send_fails (conn np j) = false) ->
  let r := find_free_player players np in
  exists x,
    cmd_play np c = BREAK x /\
    length (connections x) = length (connections np) /\
    connected_players x = set_bit (connected_players np) r /\
    conn x c = enqueue (set_player r (set_mode NETPLAY_CONNECTION_PLAYING (conn np c)))
                 (play_reply np r) /\
    (forall j, j <> c ->
       conn x j = if hears None j (conn np j)
                  then enqueue (conn np j) (joined_bytes np r) else conn np j) /\
    read_ptr x = aset (read_ptr np) r (NEXT_PTR np (self_ptr np)) /\
    read_frame_count x = aset (read_frame_count np) r (u32 (self_frame_count np + 1)).
Proof.
  intros Hs Hc Hfree Hpl Hsend Hok. cbv zeta.
  unfold cmd_play, play_reply, joined_bytes. rewrite Hs, Hpl. cbn [negb].
  replace (find_free_player players np =? MAX_USERS) with false
    by (symmetry; apply Z.eqb_neq; lia).
  set (r := find_free_player players np) in *.
  remember (set_connected_players
              (set_bit (connected_players
                          (set_conn np c
                             (set_player r (set_mode NETPLAY_CONNECTION_PLAYING (conn np c)))))
                 r)
              (set_conn np c
                 (set_player r (set_mode NETPLAY_CONNECTION_PLAYING (conn np c)))))
    as npb eqn:Enpb.
  assert (Hcb : conn npb c = set_player r (set_mode NETPLAY_CONNECTION_PLAYING (conn np c))).
  { rewrite Enpb. change (conn (set_connected_players ?v ?y) c) with (conn y c).
    now apply conn_set_conn_eq. }
  assert (Hjb : forall j, j <> c -> conn npb j = conn np j).
  { intros j Hj. rewrite Enpb.
    change (conn (set_connected_players ?v ?y) j) with (conn y j).
    apply conn_set_conn_ne. congruence. }
  assert (Hlb : length (connections npb) = length (connections np)).
  { rewrite Enpb. cbn [connections set_connected_players].
    apply connections_set_conn_length. }
  assert (Hcpb : connected_players npb = set_bit (connected_players np) r)
    by (rewrite Enpb; reflexivity).
  assert (Hnb : net_only np npb) by (rewrite Enpb; destruct np; reflexivity).
  rewrite Hcb. cbn [player set_player].
  destruct (conn_send_raw_cmd_all_ok npb c NETPLAY_CMD_MODE
              (mode_payload (u32 (self_frame_count np + 1))
                 (Z.lor NETPLAY_CMD_MODE_BIT_PLAYING r)))
    as (Hn1 & Hcp1 & _ & Hl1 & Hc1 & Hj1).
  { intros j Hj Hh. rewrite Hjb in * by exact Hj. now apply Hok. }
  remember (netplay_send_raw_cmd_all npb (Some c) NETPLAY_CMD_MODE
              (mode_payload (u32 (self_frame_count np + 1))
                 (Z.lor NETPLAY_CMD_MODE_BIT_PLAYING r))) as np1 eqn:Enp1.
  rewrite Hc1, Hcb. cbn [player set_player].
  rewrite netplay_send_raw_cmd_ok by (rewrite Hc1, Hcb; exact Hsend).
  cbn [snd]. rewrite Hc1, Hcb.
  pose proof (net_only_trans _ _ _ Hnb Hn1) as Hn.
  apply net_only_fields in Hn as (_ & Hbuf & Hrp & Hrf & Hsp & Hsf & _).
  eexists. split; [reflexivity |].
  cbn [connections connected_players read_ptr read_frame_count self_ptr self_frame_count
       set_read_frame_count set_read_ptr].
  change (NEXT_PTR (set_conn np1 c ?k)) with (NEXT_PTR np1).
  change (read_ptr (set_conn np1 c ?k)) with (read_ptr np1).
  change (read_frame_count (set_conn np1 c ?k)) with (read_frame_count np1).
  change (self_ptr (set_conn np1 c ?k)) with (self_ptr np1).
  change (self_frame_count (set_conn np1 c ?k)) with (self_frame_count np1).
  change (connected_players (set_conn np1 c ?k)) with (connected_players np1).
  split; [rewrite connections_set_conn_length; congruence |].
  split; [congruence |].
  split.
  { change (conn (set_read_frame_count ?v (set_read_ptr ?w ?y)) c) with (conn y c).
    rewrite conn_set_conn_eq by (rewrite Hl1, Hlb; exact Hc). reflexivity. }
  split.
  { intros j Hj.
    change (conn (set_read_frame_count ?v (set_read_ptr ?w ?y)) j) with (conn y j).
    rewrite conn_set_conn_ne by congruence.
    rewrite Hj1 by exact Hj. rewrite Hjb by exact Hj. reflexivity. }
  unfold NEXT_PTR, buffer_size. rewrite Hbuf, Hrp, Hrf, Hsp, Hsf. split; reflexivity.
Qed.

(** X16. A PLAY command of a connected peer.  The player it gets is the
    least one that neither we nor a peer play as; a client refuses the
    command, and so does a server with no player free.  A server with a
    free player [r], for a sender that is not playing yet and on sockets
    that accept what is sent, makes the sender PLAYING as [r], adds [r] to
    [connected_players], tells the sender MODE(self_frame_count+1,
    PLAYING|YOU|r) and every other active, connected peer
    MODE(self_frame_count+1, PLAYING|r), and expects the input of [r]
    from the next frame on, in the slot after [self_ptr]. *)
Theorem netplay_get_cmd_play (np : netplay_t) (c : nat) (had : bool) (rest : list Z) :
  mode_ge_connected (mode (conn np c)) = true ->
  arrived (conn np c) (cmd_bytes NETPLAY_CMD_PLAY []) rest ->
  let r := find_free_player players np in
  (0 <= r <= MAX_USERS /\
   (forall p, 0 <= p < r -> player_free np p = false) /\
   (r < MAX_USERS -> player_free np r = true)) /\
  (is_server np = false \/ r = MAX_USERS -> refused np c had (netplay_get_cmd np c had)) /\
  (is_server np = true -> r < MAX_USERS -> is_playing (mode (conn np c)) = false ->
   send_fails (conn np c) = false ->
   (forall j, j <> c -> hears None j (conn np j) = true ->
              send_fails (conn np j) = false) ->
   exists np',
     netplay_get_cmd np c had = Some (true, true, np') /\
     mode (conn np' c) = NETPLAY_CONNECTION_PLAYING /\ player (conn np' c) = r /\
     connected_players np' = set_bit (connected_players np) r /\
     data (send_packet_buffer (conn np' c))
     = data (send_packet_buffer (conn np c)) ++ play_reply np r /\
     (forall j, j <> c ->
        conn np' j = if hears None j (conn np j)
                     then enqueue (conn np j) (joined_bytes np r) else conn np j) /\
     read_ptr np' = aset (read_ptr np) r (NEXT_PTR np (self_ptr np)) /\
     read_frame_count np'
     = aset (read_frame_count np) r (u32 (self_frame_count np + 1))).
Proof.
  intros Hm Harr. cbv zeta.
  pose proof (arrived_in_range np c _ _ Harr) as Hc.
  destruct (netplay_get_cmd_no_payload np c had _ rest Hm Harr) as [Hget _].
  split; [apply find_free_player_least |].
  rewrite Hget. unfold dispatch. rewrite decode_cmd_code.
  split.
  - intros Hbad. unfold cmd_play.
    change (is_server (after_read np c 8)) with (is_server np).
    change (find_free_player players (after_read np c 8))
      with (find_free_player players np).
    destruct (is_server np); cbn [negb]; [| now apply refused_nak].
    destruct Hbad as [Hbad | Hbad]; [discriminate Hbad |].
    rewrite Hbad, Z.eqb_refl. now apply refused_nak.
  - intros Hs Hfree Hpl Hsend Hok.
    destruct (cmd_play_ok (after_read np c 8) c)
      as (x & Hx & Hlx & Hcpx & Hcx & Hjx & Hrpx & Hrfx).
    { exact Hs. }
    { rewrite length_connections_after_read. exact Hc. }
    { exact Hfree. }
    { rewrite conn_after_read by exact Hc. exact Hpl. }
    { rewrite conn_after_read by exact Hc. exact Hsend. }
    { intros j Hj Hh. rewrite conn_after_read_ne in * by exact Hj. now apply Hok. }
    change (find_free_player players (after_read np c 8))
      with (find_free_player players np) in *.
    rewrite conn_after_read in Hcx by exact Hc.
    destruct (finish_break_conn x c had) as (np' & Hfin & Hcp & Hcc & Hjj).
    { rewrite Hlx, length_connections_after_read. exact Hc. }
    destruct (finish_break_fields x c had) as (np2 & Hfin2 & _ & Hrp & Hrf).
    rewrite Hfin in Hfin2. injection Hfin2 as <-.
    exists np'. rewrite Hx. split; [exact Hfin |].
    rewrite Hcc, Hcx, Hcp, Hcpx, Hrp, Hrf, Hrpx, Hrfx.
    split; [reflexivity |]. split; [reflexivity |]. split; [reflexivity |].
    split; [reflexivity |].
    split; [| split; reflexivity].
    intros j Hj. rewrite Hjj, Hjx by exact Hj.
    rewrite conn_after_read_ne by exact Hj. reflexivity.
Qed.

End Play.

(** A server whose spectator asks to play: player 0 is the server's own,
    player 1 is taken by the first peer. *)
Definition play_server : netplay_t :=
  sample_session true
    [ sample_connection 7 NETPLAY_CONNECTION_PLAYING 1 [];
      sample_connection 8 NETPLAY_CONNECTION_SPECTATING 0
        (cmd_bytes (hdr := sample_header) NETPLAY_CMD_PLAY []) ] 2.

(** The theorem at that server: the spectator becomes player 2 and the
    first peer is told MODE(6, PLAYING|2). *)
Lemma netplay_get_cmd_play_witness :
  exists np',
    netplay_get_cmd (hdr := sample_header) (env := sample_env true 0)
      play_server 1 false = Some (true, true, np') /\
    player (conn np' 1) = 2 /\ connected_players np' = 6 /\
    data (send_packet_buffer (conn np' 0))
    = [0; 0; 0; 37; 0; 0; 0; 8; 0; 0; 0; 6; 0; 2; 0; 2] /\
    aget 0 (read_frame_count np') 2 = 6.
Proof.
  destruct (netplay_get_cmd_play (hdr := sample_header) (env := sample_env true 0)
              play_server 1 false []) as (_ & _ & Hok);
    [reflexivity | has_arrived |].
  destruct Hok as (np' & Hget & _ & Hpl & Hcp & _ & Hothers & _ & Hrf);
    try reflexivity.
  { intros [| [| j]] Hne Hh; try reflexivity; try congruence.
    vm_compute in Hh. discriminate Hh. }
  exists np'. split; [exact Hget |].
  rewrite Hpl, Hcp, (Hothers 0%nat), Hrf by discriminate.
  repeat split.
Defined.

(** ** CRC *)

Section Crc.
Context {hdr : netplay_private_h} {env : netplay_env}.

(** The slot at [p] holds frame [frm]. *)
Definition holds (np : netplay_t) (frm p : Z) : bool :=
  used (dframe_at np p) && (frame (dframe_at np p) =? frm).

Lemma PREV_PTR_back (np : netplay_t) (s k : Z) :
  0 < buffer_size np ->
  PREV_PTR np ((s - k) mod buffer_size np) = (s - (k + 1)) mod buffer_size np.
Proof.
  intros HB. unfold PREV_PTR.
  replace ((s - k) mod buffer_size np + buffer_size np - 1)
    with ((s - k) mod buffer_size np + (buffer_size np - 1)) by lia.
  rewrite Zplus_mod_idemp_l.
  replace (s - k + (buffer_size np - 1)) with (s - (k + 1) + 1 * buffer_size np) by lia.
  apply Z_mod_plus_full.
Qed.

(** The backward walk from [self_ptr], [k] slots in: it ends within the
    slots that are left, on a slot that holds the frame or, when none of
    the slots left does, back at [self_ptr]. *)
Lemma crc_find_from (np : netplay_t) (frm : Z) (fuel : nat) (k : Z) :
  0 <= self_ptr np < buffer_size np -> 0 <= k < buffer_size np ->
  buffer_size np - k <= Z.of_nat fuel ->
  (exists p, crc_find fuel np frm ((self_ptr np - k) mod buffer_size np) = Some (Some p) /\
             0 <= p < buffer_size np /\ holds np frm p = true) \/
  (crc_find fuel np frm ((self_ptr np - k) mod buffer_size np) = Some None /\
   forall j, k <= j < buffer_size np ->
             holds np frm ((self_ptr np - j) mod buffer_size np) = false).
Proof.
  intros Hs. revert k. induction fuel as [| fuel IH]; intros k Hk Hfuel; [lia |].
  cbn [crc_find]. fold (holds np frm ((self_ptr np - k) mod buffer_size np)).
  destruct (holds np frm ((self_ptr np - k) mod buffer_size np)) eqn:Hh.
  - left. eexists. split; [reflexivity |]. split; [| exact Hh].
    apply Z.mod_pos_bound. lia.
  - rewrite PREV_PTR_back by lia.
    destruct (Z.eq_dec (k + 1) (buffer_size np)) as [Hlast | Hmore].
    + replace ((self_ptr np - (k + 1)) mod buffer_size np) with (self_ptr np).
      2:{ rewrite Hlast.
          replace (self_ptr np - buffer_size np)
            with (self_ptr np + (-1) * buffer_size np) by lia.
          rewrite Z_mod_plus_full, Z.mod_small by lia. reflexivity. }
      rewrite Z.eqb_refl. right. split; [reflexivity |].
      intros j Hj. replace j with k by lia. exact Hh.
    + assert (Hne : (self_ptr np - (k + 1)) mod buffer_size np <> self_ptr np).
      { intros E.
        assert (Hdiv : ((k + 1) mod buffer_size np) = 0).
        { replace (k + 1) with (self_ptr np - (self_ptr np - (k + 1))) by lia.
          rewrite Zminus_mod, E, (Z.mod_small (self_ptr np)) by lia.
          rewrite Z.sub_diag. apply Z.mod_0_l. lia. }
        rewrite Z.mod_small in Hdiv by lia. lia. }
      replace ((self_ptr np - (k + 1)) mod buffer_size np =? self_ptr np) with false
        by (symmetry; now apply Z.eqb_neq).
      destruct (IH (k + 1) ltac:(lia) ltac:(lia)) as [Hfound | [Hnone Hall]].
      * left. exact Hfound.
      * right. split; [exact Hnone |].
        intros j Hj. destruct (Z.eq_dec j k) as [-> | Hjk]; [exact Hh |].
        apply Hall. lia.
Qed.

(** X17. The search of the CRC case, backward around the ring from
    [self_ptr], always ends: it stops at a slot in use for the frame, or
    it comes back to [self_ptr], and then no slot of the ring holds the
    frame. *)
Theorem crc_find_search (np : netplay_t) (frm : Z) :
  0 <= self_ptr np < buffer_size np ->
  (exists p, crc_find (S (length (buffer np))) np frm (self_ptr np) = Some (Some p) /\
             0 <= p < buffer_size np /\
             used (dframe_at np p) = true /\ frame (dframe_at np p) = frm) \/
  (crc_find (S (length (buffer np))) np frm (self_ptr np) = Some None /\
   forall p, 0 <= p < buffer_size np ->
             used (dframe_at np p) = false \/ frame (dframe_at np p) <> frm).
Proof.
  intros Hs.
  destruct (crc_find_from np frm (S (length (buffer np))) 0 Hs)
    as [(p & Hf & Hp & Hh) | [Hn Hall]]; [lia | unfold buffer_size; lia | |].
  - left. exists p. rewrite Z.sub_0_r, Z.mod_small in Hf by lia.
    split; [exact Hf |]. split; [exact Hp |].
    unfold holds in Hh. apply andb_prop in Hh as [Hu Hfr].
    apply Z.eqb_eq in Hfr. auto.
  - right. rewrite Z.sub_0_r, Z.mod_small in Hn by lia.
    split; [exact Hn |]. intros p Hp.
    specialize (Hall ((self_ptr np - p) mod buffer_size np)
                  ltac:(apply Z.mod_pos_bound; lia)).
    replace ((self_ptr np - (self_ptr np - p) mod buffer_size np) mod buffer_size np)
      with p in Hall.
    2:{ rewrite Zminus_mod_idemp_r.
        replace (self_ptr np - (self_ptr np - p)) with p by lia.
        rewrite Z.mod_small by lia. reflexivity. }
    unfold holds in Hall.
    destruct (used (dframe_at np p)); [right | now left].
    cbn [andb] in Hall. now apply Z.eqb_neq.
Qed.

Lemma crc_find_after_read (fuel : nat) (np : netplay_t) (c : nat) (n frm t : Z) :
  crc_find fuel (after_read np c n) frm t = crc_find fuel np frm t.
Proof.
  revert t. induction fuel as [| fuel IH]; intros t; [reflexivity |].
  cbn [crc_find]. rewrite IH. reflexivity.
Qed.

(** Moving the cursor of a receive buffer, or committing what was read,
    leaves the send buffers alone. *)
Lemma send_buffer_set_conn (x : netplay_t) (c j : nat) (k : netplay_connection) :
  send_packet_buffer k = send_packet_buffer (conn x c) ->
  send_packet_buffer (conn (set_conn x c k) j) = send_packet_buffer (conn x j).
Proof.
  intros Hk. destruct (Nat.eq_dec j c) as [-> | Hne].
  - destruct (le_lt_dec (length (connections x)) c) as [Hge | Hlt].
    + rewrite !conn_out_of_range;
        [reflexivity | exact Hge | rewrite connections_set_conn_length; exact Hge].
    + rewrite conn_set_conn_eq by exact Hlt. exact Hk.
  - rewrite conn_set_conn_ne by congruence. reflexivity.
Qed.

Lemma send_buffer_after_read (np : netplay_t) (c j : nat) (n : Z) :
  send_packet_buffer (conn (after_read np c n) j) = send_packet_buffer (conn np j).
Proof.
  unfold after_read. change (conn (set_timeout_cnt 0 ?y) j) with (conn y j).
  apply send_buffer_set_conn. reflexivity.
Qed.

Lemma finish_break_send (x : netplay_t) (c : nat) (had : bool) :
  exists np',
    finish (BREAK x) c had = Some (true, true, np') /\
    savestate_request_outstanding np' = savestate_request_outstanding x /\
    buffer np' = buffer x /\
    forall j, send_packet_buffer (conn np' j) = send_packet_buffer (conn x j).
Proof.
  eexists. split; [reflexivity |]. split; [reflexivity |]. split; [reflexivity |].
  intros j. change (conn (set_timeout_cnt 0 ?y) j) with (conn y j).
  apply send_buffer_set_conn. reflexivity.
Qed.

Lemma can_request_after_read (np : netplay_t) (c : nat) (n : Z) :
  can_request (after_read np c n) = can_request np.
Proof.
  unfold can_request, connections_size.
  rewrite length_connections_after_read.
  destruct (Nat.eq_dec 0 c) as [<- | Hne].
  - destruct (le_lt_dec (length (connections np)) 0) as [Hge | Hlt].
    + rewrite !conn_out_of_range;
        [reflexivity | exact Hge | rewrite length_connections_after_read; exact Hge].
    + rewrite conn_after_read by exact Hlt. reflexivity.
  - rewrite conn_after_read_ne by exact Hne. reflexivity.
Qed.

(** X18. A CRC command of a connected peer, in a session whose [self_ptr]
    is in the ring, always returns.  When no slot holds its frame the
    command is dropped.  When a slot does and the frame is past
    [other_frame_count], the CRC is kept in the slot for later.  When the
    frame is not past it, the CRC is compared with the local one: if they
    agree nothing happens, if they differ a savestate is requested, which
    sets [savestate_request_outstanding] and sends REQUEST_SAVESTATE to
    connection 0 when that connection is usable and no request was
    outstanding. *)
Theorem netplay_get_cmd_crc (np : netplay_t) (c : nat) (had : bool)
    (frm crcv : Z) (rest : list Z) :
  mode_ge_connected (mode (conn np c)) = true ->
  arrived (conn np c) (cmd_bytes NETPLAY_CMD_CRC (htonl frm ++ htonl crcv)) rest ->
  0 <= frm < UINT32_MOD -> 0 <= crcv < UINT32_MOD ->
  0 <= self_ptr np < buffer_size np ->
  let found := crc_find (S (length (buffer np))) np frm (self_ptr np) in
  let local_crc p := netplay_delta_frame_crc (after_read np c 16) (dframe_at np p) in
  found <> None /\
  (found = Some None -> netplay_get_cmd np c had = Some (true, true, consumed np c rest)) /\
  (forall p, found = Some (Some p) ->
     (other_frame_count np < frm ->
      netplay_get_cmd np c had
      = Some (true, true, set_dframe (consumed np c rest) p (set_crc crcv (dframe_at np p)))) /\
     (frm <= other_frame_count np -> crcv = local_crc p ->
      netplay_get_cmd np c had = Some (true, true, consumed np c rest)) /\
     (frm <= other_frame_count np -> crcv <> local_crc p ->
      exists np',
        netplay_get_cmd np c had = Some (true, true, np') /\
        buffer np' = buffer np /\
        savestate_request_outstanding np'
        = savestate_request_outstanding np || can_request np /\
        (can_request np = true -> savestate_request_outstanding np = false ->
         send_fails (conn np 0) = false ->
         data (send_packet_buffer (conn np' 0))
         = data (send_packet_buffer (conn np 0)) ++
           cmd_bytes NETPLAY_CMD_REQUEST_SAVESTATE []))).
Proof.
  intros Hm Harr Hfrm Hcrc Hself. cbv zeta.
  pose proof (arrived_in_range np c _ _ Harr) as Hc.
  pose proof (at_cursor_advance _ _ _ Harr) as Hcur.
  replace (Z.of_nat (length (cmd_bytes NETPLAY_CMD_CRC (htonl frm ++ htonl crcv)))) with 16
    in Hcur by (unfold cmd_bytes; rewrite !length_app, !length_htonl; reflexivity).
  unfold cmd_bytes in Harr.
  change (u32 (Z.of_nat (length (htonl frm ++ htonl crcv)))) with (2 * SZ32) in Harr.
  destruct (netplay_get_cmd_header np c had (cmd_code NETPLAY_CMD_CRC) (2 * SZ32)
              (htonl frm ++ htonl crcv) rest Hm Harr) as [Hget Harr1];
    [apply cmd_code_range | vm_compute; split; congruence |].
  rewrite Hget. unfold dispatch. rewrite decode_cmd_code.
  unfold cmd_crc. rewrite Z.eqb_refl. cbn [negb].
  rewrite <- (app_nil_r (htonl frm ++ htonl crcv)) in Harr1.
  match goal with
  | |- context [RECV ?x c (2 * SZ32) ?f ?k] =>
      destruct (RECV_arrived x c (htonl frm ++ htonl crcv) [] rest f k Harr1) as [H1 _]
  end.
  change (Z.of_nat (length (htonl frm ++ htonl crcv))) with (2 * SZ32) in H1.
  rewrite H1. clear H1. cbn beta zeta.
  rewrite conn_after_header by exact Hc.
  rewrite set_conn_after_header, advance_advance.
  change (8 + 2 * SZ32) with 16. fold (after_read np c 16).
  change (take 4 (htonl frm ++ htonl crcv)) with (htonl frm).
  change (take 4 (drop 4 (htonl frm ++ htonl crcv))) with (htonl crcv).
  rewrite !ntohl_htonl by assumption.
  change (length (buffer (after_read np c 16))) with (length (buffer np)).
  change (self_ptr (after_read np c 16)) with (self_ptr np).
  change (other_frame_count (after_read np c 16)) with (other_frame_count np).
  change (dframe_at (after_read np c 16)) with (dframe_at np).
  rewrite crc_find_after_read.
  assert (Hends : crc_find (S (length (buffer np))) np frm (self_ptr np) <> None).
  { destruct (crc_find_from np frm (S (length (buffer np))) 0 Hself)
      as [(p & Hf & _) | [Hn _]]; [lia | unfold buffer_size; lia | |];
      rewrite Z.sub_0_r, Z.mod_small in * by lia; congruence. }
  split; [exact Hends |].
  split.
  - intros ->.
    apply (finish_break_state np (after_read np c 16) c had 16 rest Hc eq_refl Hcur).
  - intros p ->. split; [| split].
    + intros Hlt.
      replace (frm <=? other_frame_count np) with false by (symmetry; apply Z.leb_gt; lia).
      match goal with
      | |- finish (BREAK ?y) c had = _ =>
          rewrite (finish_break_state np y c had 16 rest Hc eq_refl Hcur)
      end.
      reflexivity.
    + intros Hle Heq.
      replace (frm <=? other_frame_count np) with true by (symmetry; apply Z.leb_le; lia).
      rewrite <- Heq, Z.eqb_refl. cbn [negb].
      apply (finish_break_state np (after_read np c 16) c had 16 rest Hc eq_refl Hcur).
    + intros Hle Hne.
      replace (frm <=? other_frame_count np) with true by (symmetry; apply Z.leb_le; lia).
      replace (crcv =? netplay_delta_frame_crc (after_read np c 16) (dframe_at np p))
        with false by (symmetry; now apply Z.eqb_neq).
      cbn [negb].
      destruct (finish_break_send (snd (netplay_cmd_request_savestate (after_read np c 16)))
                  c had) as (np' & Hfin & Hflag & Hbuf & Hsb).
      exists np'. split; [exact Hfin |].
      rewrite Hflag, Hbuf, Hsb. clear Hfin Hflag Hbuf Hsb.
      rewrite netplay_cmd_request_savestate_cases, can_request_after_read.
      change (savestate_request_outstanding (after_read np c 16))
        with (savestate_request_outstanding np).
      destruct (can_request np) eqn:Hcan.
      2:{ cbn [snd]. rewrite orb_false_r.
          split; [reflexivity |]. split; [reflexivity | discriminate]. }
      destruct (savestate_request_outstanding np) eqn:Hout.
      { cbn [snd]. split; [reflexivity |].
        change (savestate_request_outstanding (after_read np c 16))
          with (savestate_request_outstanding np).
        rewrite Hout. split; [reflexivity | discriminate]. }
      pose proof (net_only_send_raw_cmd
                    (set_savestate_request_outstanding true (after_read np c 16)) 0
                    NETPLAY_CMD_REQUEST_SAVESTATE []) as Hnet.
      apply net_only_fields in Hnet
        as (_ & Hb & _ & _ & _ & _ & _ & _ & _ & _ & _ & Hso & _).
      split; [rewrite Hb; reflexivity |]. split; [rewrite Hso; reflexivity |].
      intros _ _ Hsend.
      assert (H0 : (0 < length (connections (after_read np c 16)))%nat).
      { rewrite length_connections_after_read. unfold can_request, connections_size in Hcan.
        destruct (connections np); [discriminate Hcan | cbn; lia]. }
      assert (Hs0 : send_fails (conn (after_read np c 16) 0) = false).
      { destruct (Nat.eq_dec 0 c) as [<- | Hne0].
        - rewrite conn_after_read by exact Hc. exact Hsend.
        - rewrite conn_after_read_ne by exact Hne0. exact Hsend. }
      rewrite netplay_send_raw_cmd_ok by exact Hs0.
      cbn [snd]. rewrite conn_set_conn_eq by exact H0.
      change (conn (set_savestate_request_outstanding true ?y) 0) with (conn y 0).
      cbn [enqueue send_packet_buffer set_send_packet_buffer data set_data].
      rewrite send_buffer_after_read. reflexivity.
Qed.

End Crc.

(** The theorem at the sample ring, frames 3, 4 and 5 in slots 0, 1 and 2:
    the search for frame 4 from slot 2 ends on slot 1. *)
Lemma crc_find_search_witness :
  exists p,
    crc_find 4 (sample_session false [] 0) 4 2 = Some (Some p) /\
    frame (dframe_at (sample_session false [] 0) p) = 4.
Proof.
  destruct (crc_find_search (sample_session false [] 0) 4)
    as [(p & Hf & _ & _ & Hfr) | [Hn _]]; [vm_compute; split; congruence | |].
  - exists p. split; [exact Hf | exact Hfr].
  - vm_compute in Hn. discriminate Hn.
Defined.

(** A client that is sent the CRC 9 of frame 4, which it has replayed and
    whose CRC it holds as 0. *)
Definition crc_client : netplay_t :=
  sample_session false
    [sample_connection 7 NETPLAY_CONNECTION_PLAYING 0
       (cmd_bytes (hdr := sample_header) NETPLAY_CMD_CRC (htonl 4 ++ htonl 9))] 1.

(** The theorem at that client: it asks the server for a savestate. *)
Lemma netplay_get_cmd_crc_witness :
  exists np',
    netplay_get_cmd (hdr := sample_header) (env := sample_env true 0)
      crc_client 0 false = Some (true, true, np') /\
    savestate_request_outstanding np' = true /\
    data (send_packet_buffer (conn np' 0)) = [0; 0; 0; 65; 0; 0; 0; 0].
Proof.
  destruct (netplay_get_cmd_crc (hdr := sample_header) (env := sample_env true 0)
              crc_client 0 false 4 9 []) as (_ & _ & Hfound);
    [reflexivity | has_arrived | vm_compute; split; congruence
    | vm_compute; split; congruence | vm_compute; split; congruence |].
  destruct (Hfound 1 eq_refl) as (_ & _ & Hbad).
  destruct Hbad as (np' & Hget & _ & Hflag & Hsend);
    [vm_compute; congruence | vm_compute; congruence |].
  exists np'. split; [exact Hget |]. split; [rewrite Hflag; reflexivity |].
  rewrite Hsend by reflexivity. reflexivity.
Defined.

(** ** Announcing a CRC, asking for a mode *)

Section Announce.
Context {hdr : netplay_private_h} {env : netplay_env}.

(** [netplay_cmd_crc]: the frame and the CRC of [delta] to every
    connection that is active and connected; a send that fails makes the
    result false and nothing more. *)
Definition netplay_cmd_crc (np : netplay_t) (delta : delta_frame) : bool * netplay_t :=
  let payload := htonl (frame delta) ++ htonl (crc delta) in
  fold_left
    (fun (acc : bool * netplay_t) i =>
       let '(success, np) := acc in
       if active (conn np i) && mode_ge_connected (mode (conn np i)) then
         let '(sent, np1) := netplay_send_raw_cmd np i NETPLAY_CMD_CRC payload in
         (sent && success, np1)
       else (success, np))
    (seq 0 (length (connections np))) (true, np).

(** [netplay_cmd_mode]: the request to spectate or to play. *)
Definition netplay_cmd_mode (np : netplay_t) (c : nat)
    (m : rarch_netplay_connection_mode) : bool * netplay_t :=
  match m with
  | NETPLAY_CONNECTION_SPECTATING => netplay_send_raw_cmd np c NETPLAY_CMD_SPECTATE []
  | NETPLAY_CONNECTION_PLAYING => netplay_send_raw_cmd np c NETPLAY_CMD_PLAY []
  | _ => (false, np)
  end.

(** What [netplay_cmd_crc] makes of a connection. *)
Definition crc_sent (delta : delta_frame) (cn : netplay_connection) : netplay_connection :=
  if active cn && mode_ge_connected (mode cn) && negb (send_fails cn)
  then enqueue cn (cmd_bytes NETPLAY_CMD_CRC (htonl (frame delta) ++ htonl (crc delta)))
  else cn.

(** The connection can be sent to, or need not be. *)
Definition crc_taken (cn : netplay_connection) : bool :=
  negb (active cn && mode_ge_connected (mode cn)) || negb (send_fails cn).

Lemma netplay_cmd_crc_fold (np : netplay_t) (delta : delta_frame) :
  netplay_cmd_crc np delta
  = (forallb crc_taken (connections np),
     set_connections (map (crc_sent delta) (connections np)) np).
Proof.
  unfold netplay_cmd_crc.
  set (cs := connections np).
  set (F := fun (acc : bool * netplay_t) i => _).
  assert (Hgen : forall n, (n <= length cs)%nat ->
            fold_left F (seq 0 n) (true, np)
            = (forallb crc_taken (take n cs),
               set_connections (map (crc_sent delta) (take n cs) ++ drop n cs) np)).
  { induction n as [| n IH]; intros Hn.
    - change (take 0 cs) with (@nil netplay_connection).
      cbn [seq fold_left forallb map]. rewrite drop_0. cbn [app].
      unfold cs. rewrite set_connections_same. reflexivity.
    - rewrite seq_S, fold_left_app, IH by lia. cbn [fold_left Nat.add].
      destruct (lookup_lt_is_Some_2 cs n ltac:(lia)) as [cn Hcn].
      assert (Hlen : length (map (crc_sent delta) (take n cs)) = n)
        by (rewrite length_map, length_take; lia).
      set (x := set_connections (map (crc_sent delta) (take n cs) ++ drop n cs) np).
      assert (Hx : conn x n = cn).
      { apply conn_lookup. unfold x. cbn [connections set_connections].
        rewrite lookup_app_r by lia. rewrite Hlen, Nat.sub_diag.
        rewrite (drop_S cs cn n Hcn). reflexivity. }
      assert (Hins : forall k, set_conn x n k
                = set_connections
                    (map (crc_sent delta) (take n cs) ++ k :: drop (S n) cs) np).
      { intros k. unfold set_conn, x, set_connections. cbn.
        rewrite insert_app_r_alt by lia. rewrite Hlen, Nat.sub_diag.
        rewrite (drop_S cs cn n Hcn). reflexivity. }
      rewrite (take_S_r cs n cn Hcn), forallb_app, map_app.
      cbn [forallb map]. rewrite andb_true_r, <- app_assoc. cbn [app].
      unfold F at 1. rewrite Hx.
      replace (crc_taken cn)
        with (negb (active cn && mode_ge_connected (mode cn)) || negb (send_fails cn))
        by reflexivity.
      replace (crc_sent delta cn)
        with (if active cn && mode_ge_connected (mode cn) && negb (send_fails cn)
              then enqueue cn (cmd_bytes NETPLAY_CMD_CRC
                                 (htonl (frame delta) ++ htonl (crc delta)))
              else cn) by reflexivity.
      destruct (active cn && mode_ge_connected (mode cn)) eqn:Hh; cbn [negb orb andb].
      + destruct (send_fails cn) eqn:Hs; cbn [negb].
        * rewrite netplay_send_raw_cmd_failed by (rewrite Hx; exact Hs).
          cbn [andb]. rewrite andb_false_r.
          rewrite <- (Hins cn), <- Hx, set_conn_same. reflexivity.
        * rewrite netplay_send_raw_cmd_ok by (rewrite Hx; exact Hs).
          rewrite Hx, Hins. cbn [andb]. rewrite andb_true_r. reflexivity.
      + rewrite andb_true_r.
        rewrite <- (Hins cn), <- Hx, set_conn_same. reflexivity. }
  rewrite (Hgen (length cs)) by lia.
  rewrite firstn_all, drop_all, app_nil_r. reflexivity.
Qed.

(** X19. [netplay_cmd_crc] queues CRC(frame, crc) of the slot on every
    connection that is active and connected and whose socket takes it,
    and touches nothing else; it returns true exactly when no such
    connection has a failing socket.  Unlike a broadcast, it hangs nobody
    up: every connection stays as active as it was. *)
Theorem netplay_cmd_crc_sends (np : netplay_t) (delta : delta_frame) :
  let r := netplay_cmd_crc np delta in
  (fst r = true <->
   forall j, hears None j (conn np j) = true -> send_fails (conn np j) = false) /\
  (forall j,
     conn (snd r) j
     = if hears None j (conn np j) && negb (send_fails (conn np j))
       then enqueue (conn np j)
              (cmd_bytes NETPLAY_CMD_CRC (htonl (frame delta) ++ htonl (crc delta)))
       else conn np j) /\
  (forall j, active (conn (snd r) j) = active (conn np j)) /\
  snd r = set_connections (connections (snd r)) np.
Proof.
  cbv zeta. rewrite netplay_cmd_crc_fold. cbn [fst snd].
  assert (Hconn : forall j,
            conn (set_connections (map (crc_sent delta) (connections np)) np) j
            = crc_sent delta (conn np j)).
  { intros j. unfold conn. cbn [connections set_connections].
    rewrite list_lookup_fmap.
    destruct (connections np !! j) as [cn |]; reflexivity. }
  split; [| split; [| split]].
  - rewrite forallb_forall. split.
    + intros Hall j Hh.
      destruct (le_lt_dec (length (connections np)) j) as [Hge | Hlt].
      { rewrite (conn_out_of_range np j Hge) in Hh. discriminate Hh. }
      specialize (Hall (conn np j)).
      rewrite <- list_elem_of_In, list_elem_of_lookup in Hall.
      specialize (Hall ltac:(exists j; now apply lookup_conn)).
      unfold crc_taken in Hall. unfold hears in Hh. cbn [is_except negb andb] in Hh.
      rewrite Hh in Hall. cbn [negb orb] in Hall.
      destruct (send_fails (conn np j)); [discriminate Hall | reflexivity].
    + intros Hall cn Hin.
      apply list_elem_of_In, list_elem_of_lookup in Hin as [j Hj].
      apply conn_lookup in Hj as Hcj. specialize (Hall j).
      unfold crc_taken. unfold hears in Hall. cbn [is_except negb andb] in Hall.
      rewrite Hcj in Hall.
      destruct (active cn && mode_ge_connected (mode cn)); [| reflexivity].
      rewrite Hall by reflexivity. reflexivity.
  - intros j. rewrite Hconn. reflexivity.
  - intros j. rewrite Hconn. unfold crc_sent.
    destruct (_ && _ && _); reflexivity.
  - reflexivity.
Qed.

(** X20. [netplay_cmd_mode] sends nothing and returns false for a mode
    that is neither SPECTATING nor PLAYING; for those two it sends the
    eight bytes of a SPECTATE or PLAY command, and a connected peer at
    which they arrive runs the SPECTATE or the PLAY case. *)
Theorem netplay_cmd_mode_received (s : netplay_t) (c : nat)
    (m : rarch_netplay_connection_mode) (r : netplay_t) (d : nat) (had : bool)
    (rest : list Z) :
  (c < length (connections s))%nat -> send_fails (conn s c) = false ->
  (is_spectating m = false -> is_playing m = false ->
   netplay_cmd_mode s c m = (false, s)) /\
  (is_spectating m = true \/ is_playing m = true ->
   exists s' sent,
     netplay_cmd_mode s c m = (true, s') /\
     data (send_packet_buffer (conn s' c)) = data (send_packet_buffer (conn s c)) ++ sent /\
     length sent = 8%nat /\
     (mode_ge_connected (mode (conn r d)) = true -> arrived (conn r d) sent rest ->
      netplay_get_cmd r d had
      = finish (if is_playing m then cmd_play (after_read r d 8) d
                else cmd_spectate (after_read r d 8) d) d had)).
Proof.
  intros Hc Hs. split.
  - destruct m; try discriminate; reflexivity.
  - intros Hm.
    assert (Hk : exists k,
               netplay_cmd_mode s c m = netplay_send_raw_cmd s c k [] /\
               dispatch (after_read r d 8) d (cmd_code k) 0
               = (if is_playing m then cmd_play (after_read r d 8) d
                  else cmd_spectate (after_read r d 8) d)).
    { destruct m; destruct Hm as [Hm | Hm]; try discriminate Hm.
      - exists NETPLAY_CMD_SPECTATE. split; [reflexivity |].
        unfold dispatch. rewrite decode_cmd_code. reflexivity.
      - exists NETPLAY_CMD_PLAY. split; [reflexivity |].
        unfold dispatch. rewrite decode_cmd_code. reflexivity. }
    destruct Hk as (k & Hsend & Hdisp).
    exists (set_conn s c (enqueue (conn s c) (cmd_bytes k []))), (cmd_bytes k []).
    split; [rewrite Hsend; now apply netplay_send_raw_cmd_ok |].
    split; [rewrite conn_set_conn_eq by exact Hc; reflexivity |].
    split; [reflexivity |].
    intros Hmr Harr. rewrite <- Hdisp.
    apply (netplay_get_cmd_no_payload r d had k rest Hmr Harr).
Qed.

End Announce.

(** The theorem at the server of three peers announcing the CRC 9 of frame
    5: the player and the spectator are told, the peer in the handshake is
    not. *)
Lemma netplay_cmd_crc_sends_witness :
  let r := netplay_cmd_crc (hdr := sample_header) three_peer_server
             (set_crc 9 (sample_frame true 5)) in
  fst r = true /\
  data (send_packet_buffer (conn (snd r) 1)) = [0; 0; 0; 64; 0; 0; 0; 8; 0; 0; 0; 5; 0; 0; 0; 9] /\
  conn (snd r) 2 = conn three_peer_server 2.
Proof.
  cbv zeta.
  destruct (netplay_cmd_crc_sends (hdr := sample_header) three_peer_server
              (set_crc 9 (sample_frame true 5))) as (Hok & Hconn & _).
  split.
  - apply Hok. intros [| [| [| j]]] Hh; try reflexivity; vm_compute in Hh; discriminate Hh.
  - rewrite !Hconn. split; reflexivity.
Defined.

(** The theorem at a client asking its server to let it play, and at the
    server that holds the request of its spectator. *)
Lemma netplay_cmd_mode_received_witness :
  exists s' np',
    netplay_cmd_mode (hdr := sample_header) idle_client 0 NETPLAY_CONNECTION_PLAYING
    = (true, s') /\
    data (send_packet_buffer (conn s' 0)) = [0; 0; 0; 36; 0; 0; 0; 0] /\
    netplay_get_cmd (hdr := sample_header) (env := sample_env true 0)
      play_server 1 false = Some (true, true, np') /\
    player (conn np' 1) = 2.
Proof.
  destruct (netplay_cmd_mode_received (hdr := sample_header) (env := sample_env true 0)
              idle_client 0 NETPLAY_CONNECTION_PLAYING play_server 1 false [])
    as [_ Hsend]; [vm_compute; lia | reflexivity |].
  destruct (Hsend (or_intror eq_refl)) as (s' & sent & Hcmd & Hdata & Hlen & Hrecv).
  assert (Hsent : sent = [0; 0; 0; 36; 0; 0; 0; 0]).
  { injection Hcmd as <-. vm_compute in Hdata. congruence. }
  subst sent.
  specialize (Hrecv eq_refl ltac:(has_arrived)).
  exists s'. eexists.
  split; [exact Hcmd |]. split; [rewrite Hdata; reflexivity |].
  split; [rewrite Hrecv; vm_compute; reflexivity | reflexivity].
Defined.

(** ** The recursion of hang-ups *)

(** The number of active connections. *)
Definition active_count (np : netplay_t) : nat :=
  length (List.filter active (connections np)).

Lemma count_insert (l : list netplay_connection) (i : nat) (x y : netplay_connection) :
  l !! i = Some y ->
  (length (List.filter active (<[i := x]> l)) + (if active y then 1 else 0)
   = length (List.filter active l) + (if active x then 1 else 0))%nat.
Proof.
  revert i. induction l as [| a l IH]; intros i Hi; [discriminate Hi |].
  destruct i as [| i].
  - injection Hi as ->. cbn [insert list_insert List.filter].
    destruct (active x), (active y); cbn [length]; lia.
  - cbn in Hi. specialize (IH i Hi).
    cbn [insert list_insert List.filter]. change (list_insert i x l) with (<[i := x]> l).
    destruct (active a); cbn [length Nat.add]; [f_equal |]; exact IH.
Qed.

Lemma active_count_set_conn (np : netplay_t) (c : nat) (x : netplay_connection) :
  (c < length (connections np))%nat ->
  (active_count (set_conn np c x) + (if active (conn np c) then 1 else 0)
   = active_count np + (if active x then 1 else 0))%nat.
Proof.
  intros Hc. unfold active_count, set_conn. cbn [connections set_connections].
  apply count_insert. now apply lookup_conn.
Qed.

Lemma active_count_zero (np : netplay_t) (c : nat) :
  active_count np = 0%nat -> active (conn np c) = false.
Proof.
  intros H0. destruct (active (conn np c)) eqn:Ha; [| reflexivity].
  exfalso. unfold conn in Ha.
  destruct (connections np !! c) as [cn |] eqn:E; [| discriminate Ha].
  unfold active_count in H0. apply length_zero_iff_nil in H0.
  assert (Hin : In cn (List.filter active (connections np))).
  { apply List.filter_In. split; [| exact Ha].
    apply list_elem_of_In, list_elem_of_lookup. now exists c. }
  rewrite H0 in Hin. exact Hin.
Qed.

Section Depth.
Context {hdr : netplay_private_h} {env : netplay_env}.

Lemma active_count_send_raw_cmd (np : netplay_t) (i : nat) (cmd : netplay_cmd)
    (payload : list Z) :
  active_count (snd (netplay_send_raw_cmd np i cmd payload)) = active_count np.
Proof.
  destruct (send_fails (conn np i)) eqn:Hs.
  - rewrite netplay_send_raw_cmd_failed by exact Hs. reflexivity.
  - rewrite netplay_send_raw_cmd_ok by exact Hs. cbn [snd].
    destruct (le_lt_dec (length (connections np)) i) as [Hge | Hlt].
    + unfold set_conn. rewrite list_insert_ge by exact Hge.
      now rewrite set_connections_same.
    + pose proof (active_count_set_conn np i
                    (enqueue (conn np i) (cmd_bytes cmd payload)) Hlt) as H.
      change (active (enqueue (conn np i) (cmd_bytes cmd payload)))
        with (active (conn np i)) in H.
      lia.
Qed.

(** The broadcast with a hang-up that does not add active connections
    does not add any. *)
Lemma active_count_send_raw_cmd_all (hangup : netplay_t -> nat -> netplay_t)
    (np : netplay_t) (except : option nat) (cmd : netplay_cmd) (payload : list Z) :
  (forall x i, (active_count (hangup x i) <= active_count x)%nat) ->
  (active_count (send_raw_cmd_all_with hangup np except cmd payload)
   <= active_count np)%nat.
Proof.
  intros Hh. unfold send_raw_cmd_all_with.
  generalize (seq 0 (length (connections np))). intros l. revert np.
  induction l as [| i l IH]; intros np; cbn [fold_left]; [lia |].
  etransitivity; [apply IH |].
  destruct (is_except except i); [lia |].
  destruct (active (conn np i) && mode_ge_connected (mode (conn np i))); [| lia].
  pose proof (active_count_send_raw_cmd np i cmd payload) as Hs.
  destruct (netplay_send_raw_cmd np i cmd payload) as [[|] np1]; cbn [snd] in Hs.
  - lia.
  - specialize (Hh np1 i). lia.
Qed.

(** A hang-up adds no active connection, and takes one away when the
    connection was active. *)
Lemma active_count_hangup_depth (depth : nat) (np : netplay_t) (c : nat) :
  (active_count (netplay_hangup_depth depth np c) <= active_count np)%nat /\
  (active (conn np c) = true ->
   (active_count (netplay_hangup_depth (S depth) np c) < active_count np)%nat).
Proof.
  revert np c. induction depth as [| depth IH]; intros np c.
  - split; [cbn [netplay_hangup_depth]; lia |].
    intros Ha. rewrite netplay_hangup_depth_S, Ha.
    pose proof (active_hung_up_implies_range np c Ha) as Hr.
    pose proof (active_count_set_conn np c (hung_up (conn np c)) Hr) as Hcount.
    rewrite Ha in Hcount. cbn [hung_up active set_recv_packet_buffer
      set_send_packet_buffer set_active] in Hcount.
    destruct (is_server np); [destruct (is_playing (mode (conn np c))) |].
    + pose proof (active_count_send_raw_cmd_all (netplay_hangup_depth 0)
                    (set_connected_players
                       (clear_bit (connected_players np) (player (conn np c)))
                       (set_conn np c (hung_up (conn np c))))
                    (Some c) NETPLAY_CMD_MODE
                    (mode_payload (aget 0 (read_frame_count np) (player (conn np c)))
                       (player (conn np c)))
                    ltac:(intros; cbn [netplay_hangup_depth]; lia)) as Hall.
      change (active_count (set_connected_players ?v ?y)) with (active_count y) in Hall.
      lia.
    + lia.
    + change (active_count (set_connected_players ?v (set_self_mode ?m ?y)))
        with (active_count y). lia.
  - assert (Hle : forall x i,
              (active_count (netplay_hangup_depth (S depth) x i) <= active_count x)%nat).
    { intros x i. destruct (active (conn x i)) eqn:Hx.
      - destruct (IH x i) as [_ Hlt]. specialize (Hlt Hx). lia.
      - rewrite netplay_hangup_depth_S, Hx. lia. }
    split; [apply Hle |].
    intros Ha. rewrite netplay_hangup_depth_S, Ha.
    pose proof (active_hung_up_implies_range np c Ha) as Hr.
    pose proof (active_count_set_conn np c (hung_up (conn np c)) Hr) as Hcount.
    rewrite Ha in Hcount. cbn [hung_up active set_recv_packet_buffer
      set_send_packet_buffer set_active] in Hcount.
    destruct (is_server np); [destruct (is_playing (mode (conn np c))) |].
    + pose proof (active_count_send_raw_cmd_all (netplay_hangup_depth (S depth))
                    (set_connected_players
                       (clear_bit (connected_players np) (player (conn np c)))
                       (set_conn np c (hung_up (conn np c))))
                    (Some c) NETPLAY_CMD_MODE
                    (mode_payload (aget 0 (read_frame_count np) (player (conn np c)))
                       (player (conn np c))) Hle) as Hall.
      change (active_count (set_connected_players ?v ?y)) with (active_count y) in Hall.
      lia.
    + lia.
    + change (active_count (set_connected_players ?v (set_self_mode ?m ?y)))
        with (active_count y). lia.
Qed.

(** Two hang-ups that agree on the sessions with at most [n] active
    connections give the same broadcast in such a session. *)
Lemma send_raw_cmd_all_with_ext (h1 h2 : netplay_t -> nat -> netplay_t) (n : nat)
    (np : netplay_t) (except : option nat) (cmd : netplay_cmd) (payload : list Z) :
  (forall x i, (active_count x <= n)%nat -> h1 x i = h2 x i) ->
  (forall x i, (active_count (h1 x i) <= active_count x)%nat) ->
  (active_count np <= n)%nat ->
  send_raw_cmd_all_with h1 np except cmd payload
  = send_raw_cmd_all_with h2 np except cmd payload.
Proof.
  intros Hext Hle. unfold send_raw_cmd_all_with.
  generalize (seq 0 (length (connections np))). intros l. revert np.
  induction l as [| i l IH]; intros np Hn; cbn [fold_left]; [reflexivity |].
  destruct (is_except except i); [now apply IH |].
  destruct (active (conn np i) && mode_ge_connected (mode (conn np i))); [| now apply IH].
  pose proof (active_count_send_raw_cmd np i cmd payload) as Hs.
  destruct (netplay_send_raw_cmd np i cmd payload) as [[|] np1]; cbn [snd] in Hs.
  - apply IH. lia.
  - rewrite <- (Hext np1 i) by lia. apply IH. specialize (Hle np1 i). lia.
Qed.

(** A bound on the depth that is at least the number of active
    connections is as good as a larger one. *)
Lemma netplay_hangup_depth_stable (depth : nat) (np : netplay_t) (c : nat) :
  (active_count np <= depth)%nat ->
  netplay_hangup_depth (S depth) np c = netplay_hangup_depth depth np c.
Proof.
  revert np c. induction depth as [| depth IH]; intros np c Hn.
  - rewrite netplay_hangup_depth_S, active_count_zero by lia. reflexivity.
  - rewrite (netplay_hangup_depth_S (S depth)), (netplay_hangup_depth_S depth).
    destruct (active (conn np c)) eqn:Ha; [| reflexivity].
    destruct (is_server np); [| reflexivity].
    destruct (is_playing (mode (conn np c))); [| reflexivity].
    apply (send_raw_cmd_all_with_ext _ _ depth).
    + intros x i Hx. now apply IH.
    + intros x i. apply active_count_hangup_depth.
    + pose proof (active_hung_up_implies_range np c Ha) as Hr.
      pose proof (active_count_set_conn np c (hung_up (conn np c)) Hr) as Hcount.
      rewrite Ha in Hcount. cbn [hung_up active set_recv_packet_buffer
        set_send_packet_buffer set_active] in Hcount.
      change (active_count (set_connected_players ?v ?y)) with (active_count y).
      lia.
Qed.

Lemma active_count_le_length (np : netplay_t) :
  (active_count np <= length (connections np))%nat.
Proof. unfold active_count. apply List.filter_length_le. Qed.

(** X21. The hang-ups that [netplay_hangup] sets off through its
    broadcast, one for each connection whose socket refuses the MODE
    command, are nested no deeper than there are active connections: any
    bound on the depth that is at least that number gives the same
    session, so the recursion ends.  A hang-up never adds an active
    connection, and the count goes down when the connection was
    active. *)
Theorem netplay_hangup_terminates (np : netplay_t) (c : nat) (depth : nat) :
  (active_count np <= depth)%nat ->
  netplay_hangup_depth depth np c = netplay_hangup np c /\
  (active_count (netplay_hangup np c) <= active_count np)%nat /\
  (active (conn np c) = true ->
   (active_count (netplay_hangup np c) < active_count np)%nat).
Proof.
  intros Hd.
  assert (Hup : forall k d, (active_count np <= d)%nat ->
                  netplay_hangup_depth (k + d) np c = netplay_hangup_depth d np c).
  { induction k as [| k IHk]; intros d Hle; [reflexivity |].
    cbn [Nat.add]. rewrite netplay_hangup_depth_stable by lia. now apply IHk. }
  pose proof (active_count_le_length np) as Hlen.
  assert (Hsame : forall d, (active_count np <= d)%nat ->
                    netplay_hangup_depth d np c
                    = netplay_hangup_depth (active_count np) np c).
  { intros d Hle. replace d with ((d - active_count np) + active_count np)%nat by lia.
    apply Hup. lia. }
  unfold netplay_hangup.
  split; [rewrite (Hsame depth Hd), (Hsame (S (length (connections np)))) by lia;
          reflexivity |].
  split; [apply active_count_hangup_depth |].
  intros Ha. now apply active_count_hangup_depth.
Qed.

End Depth.

(** The theorem at the server of three peers: its three connections are
    active, and a depth of three is enough to hang the first one up. *)
Lemma netplay_hangup_terminates_witness :
  netplay_hangup_depth (hdr := sample_header) 3 three_peer_server 0
  = netplay_hangup (hdr := sample_header) three_peer_server 0 /\
  (active_count (netplay_hangup (hdr := sample_header) three_peer_server 0) < 3)%nat.
Proof.
  destruct (netplay_hangup_terminates (hdr := sample_header) three_peer_server 0 3)
    as (H1 & _ & H3); [vm_compute; lia |].
  split; [exact H1 | exact (H3 eq_refl)].
Defined.

(** ** Initializing serialization *)

Section Serialization.
Context {hdr : netplay_private_h} {env : netplay_env}.

Lemma alloc_states_ok (bs : list delta_frame) (sz : Z) (st : list Z) :
  calloc sz = Some st -> alloc_states bs sz = (true, map (set_state st) bs).
Proof.
  intros Hc. induction bs as [| d bs IH]; [reflexivity |].
  cbn [alloc_states map]. rewrite Hc, IH. reflexivity.
Qed.


Lemma netplay_init_serialization_true (np np' : netplay_t) :
  netplay_init_serialization np = (true, np') -> state_size np' <> 0.
Proof.
  unfold netplay_init_serialization.
  destruct (Z.eqb_spec (state_size np) 0) as [Hz | Hnz]; cbn [negb].
  2:{ intros H. injection H as <-. exact Hnz. }
  destruct (Z.eqb_spec (core_serialize_size (core_runs np)) 0) as [| Hsize];
    [discriminate |].
  destruct (alloc_states _ _) as [[] bs]; [| discriminate].
  destruct (calloc _); [| discriminate].
  intros H. injection H as <-. exact Hsize.
Qed.

Lemma state_size_init_socket_buffers (np : netplay_t) :
  state_size (snd (netplay_init_socket_buffers np)) = state_size np.
Proof.
  unfold netplay_init_socket_buffers.
  destruct (init_socket_buffers_loop _ _) as [ok cs]. reflexivity.
Qed.

Lemma netplay_try_init_serialization_true (np np' : netplay_t) :
  netplay_try_init_serialization np = (true, np') -> state_size np' <> 0.
Proof.
  unfold netplay_try_init_serialization.
  destruct (Z.eqb_spec (state_size np) 0) as [Hz | Hnz]; cbn [negb].
  2:{ intros H. injection H as <-. exact Hnz. }
  destruct (netplay_init_serialization np) as [[] np1] eqn:Hinit; [| discriminate].
  apply netplay_init_serialization_true in Hinit.
  destruct (core_serialize _ _) as [st |]; [| discriminate].
  intros H.
  match type of H with
  | netplay_init_socket_buffers ?x = _ =>
      pose proof (state_size_init_socket_buffers x) as Hs
  end.
  rewrite H in Hs. cbn [snd] in Hs. rewrite Hs. exact Hinit.
Qed.

Lemma wait_and_init_loop_true (n : nat) (np np' : netplay_t) :
  wait_and_init_loop n np = (true, np') -> state_size np' <> 0.
Proof.
  revert np. induction n as [| n IH]; intros np; cbn [wait_and_init_loop];
    [discriminate |].
  destruct (netplay_try_init_serialization np) as [[] np1] eqn:Htry.
  - intros H. injection H as <-. now apply netplay_try_init_serialization_true in Htry.
  - apply IH.
Qed.

Lemma wait_and_init_loop_never (n : nat) (np : netplay_t) :
  (forall k, core_serialize_size k = 0) -> state_size np = 0 ->
  wait_and_init_loop n np = (false, set_core_runs (n + core_runs np) np).
Proof.
  intros Hcore. revert np. induction n as [| n IH]; intros np Hs.
  - cbn [wait_and_init_loop Nat.add]. destruct np; reflexivity.
  - cbn [wait_and_init_loop].
    assert (Htry : netplay_try_init_serialization np = (false, np)).
    { unfold netplay_try_init_serialization, netplay_init_serialization.
      rewrite Hs, Hcore. reflexivity. }
    rewrite Htry, IH by exact Hs.
    cbn [core_runs set_core_runs]. rewrite Nat.add_succ_r. reflexivity.
Qed.

(** X23. [netplay_wait_and_init_serialization] returns true at once when
    [state_size] is set.  With a core that never reports a state size it
    gives up: it returns false after running the core 60 times, and
    changes nothing else.  Whenever it returns true, [state_size] is
    set. *)
Theorem netplay_wait_and_init_serialization_tries (np : netplay_t) :
  (state_size np <> 0 -> netplay_wait_and_init_serialization np = (true, np)) /\
  (state_size np = 0 -> (forall k, core_serialize_size k = 0) ->
   netplay_wait_and_init_serialization np
   = (false, set_core_runs (60 + core_runs np) np)) /\
  (forall np', netplay_wait_and_init_serialization np = (true, np') ->
               state_size np' <> 0).
Proof.
  unfold netplay_wait_and_init_serialization.
  split; [| split].
  - intros Hs. replace (state_size np =? 0) with false
      by (symmetry; now apply Z.eqb_neq). reflexivity.
  - intros Hs Hcore. rewrite Hs. cbn [Z.eqb negb].
    now apply wait_and_init_loop_never.
  - intros np'. destruct (Z.eqb_spec (state_size np) 0) as [Hz | Hnz]; cbn [negb].
    + apply wait_and_init_loop_true.
    + intros H. injection H as <-. exact Hnz.
Qed.

End Serialization.

(** An environment whose core never reports a state size. *)
Definition mute_core_env : netplay_env :=
  {| netplay_handshake_init := fun np _ had => (true, had, np);
     netplay_handshake_pre_nick := fun np _ had => (true, had, np);
     netplay_handshake_pre_password := fun np _ had => (true, had, np);
     netplay_handshake_pre_sync := fun np _ had => (true, had, np);
     netplay_delta_frame_crc := fun _ d => crc d;
     decompress := fun zb n => zb;
     core_serialize_size := fun _ => 0;
     core_serialize := fun _ _ => None;
     calloc := fun n => Some (repeat 0 (Z.to_nat n));
     netplay_init_socket_buffer := fun sb _ => Some sb;
     netplay_resize_socket_buffer := fun sb _ => Some sb;
     socket_select := fun _ => 0;
     socket_arrivals := fun _ _ => [] |}.

(** A session that has not initialized serialization yet. *)
Definition fresh_session : netplay_t :=
  set_zbuffer_size 0 (set_zbuffer [] (set_state_size 0 (sample_session true [] 0))).



(** The theorem at that session with a core that never reports a size:
    sixty frames are run for nothing. *)
Lemma netplay_wait_and_init_serialization_tries_witness :
  exists np',
    netplay_wait_and_init_serialization (hdr := sample_header) (env := mute_core_env) fresh_session
    = (false, np') /\ core_runs np' = 60%nat.
Proof.
  destruct (netplay_wait_and_init_serialization_tries (hdr := sample_header) (env := mute_core_env) fresh_session)
    as (_ & Hnever & _).
  eexists. split; [exact (Hnever eq_refl (fun _ => eq_refl)) | reflexivity].
Defined.

(** ** MODE *)

Lemma has_bit_clear_bit (x n : Z) : has_bit (clear_bit x n) n = false.
Proof.
  unfold has_bit, clear_bit.
  rewrite <- Z.land_assoc, (Z.land_comm (Z.lnot _)), Z.land_lnot_diag, Z.land_0_r.
  reflexivity.
Qed.

Lemma has_bit_set_bit (x n : Z) : 0 <= n -> has_bit (set_bit x n) n = true.
Proof.
  intros Hn. unfold has_bit, set_bit.
  destruct (Z.eqb_spec (Z.land (Z.lor x (Z.shiftl 1 n)) (Z.shiftl 1 n)) 0) as [E | E];
    [| reflexivity].
  exfalso. apply (f_equal (fun z => Z.testbit z n)) in E.
  rewrite Z.land_spec, Z.lor_spec, Z.shiftl_spec, Z.sub_diag, Z.bits_0 in E by exact Hn.
  cbn in E. rewrite orb_true_r in E. discriminate E.
Qed.

Section Mode.
Context {hdr : netplay_private_h} {env : netplay_env}.

(** [netplay_get_cmd] on a client whose whole MODE command has arrived:
    [x] is the session once the command is read, with the rewind it
    forces when its frame is before our own. *)
Lemma netplay_get_cmd_mode_arrived (np : netplay_t) (c : nat) (had : bool)
    (frm md : Z) (rest : list Z) :
  mode_ge_connected (mode (conn np c)) = true -> is_server np = false ->
  arrived (conn np c) (cmd_bytes NETPLAY_CMD_MODE (mode_payload frm md)) rest ->
  0 <= frm < UINT32_MOD -> 0 <= md < UINT32_MOD ->
  let x := if frm <? self_frame_count np
           then set_force_rewind true (after_read np c 16) else after_read np c 16 in
  let plr := Z.land md 65535 in
  netplay_get_cmd np c had
  = finish
      (if MAX_USERS <=? plr then NAK x c
       else if negb (Z.land md NETPLAY_CMD_MODE_BIT_YOU =? 0) then
         if negb (Z.land md NETPLAY_CMD_MODE_BIT_PLAYING =? 0) then
           if negb (frm =? server_frame_count np) then NAK x c
           else if is_playing (self_mode np) then NAK x c
           else
             let np2 := set_self_player plr (set_self_mode NETPLAY_CONNECTION_PLAYING x) in
             if frm <=? self_frame_count np then
               break_or_diverge
                 (mode_walk_past (S (length (buffer np))) np2 c plr (server_ptr np))
             else
               break_or_diverge
                 (mode_walk_future (S (length (buffer np))) np2 plr frm (self_ptr np))
         else if negb (is_spectating (self_mode np)) then NAK x c else BREAK x
       else if negb (Z.land md NETPLAY_CMD_MODE_BIT_PLAYING =? 0) then
         if negb (frm =? server_frame_count np) then NAK x c
         else
           BREAK (set_read_frame_count
                    (aset (read_frame_count np) plr (server_frame_count np))
                    (set_read_ptr (aset (read_ptr np) plr (server_ptr np))
                       (set_connected_players (set_bit (connected_players np) plr) x)))
       else BREAK (set_connected_players (clear_bit (connected_players np) plr) x))
      c had /\
  at_cursor (advance (conn np c) 16) = rest.
Proof.
  intros Hm Hs Harr Hfrm Hmd. cbv zeta.
  pose proof (arrived_in_range np c _ _ Harr) as Hc.
  pose proof (at_cursor_advance _ _ _ Harr) as Hcur.
  replace (Z.of_nat (length (cmd_bytes NETPLAY_CMD_MODE (mode_payload frm md)))) with 16
    in Hcur by (unfold cmd_bytes, mode_payload; rewrite !length_app, !length_htonl;
                reflexivity).
  split; [| exact Hcur].
  unfold cmd_bytes, mode_payload in Harr.
  change (u32 (Z.of_nat (length (htonl frm ++ htonl md)))) with (2 * SZ32) in Harr.
  destruct (netplay_get_cmd_header np c had (cmd_code NETPLAY_CMD_MODE) (2 * SZ32)
              (htonl frm ++ htonl md) rest Hm Harr) as [Hget Harr1];
    [apply cmd_code_range | vm_compute; split; congruence |].
  rewrite Hget. unfold dispatch. rewrite decode_cmd_code.
  unfold cmd_mode. rewrite Z.eqb_refl.
  change (is_server (after_header np c)) with (is_server np). rewrite Hs.
  cbn [negb orb].
  rewrite <- (app_nil_r (htonl frm ++ htonl md)) in Harr1.
  match goal with
  | |- context [RECV ?y c (2 * SZ32) ?f ?k] =>
      destruct (RECV_arrived y c (htonl frm ++ htonl md) [] rest f k Harr1) as [H1 _]
  end.
  change (Z.of_nat (length (htonl frm ++ htonl md))) with (2 * SZ32) in H1.
  rewrite H1. clear H1. cbn beta zeta.
  rewrite conn_after_header by exact Hc.
  rewrite set_conn_after_header, advance_advance.
  change (8 + 2 * SZ32) with 16. fold (after_read np c 16).
  change (take 4 (htonl frm ++ htonl md)) with (htonl frm).
  change (take 4 (drop 4 (htonl frm ++ htonl md))) with (htonl md).
  rewrite !ntohl_htonl by assumption.
  change (is_server (after_read np c 16)) with (is_server np). rewrite Hs.
  change (self_frame_count (after_read np c 16)) with (self_frame_count np).
  destruct (frm <? self_frame_count np); reflexivity.
Qed.

(** X24. A MODE command about another player (the bit YOU is clear),
    received by a client, for a player below [MAX_USERS].  Without the bit
    PLAYING the player has left: its bit leaves [connected_players].  With
    it the player has joined, which is accepted only for the frame
    [server_frame_count]: its bit enters [connected_players] and its
    input is expected from the server's pointer and frame on; for any
    other frame the command is refused.  Accepted or refused, a frame
    before our own forces a rewind. *)
Theorem netplay_get_cmd_mode_other (np : netplay_t) (c : nat) (had : bool)
    (frm md : Z) (rest : list Z) :
  mode_ge_connected (mode (conn np c)) = true -> is_server np = false ->
  arrived (conn np c) (cmd_bytes NETPLAY_CMD_MODE (mode_payload frm md)) rest ->
  0 <= frm < UINT32_MOD -> 0 <= md < UINT32_MOD ->
  Z.land md NETPLAY_CMD_MODE_BIT_YOU = 0 ->
  let p := Z.land md 65535 in
  p < MAX_USERS ->
  let rewound y := if frm <? self_frame_count np then set_force_rewind true y else y in
  (Z.land md NETPLAY_CMD_MODE_BIT_PLAYING = 0 ->
   netplay_get_cmd np c had
   = Some (true, true,
           rewound (set_connected_players (clear_bit (connected_players np) p)
                      (consumed np c rest))) /\
   has_bit (clear_bit (connected_players np) p) p = false) /\
  (Z.land md NETPLAY_CMD_MODE_BIT_PLAYING <> 0 -> frm = server_frame_count np ->
   netplay_get_cmd np c had
   = Some (true, true,
           rewound (set_read_frame_count
                      (aset (read_frame_count np) p (server_frame_count np))
                      (set_read_ptr (aset (read_ptr np) p (server_ptr np))
                         (set_connected_players (set_bit (connected_players np) p)
                            (consumed np c rest))))) /\
   has_bit (set_bit (connected_players np) p) p = true) /\
  (Z.land md NETPLAY_CMD_MODE_BIT_PLAYING <> 0 -> frm <> server_frame_count np ->
   exists np',
     netplay_get_cmd np c had = Some (false, had, np') /\
     connected_players np' = connected_players np /\
     read_ptr np' = read_ptr np /\ read_frame_count np' = read_frame_count np /\
     force_rewind np' = (frm <? self_frame_count np) || force_rewind np).
Proof.
  intros Hm Hs Harr Hfrm Hmd Hyou. cbv zeta. intros Hp.
  pose proof (arrived_in_range np c _ _ Harr) as Hc.
  destruct (netplay_get_cmd_mode_arrived np c had frm md rest Hm Hs Harr Hfrm Hmd)
    as [Hget Hcur].
  cbv zeta in Hget. rewrite Hget. clear Hget.
  replace (MAX_USERS <=? Z.land md 65535) with false by (symmetry; apply Z.leb_gt; lia).
  rewrite Hyou. cbn [Z.eqb negb].
  assert (Hp0 : 0 <= Z.land md 65535) by (apply Z.land_nonneg; lia).
  split; [| split].
  - intros Hpl. rewrite Hpl. cbn [Z.eqb negb].
    split; [| apply has_bit_clear_bit].
    match goal with
    | |- finish (BREAK ?y) c had = _ =>
        rewrite (finish_break_state np y c had 16 rest Hc)
    end; [| destruct (frm <? self_frame_count np); reflexivity | exact Hcur].
    destruct (frm <? self_frame_count np); reflexivity.
  - intros Hpl Hf.
    replace (Z.land md NETPLAY_CMD_MODE_BIT_PLAYING =? 0) with false
      by (symmetry; now apply Z.eqb_neq).
    rewrite Hf, Z.eqb_refl. cbn [negb].
    split; [| now apply has_bit_set_bit].
    match goal with
    | |- finish (BREAK ?y) c had = _ =>
        rewrite (finish_break_state np y c had 16 rest Hc)
    end; [| destruct (server_frame_count np <? self_frame_count np); reflexivity
          | exact Hcur].
    destruct (server_frame_count np <? self_frame_count np); reflexivity.
  - intros Hpl Hf.
    replace (Z.land md NETPLAY_CMD_MODE_BIT_PLAYING =? 0) with false
      by (symmetry; now apply Z.eqb_neq).
    replace (frm =? server_frame_count np) with false by (symmetry; now apply Z.eqb_neq).
    cbn [negb].
    eexists. split; [reflexivity |].
    match goal with
    | |- context [netplay_cmd_nak ?y c] =>
        pose proof (net_only_cmd_nak y c) as Hn
    end.
    apply net_only_fields in Hn
      as (_ & _ & Hrp & Hrf & _ & _ & _ & _ & _ & _ & Hfr & _).
    rewrite Hrp, Hrf, Hfr.
    match goal with
    | |- connected_players (snd (netplay_cmd_nak ?y c)) = _ /\ _ =>
        assert (Hcp : connected_players (snd (netplay_cmd_nak y c)) = connected_players y)
    end.
    { unfold netplay_cmd_nak, netplay_send_raw_cmd, netplay_send. cbn [snd].
      destruct (send_fails _); reflexivity. }
    rewrite Hcp.
    destruct (frm <? self_frame_count np); repeat split.
Qed.

End Mode.

(** A client that hears from its server that player 1 has left at frame
    5: the MODE command is the one the server of three peers queues on its
    spectator when it hangs its first peer up. *)
Definition bereft_client : netplay_t :=
  sample_session false
    [sample_connection 7 NETPLAY_CONNECTION_SPECTATING 0
       [0; 0; 0; 37; 0; 0; 0; 8; 0; 0; 0; 5; 0; 0; 0; 1]] 3.

(** The theorem at that client: player 1 is no longer connected. *)
Lemma netplay_get_cmd_mode_other_witness :
  data (send_packet_buffer (conn (netplay_hangup (hdr := sample_header) three_peer_server 0) 1))
  = data (recv_packet_buffer (conn bereft_client 0)) /\
  exists np',
    netplay_get_cmd (hdr := sample_header) (env := sample_env true 0)
      bereft_client 0 false = Some (true, true, np') /\
    connected_players np' = 1 /\ has_bit (connected_players np') 1 = false.
Proof.
  split; [vm_compute; reflexivity |].
  destruct (netplay_get_cmd_mode_other (hdr := sample_header) (env := sample_env true 0)
              bereft_client 0 false 5 1 []) as [Hleft _];
    [reflexivity | reflexivity | has_arrived | vm_compute; split; congruence
    | vm_compute; split; congruence | reflexivity | reflexivity |].
  destruct (Hleft eq_refl) as [Hget _].
  eexists. split; [exact Hget |]. split; reflexivity.
Defined.

(** ** REQUEST_SAVESTATE, DISCONNECT and commands cut short *)

Section Misc.
Context {hdr : netplay_private_h} {env : netplay_env}.

(** X25. The request [netplay_cmd_request_savestate] sends, once it is in
    the receive buffer of a connected peer, makes [netplay_get_cmd] there
    set [force_send_savestate] and nothing else, whoever the peer is: the
    case does not look at the mode of the sender or at who is the
    server. *)
Theorem netplay_cmd_request_savestate_received (s : netplay_t) (r : netplay_t)
    (d : nat) (had : bool) (rest : list Z) :
  can_request s = true -> savestate_request_outstanding s = false ->
  send_fails (conn s 0) = false ->
  exists s' sent,
    netplay_cmd_request_savestate s = (true, s') /\
    data (send_packet_buffer (conn s' 0)) = data (send_packet_buffer (conn s 0)) ++ sent /\
    (mode_ge_connected (mode (conn r d)) = true -> arrived (conn r d) sent rest ->
     netplay_get_cmd r d had
     = Some (true, true, set_force_send_savestate true (consumed r d rest))).
Proof.
  intros Hcan Hout Hs.
  assert (H0 : (0 < length (connections s))%nat).
  { unfold can_request, connections_size in Hcan.
    destruct (connections s); [discriminate Hcan | cbn; lia]. }
  exists (set_conn (set_savestate_request_outstanding true s) 0
            (enqueue (conn s 0) (cmd_bytes NETPLAY_CMD_REQUEST_SAVESTATE []))),
         (cmd_bytes NETPLAY_CMD_REQUEST_SAVESTATE []).
  split.
  { rewrite netplay_cmd_request_savestate_cases, Hcan, Hout.
    now rewrite netplay_send_raw_cmd_ok by exact Hs. }
  split; [rewrite conn_set_conn_eq by exact H0; reflexivity |].
  intros Hm Harr.
  pose proof (arrived_in_range r d _ _ Harr) as Hd.
  destruct (netplay_get_cmd_no_payload r d had _ rest Hm Harr) as [Hget Hcur].
  rewrite Hget. unfold dispatch. rewrite decode_cmd_code.
  match goal with
  | |- finish (BREAK ?y) d had = _ =>
      rewrite (finish_break_state r y d had 8 rest Hd eq_refl Hcur)
  end.
  reflexivity.
Qed.

(** X26. A DISCONNECT command of a connected peer runs [netplay_hangup] on
    the connection and returns true, so that the poll does not hang it up
    a second time; the stall counter is cleared and [*had_input] is left
    as it was. *)
Theorem netplay_get_cmd_disconnect (np : netplay_t) (c : nat) (had : bool)
    (rest : list Z) :
  mode_ge_connected (mode (conn np c)) = true ->
  arrived (conn np c) (cmd_bytes NETPLAY_CMD_DISCONNECT []) rest ->
  let np' := netplay_hangup (after_read np c 8) c in
  netplay_get_cmd np c had = Some (true, had, np') /\
  timeout_cnt np' = 0 /\
  (active (conn np c) = true ->
   conn np' c = hung_up (conn np c) /\
   poll_read_connections [c] np had = Some (had, np')).
Proof.
  intros Hm Harr. cbv zeta.
  pose proof (arrived_in_range np c _ _ Harr) as Hc.
  destruct (netplay_get_cmd_no_payload np c had _ rest Hm Harr) as [Hget _].
  assert (Hret : netplay_get_cmd np c had
                 = Some (true, had, netplay_hangup (after_read np c 8) c)).
  { rewrite Hget. unfold dispatch. rewrite decode_cmd_code. reflexivity. }
  split; [exact Hret |].
  split.
  - pose proof (net_only_hangup (after_read np c 8) c) as Hn.
    apply net_only_fields in Hn as (_ & _ & _ & _ & _ & _ & _ & _ & _ & _ & _ & _ & Ht & _).
    rewrite Ht. reflexivity.
  - intros Ha. split.
    + rewrite conn_netplay_hangup by (rewrite conn_after_read by exact Hc; exact Ha).
      rewrite conn_after_read by exact Hc. reflexivity.
    + cbn [poll_read_connections]. rewrite Ha, Hret. reflexivity.
Qed.

End Misc.

(** A server whose only peer, player 1, has asked for a savestate. *)
Definition asked_server : netplay_t :=
  sample_session true
    [sample_connection 7 NETPLAY_CONNECTION_PLAYING 1
       (cmd_bytes (hdr := sample_header) NETPLAY_CMD_REQUEST_SAVESTATE [])] 2.

(** The theorem from [idle_client] to that server: what the client queues
    is what the server has received, and the server notes the request. *)
Lemma netplay_cmd_request_savestate_received_witness :
  exists np',
    netplay_get_cmd (hdr := sample_header) (env := sample_env true 0)
      asked_server 0 false = Some (true, true, np') /\
    force_send_savestate np' = true /\
    data (recv_packet_buffer (conn np' 0)) = [].
Proof.
  destruct (netplay_cmd_request_savestate_received (hdr := sample_header)
              (env := sample_env true 0) idle_client asked_server 0 false [])
    as (s' & sent & Hreq & Hsent & Hget); [reflexivity | reflexivity | reflexivity |].
  assert (Es : s' = snd (netplay_cmd_request_savestate (hdr := sample_header) idle_client))
    by (rewrite Hreq; reflexivity).
  rewrite Es in Hsent. vm_compute in Hsent.
  eexists. split.
  - apply Hget; [reflexivity |]. rewrite <- Hsent. has_arrived.
  - split; reflexivity.
Defined.

(** A server whose only peer, player 1, takes its leave. *)
Definition leaving_server : netplay_t :=
  sample_session true
    [sample_connection 7 NETPLAY_CONNECTION_PLAYING 1
       (cmd_bytes (hdr := sample_header) NETPLAY_CMD_DISCONNECT [])] 2.

(** The theorem at that server: the connection is closed and the player
    is gone. *)
Lemma netplay_get_cmd_disconnect_witness :
  exists np',
    netplay_get_cmd (hdr := sample_header) (env := sample_env true 0)
      leaving_server 0 false = Some (true, false, np') /\
    poll_read_connections (hdr := sample_header) (env := sample_env true 0)
      [0%nat] leaving_server false = Some (false, np') /\
    active (conn np' 0) = false /\ connected_players np' = 0.
Proof.
  destruct (netplay_get_cmd_disconnect (hdr := sample_header) (env := sample_env true 0)
              leaving_server 0 false [])
    as (Hget & _ & Hact); [reflexivity | has_arrived |].
  destruct (Hact eq_refl) as [Hc Hpoll].
  eexists. split; [exact Hget |]. split; [exact Hpoll |].
  split; [rewrite Hc; reflexivity | vm_compute; reflexivity].
Defined.

(** ** A command cut short *)

Section CutShort.
Context {hdr : netplay_private_h} {env : netplay_env}.

(** The header of an INPUT command of the right size is at the start of
    the receive buffer of a connection past the handshake, and less than
    its payload follows. *)
Definition cut_short (cn : netplay_connection) : Prop :=
  mode_ge_connected (mode cn) = true /\ recv_fails cn = false /\
  read (recv_packet_buffer cn) = 0 /\
  exists part,
    data (recv_packet_buffer cn)
    = htonl (cmd_code NETPLAY_CMD_INPUT) ++ htonl (WORDS_PER_FRAME * SZ32) ++ part /\
    Z.of_nat (length part) < WORDS_PER_FRAME * SZ32.

(** An INPUT command whose header has arrived and whose payload has not
    all arrived yet is left in the receive buffer and [*had_input] is left
    as it was, yet the stall counter is cleared. *)
Lemma netplay_get_cmd_cut_short (np : netplay_t) (c : nat) (had : bool) :
  cut_short (conn np c) ->
  netplay_get_cmd np c had = Some (true, had, set_timeout_cnt 0 np).
Proof.
  intros (Hm & Hf & Hr & part & Hd & Hlen).
  assert (Harr : arrived (conn np c)
                   (htonl (cmd_code NETPLAY_CMD_INPUT) ++ htonl (WORDS_PER_FRAME * SZ32)
                    ++ part) []).
  { unfold arrived, at_cursor. rewrite Hf, Hr, Hd, app_nil_r.
    repeat split; [lia | lia]. }
  pose proof (arrived_in_range np c _ _ Harr) as Hc.
  destruct (netplay_get_cmd_header np c had (cmd_code NETPLAY_CMD_INPUT)
              (WORDS_PER_FRAME * SZ32) part [] Hm Harr)
    as [Hget (Hf' & _ & Hcur)];
    [apply cmd_code_range | vm_compute; split; congruence |].
  rewrite Hget. unfold dispatch. rewrite decode_cmd_code.
  unfold cmd_input. rewrite Z.eqb_refl. cbn [negb].
  unfold RECV, netplay_recv. rewrite Hf'.
  assert (Hshort : (read (recv_packet_buffer (conn (after_header np c) c))
                      + WORDS_PER_FRAME * SZ32
                    <=? Z.of_nat (length (data (recv_packet_buffer
                                                  (conn (after_header np c) c)))))
                   = false).
  { apply Z.leb_gt. unfold after_header.
    change (conn (set_timeout_cnt 0 ?y) c) with (conn y c).
    rewrite conn_set_conn_eq by exact Hc.
    unfold advance. cbn [recv_packet_buffer set_recv_packet_buffer read set_read data].
    rewrite Hr, Hd, !length_app, !length_htonl. lia. }
  rewrite Hshort. cbn [finish].
  unfold after_header.
  change (conn (set_timeout_cnt 0 ?y) c) with (conn y c).
  rewrite conn_set_conn_eq by exact Hc.
  change (set_conn (set_timeout_cnt 0 ?y) c ?cn) with (set_timeout_cnt 0 (set_conn y c cn)).
  rewrite set_conn_set_conn. unfold advance.
  cbn [recv_packet_buffer set_recv_packet_buffer].
  change (set_recv_packet_buffer ?b (set_recv_packet_buffer ?b' ?cn))
    with (set_recv_packet_buffer b cn).
  rewrite recv_reset_at_rest by exact Hr.
  rewrite set_conn_same. reflexivity.
Qed.

(** Every connection has less than a header waiting or a command cut
    short, one active connection has a command cut short, and otherwise
    the session is as in [stalled]. *)
Definition waiting (np : netplay_t) : Prop :=
  Forall (fun cn => link_idle cn \/ cut_short cn) (connections np) /\
  (exists c, active (conn np c) = true /\ cut_short (conn np c)) /\
  used (dframe_at np (unread_ptr (netplay_update_unread_ptr np))) = true /\
  frame (dframe_at np (unread_ptr (netplay_update_unread_ptr np)))
  = unread_frame_count (netplay_update_unread_ptr np) /\
  (is_server np = false ->
   used (dframe_at np (server_ptr np)) = true /\
   frame (dframe_at np (server_ptr np)) = server_frame_count np) /\
  unread_frame_count (netplay_update_unread_ptr np) <= self_frame_count np.

(** The session with the stall counter at [a] and the unread pointer
    brought up to date. *)
Lemma reset_fields (a : Z) (np : netplay_t) :
  let r := netplay_update_unread_ptr (set_timeout_cnt a np) in
  connections r = connections np /\ buffer r = buffer np /\
  timeout_cnt r = a /\ remote_paused r = remote_paused np /\
  is_server r = is_server np /\ server_ptr r = server_ptr np /\
  server_frame_count r = server_frame_count np /\
  self_frame_count r = self_frame_count np /\
  unread_ptr r = unread_ptr (netplay_update_unread_ptr np) /\
  unread_frame_count r = unread_frame_count (netplay_update_unread_ptr np) /\
  netplay_update_unread_ptr r = r.
Proof.
  cbv zeta.
  destruct (netplay_update_unread_ptr_keeps (set_timeout_cnt a np))
    as (K1 & K2 & K3 & K4 & K5 & K6 & K7 & K8).
  destruct (same_reads_unread np _ (same_reads_timeout np a)) as [U1 U2].
  rewrite K1, K2, K3, K4, K5, K6, K7, K8, U1, U2, netplay_update_unread_ptr_again.
  repeat split.
Qed.

Lemma waiting_reset (a : Z) (np : netplay_t) :
  waiting np -> waiting (netplay_update_unread_ptr (set_timeout_cnt a np)).
Proof.
  intros (H1 & (c & Ha & Hcut) & H2 & H3 & H4 & H5).
  destruct (reset_fields a np) as (F1 & F2 & _ & _ & F5 & F6 & F7 & F8 & F9 & F10 & F11).
  unfold waiting, dframe_at, conn. rewrite F11, F1, F2, F5, F6, F7, F8, F9, F10.
  repeat split; try assumption; try (now apply H4).
  exists c. split; assumption.
Qed.

Lemma conn_waiting (np : netplay_t) (i : nat) :
  Forall (fun cn => link_idle cn \/ cut_short cn) (connections np) ->
  active (conn np i) = true ->
  link_idle (conn np i) \/ cut_short (conn np i).
Proof.
  intros Hall Ha. unfold conn in *.
  destruct (connections np !! i) as [cn |] eqn:E; [| discriminate Ha].
  rewrite Forall_forall in Hall. apply Hall.
  apply list_elem_of_lookup. exists i. exact E.
Qed.

Lemma poll_read_connections_waiting (idxs : list nat) (np : netplay_t) (had : bool) :
  Forall (fun cn => link_idle cn \/ cut_short cn) (connections np) ->
  poll_read_connections idxs np had = Some (had, np) \/
  poll_read_connections idxs np had = Some (had, set_timeout_cnt 0 np).
Proof.
  revert np. induction idxs as [| i idxs IH]; intros np Hall; [left; reflexivity |].
  cbn [poll_read_connections].
  destruct (active (conn np i)) eqn:Ha; [| apply IH; exact Hall].
  destruct (conn_waiting np i Hall Ha) as [Hidle | Hcut].
  - rewrite netplay_get_cmd_idle by assumption. apply IH; exact Hall.
  - rewrite netplay_get_cmd_cut_short by exact Hcut. right.
    destruct (IH (set_timeout_cnt 0 np) Hall) as [E | E]; exact E.
Qed.

Lemma poll_read_connections_cut (idxs : list nat) (np : netplay_t) (had : bool)
    (c : nat) :
  Forall (fun cn => link_idle cn \/ cut_short cn) (connections np) ->
  In c idxs -> active (conn np c) = true -> cut_short (conn np c) ->
  poll_read_connections idxs np had = Some (had, set_timeout_cnt 0 np).
Proof.
  intros Hall Hin Ha Hcut.
  induction idxs as [| i idxs IH]; [destruct Hin |].
  cbn [poll_read_connections].
  destruct (active (conn np i)) eqn:Hai.
  - destruct (conn_waiting np i Hall Hai) as [Hidle | Hcuti].
    + rewrite netplay_get_cmd_idle by assumption.
      destruct Hin as [-> | Hin]; [| apply IH; exact Hin].
      exfalso. destruct (Hidle Ha) as (_ & _ & _ & Hlen).
      destruct Hcut as (_ & _ & _ & part & Hd & _).
      rewrite Hd, !length_app, !length_htonl in Hlen. lia.
    + rewrite netplay_get_cmd_cut_short by exact Hcuti.
      destruct (poll_read_connections_waiting idxs (set_timeout_cnt 0 np) had Hall)
        as [E | E]; exact E.
  - destruct Hin as [-> | Hin]; [congruence | apply IH; exact Hin].
Qed.

(** One iteration of the blocking loop while a command is cut short and
    nothing arrives: the stall counter is back at 0 when the loop tests
    it, and the loop goes on. *)
Lemma poll_loop_waiting (fuel k : nat) (np : netplay_t) :
  waiting np -> (forall i, socket_arrivals k i = []) -> 0 <= socket_select k ->
  poll_loop (S fuel) k np true
  = poll_loop fuel (S k) (netplay_update_unread_ptr (set_timeout_cnt 0 np)) true.
Proof.
  intros Hw Hq Hsel.
  pose proof (waiting_reset (u32_succ (timeout_cnt np)) np Hw)
    as (H1 & (c & Ha & Hcut) & H2 & H3 & H4 & H5).
  fold (retried np) in H1, Ha, Hcut, H2, H3, H4, H5.
  destruct (retried_fields np) as (F1 & F2 & F3 & F4 & F5 & F6 & F7 & F8 & F9 & F10 & F11).
  rewrite F11 in H2, H3, H5.
  cbn [poll_loop]. fold (retried np).
  assert (R1 : netplay_delta_frame_ready (retried np) (unread_ptr (retried np))
                 (unread_frame_count (retried np)) = (true, retried np)).
  { unfold netplay_delta_frame_ready. rewrite H2, H3, Z.eqb_refl. reflexivity. }
  rewrite R1.
  assert (R2 : (if negb (is_server (retried np))
                then netplay_delta_frame_ready (retried np) (server_ptr (retried np))
                       (server_frame_count (retried np))
                else (true, retried np)) = (true, retried np)).
  { destruct (is_server (retried np)) eqn:Hs; [reflexivity |]. cbn [negb].
    destruct (H4 eq_refl) as [G1 G2].
    unfold netplay_delta_frame_ready. rewrite G1, G2, Z.eqb_refl. reflexivity. }
  rewrite R2.
  rewrite (poll_read_connections_cut _ (retried np) false c H1);
    [| apply in_seq; pose proof (active_hung_up_implies_range _ _ Ha); lia
     | exact Ha | exact Hcut].
  rewrite retried_at.
  destruct (reset_fields 0 np) as (_ & _ & G3 & _ & _ & _ & _ & G8 & _ & G10 & _).
  rewrite G8, G10.
  rewrite F8, F10 in H5.
  replace (self_frame_count np <? unread_frame_count (netplay_update_unread_ptr np))
    with false by (symmetry; apply Z.ltb_ge; exact H5).
  cbn [negb].
  replace (socket_select k <? 0) with false by (symmetry; apply Z.ltb_ge; exact Hsel).
  rewrite deliver_nothing by exact Hq.
  rewrite G3. reflexivity.
Qed.

(** X27. An INPUT command whose header has arrived and whose payload has
    not all arrived yet is left in the receive buffer by
    [netplay_get_cmd], with [*had_input] as it was, yet the stall counter
    is cleared.  So a blocking poll of a session that is otherwise stalled,
    on a network where nothing more arrives, never reaches [MAX_RETRIES]:
    it does not return, paused peer or not. *)
Theorem netplay_poll_net_input_cut_short (np : netplay_t) (k fuel : nat) :
  (forall c had, cut_short (conn np c) ->
     netplay_get_cmd np c had = Some (true, had, set_timeout_cnt 0 np)) /\
  ((forall k i, socket_arrivals k i = []) -> (forall k, 0 <= socket_select k) ->
   waiting np -> poll_max_fd np <> 0 ->
   netplay_poll_net_input fuel k np true = None).
Proof.
  split; [intros c had; apply netplay_get_cmd_cut_short |].
  intros Hq Hsel Hw Hfd.
  unfold netplay_poll_net_input.
  replace (poll_max_fd np =? 0) with false by (symmetry; now apply Z.eqb_neq).
  clear Hfd. revert k np Hw.
  induction fuel as [| fuel IH]; intros k np Hw; [reflexivity |].
  rewrite poll_loop_waiting by auto.
  apply IH. now apply waiting_reset.
Qed.

End CutShort.

(** A client whose server has sent the header of an INPUT command and
    three bytes of its payload. *)
Definition cut_client : netplay_t :=
  sample_session false
    [sample_connection 7 NETPLAY_CONNECTION_CONNECTED 0
       [0; 0; 0; 3; 0; 0; 0; 20; 0; 0; 0]] 1.

(** The theorem at that client: a hundred retries, where sixteen are fatal
    when nothing is waiting, do not end the poll, and the command stays
    where it is. *)
Lemma netplay_poll_net_input_cut_short_witness :
  netplay_get_cmd (hdr := sample_header) (env := sample_env true 0) cut_client 0 false
  = Some (true, false, cut_client) /\
  netplay_poll_net_input (hdr := sample_header) (env := sample_env true 0)
    100 0 cut_client true = None.
Proof.
  assert (Hcut : cut_short (hdr := sample_header) (conn cut_client 0)).
  { repeat split. exists [0; 0; 0]. split; reflexivity. }
  destruct (netplay_poll_net_input_cut_short (hdr := sample_header)
              (env := sample_env true 0) cut_client 0 100) as [Hget Hpoll].
  split.
  - rewrite Hget by exact Hcut. reflexivity.
  - apply Hpoll; try (intros; vm_compute; congruence).
    split; [constructor; [right; exact Hcut | constructor] |].
    split; [exists 0%nat; split; [reflexivity | exact Hcut] |].
    repeat split; vm_compute; congruence.
Defined.

(** ** Sending the current input *)

Lemma enqueue_nil (cn : netplay_connection) : enqueue cn [] = cn.
Proof.
  unfold enqueue. rewrite app_nil_r.
  destruct cn as [a f m p pa [al d r] rb fo sf rf]. reflexivity.
Qed.

Lemma send_ok_in_range (np : netplay_t) (c : nat) :
  send_fails (conn np c) = false -> (c < length (connections np))%nat.
Proof.
  intros H. unfold conn in H.
  destruct (connections np !! c) as [cn |] eqn:E; [| discriminate H].
  apply lookup_lt_Some in E. exact E.
Qed.

Section CurInput.
Context {hdr : netplay_private_h} {env : netplay_env}.

(** The players of [ps] whose input of the current frame a server passes
    on to connection [c]: those connected whose real input is there, the
    player of [c] itself apart. *)
Definition passed_on (np : netplay_t) (c : nat) (ps : list Z) : list Z :=
  List.filter
    (fun p =>
       negb (is_playing (mode (conn np c)) && (player (conn np c) =? p)) &&
       has_bit (connected_players np) p &&
       aget false (have_real (dframe_at np (self_ptr np))) p) ps.

(** Their INPUT commands, in the order of [ps]. *)
Definition others_bytes (np : netplay_t) (c : nat) (ps : list Z) : list Z :=
  concat
    (map (fun p =>
            input_frame_bytes (self_frame_count np) p
              (words_at (real_input_state (dframe_at np (self_ptr np))) p))
         (passed_on np c ps)).

(** What [netplay_send_cur_input] has for connection [c]. *)
Definition cur_input_bytes (np : netplay_t) (c : nat) : list Z :=
  (if is_server np then
     others_bytes np c players ++
     (if is_playing (self_mode np) then []
      else cmd_bytes NETPLAY_CMD_NOINPUT (htonl (self_frame_count np)))
   else []) ++
  (if is_playing (self_mode np) then
     input_frame_bytes (self_frame_count np)
       (Z.lor (if is_server np then NETPLAY_CMD_INPUT_BIT_SERVER else 0) (self_player np))
       (self_state (dframe_at np (self_ptr np)))
   else []).

Lemma others_bytes_enqueue (np : netplay_t) (c : nat) (bytes : list Z) (ps : list Z) :
  (c < length (connections np))%nat ->
  others_bytes (set_conn np c (enqueue (conn np c) bytes)) c ps = others_bytes np c ps.
Proof.
  intros Hc. unfold others_bytes, passed_on, dframe_at.
  rewrite conn_set_conn_eq by exact Hc. reflexivity.
Qed.

Lemma send_input_frame_only_ok (np : netplay_t) (c : nat) (frm plr : Z) (st : list Z) :
  send_fails (conn np c) = false ->
  send_input_frame np (Some c) None frm plr st
  = (true, set_conn np c (enqueue (conn np c) (input_frame_bytes frm plr st))).
Proof.
  intros Hs. unfold send_input_frame. rewrite netplay_send_ok by exact Hs. reflexivity.
Qed.

Lemma send_cur_input_others_ok (ps : list Z) (np : netplay_t) (c : nat) :
  send_fails (conn np c) = false ->
  send_cur_input_others ps np c
  = (true, set_conn np c (enqueue (conn np c) (others_bytes np c ps))).
Proof.
  revert np. induction ps as [| p ps IH]; intros np Hs.
  - cbn [send_cur_input_others]. unfold others_bytes, passed_on.
    cbn [List.filter map concat]. rewrite enqueue_nil, set_conn_same. reflexivity.
  - pose proof (send_ok_in_range np c Hs) as Hc.
    cbn [send_cur_input_others]. unfold others_bytes, passed_on.
    cbn [List.filter]. fold (passed_on np c ps).
    destruct (is_playing (mode (conn np c)) && (player (conn np c) =? p)).
    + cbn [negb andb]. rewrite IH by exact Hs. reflexivity.
    + cbn [negb andb].
      destruct (has_bit (connected_players np) p &&
                aget false (have_real (dframe_at np (self_ptr np))) p).
      * rewrite send_input_frame_only_ok by exact Hs.
        rewrite IH by (rewrite conn_set_conn_eq by exact Hc; exact Hs).
        rewrite others_bytes_enqueue by exact Hc.
        rewrite conn_set_conn_eq by exact Hc.
        rewrite set_conn_set_conn, enqueue_enqueue.
        cbn [map concat]. reflexivity.
      * rewrite IH by exact Hs. reflexivity.
Qed.

(** X28. [netplay_send_cur_input] on a connection whose socket takes what
    is sent returns true and changes nothing but the send buffer of that
    connection, to which it adds what [cur_input_bytes] lists: on a server
    the real input of every other connected player for the current frame,
    never that of the player of the connection, then NOINPUT when the
    server does not play; then our own input when we play.  A spectating
    client sends nothing.  On a socket that fails the result is false. *)
Theorem netplay_send_cur_input_queued (np : netplay_t) (c : nat) :
  (send_fails (conn np c) = false ->
   netplay_send_cur_input np c
   = (true, set_conn np c (enqueue (conn np c) (cur_input_bytes np c))) /\
   (is_playing (mode (conn np c)) = true ->
    ~ In (player (conn np c)) (passed_on np c players)) /\
   (is_server np = false -> is_playing (self_mode np) = false ->
    netplay_send_cur_input np c = (true, np))) /\
  (send_fails (conn np c) = true -> fst (netplay_send_cur_input np c) = false).
Proof.
  split.
  - intros Hs. pose proof (send_ok_in_range np c Hs) as Hc.
    assert (Hq : netplay_send_cur_input np c
                 = (true, set_conn np c (enqueue (conn np c) (cur_input_bytes np c)))).
    { unfold netplay_send_cur_input, cur_input_bytes.
      destruct (is_server np) eqn:Hsrv.
      - rewrite send_cur_input_others_ok by exact Hs.
        change (self_mode (set_conn np c ?x)) with (self_mode np).
        destruct (is_playing (self_mode np)) eqn:Hp; cbn [negb].
        + change (self_mode (set_conn np c ?x)) with (self_mode np). rewrite Hp.
          change (is_server (set_conn np c ?x)) with (is_server np). rewrite Hsrv.
          rewrite send_input_frame_only_ok
            by (rewrite conn_set_conn_eq by exact Hc; exact Hs).
          unfold netplay_send_flush.
          rewrite !conn_set_conn_eq
            by (rewrite ?connections_set_conn_length; exact Hc).
          rewrite set_conn_set_conn, enqueue_enqueue, app_nil_r.
          change (send_fails (enqueue ?cn ?b)) with (send_fails cn). rewrite Hs.
          reflexivity.
        + rewrite netplay_send_raw_cmd_ok
            by (rewrite conn_set_conn_eq by exact Hc; exact Hs).
          rewrite conn_set_conn_eq by exact Hc.
          rewrite set_conn_set_conn, enqueue_enqueue.
          change (self_mode (set_conn np c ?x)) with (self_mode np). rewrite Hp.
          unfold netplay_send_flush. rewrite conn_set_conn_eq by exact Hc.
          change (send_fails (enqueue ?cn ?b)) with (send_fails cn). rewrite Hs.
          rewrite app_nil_r. reflexivity.
      - destruct (is_playing (self_mode np)) eqn:Hp.
        + rewrite Hsrv. rewrite send_input_frame_only_ok by exact Hs.
          unfold netplay_send_flush. rewrite conn_set_conn_eq by exact Hc.
          change (send_fails (enqueue ?cn ?b)) with (send_fails cn). rewrite Hs.
          reflexivity.
        + unfold netplay_send_flush. rewrite Hs. cbn [negb app].
          rewrite enqueue_nil, set_conn_same. reflexivity. }
    split; [exact Hq |]. split.
    + intros Hpl Hin. unfold passed_on in Hin. apply filter_In in Hin as [_ Hin].
      rewrite Hpl, Z.eqb_refl in Hin. discriminate Hin.
    + intros Hsrv Hp. rewrite Hq. unfold cur_input_bytes. rewrite Hsrv, Hp.
      cbn [app]. rewrite enqueue_nil, set_conn_same. reflexivity.
  - intros Hs. unfold netplay_send_cur_input.
    assert (Hframe : forall x frm plr st,
              send_fails (conn x c) = true ->
              fst (send_input_frame x (Some c) None frm plr st) = false).
    { intros x frm plr st Hx. unfold send_input_frame, netplay_send. rewrite Hx.
      reflexivity. }
    assert (Hothers : forall ps x,
              send_fails (conn x c) = true ->
              (fst (send_cur_input_others ps x c) = false) \/
              send_cur_input_others ps x c = (true, x)).
    { induction ps as [| p ps IH]; intros x Hx; [right; reflexivity |].
      cbn [send_cur_input_others].
      destruct (is_playing (mode (conn x c)) && (player (conn x c) =? p));
        [apply IH; exact Hx |].
      destruct (has_bit (connected_players x) p &&
                aget false (have_real (dframe_at x (self_ptr x))) p);
        [| apply IH; exact Hx].
      pose proof (Hframe x (self_frame_count x) p
                    (words_at (real_input_state (dframe_at x (self_ptr x))) p) Hx) as Hf.
      destruct (send_input_frame x (Some c) None _ _ _) as [[] x1];
        [discriminate Hf | left; reflexivity]. }
    destruct (is_server np) eqn:Hsrv.
    + destruct (Hothers players np Hs) as [Hf | Ho].
      * destruct (send_cur_input_others players np c) as [[] x1];
          [discriminate Hf | reflexivity].
      * rewrite Ho.
        destruct (is_playing (self_mode np)) eqn:Hp; cbn [negb].
        -- rewrite Hp.
           pose proof (Hframe np (self_frame_count np)
                         (Z.lor (if is_server np then NETPLAY_CMD_INPUT_BIT_SERVER else 0)
                            (self_player np))
                         (self_state (dframe_at np (self_ptr np))) Hs) as Hf.
           destruct (send_input_frame np (Some c) None _ _ _) as [[] x1];
             [discriminate Hf | reflexivity].
        -- rewrite netplay_send_raw_cmd_failed by exact Hs. reflexivity.
    + destruct (is_playing (self_mode np)) eqn:Hp.
      * pose proof (Hframe np (self_frame_count np)
                      (Z.lor (if is_server np then NETPLAY_CMD_INPUT_BIT_SERVER else 0)
                         (self_player np))
                      (self_state (dframe_at np (self_ptr np))) Hs) as Hf.
        destruct (send_input_frame np (Some c) None _ _ _) as [[] x1];
          [discriminate Hf | reflexivity].
      * unfold netplay_send_flush. rewrite Hs. reflexivity.
Qed.

End CurInput.

(** A playing server at frame 5 with players 1 and 2, the real input of
    both in the current slot; its connection is the one of player 1. *)
Definition relay_server : netplay_t :=
  set_dframe
    (sample_session true [sample_connection 7 NETPLAY_CONNECTION_PLAYING 1 []] 6) 2
    (set_have_real (repeat true 16) (sample_frame true 5)).

(** The theorem at that server: player 1 is sent the input of player 2
    and that of the server, not its own. *)
Lemma netplay_send_cur_input_queued_witness :
  exists np',
    netplay_send_cur_input (hdr := sample_header) relay_server 0 = (true, np') /\
    data (send_packet_buffer (conn np' 0))
    = [0; 0; 0; 3; 0; 0; 0; 20; 0; 0; 0; 5; 0; 0; 0; 2;
       0; 0; 0; 0; 0; 0; 0; 0; 0; 0; 0; 0;
       0; 0; 0; 3; 0; 0; 0; 20; 0; 0; 0; 5; 128; 0; 0; 0;
       0; 0; 0; 0; 0; 0; 0; 0; 0; 0; 0; 0].
Proof.
  destruct (netplay_send_cur_input_queued (hdr := sample_header) relay_server 0)
    as [Hok _].
  destruct (Hok eq_refl) as (Hq & _ & _).
  eexists. split; [exact Hq |]. vm_compute. reflexivity.
Defined.

(** ** MODE: we join at a frame ahead of us *)

(** A slot the second loop of [case NETPLAY_CMD_MODE] has been over. *)
Definition zeroed (plr : Z) (d : delta_frame) : delta_frame :=
  set_have_local true
    (set_real_input_state
       (aset (real_input_state d) plr (repeat 0 (Z.to_nat WORDS_PER_INPUT)))
       (set_self_state (repeat 0 (Z.to_nat WORDS_PER_INPUT)) d)).

Lemma zeroed_zeroed (plr : Z) (d : delta_frame) : zeroed plr (zeroed plr d) = zeroed plr d.
Proof.
  unfold zeroed.
  cbn [real_input_state set_have_local set_real_input_state set_self_state used frame
       crc state simulated_input_state self_state have_local have_real].
  rewrite aset_aset. reflexivity.
Qed.

Lemma used_dframe_at (np : netplay_t) (ptr : Z) :
  used (dframe_at np ptr) = true ->
  buffer np !! Z.to_nat ptr = Some (dframe_at np ptr).
Proof.
  unfold dframe_at, aget.
  destruct (buffer np !! Z.to_nat ptr) as [d |]; [reflexivity | discriminate].
Qed.

(** In a ring whose every slot is in use for a frame before [frm] the
    second loop never ends, whatever it is given to run. *)
Lemma mode_walk_future_never (plr frm : Z) (fuel : nat) (np : netplay_t) (ptr : Z) :
  Forall (fun d => used d = true /\ frame d < frm) (buffer np) ->
  0 <= ptr < buffer_size np ->
  mode_walk_future fuel np plr frm ptr = None.
Proof.
  revert np ptr. induction fuel as [| fuel IH]; intros np ptr Hall Hp; [reflexivity |].
  cbn [mode_walk_future].
  assert (Hd : used (dframe_at np ptr) = true /\ frame (dframe_at np ptr) < frm).
  { unfold dframe_at, aget. unfold buffer_size in Hp.
    destruct (buffer np !! Z.to_nat ptr) as [d |] eqn:E.
    - rewrite Forall_forall in Hall. apply Hall.
      apply list_elem_of_lookup. exists (Z.to_nat ptr). exact E.
    - apply lookup_ge_None in E. lia. }
  destruct Hd as [Hu Hf]. rewrite Hu.
  replace (frame (dframe_at np ptr) <? frm) with true by (symmetry; now apply Z.ltb_lt).
  cbn [andb]. apply IH.
  - unfold set_dframe, aset. cbn [buffer set_buffer].
    apply Forall_insert; [exact Hall |]. split; [exact Hu | exact Hf].
  - rewrite buffer_size_set_dframe. unfold NEXT_PTR. apply Z.mod_pos_bound. lia.
Qed.

(** When the second loop ends it has written the ring only, and in it
    only slots in use for a frame before [frm], each of which it has
    zeroed. *)
Lemma mode_walk_future_slots (plr frm : Z) (fuel : nat) (np : netplay_t) (ptr : Z)
    (np' : netplay_t) :
  mode_walk_future fuel np plr frm ptr = Some np' ->
  np' = set_buffer (buffer np') np /\
  forall i,
    buffer np' !! i = buffer np !! i \/
    exists d, buffer np !! i = Some d /\ used d = true /\ frame d < frm /\
              buffer np' !! i = Some (zeroed plr d).
Proof.
  revert np ptr. induction fuel as [| fuel IH]; intros np ptr; [discriminate |].
  cbn [mode_walk_future]. fold (zeroed plr (dframe_at np ptr)).
  destruct (used (dframe_at np ptr)) eqn:Hu; cbn [andb].
  - destruct (frame (dframe_at np ptr) <? frm) eqn:Hf.
    + intros Hw. apply IH in Hw as [Heq Hslots].
      pose proof (used_dframe_at np ptr Hu) as E.
      apply Z.ltb_lt in Hf.
      split; [rewrite Heq at 1; reflexivity |].
      intros i. unfold set_dframe, aset in Hslots. cbn [buffer set_buffer] in Hslots.
      destruct (decide (i = Z.to_nat ptr)) as [-> | Hne].
      * right. exists (dframe_at np ptr).
        split; [exact E |]. split; [exact Hu |]. split; [exact Hf |].
        destruct (Hslots (Z.to_nat ptr)) as [Hsame | (d' & Hd' & _ & _ & Hz)].
        -- rewrite Hsame. apply list_lookup_insert_eq. apply lookup_lt_Some in E. exact E.
        -- rewrite list_lookup_insert_eq in Hd' by (apply lookup_lt_Some in E; exact E).
           injection Hd' as <-. rewrite Hz, zeroed_zeroed. reflexivity.
      * destruct (Hslots i) as [Hsame | (d' & Hd' & Hu' & Hf' & Hz)].
        -- left. rewrite Hsame. apply list_lookup_insert_ne. congruence.
        -- right. exists d'. rewrite list_lookup_insert_ne in Hd' by congruence.
           split; [exact Hd' |]. split; [exact Hu' |]. split; [exact Hf' | exact Hz].
    + intros Hw. injection Hw as <-. split; [now rewrite set_buffer_same |].
      intros i. left. reflexivity.
  - intros Hw. injection Hw as <-. split; [now rewrite set_buffer_same |].
    intros i. left. reflexivity.
Qed.

Section Join.
Context {hdr : netplay_private_h} {env : netplay_env}.

(** X29. A client that does not play is told by MODE, with the bits YOU
    and PLAYING, that it plays as [p] from the frame [server_frame_count],
    which is ahead of its own.  If [netplay_get_cmd] returns, the command
    is accepted: we play as [p], and in the ring only slots in use for an
    earlier frame have been written, each zeroed.  If the slot at
    [self_ptr] is free or not for an earlier frame nothing is written.
    If every slot of the ring is in use for an earlier frame the loop that
    zeroes them goes round for ever and [netplay_get_cmd] does not
    return. *)
Theorem netplay_get_cmd_mode_join_future (np : netplay_t) (c : nat) (had : bool)
    (frm md : Z) (rest : list Z) :
  mode_ge_connected (mode (conn np c)) = true -> is_server np = false ->
  arrived (conn np c) (cmd_bytes NETPLAY_CMD_MODE (mode_payload frm md)) rest ->
  0 <= frm < UINT32_MOD -> 0 <= md < UINT32_MOD ->
  Z.land md NETPLAY_CMD_MODE_BIT_YOU <> 0 ->
  Z.land md NETPLAY_CMD_MODE_BIT_PLAYING <> 0 ->
  let p := Z.land md 65535 in
  p < MAX_USERS ->
  frm = server_frame_count np -> is_playing (self_mode np) = false ->
  self_frame_count np < frm ->
  let joined := set_self_player p (set_self_mode NETPLAY_CONNECTION_PLAYING
                                     (consumed np c rest)) in
  (forall r h np',
     netplay_get_cmd np c had = Some (r, h, np') ->
     r = true /\ h = true /\ np' = set_buffer (buffer np') joined /\
     forall i,
       buffer np' !! i = buffer np !! i \/
       exists d, buffer np !! i = Some d /\ used d = true /\ frame d < frm /\
                 buffer np' !! i = Some (zeroed p d)) /\
  (used (dframe_at np (self_ptr np)) && (frame (dframe_at np (self_ptr np)) <? frm)
   = false ->
   netplay_get_cmd np c had = Some (true, true, joined)) /\
  (Forall (fun d => used d = true /\ frame d < frm) (buffer np) ->
   0 <= self_ptr np < buffer_size np ->
   netplay_get_cmd np c had = None /\
   forall fuel, mode_walk_future fuel joined p frm (self_ptr np) = None).
Proof.
  intros Hm Hs Harr Hfrm Hmd Hyou Hpl. cbv zeta. intros Hp Hsrv Hself Hahead.
  pose proof (arrived_in_range np c _ _ Harr) as Hc.
  destruct (netplay_get_cmd_mode_arrived np c had frm md rest Hm Hs Harr Hfrm Hmd)
    as [Hget Hcur].
  cbv zeta in Hget.
  replace (MAX_USERS <=? Z.land md 65535) with false in Hget
    by (symmetry; apply Z.leb_gt; lia).
  replace (Z.land md NETPLAY_CMD_MODE_BIT_YOU =? 0) with false in Hget
    by (symmetry; now apply Z.eqb_neq).
  replace (Z.land md NETPLAY_CMD_MODE_BIT_PLAYING =? 0) with false in Hget
    by (symmetry; now apply Z.eqb_neq).
  replace (frm =? server_frame_count np) with true in Hget
    by (symmetry; now apply Z.eqb_eq).
  rewrite Hself in Hget.
  replace (frm <=? self_frame_count np) with false in Hget
    by (symmetry; apply Z.leb_gt; lia).
  replace (frm <? self_frame_count np) with false in Hget
    by (symmetry; apply Z.ltb_ge; lia).
  cbn [negb] in Hget.
  set (x := set_self_player (Z.land md 65535)
              (set_self_mode NETPLAY_CONNECTION_PLAYING (after_read np c 16))) in *.
  assert (Hfin : forall w,
            w = set_buffer (buffer w) x ->
            finish (BREAK w) c had
            = Some (true, true,
                    set_buffer (buffer w)
                      (set_self_player (Z.land md 65535)
                         (set_self_mode NETPLAY_CONNECTION_PLAYING
                            (consumed np c rest))))).
  { intros w Hw.
    rewrite (finish_break_state np w c had 16 rest Hc);
      [| rewrite Hw; reflexivity | exact Hcur].
    rewrite Hw at 1. reflexivity. }
  split; [| split].
  - intros r h np' Hret. rewrite Hget in Hret.
    destruct (mode_walk_future (S (length (buffer np))) x (Z.land md 65535) frm
                (self_ptr np)) as [w |] eqn:Hw; [| discriminate Hret].
    apply mode_walk_future_slots in Hw as [Hweq Hslots].
    cbn [break_or_diverge] in Hret. rewrite (Hfin w Hweq) in Hret.
    injection Hret as <- <- <-.
    split; [reflexivity |]. split; [reflexivity |].
    split; [reflexivity |]. exact Hslots.
  - intros Hfree. rewrite Hget.
    assert (Hw : mode_walk_future (S (length (buffer np))) x (Z.land md 65535) frm
                   (self_ptr np) = Some x).
    { cbn [mode_walk_future].
      change (dframe_at x (self_ptr np)) with (dframe_at np (self_ptr np)).
      rewrite Hfree. reflexivity. }
    rewrite Hw. cbn [break_or_diverge].
    rewrite (Hfin x) by (now rewrite set_buffer_same).
    change (buffer x) with (buffer (set_self_player (Z.land md 65535)
                                      (set_self_mode NETPLAY_CONNECTION_PLAYING
                                         (consumed np c rest)))).
    rewrite set_buffer_same. reflexivity.
  - intros Hall Hptr. split.
    + rewrite Hget.
      rewrite (mode_walk_future_never (Z.land md 65535) frm _ x (self_ptr np));
        [reflexivity | exact Hall | exact Hptr].
    + intros fuel. apply mode_walk_future_never; [exact Hall | exact Hptr].
Qed.

End Join.

(** A client at frame 5 whose three slots hold the frames 3, 4 and 5 and
    whose server, at frame 7, lets it play as player 1. *)
Definition joining_client : netplay_t :=
  set_server_frame_count 7
    (sample_session false
       [sample_connection 7 NETPLAY_CONNECTION_SPECTATING 0
          [0; 0; 0; 37; 0; 0; 0; 8; 0; 0; 0; 7; 0; 3; 0; 1]] 0).

(** The theorem at that client: the command is never done with. *)
Lemma netplay_get_cmd_mode_join_future_witness :
  netplay_get_cmd (hdr := sample_header) (env := sample_env true 0)
    joining_client 0 false = None.
Proof.
  destruct (netplay_get_cmd_mode_join_future (hdr := sample_header)
              (env := sample_env true 0) joining_client 0 false 7 196609 [])
    as (_ & _ & Hnever);
    [reflexivity | reflexivity | has_arrived | vm_compute; split; congruence
    | vm_compute; split; congruence | vm_compute; congruence | vm_compute; congruence
    | reflexivity | reflexivity | reflexivity | reflexivity |].
  apply Hnever.
  - repeat constructor.
  - vm_compute. split; congruence.
Defined.

(** ** Trying serialization again *)

Section Retry.
Context {hdr : netplay_private_h} {env : netplay_env}.

(** X30. [netplay_try_init_serialization] when the buffers can be
    allocated.  If the core cannot serialize yet, the try fails, but
    [state_size] is set by then: the next try returns true at once, so
    [netplay_wait_and_init_serialization] returns true after one more
    frame of the core, with the quirk INITIALIZATION, the packet buffer
    size and the connections as they were.  If the core can serialize,
    the quirk INITIALIZATION is cleared and [packet_buffer_size] is set
    from [zbuffer_size] and [delay_frames], the two products in
    [delay_frames] wrapping at 32 bits, whether the socket buffers can
    then be set up or not. *)
Theorem netplay_try_init_serialization_retry (np : netplay_t) (st zb : list Z) :
  state_size np = 0 ->
  let size := core_serialize_size (core_runs np) in
  size <> 0 -> calloc size = Some st -> calloc (size_t (size * 2)) = Some zb ->
  let np1 := set_zbuffer zb
               (set_zbuffer_size (size_t (size * 2))
                  (set_buffer (map (set_state st) (buffer np))
                     (set_state_size size np))) in
  (core_serialize (core_runs np) size = None ->
   netplay_try_init_serialization np = (false, np1) /\
   netplay_try_init_serialization np1 = (true, np1) /\
   netplay_wait_and_init_serialization np
   = (true, set_core_runs (S (core_runs np)) np1) /\
   quirks np1 = quirks np /\ packet_buffer_size np1 = packet_buffer_size np /\
   connections np1 = connections np) /\
  (forall s ok np',
     core_serialize (core_runs np) size = Some s ->
     netplay_try_init_serialization np = (ok, np') ->
     Z.land (quirks np') NETPLAY_QUIRK_INITIALIZATION = 0 /\
     packet_buffer_size np'
     = size_t (size_t (size * 2) + u32 (delay_frames np * WORDS_PER_FRAME)
               + u32 (u32 (delay_frames np + 1) * 3))).
Proof.
  intros Hz. cbv zeta. intros Hsize Hst Hzb.
  set (size := core_serialize_size (core_runs np)) in *.
  set (np1 := set_zbuffer zb
                (set_zbuffer_size (size_t (size * 2))
                   (set_buffer (map (set_state st) (buffer np))
                      (set_state_size size np)))).
  assert (Hinit : netplay_init_serialization np = (true, np1)).
  { unfold netplay_init_serialization. rewrite Hz. fold size.
    replace (size =? 0) with false by (symmetry; now apply Z.eqb_neq).
    cbn [Z.eqb negb]. cbn [state_size set_state_size buffer].
    rewrite (alloc_states_ok _ _ st Hst).
    cbn [zbuffer_size set_zbuffer_size state_size set_buffer set_state_size].
    rewrite Hzb. reflexivity. }
  assert (Htry1 : forall x, state_size x = size ->
                            netplay_try_init_serialization x = (true, x)).
  { intros x Hx. unfold netplay_try_init_serialization.
    replace (state_size x =? 0) with false by (symmetry; apply Z.eqb_neq; congruence).
    reflexivity. }
  split.
  - intros Hcore.
    assert (Htry : netplay_try_init_serialization np = (false, np1)).
    { unfold netplay_try_init_serialization. rewrite Hz, Hinit.
      cbn [Z.eqb negb].
      change (core_runs np1) with (core_runs np).
      change (state_size np1) with size.
      rewrite Hcore. reflexivity. }
    split; [exact Htry |].
    split; [apply Htry1; reflexivity |].
    split; [| repeat split].
    unfold netplay_wait_and_init_serialization. rewrite Hz. cbn [Z.eqb negb].
    change 60%nat with (S 59). cbn [wait_and_init_loop]. rewrite Htry.
    change 59%nat with (S 58). cbn [wait_and_init_loop].
    change (core_runs np1) with (core_runs np).
    rewrite Htry1 by reflexivity. reflexivity.
  - intros s ok np' Hcore. unfold netplay_try_init_serialization.
    rewrite Hz, Hinit. cbn [Z.eqb negb].
    change (core_runs np1) with (core_runs np).
    change (state_size np1) with size.
    rewrite Hcore. unfold netplay_init_socket_buffers.
    destruct (init_socket_buffers_loop _ _) as [ok' cs].
    intros H. injection H as _ <-.
    cbn [quirks packet_buffer_size set_connections set_packet_buffer_size set_quirks
         set_dframe set_buffer].
    split; [| reflexivity].
    rewrite <- Z.land_assoc, (Z.land_comm (Z.lnot _)), Z.land_lnot_diag, Z.land_0_r.
    reflexivity.
Qed.

End Retry.

(** The theorem at a fresh session whose core reports a state of four
    bytes and cannot serialize: one frame of the core later serialization
    counts as ready, and the quirk has not been cleared.  And at a fresh
    session of 1431655765 delay frames whose core can serialize: the
    products 5 * 1431655765 and 3 * 1431655766 wrap to 2863311529 and 2,
    and with the eight bytes of [zbuffer] the packet buffer size is
    2863311539. *)
Lemma netplay_try_init_serialization_retry_witness :
  (exists np',
     netplay_try_init_serialization (hdr := sample_header) (env := sample_env false 0)
       (set_quirks 4 fresh_session) = (false, np') /\
     netplay_wait_and_init_serialization (hdr := sample_header) (env := sample_env false 0)
       (set_quirks 4 fresh_session) = (true, set_core_runs 1 np') /\
     quirks np' = 4) /\
  (exists np',
     netplay_try_init_serialization (hdr := sample_header) (env := sample_env true 0)
       (set_delay_frames 1431655765 (set_quirks 4 fresh_session)) = (true, np') /\
     quirks np' = 0 /\ packet_buffer_size np' = 2863311539).
Proof.
  split.
  - destruct (netplay_try_init_serialization_retry (hdr := sample_header)
                (env := sample_env false 0) (set_quirks 4 fresh_session)
                [0; 0; 0; 0] [0; 0; 0; 0; 0; 0; 0; 0])
      as [Hfail _]; [reflexivity | vm_compute; congruence | reflexivity | reflexivity |].
    destruct (Hfail eq_refl) as (Htry & _ & Hwait & Hq & _).
    eexists. split; [exact Htry |]. split; [exact Hwait | exact Hq].
  - destruct (netplay_try_init_serialization_retry (hdr := sample_header)
                (env := sample_env true 0)
                (set_delay_frames 1431655765 (set_quirks 4 fresh_session))
                [0; 0; 0; 0] [0; 0; 0; 0; 0; 0; 0; 0])
      as [_ Hok]; [reflexivity | vm_compute; congruence | reflexivity | reflexivity |].
    destruct (netplay_try_init_serialization (hdr := sample_header)
                (env := sample_env true 0)
                (set_delay_frames 1431655765 (set_quirks 4 fresh_session)))
      as [ok np'] eqn:Htry.
    destruct (Hok [0; 0; 0; 0] ok np' eq_refl eq_refl) as [Hq Hsz].
    assert (Hres : ok = true /\ quirks np' = 0).
    { vm_compute in Htry. injection Htry as <- <-. split; reflexivity. }
    destruct Hres as [-> Hq0].
    exists np'. split; [reflexivity |]. split; [exact Hq0 |].
    rewrite Hsz. reflexivity.
Defined.

(** ** One savestate request at a time *)

Section Outstanding.
Context {hdr : netplay_private_h} {env : netplay_env}.

(** C10 (as amended).  [netplay_cmd_request_savestate] returns false and
    changes nothing when connection 0 is missing, inactive or not yet
    CONNECTED, whether or not a request is outstanding.  With a usable
    connection 0 and a request outstanding it returns true and sends
    nothing.  Otherwise it sets the flag and sends REQUEST_SAVESTATE to
    connection 0 alone; when that send fails the flag is set all the same,
    nothing is sent and the result is false.  The function never clears
    the flag, and [netplay_get_cmd] on a connected peer clears it only
    when it accepts a LOAD_SAVESTATE command. *)
Theorem netplay_savestate_request_outstanding (np : netplay_t) :
  (can_request np = false -> netplay_cmd_request_savestate np = (false, np)) /\
  (can_request np = true -> savestate_request_outstanding np = true ->
     netplay_cmd_request_savestate np = (true, np)) /\
  (can_request np = true -> savestate_request_outstanding np = false ->
     send_fails (conn np 0) = false ->
     netplay_cmd_request_savestate np
     = (true, set_conn (set_savestate_request_outstanding true np) 0
                (enqueue (conn np 0) (cmd_bytes NETPLAY_CMD_REQUEST_SAVESTATE [])))) /\
  (can_request np = true -> savestate_request_outstanding np = false ->
     send_fails (conn np 0) = true ->
     netplay_cmd_request_savestate np
     = (false, set_savestate_request_outstanding true np)) /\
  (savestate_request_outstanding np = true ->
     savestate_request_outstanding (snd (netplay_cmd_request_savestate np)) = true) /\
  (forall c had r had' np',
     mode_ge_connected (mode (conn np c)) = true ->
     netplay_get_cmd np c had = Some (r, had', np') ->
     savestate_request_outstanding np = true ->
     savestate_request_outstanding np' = false ->
     decode_cmd (ntohl (take 4 (at_cursor (conn np c))))
     = Some NETPLAY_CMD_LOAD_SAVESTATE /\
     r = true /\ had' = true /\ force_rewind np' = true).
Proof.
  split; [intros H; rewrite netplay_cmd_request_savestate_cases, H; reflexivity |].
  split; [intros H1 H2; rewrite netplay_cmd_request_savestate_cases, H1, H2; reflexivity |].
  split; [intros H1 H2 Hs; rewrite netplay_cmd_request_savestate_cases, H1, H2;
          now rewrite netplay_send_raw_cmd_ok by exact Hs |].
  split; [intros H1 H2 Hs; rewrite netplay_cmd_request_savestate_cases, H1, H2;
          now rewrite netplay_send_raw_cmd_failed by exact Hs |].
  split; [apply request_kept_request_savestate |].
  intros c had r had' np' Hm Hget H1 H0.
  rewrite netplay_get_cmd_connected in Hget by exact Hm.
  assert (Hkept : forall o, outcome_request_kept np o ->
                            finish o c had = Some (r, had', np') -> False).
  { intros o Hk Hfin.
    pose proof (finish_request_kept _ _ _ _ _ _ _ Hk Hfin H1). congruence. }
  revert Hget.
  apply (RECV_cases_bytes (fun o => finish o c had = Some (r, had', np') -> _)).
  { intros Hfin. exfalso. apply (Hkept (RETURN false np) (request_kept_refl np) Hfin). }
  { intros Hfin. exfalso. apply (Hkept (SHRT np) (request_kept_refl np) Hfin). }
  intros cn1.
  apply (RECV_cases_bytes (fun o => finish o c had = Some (r, had', np') -> _)).
  { intros Hfin. exfalso.
    apply (Hkept (RETURN false (set_conn np c cn1))
             (request_kept_set_conn np np c cn1 (request_kept_refl np)) Hfin). }
  { intros Hfin. exfalso.
    apply (Hkept (SHRT (set_conn np c cn1))
             (request_kept_set_conn np np c cn1 (request_kept_refl np)) Hfin). }
  intros cn2.
  set (x := set_timeout_cnt 0 (set_conn (set_conn np c cn1) c cn2)).
  assert (Hx : request_kept np x) by (intros H; exact H).
  generalize (ntohl (take (Z.to_nat SZ32) (at_cursor (conn (set_conn np c cn1) c)))).
  intros cmd_size. change (Z.to_nat SZ32) with 4%nat.
  unfold dispatch.
  destruct (decode_cmd _) as [[] |] eqn:Hcmd; intros Hfin;
    try (exfalso; revert Hfin; apply Hkept;
         first [ now apply request_kept_cmd_input
               | now apply request_kept_cmd_noinput
               | now apply request_kept_cmd_flip_players
               | now apply request_kept_cmd_spectate
               | now apply request_kept_cmd_play
               | now apply request_kept_cmd_mode
               | now apply request_kept_cmd_crc
               | now apply request_kept_cmd_pause
               | now apply request_kept_cmd_resume
               | now apply request_kept_NAK
               | exact Hx
               | cbn [outcome_request_kept]; intros H; rewrite request_hangup; exact H ]).
  split; [reflexivity |].
  apply (finish_kept_or_loaded np _ c had r had' np'
           (cmd_load_savestate_kept_or_loaded np x c cmd_size Hx) Hfin H1 H0).
Qed.

End Outstanding.

(** A client whose connection to the server is up but whose socket takes
    nothing more. *)
Definition clogged_client : netplay_t :=
  sample_session false
    [mk_netplay_connection true 7 NETPLAY_CONNECTION_PLAYING 0 false
       (mk_socket_buffer true [] 0) (mk_socket_buffer true [] 0) true true false] 1.

(** C10, the counterexample: at that client the request is not
    transmitted, the call returns false, and the flag is set. *)
Lemma netplay_savestate_request_counterexample :
  exists np',
    savestate_request_outstanding clogged_client = false /\
    netplay_cmd_request_savestate (hdr := sample_header) clogged_client = (false, np') /\
    connections np' = connections clogged_client /\
    savestate_request_outstanding np' = true.
Proof. eexists. repeat split. Qed.

(** The theorem at [idle_client], which asks once, and at
    [loading_client], which is answered. *)
Lemma netplay_savestate_request_outstanding_witness :
  (exists np1,
     netplay_cmd_request_savestate (hdr := sample_header) idle_client = (true, np1) /\
     savestate_request_outstanding np1 = true /\
     data (send_packet_buffer (conn np1 0)) = [0; 0; 0; 65; 0; 0; 0; 0]) /\
  decode_cmd (hdr := sample_header) (ntohl (take 4 (at_cursor (conn loading_client 0))))
  = Some NETPLAY_CMD_LOAD_SAVESTATE.
Proof.
  split.
  - destruct (netplay_savestate_request_outstanding (hdr := sample_header)
                (env := sample_env true 0) idle_client) as (_ & _ & Hsend & _).
    eexists. split; [exact (Hsend eq_refl eq_refl eq_refl) |]. split; reflexivity.
  - destruct (netplay_savestate_request_outstanding (hdr := sample_header)
                (env := sample_env true 0) loading_client)
      as (_ & _ & _ & _ & _ & Hclear).
    assert (E : exists np',
               netplay_get_cmd (hdr := sample_header) (env := sample_env true 0)
                 loading_client 0 false = Some (true, true, np') /\
               savestate_request_outstanding np' = false).
    { eexists. split; [vm_compute; reflexivity | reflexivity]. }
    destruct E as (np' & Hget & H0).
    exact (proj1 (Hclear 0%nat false true true np' eq_refl Hget eq_refl H0)).
Defined.

(** ** The stall, with and without a paused peer *)

Section StallTimeout.
Context {hdr : netplay_private_h} {env : netplay_env}.



End StallTimeout.



(** ** LOAD_SAVESTATE, with or without a core to initialize *)

Section LoadSavestateCases.
Context {hdr : netplay_private_h} {env : netplay_env}.





End LoadSavestateCases.


